(** * HPA-axis simulation environments: embedding and verified properties

    The repository holds two variants of one environment class:
    - [Simple]   : src/hpa.py, the 12-dimensional curriculum model;
    - [Extended] : src/Python Implementation/hpa.py, the 27-dimensional model.

    Python floats are read as real numbers ([R]): rounding, overflow and NaN
    are outside this development.  Python ints are [Z]; [%] and [//] with a
    positive divisor are [Z.modulo] and [Z.div] (both floor).  An object's
    attributes are a record, an assignment [self.x = e] is [set_x e s], and a
    method that assigns returns the new record.  numpy's global generator is
    an explicit generator state threaded through every draw. *)

From Stdlib Require Import String Bool ZArith Reals Lra Lia List.
Import ListNotations.
Open Scope R_scope.

(** ** numpy and collections helpers *)

(** [np.clip(x, lo, hi)] is [minimum(maximum(x, lo), hi)]. *)
Definition clip (x lo hi : R) : R := Rmin (Rmax x lo) hi.

Definition Rsum (l : list R) : R := fold_right Rplus 0 l.

(** [np.mean] *)
Definition mean (l : list R) : R := Rsum l / INR (length l).

(** [np.var]: population variance. *)
Definition var (l : list R) : R :=
  mean (map (fun x => (x - mean l) ^ 2) l).

(** [d.append(x)] on a [deque(maxlen=n)]: the oldest entry leaves when full. *)
Definition deque_append (n : nat) (h : list R) (x : R) : list R :=
  let h' := h ++ [x] in skipn (length h' - n) h'.

(** [list(d)[-n:]] *)
Definition last_n (n : nat) (h : list R) : list R :=
  skipn (length h - n) h.

(** [for _ in range(n): d.append(x)] on an emptied deque. *)
Fixpoint fill (n : nat) (x : R) (h : list R) (maxlen : nat) : list R :=
  match n with
  | O => h
  | S n' => fill n' x (deque_append maxlen h x) maxlen
  end.

(** ** What a call of [step] yields

    Both models return the tuple [(observation, reward, done)]; the
    embedding pairs it with the new state and the next generator state. *)
Definition outcome (E G : Type) : Type := (list R * R * bool) * E * G.

Definition obs_of {E G : Type} (r : outcome E G) : list R :=
  fst (fst (fst (fst r))).
Definition reward_of {E G : Type} (r : outcome E G) : R :=
  snd (fst (fst (fst r))).
Definition done_of {E G : Type} (r : outcome E G) : bool :=
  snd (fst (fst r)).
Definition state_of {E G : Type} (r : outcome E G) : E := snd (fst r).
Definition gen_of {E G : Type} (r : outcome E G) : G := snd r.

(** ** The random source

    [np.random] as an interface: every draw maps a generator state to a
    value and the next generator state.  [rng_choice a p] is
    [np.random.choice(a, p=p)], which returns an element of [a]. *)
Class RandomSource (G : Type) : Type := {
  rng_normal : R -> R -> G -> R * G;
  rng_uniform : R -> R -> G -> R * G;
  rng_random : G -> R * G;
  rng_choice : list R -> list R -> G -> R * G
}.

(** What [np.random.choice] guarantees: the value drawn is one of [a]. *)
Definition choice_sound (G : Type) `{RandomSource G} : Prop :=
  forall (a p : list R) (g : G), a <> [] -> In (fst (rng_choice a p g)) a.

(** A replayable source: a tape of pre-drawn standard variates.  A normal
    draw scales the next entry, a uniform draw maps it into its interval,
    a choice walks the cumulative probabilities. *)
Definition tape : Type := list R.

Definition tape_next (t : tape) : R * tape :=
  match t with
  | [] => (0, [])
  | x :: t' => (x, t')
  end.

Fixpoint pick (a p : list R) (u d : R) : R :=
  match a, p with
  | x :: a', q :: p' => if Rlt_dec u q then x else pick a' p' (u - q) x
  | _, _ => d
  end.

Definition tape_choice (a p : list R) (t : tape) : R * tape :=
  (pick a p (fst (tape_next t)) (hd 0 a), snd (tape_next t)).

#[export] Instance tape_source : RandomSource tape := {
  rng_normal mu sigma t := (mu + sigma * fst (tape_next t), snd (tape_next t));
  rng_uniform lo hi t := (lo + (hi - lo) * fst (tape_next t), snd (tape_next t));
  rng_random t := tape_next t;
  rng_choice := tape_choice
}.

(** * The simple model (src/hpa.py) *)

Module Simple.

Record env : Type := mkEnv {
  dt : R;
  stage : string;
  cortisol : R;
  acth : R;
  crh : R;
  pituitary_mass : R;
  adrenal_mass : R;
  mr_receptors : R;
  gr_receptors : R;
  stress_level : R;
  time_hours : R;
  day : Z;
  ultradian_phase : R;
  cortisol_history : list R;
  current_step : Z;
  cumulative_load : R
}.

Definition set_dt (v : R) (s : env) : env :=
  mkEnv v (stage s) (cortisol s) (acth s) (crh s) (pituitary_mass s)
    (adrenal_mass s) (mr_receptors s) (gr_receptors s) (stress_level s)
    (time_hours s) (day s) (ultradian_phase s) (cortisol_history s)
    (current_step s) (cumulative_load s).
Definition set_stage (v : string) (s : env) : env :=
  mkEnv (dt s) v (cortisol s) (acth s) (crh s) (pituitary_mass s)
    (adrenal_mass s) (mr_receptors s) (gr_receptors s) (stress_level s)
    (time_hours s) (day s) (ultradian_phase s) (cortisol_history s)
    (current_step s) (cumulative_load s).
Definition set_cortisol (v : R) (s : env) : env :=
  mkEnv (dt s) (stage s) v (acth s) (crh s) (pituitary_mass s)
    (adrenal_mass s) (mr_receptors s) (gr_receptors s) (stress_level s)
    (time_hours s) (day s) (ultradian_phase s) (cortisol_history s)
    (current_step s) (cumulative_load s).
Definition set_acth (v : R) (s : env) : env :=
  mkEnv (dt s) (stage s) (cortisol s) v (crh s) (pituitary_mass s)
    (adrenal_mass s) (mr_receptors s) (gr_receptors s) (stress_level s)
    (time_hours s) (day s) (ultradian_phase s) (cortisol_history s)
    (current_step s) (cumulative_load s).
Definition set_crh (v : R) (s : env) : env :=
  mkEnv (dt s) (stage s) (cortisol s) (acth s) v (pituitary_mass s)
    (adrenal_mass s) (mr_receptors s) (gr_receptors s) (stress_level s)
    (time_hours s) (day s) (ultradian_phase s) (cortisol_history s)
    (current_step s) (cumulative_load s).
Definition set_pituitary_mass (v : R) (s : env) : env :=
  mkEnv (dt s) (stage s) (cortisol s) (acth s) (crh s) v (adrenal_mass s)
    (mr_receptors s) (gr_receptors s) (stress_level s) (time_hours s)
    (day s) (ultradian_phase s) (cortisol_history s) (current_step s)
    (cumulative_load s).
Definition set_adrenal_mass (v : R) (s : env) : env :=
  mkEnv (dt s) (stage s) (cortisol s) (acth s) (crh s) (pituitary_mass s) v
    (mr_receptors s) (gr_receptors s) (stress_level s) (time_hours s)
    (day s) (ultradian_phase s) (cortisol_history s) (current_step s)
    (cumulative_load s).
Definition set_mr_receptors (v : R) (s : env) : env :=
  mkEnv (dt s) (stage s) (cortisol s) (acth s) (crh s) (pituitary_mass s)
    (adrenal_mass s) v (gr_receptors s) (stress_level s) (time_hours s)
    (day s) (ultradian_phase s) (cortisol_history s) (current_step s)
    (cumulative_load s).
Definition set_gr_receptors (v : R) (s : env) : env :=
  mkEnv (dt s) (stage s) (cortisol s) (acth s) (crh s) (pituitary_mass s)
    (adrenal_mass s) (mr_receptors s) v (stress_level s) (time_hours s)
    (day s) (ultradian_phase s) (cortisol_history s) (current_step s)
    (cumulative_load s).
Definition set_stress_level (v : R) (s : env) : env :=
  mkEnv (dt s) (stage s) (cortisol s) (acth s) (crh s) (pituitary_mass s)
    (adrenal_mass s) (mr_receptors s) (gr_receptors s) v (time_hours s)
    (day s) (ultradian_phase s) (cortisol_history s) (current_step s)
    (cumulative_load s).
Definition set_time_hours (v : R) (s : env) : env :=
  mkEnv (dt s) (stage s) (cortisol s) (acth s) (crh s) (pituitary_mass s)
    (adrenal_mass s) (mr_receptors s) (gr_receptors s) (stress_level s) v
    (day s) (ultradian_phase s) (cortisol_history s) (current_step s)
    (cumulative_load s).
Definition set_day (v : Z) (s : env) : env :=
  mkEnv (dt s) (stage s) (cortisol s) (acth s) (crh s) (pituitary_mass s)
    (adrenal_mass s) (mr_receptors s) (gr_receptors s) (stress_level s)
    (time_hours s) v (ultradian_phase s) (cortisol_history s)
    (current_step s) (cumulative_load s).
Definition set_ultradian_phase (v : R) (s : env) : env :=
  mkEnv (dt s) (stage s) (cortisol s) (acth s) (crh s) (pituitary_mass s)
    (adrenal_mass s) (mr_receptors s) (gr_receptors s) (stress_level s)
    (time_hours s) (day s) v (cortisol_history s) (current_step s)
    (cumulative_load s).
Definition set_cortisol_history (v : list R) (s : env) : env :=
  mkEnv (dt s) (stage s) (cortisol s) (acth s) (crh s) (pituitary_mass s)
    (adrenal_mass s) (mr_receptors s) (gr_receptors s) (stress_level s)
    (time_hours s) (day s) (ultradian_phase s) v (current_step s)
    (cumulative_load s).
Definition set_current_step (v : Z) (s : env) : env :=
  mkEnv (dt s) (stage s) (cortisol s) (acth s) (crh s) (pituitary_mass s)
    (adrenal_mass s) (mr_receptors s) (gr_receptors s) (stress_level s)
    (time_hours s) (day s) (ultradian_phase s) (cortisol_history s) v
    (cumulative_load s).
Definition set_cumulative_load (v : R) (s : env) : env :=
  mkEnv (dt s) (stage s) (cortisol s) (acth s) (crh s) (pituitary_mass s)
    (adrenal_mass s) (mr_receptors s) (gr_receptors s) (stress_level s)
    (time_hours s) (day s) (ultradian_phase s) (cortisol_history s)
    (current_step s) v.

(** [__init__] never reassigns the oscillator period. *)
Definition ultradian_period : R := 1.5.

(** *** [_set_developmental_parameters]: attributes fixed by the stage *)

Definition max_steps (s : env) : Z :=
  if (stage s =? "infant")%string then 240
  else if (stage s =? "child")%string then 720
  else if (stage s =? "adolescent")%string then 1440
  else 2400.

Definition feedback_maturity (s : env) : R :=
  if (stage s =? "infant")%string then 0.4
  else if (stage s =? "child")%string then 0.7
  else if (stage s =? "adolescent")%string then 0.9
  else 1.0.

Definition receptor_sensitivity (s : env) : R :=
  if (stage s =? "infant")%string then 0.6
  else if (stage s =? "child")%string then 0.8
  else if (stage s =? "adolescent")%string then 0.95
  else 1.0.

Definition stress_resilience (s : env) : R :=
  if (stage s =? "infant")%string then 0.5
  else if (stage s =? "child")%string then 0.7
  else if (stage s =? "adolescent")%string then 0.85
  else 1.0.

(** *** [_setup_physiological_parameters] *)

Definition cortisol_halflife : R := 1.25.
Definition acth_halflife : R := 0.17.
Definition crh_halflife : R := 0.25.
Definition k_cortisol : R := ln 2 / cortisol_halflife.
Definition k_acth : R := ln 2 / acth_halflife.
Definition k_crh : R := ln 2 / crh_halflife.
Definition crh_basal_secretion : R := 50.0.
Definition acth_basal_secretion : R := 15.0.
Definition cortisol_basal_secretion : R := 8.0.
Definition stress_to_crh : R := 10.0.
Definition stress_to_cortisol : R := 2.0.
Definition mr_kd : R := 0.5.
Definition gr_kd : R := 5.0.
Definition mr_feedback_strength (s : env) : R := 0.3 * feedback_maturity s.
Definition gr_feedback_strength (s : env) : R := 0.7 * feedback_maturity s.
Definition gland_growth_rate : R := 0.001.
Definition gland_atrophy_rate : R := 0.0008.
Definition optimal_cortisol : R := 15.0.
Definition optimal_acth : R := 25.0.
Definition optimal_crh : R := 100.0.
Definition cortisol_tolerance : R := 7.0.
Definition acth_tolerance : R := 15.0.
Definition crh_tolerance : R := 50.0.

(** *** Helpers that only read the state *)

Definition _cortisol_to_nmol (cortisol_ugdl : R) : R := cortisol_ugdl * 27.6.

Definition _calculate_receptor_occupancy (cortisol_nM : R) : R * R :=
  let mr_occ := cortisol_nM / (mr_kd + cortisol_nM) in
  let gr_occ := cortisol_nM / (gr_kd + cortisol_nM) in
  (mr_occ, gr_occ).

(** Returns [(total_feedback, mr_occ, gr_occ)]. *)
Definition _calculate_total_feedback (s : env) : R * R * R :=
  let cortisol_nM := _cortisol_to_nmol (cortisol s) in
  let occ := _calculate_receptor_occupancy cortisol_nM in
  let mr_occ := fst occ in
  let gr_occ := snd occ in
  let total_feedback :=
    mr_feedback_strength s * mr_occ * mr_receptors s +
    gr_feedback_strength s * gr_occ * gr_receptors s in
  (total_feedback * receptor_sensitivity s, mr_occ, gr_occ).

Definition _get_circadian_amplitude (s : env) : R :=
  let phase := 2 * PI * (time_hours s - 8) / 24 in
  9.0 + 9.0 * cos phase.

Definition _get_state (s : env) : list R :=
  let fb := _calculate_total_feedback s in
  let mr_occ := snd (fst fb) in
  let gr_occ := snd fb in
  let cortisol_avg := mean (cortisol_history s) in
  let cortisol_trend := (cortisol s - cortisol_avg) / 10.0 in
  [ stress_level s / 10.0;
    crh s / 300.0;
    acth s / 100.0;
    cortisol s / 40.0;
    time_hours s / 24.0;
    cortisol_trend;
    _get_circadian_amplitude s / 20.0;
    mr_occ;
    gr_occ;
    pituitary_mass s / 2.0;
    adrenal_mass s / 2.0;
    IZR (day s) / 10.0 ].

(** *** [_update_gland_masses]

    A branch that assigns one attribute is written as the assignment of a
    conditional value; an untaken branch leaves the attribute as it was. *)

Definition _update_gland_masses (s : env) : env :=
  let s := set_adrenal_mass
             (if Rgt_dec (acth s) 40 then
                adrenal_mass s + gland_growth_rate * dt s
              else if Rlt_dec (acth s) 15 then
                adrenal_mass s - gland_atrophy_rate * dt s
              else adrenal_mass s) s in
  let s := set_pituitary_mass
             (if Rgt_dec (cortisol s) 25 then
                pituitary_mass s - gland_atrophy_rate * dt s
              else if Rlt_dec (cortisol s) 10 then
                pituitary_mass s + gland_growth_rate * dt s
              else pituitary_mass s) s in
  let s := set_adrenal_mass (clip (adrenal_mass s) 0.5 2.0) s in
  let s := set_pituitary_mass (clip (pituitary_mass s) 0.5 2.0) s in
  let cortisol_nM := _cortisol_to_nmol (cortisol s) in
  let s := set_gr_receptors
             (if Rgt_dec cortisol_nM 100 then
                gr_receptors s * (1 - 0.0001 * dt s)
              else gr_receptors s + 0.0001 * dt s * (1.0 - gr_receptors s)) s in
  let s := set_mr_receptors
             (if Rgt_dec cortisol_nM 100 then
                mr_receptors s * (1 - 0.00005 * dt s)
              else mr_receptors s + 0.00005 * dt s * (1.0 - mr_receptors s)) s in
  let s := set_gr_receptors (clip (gr_receptors s) 0.3 1.5) s in
  set_mr_receptors (clip (mr_receptors s) 0.5 1.2) s.

(** *** [_calculate_allostatic_load]: the named cost components

    Each definition is one local of the method; the method reads the state
    and its two arguments and assigns nothing. *)

Definition basal_cost : R := 0.05.

Definition deviation_cost (s : env) : R :=
  let cortisol_deviation := cortisol s - optimal_cortisol in
  if Rle_dec (Rabs cortisol_deviation) cortisol_tolerance then
    0.01 * (cortisol_deviation / cortisol_tolerance) ^ 2
  else
    let excess := Rabs cortisol_deviation - cortisol_tolerance in
    0.5 * (excess / cortisol_tolerance) ^ 2.

Definition tissue_damage (s : env) : R :=
  let tissue_damage := 0.0 in
  if Rgt_dec (cortisol s) 25 then
    let excess_cortisol := cortisol s - 25 in
    let tissue_damage := tissue_damage + excess_cortisol * 0.3 in
    if Rgt_dec (cortisol s) 35 then
      let crisis_multiplier := ((cortisol s - 35) / 10) ^ 2 in
      tissue_damage + crisis_multiplier * 2.0
    else tissue_damage
  else if Rlt_dec (cortisol s) 5 then
    let deficit := 5 - cortisol s in
    let tissue_damage := tissue_damage + deficit * 0.7 in
    if Rlt_dec (cortisol s) 2 then
      let crisis_multiplier := ((2 - cortisol s) / 2) ^ 2 in
      tissue_damage + crisis_multiplier * 5.0
    else tissue_damage
  else tissue_damage.

Definition acth_cost (s : env) : R :=
  let acth_deviation := Rabs (acth s - optimal_acth) in
  if Rgt_dec acth_deviation acth_tolerance then
    let excess_acth := acth_deviation - acth_tolerance in
    0.02 * (excess_acth / acth_tolerance) ^ 2
  else 0.0.

Definition crh_cost (s : env) : R :=
  let crh_deviation := Rabs (crh s - optimal_crh) in
  if Rgt_dec crh_deviation crh_tolerance then
    let excess_crh := crh_deviation - crh_tolerance in
    0.01 * (excess_crh / crh_tolerance) ^ 2
  else 0.0.

Definition mr_cost (mr_occ : R) : R :=
  let mr_optimal := 0.8 in
  let mr_loss := Rabs (mr_occ - mr_optimal) in
  0.5 * mr_loss ^ 2.

Definition gr_cost (s : env) (gr_occ : R) : R :=
  let gr_optimal := if Rgt_dec (stress_level s) 5 then 0.7 else 0.3 in
  let gr_loss := Rabs (gr_occ - gr_optimal) in
  0.3 * gr_loss ^ 2.

Definition receptor_cost (s : env) : R :=
  let receptor_downregulation :=
    (1.0 - gr_receptors s) ^ 2 + (1.0 - mr_receptors s) ^ 2 in
  receptor_downregulation * 0.5.

Definition gland_cost (s : env) : R :=
  let adrenal_pathology := (adrenal_mass s - 1.0) ^ 2 in
  let pituitary_pathology := (pituitary_mass s - 1.0) ^ 2 in
  let adrenal_pathology :=
    if Rlt_dec (adrenal_mass s) 0.5 then adrenal_pathology * 3.0
    else if Rgt_dec (adrenal_mass s) 1.5 then adrenal_pathology * 3.0
    else adrenal_pathology in
  let pituitary_pathology :=
    if Rlt_dec (pituitary_mass s) 0.5 then pituitary_pathology * 3.0
    else if Rgt_dec (pituitary_mass s) 1.5 then pituitary_pathology * 3.0
    else pituitary_pathology in
  (adrenal_pathology + pituitary_pathology) * 0.3.

Definition instability_cost (s : env) : R :=
  if (10 <=? length (cortisol_history s))%nat then
    let recent_cortisol := last_n 10 (cortisol_history s) in
    let variance := var recent_cortisol in
    if Rgt_dec variance 25 then (variance - 25) / 100 else 0.0
  else 0.0.

Definition stress_response_cost (s : env) : R :=
  let stress_response_cost := 0.0 in
  if Rgt_dec (stress_level s) 6 then
    let expected_cortisol := 20 + stress_level s * 2 in
    let response_error := Rabs (cortisol s - expected_cortisol) in
    if Rgt_dec response_error 10 then 0.5 * (response_error / 10) ^ 2
    else stress_response_cost
  else if Rlt_dec (stress_level s) 2 then
    if Rgt_dec (cortisol s) 25 then 0.3 * ((cortisol s - 25) / 10) ^ 2
    else stress_response_cost
  else stress_response_cost.

Definition total_allocastic_load (s : env) (mr_occ gr_occ : R) : R :=
  basal_cost + deviation_cost s + tissue_damage s + acth_cost s + crh_cost s
  + mr_cost mr_occ + gr_cost s gr_occ + receptor_cost s + gland_cost s
  + instability_cost s + stress_response_cost s.

Definition _calculate_allostatic_load (s : env) (mr_occ gr_occ : R) : R :=
  let vulnerability_factor := 2.0 - stress_resilience s in
  let adjusted_load := total_allocastic_load s mr_occ gr_occ * vulnerability_factor in
  adjusted_load.

(** *** Methods that draw random numbers *)

Section WithRandomSource.
Context {G : Type} `{RandomSource G}.

(** [__init__(time_step_hours, developmental_stage)] *)
Definition init (time_step_hours : R) (developmental_stage : string) (g : G)
  : env * G :=
  let cortisol := 12.0 in
  let r := rng_uniform 0 (2 * PI) g in
  (mkEnv time_step_hours developmental_stage cortisol 25.0 100.0 1.0 1.0 1.0
     1.0 0.0 8.0 0 (fst r) (fill 50 cortisol [] 50) 0 0.0,
   snd r).

(** [reset()]: returns the observation, the new state and the generator. *)
Definition reset (s : env) (g : G) : list R * env * G :=
  let r := rng_normal 0 2 g in
  let s := set_cortisol (12.0 + fst r) s in
  let r := rng_normal 0 5 (snd r) in
  let s := set_acth (25.0 + fst r) s in
  let r := rng_normal 0 20 (snd r) in
  let s := set_crh (100.0 + fst r) s in
  let s := set_pituitary_mass 1.0 s in
  let s := set_adrenal_mass 1.0 s in
  let s := set_mr_receptors 1.0 s in
  let s := set_gr_receptors 1.0 s in
  let r := rng_uniform 0 3 (snd r) in
  let s := set_stress_level (fst r) s in
  let r := rng_uniform 0 24 (snd r) in
  let s := set_time_hours (fst r) s in
  let s := set_day 0 s in
  let r := rng_uniform 0 (2 * PI) (snd r) in
  let s := set_ultradian_phase (fst r) s in
  let s := set_current_step 0 s in
  let s := set_cumulative_load 0.0 s in
  let s := set_cortisol_history [] s in
  let s := set_cortisol_history (fill 50 (cortisol s) (cortisol_history s) 50) s in
  (_get_state s, s, snd r).

(** Returns the pulse amplitude; advances the phase and draws the noise. *)
Definition _get_ultradian_pulse (s : env) (g : G) : R * env * G :=
  let s := set_ultradian_phase
             (ultradian_phase s + 2 * PI * dt s / ultradian_period) s in
  let pulse_amplitude := 3.0 * sin (ultradian_phase s) in
  let r := rng_normal 0 0.5 g in
  let pulse_amplitude := pulse_amplitude + fst r in
  (pulse_amplitude, s, snd r).

(** [step(action)]: returns [(observation, reward, done)], the new state and
    the generator.  The receptor occupancies are computed once, before any
    hormone is updated, and the same values reach the cost function. *)
Definition step (action : Z) (s : env) (g : G) : outcome env G :=
  let crh_mod := IZR (action mod 3 - 1) * 0.3 in
  let acth_mod := IZR ((action / 3) mod 3 - 1) * 0.5 in
  let cortisol_mod := IZR ((action / 9) mod 3 - 1) * 0.8 in
  let fb := _calculate_total_feedback s in
  let total_feedback := fst (fst fb) in
  let mr_occ := snd (fst fb) in
  let gr_occ := snd fb in
  (* CRH dynamics *)
  let crh_production :=
    crh_basal_secretion + stress_to_crh * stress_level s
    - crh_basal_secretion * total_feedback + crh_mod * 20 in
  let crh_decay := k_crh * crh s in
  let d_crh := (crh_production - crh_decay) * dt s in
  let s := set_crh (clip (crh s + d_crh) 0 400) s in
  (* ACTH dynamics *)
  let crh_stimulation := 0.2 * (crh s - 100) in
  let acth_production :=
    acth_basal_secretion * pituitary_mass s + crh_stimulation
    - acth_basal_secretion * total_feedback * 0.5 + acth_mod * 10 in
  let acth_decay := k_acth * acth s in
  let d_acth := (acth_production - acth_decay) * dt s in
  let s := set_acth (clip (acth s + d_acth) 0 200) s in
  (* cortisol dynamics *)
  let circadian_drive := _get_circadian_amplitude s in
  let up := _get_ultradian_pulse s g in
  let ultradian_pulse := fst (fst up) in
  let s := snd (fst up) in
  let g := snd up in
  let acth_stimulation := 0.15 * (acth s - 25) in
  let stress_drive := stress_to_cortisol * stress_level s in
  let cortisol_production :=
    (circadian_drive / 12.0) * cortisol_basal_secretion
    + acth_stimulation * adrenal_mass s + stress_drive
    + ultradian_pulse * 0.3 + cortisol_mod * 2 in
  let cortisol_decay := k_cortisol * cortisol s in
  let d_cortisol := (cortisol_production - cortisol_decay) * dt s in
  let s := set_cortisol (clip (cortisol s + d_cortisol) 0 60) s in
  let s := set_cortisol_history
             (deque_append 50 (cortisol_history s) (cortisol s)) s in
  let s := _update_gland_masses s in
  (* time *)
  let s := set_time_hours (time_hours s + dt s) s in
  let wrap := Rge_dec (time_hours s) 24 in
  let s := set_time_hours
             (if wrap then time_hours s - 24 else time_hours s) s in
  let s := set_day (if wrap then day s + 1 else day s)%Z s in
  (* stress decay and random stress events *)
  let s := set_stress_level (Rmax 0 (stress_level s * 0.98 - 0.05)) s in
  let r := rng_random g in
  let event := Rlt_dec (fst r) 0.02 in
  let c := rng_choice [2; 5; 8] [0.6; 0.3; 0.1] (snd r) in
  let stress_magnitude := fst c in
  let s := set_stress_level
             (if event then Rmin 10 (stress_level s + stress_magnitude)
              else stress_level s) s in
  let g := if event then snd c else snd r in
  let s := set_current_step (current_step s + 1)%Z s in
  (* biological cost *)
  let allostatic_load := _calculate_allostatic_load s mr_occ gr_occ in
  let s := set_cumulative_load (cumulative_load s + allostatic_load) s in
  let reward := - allostatic_load + 5.0 in
  let done := (current_step s >=? max_steps s)%Z in
  ((_get_state s, reward, done), s, g).

(** The agent loop: one [step] per action, collecting the [done] flags. *)
Fixpoint run (actions : list Z) (s : env) (g : G) : list bool * env * G :=
  match actions with
  | [] => ([], s, g)
  | a :: rest =>
      let r := step a s g in
      let r' := run rest (state_of r) (gen_of r) in
      (done_of r :: fst (fst r'), snd (fst r'), snd r')
  end.

End WithRandomSource.

(** *** The range invariant and reference states *)

(** The declared closed interval of every bounded state variable. *)
Definition bounded (s : env) : Prop :=
  0 <= cortisol s <= 60 /\ 0 <= acth s <= 200 /\ 0 <= crh s <= 400 /\
  0.5 <= adrenal_mass s <= 2.0 /\ 0.5 <= pituitary_mass s <= 2.0 /\
  0.3 <= gr_receptors s <= 1.5 /\ 0.5 <= mr_receptors s <= 1.2 /\
  0 <= stress_level s <= 10.

(** The set-point [__init__] starts from, with a constant history. *)
Definition basal : env :=
  mkEnv 0.1 "adult" 12.0 25.0 100.0 1.0 1.0 1.0 1.0 0.0 8.0 0 0
    (repeat 12.0 50) 0 0.0.

(** A state at the circadian trough (20:00) with little cortisol, no ACTH
    and little CRH.  It is a state of the program: [reset] leaves it when
    its draws are those of [trough_draws]. *)
Definition trough : env :=
  mkEnv 0.1 "adult" 0.3 0.0 1.0 1.0 1.0 1.0 1.0 0.0 20.0 0 0
    (repeat 0.3 50) 0 0.0.

(** What [__init__], [reset] and [step] keep true of the cortisol history:
    it holds 50 entries and ends with the current cortisol. *)
Definition history_ok (s : env) : Prop :=
  length (cortisol_history s) = 50%nat /\
  last (cortisol_history s) 0 = cortisol s.

(** The draws of a step without noise and without a stress event. *)
Definition quiet : tape := [0; 0.5].

(** The standard variates behind [trough]: the phase draw of [__init__],
    the six draws of [reset] (cortisol, ACTH, CRH, stress, time of day,
    phase), then the draws of a quiet step. *)
Definition trough_draws : tape :=
  [0; -5.85; -5; -4.95; 0; 5 / 6; 0; 0; 0.5].

End Simple.

(** * The extended model (src/Python Implementation/hpa.py) *)

Module Extended.

Record env : Type := mkEnv {
  dt : R;
  max_steps : Z;
  crh : R;
  acth : R;
  cortisol : R;
  avp : R;
  beta_endorphin : R;
  melanocortin_tone : R;
  ucn1 : R;
  ucn23 : R;
  mr_receptors : R;
  gr_receptors : R;
  crfr1_density : R;
  crfr2_density : R;
  pituitary_mass : R;
  adrenal_mass : R;
  nts_drive : R;
  gaba_inhibition : R;
  sfo_drive : R;
  cea_activity : R;
  mea_activity : R;
  cea_sensitisation : R;
  pfc_inhibition : R;
  lc_activity : R;
  hippocampal_damage : R;
  arcuate_metabolic_drive : R;
  stress_physical : R;
  stress_emotional : R;
  chronic_stress_index : R;
  time_hours : R;
  day : Z;
  ultradian_phase : R;
  _prev_cortisol : R;
  _fast_feedback_signal : R;
  current_step : Z;
  cumulative_load : R;
  cortisol_history : list R
}.

Definition set_dt (v : R) (s : env) : env :=
  mkEnv v (max_steps s) (crh s) (acth s) (cortisol s) (avp s)
    (beta_endorphin s) (melanocortin_tone s) (ucn1 s) (ucn23 s)
    (mr_receptors s) (gr_receptors s) (crfr1_density s) (crfr2_density s)
    (pituitary_mass s) (adrenal_mass s) (nts_drive s) (gaba_inhibition s)
    (sfo_drive s) (cea_activity s) (mea_activity s) (cea_sensitisation s)
    (pfc_inhibition s) (lc_activity s) (hippocampal_damage s)
    (arcuate_metabolic_drive s) (stress_physical s) (stress_emotional s)
    (chronic_stress_index s) (time_hours s) (day s) (ultradian_phase s)
    (_prev_cortisol s) (_fast_feedback_signal s) (current_step s)
    (cumulative_load s) (cortisol_history s).
Definition set_max_steps (v : Z) (s : env) : env :=
  mkEnv (dt s) v (crh s) (acth s) (cortisol s) (avp s) (beta_endorphin s)
    (melanocortin_tone s) (ucn1 s) (ucn23 s) (mr_receptors s)
    (gr_receptors s) (crfr1_density s) (crfr2_density s) (pituitary_mass s)
    (adrenal_mass s) (nts_drive s) (gaba_inhibition s) (sfo_drive s)
    (cea_activity s) (mea_activity s) (cea_sensitisation s)
    (pfc_inhibition s) (lc_activity s) (hippocampal_damage s)
    (arcuate_metabolic_drive s) (stress_physical s) (stress_emotional s)
    (chronic_stress_index s) (time_hours s) (day s) (ultradian_phase s)
    (_prev_cortisol s) (_fast_feedback_signal s) (current_step s)
    (cumulative_load s) (cortisol_history s).
Definition set_crh (v : R) (s : env) : env :=
  mkEnv (dt s) (max_steps s) v (acth s) (cortisol s) (avp s)
    (beta_endorphin s) (melanocortin_tone s) (ucn1 s) (ucn23 s)
    (mr_receptors s) (gr_receptors s) (crfr1_density s) (crfr2_density s)
    (pituitary_mass s) (adrenal_mass s) (nts_drive s) (gaba_inhibition s)
    (sfo_drive s) (cea_activity s) (mea_activity s) (cea_sensitisation s)
    (pfc_inhibition s) (lc_activity s) (hippocampal_damage s)
    (arcuate_metabolic_drive s) (stress_physical s) (stress_emotional s)
    (chronic_stress_index s) (time_hours s) (day s) (ultradian_phase s)
    (_prev_cortisol s) (_fast_feedback_signal s) (current_step s)
    (cumulative_load s) (cortisol_history s).
Definition set_acth (v : R) (s : env) : env :=
  mkEnv (dt s) (max_steps s) (crh s) v (cortisol s) (avp s)
    (beta_endorphin s) (melanocortin_tone s) (ucn1 s) (ucn23 s)
    (mr_receptors s) (gr_receptors s) (crfr1_density s) (crfr2_density s)
    (pituitary_mass s) (adrenal_mass s) (nts_drive s) (gaba_inhibition s)
    (sfo_drive s) (cea_activity s) (mea_activity s) (cea_sensitisation s)
    (pfc_inhibition s) (lc_activity s) (hippocampal_damage s)
    (arcuate_metabolic_drive s) (stress_physical s) (stress_emotional s)
    (chronic_stress_index s) (time_hours s) (day s) (ultradian_phase s)
    (_prev_cortisol s) (_fast_feedback_signal s) (current_step s)
    (cumulative_load s) (cortisol_history s).
Definition set_cortisol (v : R) (s : env) : env :=
  mkEnv (dt s) (max_steps s) (crh s) (acth s) v (avp s) (beta_endorphin s)
    (melanocortin_tone s) (ucn1 s) (ucn23 s) (mr_receptors s)
    (gr_receptors s) (crfr1_density s) (crfr2_density s) (pituitary_mass s)
    (adrenal_mass s) (nts_drive s) (gaba_inhibition s) (sfo_drive s)
    (cea_activity s) (mea_activity s) (cea_sensitisation s)
    (pfc_inhibition s) (lc_activity s) (hippocampal_damage s)
    (arcuate_metabolic_drive s) (stress_physical s) (stress_emotional s)
    (chronic_stress_index s) (time_hours s) (day s) (ultradian_phase s)
    (_prev_cortisol s) (_fast_feedback_signal s) (current_step s)
    (cumulative_load s) (cortisol_history s).
Definition set_avp (v : R) (s : env) : env :=
  mkEnv (dt s) (max_steps s) (crh s) (acth s) (cortisol s) v
    (beta_endorphin s) (melanocortin_tone s) (ucn1 s) (ucn23 s)
    (mr_receptors s) (gr_receptors s) (crfr1_density s) (crfr2_density s)
    (pituitary_mass s) (adrenal_mass s) (nts_drive s) (gaba_inhibition s)
    (sfo_drive s) (cea_activity s) (mea_activity s) (cea_sensitisation s)
    (pfc_inhibition s) (lc_activity s) (hippocampal_damage s)
    (arcuate_metabolic_drive s) (stress_physical s) (stress_emotional s)
    (chronic_stress_index s) (time_hours s) (day s) (ultradian_phase s)
    (_prev_cortisol s) (_fast_feedback_signal s) (current_step s)
    (cumulative_load s) (cortisol_history s).
Definition set_beta_endorphin (v : R) (s : env) : env :=
  mkEnv (dt s) (max_steps s) (crh s) (acth s) (cortisol s) (avp s) v
    (melanocortin_tone s) (ucn1 s) (ucn23 s) (mr_receptors s)
    (gr_receptors s) (crfr1_density s) (crfr2_density s) (pituitary_mass s)
    (adrenal_mass s) (nts_drive s) (gaba_inhibition s) (sfo_drive s)
    (cea_activity s) (mea_activity s) (cea_sensitisation s)
    (pfc_inhibition s) (lc_activity s) (hippocampal_damage s)
    (arcuate_metabolic_drive s) (stress_physical s) (stress_emotional s)
    (chronic_stress_index s) (time_hours s) (day s) (ultradian_phase s)
    (_prev_cortisol s) (_fast_feedback_signal s) (current_step s)
    (cumulative_load s) (cortisol_history s).
Definition set_melanocortin_tone (v : R) (s : env) : env :=
  mkEnv (dt s) (max_steps s) (crh s) (acth s) (cortisol s) (avp s)
    (beta_endorphin s) v (ucn1 s) (ucn23 s) (mr_receptors s)
    (gr_receptors s) (crfr1_density s) (crfr2_density s) (pituitary_mass s)
    (adrenal_mass s) (nts_drive s) (gaba_inhibition s) (sfo_drive s)
    (cea_activity s) (mea_activity s) (cea_sensitisation s)
    (pfc_inhibition s) (lc_activity s) (hippocampal_damage s)
    (arcuate_metabolic_drive s) (stress_physical s) (stress_emotional s)
    (chronic_stress_index s) (time_hours s) (day s) (ultradian_phase s)
    (_prev_cortisol s) (_fast_feedback_signal s) (current_step s)
    (cumulative_load s) (cortisol_history s).
Definition set_ucn1 (v : R) (s : env) : env :=
  mkEnv (dt s) (max_steps s) (crh s) (acth s) (cortisol s) (avp s)
    (beta_endorphin s) (melanocortin_tone s) v (ucn23 s) (mr_receptors s)
    (gr_receptors s) (crfr1_density s) (crfr2_density s) (pituitary_mass s)
    (adrenal_mass s) (nts_drive s) (gaba_inhibition s) (sfo_drive s)
    (cea_activity s) (mea_activity s) (cea_sensitisation s)
    (pfc_inhibition s) (lc_activity s) (hippocampal_damage s)
    (arcuate_metabolic_drive s) (stress_physical s) (stress_emotional s)
    (chronic_stress_index s) (time_hours s) (day s) (ultradian_phase s)
    (_prev_cortisol s) (_fast_feedback_signal s) (current_step s)
    (cumulative_load s) (cortisol_history s).
Definition set_ucn23 (v : R) (s : env) : env :=
  mkEnv (dt s) (max_steps s) (crh s) (acth s) (cortisol s) (avp s)
    (beta_endorphin s) (melanocortin_tone s) (ucn1 s) v (mr_receptors s)
    (gr_receptors s) (crfr1_density s) (crfr2_density s) (pituitary_mass s)
    (adrenal_mass s) (nts_drive s) (gaba_inhibition s) (sfo_drive s)
    (cea_activity s) (mea_activity s) (cea_sensitisation s)
    (pfc_inhibition s) (lc_activity s) (hippocampal_damage s)
    (arcuate_metabolic_drive s) (stress_physical s) (stress_emotional s)
    (chronic_stress_index s) (time_hours s) (day s) (ultradian_phase s)
    (_prev_cortisol s) (_fast_feedback_signal s) (current_step s)
    (cumulative_load s) (cortisol_history s).
Definition set_mr_receptors (v : R) (s : env) : env :=
  mkEnv (dt s) (max_steps s) (crh s) (acth s) (cortisol s) (avp s)
    (beta_endorphin s) (melanocortin_tone s) (ucn1 s) (ucn23 s) v
    (gr_receptors s) (crfr1_density s) (crfr2_density s) (pituitary_mass s)
    (adrenal_mass s) (nts_drive s) (gaba_inhibition s) (sfo_drive s)
    (cea_activity s) (mea_activity s) (cea_sensitisation s)
    (pfc_inhibition s) (lc_activity s) (hippocampal_damage s)
    (arcuate_metabolic_drive s) (stress_physical s) (stress_emotional s)
    (chronic_stress_index s) (time_hours s) (day s) (ultradian_phase s)
    (_prev_cortisol s) (_fast_feedback_signal s) (current_step s)
    (cumulative_load s) (cortisol_history s).
Definition set_gr_receptors (v : R) (s : env) : env :=
  mkEnv (dt s) (max_steps s) (crh s) (acth s) (cortisol s) (avp s)
    (beta_endorphin s) (melanocortin_tone s) (ucn1 s) (ucn23 s)
    (mr_receptors s) v (crfr1_density s) (crfr2_density s)
    (pituitary_mass s) (adrenal_mass s) (nts_drive s) (gaba_inhibition s)
    (sfo_drive s) (cea_activity s) (mea_activity s) (cea_sensitisation s)
    (pfc_inhibition s) (lc_activity s) (hippocampal_damage s)
    (arcuate_metabolic_drive s) (stress_physical s) (stress_emotional s)
    (chronic_stress_index s) (time_hours s) (day s) (ultradian_phase s)
    (_prev_cortisol s) (_fast_feedback_signal s) (current_step s)
    (cumulative_load s) (cortisol_history s).
Definition set_crfr1_density (v : R) (s : env) : env :=
  mkEnv (dt s) (max_steps s) (crh s) (acth s) (cortisol s) (avp s)
    (beta_endorphin s) (melanocortin_tone s) (ucn1 s) (ucn23 s)
    (mr_receptors s) (gr_receptors s) v (crfr2_density s) (pituitary_mass s)
    (adrenal_mass s) (nts_drive s) (gaba_inhibition s) (sfo_drive s)
    (cea_activity s) (mea_activity s) (cea_sensitisation s)
    (pfc_inhibition s) (lc_activity s) (hippocampal_damage s)
    (arcuate_metabolic_drive s) (stress_physical s) (stress_emotional s)
    (chronic_stress_index s) (time_hours s) (day s) (ultradian_phase s)
    (_prev_cortisol s) (_fast_feedback_signal s) (current_step s)
    (cumulative_load s) (cortisol_history s).
Definition set_crfr2_density (v : R) (s : env) : env :=
  mkEnv (dt s) (max_steps s) (crh s) (acth s) (cortisol s) (avp s)
    (beta_endorphin s) (melanocortin_tone s) (ucn1 s) (ucn23 s)
    (mr_receptors s) (gr_receptors s) (crfr1_density s) v (pituitary_mass s)
    (adrenal_mass s) (nts_drive s) (gaba_inhibition s) (sfo_drive s)
    (cea_activity s) (mea_activity s) (cea_sensitisation s)
    (pfc_inhibition s) (lc_activity s) (hippocampal_damage s)
    (arcuate_metabolic_drive s) (stress_physical s) (stress_emotional s)
    (chronic_stress_index s) (time_hours s) (day s) (ultradian_phase s)
    (_prev_cortisol s) (_fast_feedback_signal s) (current_step s)
    (cumulative_load s) (cortisol_history s).
Definition set_pituitary_mass (v : R) (s : env) : env :=
  mkEnv (dt s) (max_steps s) (crh s) (acth s) (cortisol s) (avp s)
    (beta_endorphin s) (melanocortin_tone s) (ucn1 s) (ucn23 s)
    (mr_receptors s) (gr_receptors s) (crfr1_density s) (crfr2_density s) v
    (adrenal_mass s) (nts_drive s) (gaba_inhibition s) (sfo_drive s)
    (cea_activity s) (mea_activity s) (cea_sensitisation s)
    (pfc_inhibition s) (lc_activity s) (hippocampal_damage s)
    (arcuate_metabolic_drive s) (stress_physical s) (stress_emotional s)
    (chronic_stress_index s) (time_hours s) (day s) (ultradian_phase s)
    (_prev_cortisol s) (_fast_feedback_signal s) (current_step s)
    (cumulative_load s) (cortisol_history s).
Definition set_adrenal_mass (v : R) (s : env) : env :=
  mkEnv (dt s) (max_steps s) (crh s) (acth s) (cortisol s) (avp s)
    (beta_endorphin s) (melanocortin_tone s) (ucn1 s) (ucn23 s)
    (mr_receptors s) (gr_receptors s) (crfr1_density s) (crfr2_density s)
    (pituitary_mass s) v (nts_drive s) (gaba_inhibition s) (sfo_drive s)
    (cea_activity s) (mea_activity s) (cea_sensitisation s)
    (pfc_inhibition s) (lc_activity s) (hippocampal_damage s)
    (arcuate_metabolic_drive s) (stress_physical s) (stress_emotional s)
    (chronic_stress_index s) (time_hours s) (day s) (ultradian_phase s)
    (_prev_cortisol s) (_fast_feedback_signal s) (current_step s)
    (cumulative_load s) (cortisol_history s).
Definition set_nts_drive (v : R) (s : env) : env :=
  mkEnv (dt s) (max_steps s) (crh s) (acth s) (cortisol s) (avp s)
    (beta_endorphin s) (melanocortin_tone s) (ucn1 s) (ucn23 s)
    (mr_receptors s) (gr_receptors s) (crfr1_density s) (crfr2_density s)
    (pituitary_mass s) (adrenal_mass s) v (gaba_inhibition s) (sfo_drive s)
    (cea_activity s) (mea_activity s) (cea_sensitisation s)
    (pfc_inhibition s) (lc_activity s) (hippocampal_damage s)
    (arcuate_metabolic_drive s) (stress_physical s) (stress_emotional s)
    (chronic_stress_index s) (time_hours s) (day s) (ultradian_phase s)
    (_prev_cortisol s) (_fast_feedback_signal s) (current_step s)
    (cumulative_load s) (cortisol_history s).
Definition set_gaba_inhibition (v : R) (s : env) : env :=
  mkEnv (dt s) (max_steps s) (crh s) (acth s) (cortisol s) (avp s)
    (beta_endorphin s) (melanocortin_tone s) (ucn1 s) (ucn23 s)
    (mr_receptors s) (gr_receptors s) (crfr1_density s) (crfr2_density s)
    (pituitary_mass s) (adrenal_mass s) (nts_drive s) v (sfo_drive s)
    (cea_activity s) (mea_activity s) (cea_sensitisation s)
    (pfc_inhibition s) (lc_activity s) (hippocampal_damage s)
    (arcuate_metabolic_drive s) (stress_physical s) (stress_emotional s)
    (chronic_stress_index s) (time_hours s) (day s) (ultradian_phase s)
    (_prev_cortisol s) (_fast_feedback_signal s) (current_step s)
    (cumulative_load s) (cortisol_history s).
Definition set_sfo_drive (v : R) (s : env) : env :=
  mkEnv (dt s) (max_steps s) (crh s) (acth s) (cortisol s) (avp s)
    (beta_endorphin s) (melanocortin_tone s) (ucn1 s) (ucn23 s)
    (mr_receptors s) (gr_receptors s) (crfr1_density s) (crfr2_density s)
    (pituitary_mass s) (adrenal_mass s) (nts_drive s) (gaba_inhibition s) v
    (cea_activity s) (mea_activity s) (cea_sensitisation s)
    (pfc_inhibition s) (lc_activity s) (hippocampal_damage s)
    (arcuate_metabolic_drive s) (stress_physical s) (stress_emotional s)
    (chronic_stress_index s) (time_hours s) (day s) (ultradian_phase s)
    (_prev_cortisol s) (_fast_feedback_signal s) (current_step s)
    (cumulative_load s) (cortisol_history s).
Definition set_cea_activity (v : R) (s : env) : env :=
  mkEnv (dt s) (max_steps s) (crh s) (acth s) (cortisol s) (avp s)
    (beta_endorphin s) (melanocortin_tone s) (ucn1 s) (ucn23 s)
    (mr_receptors s) (gr_receptors s) (crfr1_density s) (crfr2_density s)
    (pituitary_mass s) (adrenal_mass s) (nts_drive s) (gaba_inhibition s)
    (sfo_drive s) v (mea_activity s) (cea_sensitisation s)
    (pfc_inhibition s) (lc_activity s) (hippocampal_damage s)
    (arcuate_metabolic_drive s) (stress_physical s) (stress_emotional s)
    (chronic_stress_index s) (time_hours s) (day s) (ultradian_phase s)
    (_prev_cortisol s) (_fast_feedback_signal s) (current_step s)
    (cumulative_load s) (cortisol_history s).
Definition set_mea_activity (v : R) (s : env) : env :=
  mkEnv (dt s) (max_steps s) (crh s) (acth s) (cortisol s) (avp s)
    (beta_endorphin s) (melanocortin_tone s) (ucn1 s) (ucn23 s)
    (mr_receptors s) (gr_receptors s) (crfr1_density s) (crfr2_density s)
    (pituitary_mass s) (adrenal_mass s) (nts_drive s) (gaba_inhibition s)
    (sfo_drive s) (cea_activity s) v (cea_sensitisation s)
    (pfc_inhibition s) (lc_activity s) (hippocampal_damage s)
    (arcuate_metabolic_drive s) (stress_physical s) (stress_emotional s)
    (chronic_stress_index s) (time_hours s) (day s) (ultradian_phase s)
    (_prev_cortisol s) (_fast_feedback_signal s) (current_step s)
    (cumulative_load s) (cortisol_history s).
Definition set_cea_sensitisation (v : R) (s : env) : env :=
  mkEnv (dt s) (max_steps s) (crh s) (acth s) (cortisol s) (avp s)
    (beta_endorphin s) (melanocortin_tone s) (ucn1 s) (ucn23 s)
    (mr_receptors s) (gr_receptors s) (crfr1_density s) (crfr2_density s)
    (pituitary_mass s) (adrenal_mass s) (nts_drive s) (gaba_inhibition s)
    (sfo_drive s) (cea_activity s) (mea_activity s) v (pfc_inhibition s)
    (lc_activity s) (hippocampal_damage s) (arcuate_metabolic_drive s)
    (stress_physical s) (stress_emotional s) (chronic_stress_index s)
    (time_hours s) (day s) (ultradian_phase s) (_prev_cortisol s)
    (_fast_feedback_signal s) (current_step s) (cumulative_load s)
    (cortisol_history s).
Definition set_pfc_inhibition (v : R) (s : env) : env :=
  mkEnv (dt s) (max_steps s) (crh s) (acth s) (cortisol s) (avp s)
    (beta_endorphin s) (melanocortin_tone s) (ucn1 s) (ucn23 s)
    (mr_receptors s) (gr_receptors s) (crfr1_density s) (crfr2_density s)
    (pituitary_mass s) (adrenal_mass s) (nts_drive s) (gaba_inhibition s)
    (sfo_drive s) (cea_activity s) (mea_activity s) (cea_sensitisation s) v
    (lc_activity s) (hippocampal_damage s) (arcuate_metabolic_drive s)
    (stress_physical s) (stress_emotional s) (chronic_stress_index s)
    (time_hours s) (day s) (ultradian_phase s) (_prev_cortisol s)
    (_fast_feedback_signal s) (current_step s) (cumulative_load s)
    (cortisol_history s).
Definition set_lc_activity (v : R) (s : env) : env :=
  mkEnv (dt s) (max_steps s) (crh s) (acth s) (cortisol s) (avp s)
    (beta_endorphin s) (melanocortin_tone s) (ucn1 s) (ucn23 s)
    (mr_receptors s) (gr_receptors s) (crfr1_density s) (crfr2_density s)
    (pituitary_mass s) (adrenal_mass s) (nts_drive s) (gaba_inhibition s)
    (sfo_drive s) (cea_activity s) (mea_activity s) (cea_sensitisation s)
    (pfc_inhibition s) v (hippocampal_damage s) (arcuate_metabolic_drive s)
    (stress_physical s) (stress_emotional s) (chronic_stress_index s)
    (time_hours s) (day s) (ultradian_phase s) (_prev_cortisol s)
    (_fast_feedback_signal s) (current_step s) (cumulative_load s)
    (cortisol_history s).
Definition set_hippocampal_damage (v : R) (s : env) : env :=
  mkEnv (dt s) (max_steps s) (crh s) (acth s) (cortisol s) (avp s)
    (beta_endorphin s) (melanocortin_tone s) (ucn1 s) (ucn23 s)
    (mr_receptors s) (gr_receptors s) (crfr1_density s) (crfr2_density s)
    (pituitary_mass s) (adrenal_mass s) (nts_drive s) (gaba_inhibition s)
    (sfo_drive s) (cea_activity s) (mea_activity s) (cea_sensitisation s)
    (pfc_inhibition s) (lc_activity s) v (arcuate_metabolic_drive s)
    (stress_physical s) (stress_emotional s) (chronic_stress_index s)
    (time_hours s) (day s) (ultradian_phase s) (_prev_cortisol s)
    (_fast_feedback_signal s) (current_step s) (cumulative_load s)
    (cortisol_history s).
Definition set_arcuate_metabolic_drive (v : R) (s : env) : env :=
  mkEnv (dt s) (max_steps s) (crh s) (acth s) (cortisol s) (avp s)
    (beta_endorphin s) (melanocortin_tone s) (ucn1 s) (ucn23 s)
    (mr_receptors s) (gr_receptors s) (crfr1_density s) (crfr2_density s)
    (pituitary_mass s) (adrenal_mass s) (nts_drive s) (gaba_inhibition s)
    (sfo_drive s) (cea_activity s) (mea_activity s) (cea_sensitisation s)
    (pfc_inhibition s) (lc_activity s) (hippocampal_damage s) v
    (stress_physical s) (stress_emotional s) (chronic_stress_index s)
    (time_hours s) (day s) (ultradian_phase s) (_prev_cortisol s)
    (_fast_feedback_signal s) (current_step s) (cumulative_load s)
    (cortisol_history s).
Definition set_stress_physical (v : R) (s : env) : env :=
  mkEnv (dt s) (max_steps s) (crh s) (acth s) (cortisol s) (avp s)
    (beta_endorphin s) (melanocortin_tone s) (ucn1 s) (ucn23 s)
    (mr_receptors s) (gr_receptors s) (crfr1_density s) (crfr2_density s)
    (pituitary_mass s) (adrenal_mass s) (nts_drive s) (gaba_inhibition s)
    (sfo_drive s) (cea_activity s) (mea_activity s) (cea_sensitisation s)
    (pfc_inhibition s) (lc_activity s) (hippocampal_damage s)
    (arcuate_metabolic_drive s) v (stress_emotional s)
    (chronic_stress_index s) (time_hours s) (day s) (ultradian_phase s)
    (_prev_cortisol s) (_fast_feedback_signal s) (current_step s)
    (cumulative_load s) (cortisol_history s).
Definition set_stress_emotional (v : R) (s : env) : env :=
  mkEnv (dt s) (max_steps s) (crh s) (acth s) (cortisol s) (avp s)
    (beta_endorphin s) (melanocortin_tone s) (ucn1 s) (ucn23 s)
    (mr_receptors s) (gr_receptors s) (crfr1_density s) (crfr2_density s)
    (pituitary_mass s) (adrenal_mass s) (nts_drive s) (gaba_inhibition s)
    (sfo_drive s) (cea_activity s) (mea_activity s) (cea_sensitisation s)
    (pfc_inhibition s) (lc_activity s) (hippocampal_damage s)
    (arcuate_metabolic_drive s) (stress_physical s) v
    (chronic_stress_index s) (time_hours s) (day s) (ultradian_phase s)
    (_prev_cortisol s) (_fast_feedback_signal s) (current_step s)
    (cumulative_load s) (cortisol_history s).
Definition set_chronic_stress_index (v : R) (s : env) : env :=
  mkEnv (dt s) (max_steps s) (crh s) (acth s) (cortisol s) (avp s)
    (beta_endorphin s) (melanocortin_tone s) (ucn1 s) (ucn23 s)
    (mr_receptors s) (gr_receptors s) (crfr1_density s) (crfr2_density s)
    (pituitary_mass s) (adrenal_mass s) (nts_drive s) (gaba_inhibition s)
    (sfo_drive s) (cea_activity s) (mea_activity s) (cea_sensitisation s)
    (pfc_inhibition s) (lc_activity s) (hippocampal_damage s)
    (arcuate_metabolic_drive s) (stress_physical s) (stress_emotional s) v
    (time_hours s) (day s) (ultradian_phase s) (_prev_cortisol s)
    (_fast_feedback_signal s) (current_step s) (cumulative_load s)
    (cortisol_history s).
Definition set_time_hours (v : R) (s : env) : env :=
  mkEnv (dt s) (max_steps s) (crh s) (acth s) (cortisol s) (avp s)
    (beta_endorphin s) (melanocortin_tone s) (ucn1 s) (ucn23 s)
    (mr_receptors s) (gr_receptors s) (crfr1_density s) (crfr2_density s)
    (pituitary_mass s) (adrenal_mass s) (nts_drive s) (gaba_inhibition s)
    (sfo_drive s) (cea_activity s) (mea_activity s) (cea_sensitisation s)
    (pfc_inhibition s) (lc_activity s) (hippocampal_damage s)
    (arcuate_metabolic_drive s) (stress_physical s) (stress_emotional s)
    (chronic_stress_index s) v (day s) (ultradian_phase s)
    (_prev_cortisol s) (_fast_feedback_signal s) (current_step s)
    (cumulative_load s) (cortisol_history s).
Definition set_day (v : Z) (s : env) : env :=
  mkEnv (dt s) (max_steps s) (crh s) (acth s) (cortisol s) (avp s)
    (beta_endorphin s) (melanocortin_tone s) (ucn1 s) (ucn23 s)
    (mr_receptors s) (gr_receptors s) (crfr1_density s) (crfr2_density s)
    (pituitary_mass s) (adrenal_mass s) (nts_drive s) (gaba_inhibition s)
    (sfo_drive s) (cea_activity s) (mea_activity s) (cea_sensitisation s)
    (pfc_inhibition s) (lc_activity s) (hippocampal_damage s)
    (arcuate_metabolic_drive s) (stress_physical s) (stress_emotional s)
    (chronic_stress_index s) (time_hours s) v (ultradian_phase s)
    (_prev_cortisol s) (_fast_feedback_signal s) (current_step s)
    (cumulative_load s) (cortisol_history s).
Definition set_ultradian_phase (v : R) (s : env) : env :=
  mkEnv (dt s) (max_steps s) (crh s) (acth s) (cortisol s) (avp s)
    (beta_endorphin s) (melanocortin_tone s) (ucn1 s) (ucn23 s)
    (mr_receptors s) (gr_receptors s) (crfr1_density s) (crfr2_density s)
    (pituitary_mass s) (adrenal_mass s) (nts_drive s) (gaba_inhibition s)
    (sfo_drive s) (cea_activity s) (mea_activity s) (cea_sensitisation s)
    (pfc_inhibition s) (lc_activity s) (hippocampal_damage s)
    (arcuate_metabolic_drive s) (stress_physical s) (stress_emotional s)
    (chronic_stress_index s) (time_hours s) (day s) v (_prev_cortisol s)
    (_fast_feedback_signal s) (current_step s) (cumulative_load s)
    (cortisol_history s).
Definition set__prev_cortisol (v : R) (s : env) : env :=
  mkEnv (dt s) (max_steps s) (crh s) (acth s) (cortisol s) (avp s)
    (beta_endorphin s) (melanocortin_tone s) (ucn1 s) (ucn23 s)
    (mr_receptors s) (gr_receptors s) (crfr1_density s) (crfr2_density s)
    (pituitary_mass s) (adrenal_mass s) (nts_drive s) (gaba_inhibition s)
    (sfo_drive s) (cea_activity s) (mea_activity s) (cea_sensitisation s)
    (pfc_inhibition s) (lc_activity s) (hippocampal_damage s)
    (arcuate_metabolic_drive s) (stress_physical s) (stress_emotional s)
    (chronic_stress_index s) (time_hours s) (day s) (ultradian_phase s) v
    (_fast_feedback_signal s) (current_step s) (cumulative_load s)
    (cortisol_history s).
Definition set__fast_feedback_signal (v : R) (s : env) : env :=
  mkEnv (dt s) (max_steps s) (crh s) (acth s) (cortisol s) (avp s)
    (beta_endorphin s) (melanocortin_tone s) (ucn1 s) (ucn23 s)
    (mr_receptors s) (gr_receptors s) (crfr1_density s) (crfr2_density s)
    (pituitary_mass s) (adrenal_mass s) (nts_drive s) (gaba_inhibition s)
    (sfo_drive s) (cea_activity s) (mea_activity s) (cea_sensitisation s)
    (pfc_inhibition s) (lc_activity s) (hippocampal_damage s)
    (arcuate_metabolic_drive s) (stress_physical s) (stress_emotional s)
    (chronic_stress_index s) (time_hours s) (day s) (ultradian_phase s)
    (_prev_cortisol s) v (current_step s) (cumulative_load s)
    (cortisol_history s).
Definition set_current_step (v : Z) (s : env) : env :=
  mkEnv (dt s) (max_steps s) (crh s) (acth s) (cortisol s) (avp s)
    (beta_endorphin s) (melanocortin_tone s) (ucn1 s) (ucn23 s)
    (mr_receptors s) (gr_receptors s) (crfr1_density s) (crfr2_density s)
    (pituitary_mass s) (adrenal_mass s) (nts_drive s) (gaba_inhibition s)
    (sfo_drive s) (cea_activity s) (mea_activity s) (cea_sensitisation s)
    (pfc_inhibition s) (lc_activity s) (hippocampal_damage s)
    (arcuate_metabolic_drive s) (stress_physical s) (stress_emotional s)
    (chronic_stress_index s) (time_hours s) (day s) (ultradian_phase s)
    (_prev_cortisol s) (_fast_feedback_signal s) v (cumulative_load s)
    (cortisol_history s).
Definition set_cumulative_load (v : R) (s : env) : env :=
  mkEnv (dt s) (max_steps s) (crh s) (acth s) (cortisol s) (avp s)
    (beta_endorphin s) (melanocortin_tone s) (ucn1 s) (ucn23 s)
    (mr_receptors s) (gr_receptors s) (crfr1_density s) (crfr2_density s)
    (pituitary_mass s) (adrenal_mass s) (nts_drive s) (gaba_inhibition s)
    (sfo_drive s) (cea_activity s) (mea_activity s) (cea_sensitisation s)
    (pfc_inhibition s) (lc_activity s) (hippocampal_damage s)
    (arcuate_metabolic_drive s) (stress_physical s) (stress_emotional s)
    (chronic_stress_index s) (time_hours s) (day s) (ultradian_phase s)
    (_prev_cortisol s) (_fast_feedback_signal s) (current_step s) v
    (cortisol_history s).
Definition set_cortisol_history (v : list R) (s : env) : env :=
  mkEnv (dt s) (max_steps s) (crh s) (acth s) (cortisol s) (avp s)
    (beta_endorphin s) (melanocortin_tone s) (ucn1 s) (ucn23 s)
    (mr_receptors s) (gr_receptors s) (crfr1_density s) (crfr2_density s)
    (pituitary_mass s) (adrenal_mass s) (nts_drive s) (gaba_inhibition s)
    (sfo_drive s) (cea_activity s) (mea_activity s) (cea_sensitisation s)
    (pfc_inhibition s) (lc_activity s) (hippocampal_damage s)
    (arcuate_metabolic_drive s) (stress_physical s) (stress_emotional s)
    (chronic_stress_index s) (time_hours s) (day s) (ultradian_phase s)
    (_prev_cortisol s) (_fast_feedback_signal s) (current_step s)
    (cumulative_load s) v.

(** *** Physiological constants (class attributes) *)

Definition HALFLIFE_CORTISOL : R := 1.25.
Definition HALFLIFE_ACTH : R := 0.17.
Definition HALFLIFE_CRH : R := 0.25.
Definition HALFLIFE_AVP : R := 0.33.
Definition HALFLIFE_BETAEP : R := 0.5.
Definition HALFLIFE_UCN1 : R := 0.5.
Definition HALFLIFE_UCN23 : R := 1.0.
Definition MR_KD : R := 0.5.
Definition GR_KD : R := 5.0.
Definition CORTISOL_TO_NM : R := 27.6.
Definition OPT_CORTISOL : R := 15.0.
Definition OPT_ACTH : R := 25.0.
Definition OPT_CRH : R := 100.0.
Definition OPT_AVP : R := 4.0.
Definition TOL_CORTISOL : R := 7.0.
Definition TOL_ACTH : R := 15.0.
Definition TOL_CRH : R := 50.0.
Definition CRH_BASAL : R := 50.0.
Definition ACTH_BASAL : R := 15.0.
Definition CORT_BASAL : R := 8.0.
Definition AVP_BASAL : R := 2.0.
Definition BETAEP_BASAL : R := 5.0.
Definition GLAND_GROWTH : R := 0.001.
Definition GLAND_ATROPHY : R := 0.0008.

(** *** Attributes [__init__] sets once *)

Definition k_cort : R := ln 2 / HALFLIFE_CORTISOL.
Definition k_acth : R := ln 2 / HALFLIFE_ACTH.
Definition k_crh : R := ln 2 / HALFLIFE_CRH.
Definition k_avp : R := ln 2 / HALFLIFE_AVP.
Definition k_betaep : R := ln 2 / HALFLIFE_BETAEP.
Definition k_ucn1 : R := ln 2 / HALFLIFE_UCN1.
Definition k_ucn23 : R := ln 2 / HALFLIFE_UCN23.
Definition ultradian_period : R := 1.5.
Definition _hist_len : nat := 50.

(** *** Internal helpers *)

(** The [stress_level] property. *)
Definition stress_level (s : env) : R := stress_physical s + stress_emotional s.

Definition _cortisol_nm (s : env) : R := cortisol s * CORTISOL_TO_NM.

Definition _receptor_occupancy (s : env) : R * R :=
  let cnm := _cortisol_nm s in
  let mr := cnm / (MR_KD + cnm) in
  let gr := cnm / (GR_KD + cnm) in
  (mr, gr).

(** Returns the smoothed signal and stores it.  The quotient is Python's:
    with a time step of 0 it raises ZeroDivisionError on Python floats, as
    the cortisol is on the first step after [reset], where the division of
    the reals below returns a number.  The statements on a returning
    [step] of this model are therefore made for a time step other than
    0. *)
Definition _fast_nongenomic_feedback (s : env) : R * env :=
  let rate := (cortisol s - _prev_cortisol s) / dt s in
  let pos_rate := Rmax 0.0 rate in
  let signal := pos_rate / (pos_rate + 5.0) in
  let s := set__fast_feedback_signal
             (0.7 * signal + 0.3 * _fast_feedback_signal s) s in
  (_fast_feedback_signal s, s).

Definition _slow_genomic_feedback (s : env) (mr_occ gr_occ : R) : R :=
  let mr_fb := 0.3 * mr_occ * mr_receptors s in
  let gr_fb := 0.7 * gr_occ * gr_receptors s in
  let pfc_genomic := 0.1 * gr_occ * gr_receptors s * pfc_inhibition s in
  mr_fb + gr_fb + pfc_genomic.

Definition _hippocampal_feedback (s : env) (mr_occ gr_occ : R) : R :=
  let hip_signal :=
    0.4 * mr_occ * mr_receptors s + 0.6 * gr_occ * gr_receptors s in
  let damage_factor :=
    Rmax 0.1 (1.0 - 0.5 * hippocampal_damage s
              - 0.3 * tanh (chronic_stress_index s)) in
  hip_signal * damage_factor.

(** Returns [(total, mr_occ, gr_occ)] and the state with the stored signal. *)
Definition _total_negative_feedback (s : env) : (R * R * R) * env :=
  let occ := _receptor_occupancy s in
  let mr_occ := fst occ in
  let gr_occ := snd occ in
  let slow_genomic := _slow_genomic_feedback s mr_occ gr_occ in
  let ff := _fast_nongenomic_feedback s in
  let fast_nongenomic := fst ff in
  let s := snd ff in
  let hippocampal := _hippocampal_feedback s mr_occ gr_occ in
  let total := slow_genomic + 0.3 * fast_nongenomic + 0.4 * hippocampal in
  ((total, mr_occ, gr_occ), s).

(** *** Urocortins *)

Definition _update_urocortins (s : env) : env :=
  let ucn1_prod := 0.5 + 0.1 * stress_level s in
  let s := set_ucn1
             (clip (ucn1 s + (ucn1_prod - k_ucn1 * ucn1 s) * dt s) 0.1 5.0) s in
  let ucn23_prod := 0.5 + 0.2 * stress_emotional s + 0.05 * lc_activity s in
  set_ucn23
    (clip (ucn23 s + (ucn23_prod - k_ucn23 * ucn23 s) * dt s) 0.1 8.0) s.

Definition _ucn_crfr_modulation (s : env) : R * R :=
  let crfr1_boost := 0.05 * (ucn1 s - 1.0) in
  let crfr2_boost := 0.04 * (ucn1 s - 1.0) + 0.06 * (ucn23 s - 1.0) in
  (crfr1_boost, crfr2_boost).

(** *** Amygdala, PFC, LC, SFO, arcuate *)

Definition _update_amygdala (mr_occ gr_occ : R) (s : env) : env :=
  let cea_target := 0.1 + 0.4 * tanh (stress_physical s / 3.0) in
  let cea_gluco_boost :=
    0.1 * gr_occ * gr_receptors s * (1.0 + cea_sensitisation s) in
  let cea_target := Rmin 1.0 (cea_target + cea_gluco_boost) in
  let s := set_cea_activity
             (cea_activity s + 0.08 * (cea_target - cea_activity s) * dt s) s in
  let s := set_cea_sensitisation
             (clip (cea_sensitisation s
                    + 0.001 * gr_occ * chronic_stress_index s * dt s
                    - 0.0005 * dt s) 0.0 2.0) s in
  let mea_target := 0.1 + 0.4 * tanh (stress_emotional s / 3.0) in
  let s := set_mea_activity
             (mea_activity s + 0.06 * (mea_target - mea_activity s) * dt s) s in
  let s := set_cea_activity (clip (cea_activity s) 0.0 1.0) s in
  set_mea_activity (clip (mea_activity s) 0.0 1.0) s.

Definition _update_pfc (mr_occ gr_occ : R) (s : env) : env :=
  let pfc_target := 0.5 * (1.0 - 0.3 * tanh (chronic_stress_index s)) in
  let acute_suppression := 0.1 * tanh (stress_level s / 5.0) in
  let pfc_target := Rmax 0.05 (pfc_target - acute_suppression) in
  let s := set_pfc_inhibition
             (pfc_inhibition s + 0.04 * (pfc_target - pfc_inhibition s) * dt s)
             s in
  set_pfc_inhibition (clip (pfc_inhibition s) 0.0 1.0) s.

Definition _update_lc (s : env) : env :=
  let lc_target :=
    0.1 + 0.2 * tanh (stress_level s / 5.0) + 0.1 * (crh s / OPT_CRH)
    + 0.05 * (ucn23 s - 1.0) in
  let lc_target :=
    lc_target * Rmax 0.4 (1.0 - 0.15 * tanh (chronic_stress_index s)) in
  let s := set_lc_activity
             (lc_activity s + 0.05 * (lc_target - lc_activity s) * dt s) s in
  set_lc_activity (clip (lc_activity s) 0.0 1.0) s.

Definition _update_sfo (s : env) : env :=
  let sfo_target :=
    0.1 + 0.15 * tanh (stress_physical s / 4.0)
    + 0.1 * (avp s / OPT_AVP - 1.0) in
  let s := set_sfo_drive
             (sfo_drive s + 0.04 * (sfo_target - sfo_drive s) * dt s) s in
  set_sfo_drive (clip (sfo_drive s) 0.0 1.0) s.

Definition _update_arcuate (s : env) : env :=
  let npy_agrp_drive :=
    0.1 * tanh (chronic_stress_index s)
    + 0.05 * tanh (stress_physical s / 3.0) in
  let msh_cart_drive :=
    - 0.05 * melanocortin_tone s - 0.03 * tanh (stress_emotional s / 3.0) in
  let target := npy_agrp_drive + msh_cart_drive in
  let s := set_arcuate_metabolic_drive
             (arcuate_metabolic_drive s
              + 0.02 * (target - arcuate_metabolic_drive s) * dt s) s in
  set_arcuate_metabolic_drive
    (clip (arcuate_metabolic_drive s) (-1.0) 1.0) s.

(** *** AVP, POMC products, NTS and GABA, hippocampal damage *)

Definition _update_avp (s : env) : env :=
  let chronic_boost := 1.0 + 0.3 * tanh (chronic_stress_index s) in
  let stress_drive_avp := 0.4 * stress_level s in
  let sfo_avp_link := 0.2 * sfo_drive s in
  let avp_production :=
    AVP_BASAL * chronic_boost + stress_drive_avp + sfo_avp_link
    - AVP_BASAL * 0.3 * (cortisol s / OPT_CORTISOL) in
  let avp_decay := k_avp * avp s in
  set_avp (clip (avp s + (avp_production - avp_decay) * dt s) 0.5 30.0) s.

Definition _update_pomc_products (s : env) : env :=
  let betaep_prod :=
    BETAEP_BASAL + 0.15 * (acth s - OPT_ACTH) * pituitary_mass s in
  let betaep_decay := k_betaep * beta_endorphin s in
  let s := set_beta_endorphin
             (clip (beta_endorphin s + (betaep_prod - betaep_decay) * dt s)
                0.0 40.0) s in
  let mcr_target := 0.5 + 0.5 * (acth s / OPT_ACTH) in
  let s := set_melanocortin_tone
             (melanocortin_tone s
              + 0.05 * (mcr_target - melanocortin_tone s) * dt s) s in
  set_melanocortin_tone (clip (melanocortin_tone s) 0.1 3.0) s.

Definition _update_upstream_signals (mr_occ gr_occ : R) (s : env) : env :=
  let nts_target :=
    0.1 + 0.2 * tanh (stress_level s / 5.0) + 0.3 * cea_activity s in
  let nts_target := nts_target * Rmax 0.3 (1.0 - 0.3 * pfc_inhibition s) in
  let s := set_nts_drive
             (nts_drive s + 0.05 * (nts_target - nts_drive s) * dt s) s in
  let gaba_target :=
    0.15 + 0.2 * tanh (stress_level s / 4.0) + 0.1 * pfc_inhibition s in
  let s := set_gaba_inhibition
             (gaba_inhibition s
              + 0.03 * (gaba_target - gaba_inhibition s) * dt s) s in
  let s := set_nts_drive (clip (nts_drive s) 0.0 1.0) s in
  set_gaba_inhibition (clip (gaba_inhibition s) 0.0 1.0) s.

Definition _update_hippocampal_damage (gr_occ : R) (s : env) : env :=
  let damage_rate :=
    0.0002 * Rmax 0.0 (gr_occ - 0.4) * chronic_stress_index s in
  let repair_rate := 0.00002 in
  set_hippocampal_damage
    (clip (hippocampal_damage s + (damage_rate - repair_rate) * dt s) 0.0 1.0)
    s.

(** *** CRFR1/CRFR2 density and gland plasticity

    A branch that assigns one attribute is written as the assignment of a
    conditional value; an untaken branch leaves the attribute as it was. *)

Definition _update_crf_receptors (s : env) : env :=
  let ucn := _ucn_crfr_modulation s in
  let ucn_crfr1 := fst ucn in
  let ucn_crfr2 := snd ucn in
  let s := set_crfr1_density
             (if Rgt_dec (crh s) 150 then crfr1_density s - 0.00015 * dt s
              else crfr1_density s
                   + 0.0001 * dt s * (1.0 - crfr1_density s)) s in
  let s := set_crfr1_density
             (clip (crfr1_density s + ucn_crfr1 * dt s) 0.2 1.5) s in
  let chronic_upmod := 0.00005 * chronic_stress_index s * dt s in
  let s := set_crfr2_density
             (crfr2_density s + chronic_upmod * (1.2 - crfr2_density s)) s in
  let s := set_crfr2_density
             (crfr2_density s + 0.00005 * dt s * (1.0 - crfr2_density s)) s in
  set_crfr2_density (clip (crfr2_density s + ucn_crfr2 * dt s) 0.5 1.8) s.

Definition _update_glands (s : env) : env :=
  let s := set_adrenal_mass
             (if Rgt_dec (acth s) 40 then adrenal_mass s + GLAND_GROWTH * dt s
              else if Rlt_dec (acth s) 15 then
                adrenal_mass s - GLAND_ATROPHY * dt s
              else adrenal_mass s) s in
  let s := set_pituitary_mass
             (if Rgt_dec (cortisol s) 25 then
                pituitary_mass s - GLAND_ATROPHY * dt s
              else if Rlt_dec (cortisol s) 10 then
                pituitary_mass s + GLAND_GROWTH * dt s
              else pituitary_mass s) s in
  let s := set_adrenal_mass (clip (adrenal_mass s) 0.5 2.0) s in
  let s := set_pituitary_mass (clip (pituitary_mass s) 0.5 2.0) s in
  let cnm := _cortisol_nm s in
  let s := set_gr_receptors
             (if Rgt_dec cnm 100 then gr_receptors s * (1 - 0.0001 * dt s)
              else gr_receptors s + 0.0001 * dt s * (1.0 - gr_receptors s))
             s in
  let s := set_mr_receptors
             (if Rgt_dec cnm 100 then mr_receptors s * (1 - 0.00005 * dt s)
              else mr_receptors s + 0.00005 * dt s * (1.0 - mr_receptors s))
             s in
  let s := set_gr_receptors (clip (gr_receptors s) 0.3 1.5) s in
  set_mr_receptors (clip (mr_receptors s) 0.5 1.2) s.

(** *** Rhythms and the observation *)

Definition _circadian_amplitude (s : env) : R :=
  let phase := 2 * PI * (time_hours s - 8) / 24 in
  let base_amplitude := 9.0 + 9.0 * cos phase in
  let avp_mod := 1.0 + 0.05 * (avp s - OPT_AVP) in
  let circadian_disruption :=
    Rmax 0.5 (1.0 - 0.1 * chronic_stress_index s) in
  base_amplitude * clip avp_mod 0.5 1.5 * circadian_disruption.

Definition _get_state (s : env) : list R :=
  let occ := _receptor_occupancy s in
  let mr_occ := fst occ in
  let gr_occ := snd occ in
  let cortisol_avg := mean (cortisol_history s) in
  let cortisol_trend := (cortisol s - cortisol_avg) / 10.0 in
  let hip_feedback := _hippocampal_feedback s mr_occ gr_occ in
  let ucn_tone := (ucn1 s + ucn23 s) / 2.0 in
  [ stress_emotional s / 5.0;
    stress_physical s / 5.0;
    crh s / 300.0;
    acth s / 100.0;
    cortisol s / 40.0;
    avp s / 20.0;
    beta_endorphin s / 30.0;
    melanocortin_tone s / 3.0;
    crfr1_density s / 1.5;
    crfr2_density s / 1.8;
    ucn_tone / 5.0;
    time_hours s / 24.0;
    cortisol_trend;
    _circadian_amplitude s / 20.0;
    mr_occ;
    gr_occ;
    hip_feedback;
    hippocampal_damage s;
    nts_drive s;
    gaba_inhibition s;
    sfo_drive s;
    cea_activity s;
    mea_activity s;
    pfc_inhibition s;
    lc_activity s;
    pituitary_mass s / 2.0;
    adrenal_mass s / 2.0 ].

(** *** [_allostatic_load]

    The method reads the state and its two arguments and assigns nothing;
    each [load += e] rebinds the local [load]. *)

Definition _allostatic_load (s : env) (mr_occ gr_occ : R) : R :=
  let load := 0.05 in
  (* cortisol deviation *)
  let dev := cortisol s - OPT_CORTISOL in
  let load :=
    if Rle_dec (Rabs dev) TOL_CORTISOL then
      load + 0.01 * (dev / TOL_CORTISOL) ^ 2
    else
      let excess := Rabs dev - TOL_CORTISOL in
      load + 0.5 * (excess / TOL_CORTISOL) ^ 2 in
  (* tissue damage *)
  let load :=
    if Rgt_dec (cortisol s) 25 then
      let excess := cortisol s - 25 in
      let load := load + excess * 0.3 in
      if Rgt_dec (cortisol s) 35 then
        let crisis := ((cortisol s - 35) / 10) ^ 2 in
        load + crisis * 2.0
      else load
    else if Rlt_dec (cortisol s) 5 then
      let deficit := 5 - cortisol s in
      let load := load + deficit * 0.7 in
      if Rlt_dec (cortisol s) 2 then
        let crisis := ((2 - cortisol s) / 2) ^ 2 in
        load + crisis * 5.0
      else load
    else load in
  (* ACTH and CRH dysregulation *)
  let acth_dev := Rabs (acth s - OPT_ACTH) in
  let load :=
    if Rgt_dec acth_dev TOL_ACTH then
      load + 0.02 * ((acth_dev - TOL_ACTH) / TOL_ACTH) ^ 2
    else load in
  let crh_dev := Rabs (crh s - OPT_CRH) in
  let load :=
    if Rgt_dec crh_dev TOL_CRH then
      load + 0.01 * ((crh_dev - TOL_CRH) / TOL_CRH) ^ 2
    else load in
  (* receptor occupancy against the context-optimal value *)
  let mr_cost := 0.5 * (mr_occ - 0.8) ^ 2 in
  let gr_optimal := if Rgt_dec (stress_level s) 5 then 0.7 else 0.3 in
  let gr_cost := 0.3 * (gr_occ - gr_optimal) ^ 2 in
  let load := load + (mr_cost + gr_cost) in
  (* receptor down-regulation *)
  let load :=
    load + 0.5 * ((1.0 - gr_receptors s) ^ 2 + (1.0 - mr_receptors s) ^ 2) in
  (* gland pathology *)
  let adrenal_path := (adrenal_mass s - 1.0) ^ 2 in
  let pituitary_path := (pituitary_mass s - 1.0) ^ 2 in
  let adrenal_path :=
    if Rlt_dec (adrenal_mass s) 0.5 then adrenal_path * 3.0
    else if Rgt_dec (adrenal_mass s) 1.5 then adrenal_path * 3.0
    else adrenal_path in
  let pituitary_path :=
    if Rlt_dec (pituitary_mass s) 0.5 then pituitary_path * 3.0
    else if Rgt_dec (pituitary_mass s) 1.5 then pituitary_path * 3.0
    else pituitary_path in
  let load := load + (adrenal_path + pituitary_path) * 0.3 in
  (* cortisol instability *)
  let load :=
    if (10 <=? length (cortisol_history s))%nat then
      let variance := var (last_n 10 (cortisol_history s)) in
      if Rgt_dec variance 25 then load + (variance - 25) / 100 else load
    else load in
  (* stress response appropriateness *)
  let load :=
    if Rgt_dec (stress_level s) 6 then
      let expected := 20 + stress_level s * 2 in
      let err := Rabs (cortisol s - expected) in
      if Rgt_dec err 10 then load + 0.5 * (err / 10) ^ 2 else load
    else if Rlt_dec (stress_level s) 2 then
      if Rgt_dec (cortisol s) 25 then
        load + 0.3 * ((cortisol s - 25) / 10) ^ 2
      else load
    else load in
  (* beta-endorphin buffering credit *)
  let load := load - 0.02 * Rmin (beta_endorphin s / 10.0) 1.0 in
  (* CRFR1/CRFR2 imbalance *)
  let load :=
    load + 0.05 * (Rabs (crfr1_density s - 1.0)
                   + Rabs (crfr2_density s - 1.0)) in
  (* chronic stress, CeA sensitisation, hippocampal damage *)
  let load := load + 0.02 * chronic_stress_index s in
  let load := load + 0.03 * cea_sensitisation s in
  let load := load + 0.1 * hippocampal_damage s ^ 2 in
  (* LC dysfunction *)
  let lc_optimal := 0.3 in
  let load := load + 0.05 * (lc_activity s - lc_optimal) ^ 2 in
  (* PFC inhibitory failure *)
  let load :=
    if Rlt_dec (pfc_inhibition s) 0.2 then
      load + 0.1 * (0.2 - pfc_inhibition s) ^ 2
    else load in
  Rmax 0.0 load.

(** *** The arcuate contributions [step] adds to hormone production *)

Definition arcuate_crh_boost (s : env) : R :=
  10.0 * Rabs (arcuate_metabolic_drive s).

Definition arcuate_acth_boost (s : env) : R :=
  5.0 * Rabs (arcuate_metabolic_drive s).

(** *** Methods that draw random numbers *)

Section WithRandomSource.
Context {G : Type} `{RandomSource G}.

(** [reset()]: returns the observation, the new state and the generator. *)
Definition reset (s : env) (g : G) : list R * env * G :=
  let r := rng_normal 0 20 g in
  let s := set_crh (100.0 + fst r) s in
  let r := rng_normal 0 5 (snd r) in
  let s := set_acth (25.0 + fst r) s in
  let r := rng_normal 0 2 (snd r) in
  let s := set_cortisol (12.0 + fst r) s in
  let r := rng_normal 0 0.5 (snd r) in
  let s := set_avp (4.0 + fst r) s in
  let r := rng_normal 0 1 (snd r) in
  let s := set_beta_endorphin (5.0 + fst r) s in
  let s := set_melanocortin_tone 1.0 s in
  let s := set_ucn1 1.0 s in
  let s := set_ucn23 1.0 s in
  let s := set_mr_receptors 1.0 s in
  let s := set_gr_receptors 1.0 s in
  let s := set_crfr1_density 1.0 s in
  let s := set_crfr2_density 1.0 s in
  let s := set_pituitary_mass 1.0 s in
  let s := set_adrenal_mass 1.0 s in
  let s := set_nts_drive 0.2 s in
  let s := set_gaba_inhibition 0.3 s in
  let s := set_sfo_drive 0.2 s in
  let s := set_cea_activity 0.2 s in
  let s := set_mea_activity 0.2 s in
  let s := set_cea_sensitisation 0.0 s in
  let s := set_pfc_inhibition 0.4 s in
  let s := set_lc_activity 0.2 s in
  let s := set_hippocampal_damage 0.0 s in
  let s := set_arcuate_metabolic_drive 0.0 s in
  let r := rng_uniform 0 1.5 (snd r) in
  let s := set_stress_physical (fst r) s in
  let r := rng_uniform 0 1.5 (snd r) in
  let s := set_stress_emotional (fst r) s in
  let s := set_chronic_stress_index 0.0 s in
  let r := rng_uniform 0 24 (snd r) in
  let s := set_time_hours (fst r) s in
  let s := set_day 0 s in
  let r := rng_uniform 0 (2 * PI) (snd r) in
  let s := set_ultradian_phase (fst r) s in
  let s := set__prev_cortisol (cortisol s) s in
  let s := set__fast_feedback_signal 0.0 s in
  let s := set_current_step 0 s in
  let s := set_cumulative_load 0.0 s in
  let s := set_cortisol_history [] s in
  let s := set_cortisol_history
             (fill _hist_len (cortisol s) (cortisol_history s) _hist_len) s in
  (_get_state s, s, snd r).

(** [__init__(time_step_hours, max_steps)]: stores the two parameters,
    creates the empty history and calls [reset], which assigns every other
    attribute (the placeholders below are all overwritten). *)
Definition init (time_step_hours : R) (max_steps : Z) (g : G) : env * G :=
  let s := mkEnv time_step_hours max_steps 0 0 0 0 0 0 0 0 0 0 0 0 0 0 0 0 0
             0 0 0 0 0 0 0 0 0 0 0 0 0 0 0 0 0 [] in
  let r := reset s g in
  (snd (fst r), snd r).

(** The defaults of [__init__]. *)
Definition default_time_step_hours : R := 0.1.
Definition default_max_steps : Z := 2400.

(** Returns the pulse; advances the phase and draws the noise. *)
Definition _ultradian_pulse (s : env) (g : G) : R * env * G :=
  let s := set_ultradian_phase
             (ultradian_phase s + 2 * PI * dt s / ultradian_period) s in
  let r := rng_normal 0 0.5 g in
  (3.0 * sin (ultradian_phase s) + fst r, s, snd r).

(** [step(action)]: returns [(observation, reward, done)], the new state and
    the generator.  [mr_occ] and [gr_occ] are computed once, from the cortisol
    the step starts with, and the same values reach [_allostatic_load]. *)
Definition step (action : Z) (s : env) (g : G) : outcome env G :=
  let crh_mod := IZR (action mod 3 - 1) * 0.3 in
  let acth_mod := IZR ((action / 3) mod 3 - 1) * 0.5 in
  let cort_mod := IZR ((action / 9) mod 3 - 1) * 0.8 in
  let s := set__prev_cortisol (cortisol s) s in
  (* regulatory signals *)
  let fb := _total_negative_feedback s in
  let total_feedback := fst (fst (fst fb)) in
  let mr_occ := snd (fst (fst fb)) in
  let gr_occ := snd (fst fb) in
  let s := snd fb in
  (* limbic and upstream structures *)
  let s := _update_amygdala mr_occ gr_occ s in
  let s := _update_pfc mr_occ gr_occ s in
  let s := _update_lc s in
  let s := _update_sfo s in
  let s := _update_arcuate s in
  let s := _update_upstream_signals mr_occ gr_occ s in
  let s := _update_urocortins s in
  let s := _update_hippocampal_damage gr_occ s in
  let avp_synergy :=
    1.0 + 0.15 * (avp s / OPT_AVP - 1.0)
          * (1.0 + 0.2 * chronic_stress_index s) in
  let crfr2_brake := Rmax 0.5 (1.0 - 0.2 * (crfr2_density s - 1.0)) in
  let crh_to_acth_efficiency := crfr1_density s * crfr2_brake in
  let arcuate_crh_boost := arcuate_crh_boost s in
  let arcuate_acth_boost := arcuate_acth_boost s in
  let mea_crh_drive := 10.0 * mea_activity s in
  let lc_acth_contribution := 3.0 * lc_activity s in
  (* CRH dynamics *)
  let crh_production :=
    CRH_BASAL + 10.0 * stress_level s + 30.0 * nts_drive s
    + 15.0 * sfo_drive s + mea_crh_drive + arcuate_crh_boost
    - CRH_BASAL * total_feedback * 0.8 - 20.0 * gaba_inhibition s
    + crh_mod * 20.0 in
  let crh_decay := k_crh * crh s in
  let s := set_crh (clip (crh s + (crh_production - crh_decay) * dt s)
                      0.0 400.0) s in
  (* ACTH dynamics *)
  let crh_stimulation := 0.2 * (crh s - 100.0) * crh_to_acth_efficiency in
  let avp_contribution := 0.1 * (avp s - OPT_AVP) * avp_synergy in
  let acth_production :=
    ACTH_BASAL * pituitary_mass s + crh_stimulation + avp_contribution
    + lc_acth_contribution + arcuate_acth_boost
    - ACTH_BASAL * total_feedback * 0.5 + acth_mod * 10.0 in
  let acth_decay := k_acth * acth s in
  let s := set_acth (clip (acth s + (acth_production - acth_decay) * dt s)
                       0.0 200.0) s in
  (* cortisol dynamics *)
  let circadian_drive := _circadian_amplitude s in
  let up := _ultradian_pulse s g in
  let ultradian := fst (fst up) in
  let s := snd (fst up) in
  let g := snd up in
  let acth_stim := 0.15 * (acth s - OPT_ACTH) * adrenal_mass s in
  let stress_direct := 2.0 * stress_level s in
  let cort_production :=
    (circadian_drive / 12.0) * CORT_BASAL + acth_stim + stress_direct
    + ultradian * 0.3 + cort_mod * 2.0 in
  let cort_decay := k_cort * cortisol s in
  let s := set_cortisol
             (clip (cortisol s + (cort_production - cort_decay) * dt s)
                0.0 60.0) s in
  let s := set_cortisol_history
             (deque_append _hist_len (cortisol_history s) (cortisol s)) s in
  let s := _update_pomc_products s in
  let s := _update_avp s in
  (* structural adaptation *)
  let s := _update_glands s in
  let s := _update_crf_receptors s in
  (* time *)
  let s := set_time_hours (time_hours s + dt s) s in
  let wrap := Rge_dec (time_hours s) 24.0 in
  let s := set_time_hours
             (if wrap then time_hours s - 24.0 else time_hours s) s in
  let s := set_day (if wrap then day s + 1 else day s)%Z s in
  (* stress process *)
  let s := set_stress_physical (Rmax 0.0 (stress_physical s * 0.97 - 0.03)) s in
  let s := set_stress_emotional
             (Rmax 0.0 (stress_emotional s * 0.97 - 0.03)) s in
  let r := rng_random g in
  let event := Rlt_dec (fst r) 0.02 in
  let c := rng_choice [2; 5; 8] [0.6; 0.3; 0.1] (snd r) in
  let magnitude := fst c in
  let r2 := rng_random (snd c) in
  let is_physical := Rlt_dec (fst r2) 0.4 in
  let s := set_stress_physical
             (if event then
                if is_physical then Rmin 10.0 (stress_physical s + magnitude)
                else stress_physical s
              else stress_physical s) s in
  let s := set_stress_emotional
             (if event then
                if is_physical then stress_emotional s
                else Rmin 10.0 (stress_emotional s + magnitude)
              else stress_emotional s) s in
  let g := if event then snd r2 else snd r in
  (* chronic stress index *)
  let s := set_chronic_stress_index
             (clip (chronic_stress_index s * (1 - 0.001 * dt s)
                    + 0.001 * stress_level s * dt s) 0.0 5.0) s in
  (* reward *)
  let allostatic_load := _allostatic_load s mr_occ gr_occ in
  let s := set_cumulative_load (cumulative_load s + allostatic_load) s in
  let reward := 5.0 - allostatic_load in
  let s := set_current_step (current_step s + 1)%Z s in
  let done := (current_step s >=? max_steps s)%Z in
  ((_get_state s, reward, done), s, g).

(** The agent loop: one [step] per action, collecting the [done] flags. *)
Fixpoint run (actions : list Z) (s : env) (g : G) : list bool * env * G :=
  match actions with
  | [] => ([], s, g)
  | a :: rest =>
      let r := step a s g in
      let r' := run rest (state_of r) (gen_of r) in
      (done_of r :: fst (fst r'), snd (fst r'), snd r')
  end.

End WithRandomSource.

(** *** The range invariant and reference states *)

(** The declared closed interval of every bounded state variable. *)
Definition bounded (s : env) : Prop :=
  0 <= cortisol s <= 60 /\ 0 <= acth s <= 200 /\ 0 <= crh s <= 400 /\
  0.5 <= avp s <= 30 /\ 0 <= beta_endorphin s <= 40 /\
  0.5 <= adrenal_mass s <= 2.0 /\ 0.5 <= pituitary_mass s <= 2.0 /\
  0.3 <= gr_receptors s <= 1.5 /\ 0.5 <= mr_receptors s <= 1.2 /\
  0 <= stress_physical s <= 10 /\ 0 <= stress_emotional s <= 10 /\
  0 <= chronic_stress_index s <= 5 /\
  0.1 <= melanocortin_tone s <= 3.0 /\
  0.1 <= ucn1 s <= 5.0 /\ 0.1 <= ucn23 s <= 8.0 /\
  0.2 <= crfr1_density s <= 1.5 /\ 0.5 <= crfr2_density s <= 1.8 /\
  0 <= nts_drive s <= 1 /\ 0 <= gaba_inhibition s <= 1 /\
  0 <= sfo_drive s <= 1 /\ 0 <= cea_activity s <= 1 /\
  0 <= mea_activity s <= 1 /\ 0 <= cea_sensitisation s <= 2 /\
  0 <= pfc_inhibition s <= 1 /\ 0 <= lc_activity s <= 1 /\
  0 <= hippocampal_damage s <= 1 /\
  -1 <= arcuate_metabolic_drive s <= 1.

(** The state [reset] produces when every draw is zero, at 08:00. *)
Definition basal : env :=
  mkEnv 0.1 2400 100.0 25.0 12.0 4.0 5.0 1.0 1.0 1.0 1.0 1.0 1.0 1.0 1.0 1.0
    0.2 0.3 0.2 0.2 0.2 0.0 0.4 0.2 0.0 0.0 0.0 0.0 0.0 8.0 0 0 12.0 0.0 0
    0.0 (repeat 12.0 50).

(** The same state late in an ultradian cycle: the phase is in [0, 2 PI). *)
Definition late_phase : env := set_ultradian_phase (2 * PI * 29 / 30) basal.

End Extended.

(** * The agents and the loops that drive the environments

    Both files end with a tabular Q-learning agent and the loops that run
    it.  [print] and the values computed only to be printed are left out;
    an expression inside a [print] that can raise is kept.  Python's
    exceptions are results, and a [while] loop runs on fuel. *)

Inductive exn : Type :=
  ValueError | IndexError | KeyError | ZeroDivisionError.

Inductive result (A : Type) : Type :=
| Ok (a : A)
| Raise (e : exn)
| OutOfFuel.

Arguments Ok {A} a.
Arguments Raise {A} e.
Arguments OutOfFuel {A}.

Definition bind {A B : Type} (r : result A) (k : A -> result B) : result B :=
  match r with
  | Ok a => k a
  | Raise e => Raise e
  | OutOfFuel => OutOfFuel
  end.

Notation "x <- e ;; k" := (bind e (fun x => k))
  (at level 61, e at next level, right associativity).

(** ** numpy on lists *)

(** [np.zeros(n)]: a negative size raises. *)
Definition zeros (n : Z) : result (list R) :=
  if (n <? 0)%Z then Raise ValueError else Ok (repeat 0 (Z.to_nat n)).

(** [np.rint]: to the nearest integer, a tie to the even one. *)
Definition rint (x : R) : Z :=
  let f := Int_part x in
  let r := frac_part x in
  if Rlt_dec r (1 / 2) then f
  else if Rgt_dec r (1 / 2) then (f + 1)%Z
  else if Z.even f then f else (f + 1)%Z.

(** [np.round(x, 1)], which numpy computes as [rint(x * 10) / 10]. *)
Definition round1 (x : R) : R := IZR (rint (x * 10)) / 10.

(** [np.argmax]: the first index of the largest entry. *)
Fixpoint argmax_from (best : R) (best_i i : nat) (l : list R) : nat :=
  match l with
  | [] => best_i
  | x :: l' =>
      if Rlt_dec best x then argmax_from x i (S i) l'
      else argmax_from best best_i (S i) l'
  end.

Definition argmax (l : list R) : result nat :=
  match l with
  | [] => Raise ValueError
  | x :: l' => Ok (argmax_from x 0 1 l')
  end.

(** [np.max] *)
Definition amax (l : list R) : result R :=
  match l with
  | [] => Raise ValueError
  | x :: l' => Ok (fold_left Rmax l' x)
  end.

(** The position an integer index denotes in an array of [n] entries:
    negative indices count from the end, anything else raises. *)
Definition index (n : nat) (i : Z) : result nat :=
  if ((0 <=? i) && (i <? Z.of_nat n))%Z then Ok (Z.to_nat i)
  else if ((- Z.of_nat n <=? i) && (i <? 0))%Z then
    Ok (Z.to_nat (i + Z.of_nat n))
  else Raise IndexError.

(** [row[i] = v] at a position in range. *)
Fixpoint assign (i : nat) (v : R) (row : list R) : list R :=
  match row, i with
  | [], _ => []
  | _ :: row', O => v :: row'
  | x :: row', S i' => x :: assign i' v row'
  end.

(** [d.append(x)] on a [deque(maxlen=n)] of any element type. *)
Definition deque_push {A : Type} (n : nat) (d : list A) (x : A) : list A :=
  let d' := d ++ [x] in skipn (length d' - n) d'.

(** ** The Q-table: a [dict] from rounded observations to rows

    Keys are tuples of floats; entries keep their insertion order. *)

Definition key : Type := list R.
Definition table : Type := list (key * list R).

Definition key_eq_dec : forall k1 k2 : key, {k1 = k2} + {k1 <> k2} :=
  list_eq_dec Req_dec_T.

(** [d.get(k)] *)
Fixpoint lookup (k : key) (t : table) : option (list R) :=
  match t with
  | [] => None
  | (k', row) :: t' => if key_eq_dec k k' then Some row else lookup k t'
  end.

(** [d[k] = row] *)
Fixpoint store (k : key) (row : list R) (t : table) : table :=
  match t with
  | [] => [(k, row)]
  | (k', row') :: t' =>
      if key_eq_dec k k' then (k, row) :: t'
      else (k', row') :: store k row t'
  end.

(** ** Python's [random] module

    A generator apart from numpy's: [random.randrange(n)] and
    [random.sample(population, k)]. *)
Class PyRandom (P : Type) : Type := {
  py_randrange : Z -> P -> Z * P;
  py_sample : forall A : Type, list A -> nat -> P -> list A * P
}.

(** What the two libraries guarantee of their draws. *)
Definition random_sound (G : Type) `{RandomSource G} : Prop :=
  forall g : G, 0 <= fst (rng_random g) < 1.

Definition randrange_sound (P : Type) `{PyRandom P} : Prop :=
  forall (n : Z) (p : P), (0 < n)%Z -> (0 <= fst (py_randrange n p) < n)%Z.

Definition sample_sound (P : Type) `{PyRandom P} : Prop :=
  forall (A : Type) (l : list A) (k : nat) (p : P),
    (k <= length l)%nat ->
    length (fst (py_sample A l k p)) = k /\
    incl (fst (py_sample A l k p)) l.

(** Replayable sources for both libraries: a tape of decimal digits.  A
    uniform draw is the next digit over ten, a normal draw is centred on
    the digit 5, [randrange] reduces the digit modulo its bound and
    [sample] takes a prefix. *)
Definition digits : Type := list nat.

Definition digit (t : digits) : nat := (hd 0%nat t mod 10)%nat.

#[export] Instance digit_source : RandomSource digits := {
  rng_normal mu sigma t := (mu + sigma * (INR (digit t) - 5) / 5, tl t);
  rng_uniform lo hi t := (lo + (hi - lo) * INR (digit t) / 10, tl t);
  rng_random t := (INR (digit t) / 10, tl t);
  rng_choice a p t := (nth (digit t mod length a) a (hd 0 a), tl t)
}.

#[export] Instance digit_random : PyRandom digits := {
  py_randrange n t := ((Z.of_nat (digit t) mod n)%Z, tl t);
  py_sample A l k t := (firstn k l, tl t)
}.

(** ** [CurriculumDQNAgent] (src/hpa.py) *)

Module CurriculumDQNAgent.

(** One remembered experience: [(state, action, reward, next_state, done)]. *)
Definition transition : Type := list R * Z * R * list R * bool.

(** The [dict] that [train_curriculum_stage] appends to [stage_history]. *)
Record stage_entry : Type := mkStage {
  stage : string;
  episodes : Z;
  scores : list R;
  avg_scores : list R;
  final_epsilon : R;
  final_q_size : nat
}.

Record agent : Type := mkAgent {
  state_size : Z;
  action_size : Z;
  memory : list transition;
  gamma : R;
  epsilon : R;
  epsilon_min : R;
  epsilon_decay : R;
  learning_rate : R;
  batch_size : Z;
  q_table : table;
  learn_step : Z;
  stage_history : list stage_entry
}.

Definition set_state_size (v : Z) (a : agent) : agent :=
  mkAgent v (action_size a) (memory a) (gamma a) (epsilon a) (epsilon_min a)
    (epsilon_decay a) (learning_rate a) (batch_size a) (q_table a)
    (learn_step a) (stage_history a).
Definition set_action_size (v : Z) (a : agent) : agent :=
  mkAgent (state_size a) v (memory a) (gamma a) (epsilon a) (epsilon_min a)
    (epsilon_decay a) (learning_rate a) (batch_size a) (q_table a)
    (learn_step a) (stage_history a).
Definition set_memory (v : list transition) (a : agent) : agent :=
  mkAgent (state_size a) (action_size a) v (gamma a) (epsilon a)
    (epsilon_min a) (epsilon_decay a) (learning_rate a) (batch_size a)
    (q_table a) (learn_step a) (stage_history a).
Definition set_gamma (v : R) (a : agent) : agent :=
  mkAgent (state_size a) (action_size a) (memory a) v (epsilon a)
    (epsilon_min a) (epsilon_decay a) (learning_rate a) (batch_size a)
    (q_table a) (learn_step a) (stage_history a).
Definition set_epsilon (v : R) (a : agent) : agent :=
  mkAgent (state_size a) (action_size a) (memory a) (gamma a) v
    (epsilon_min a) (epsilon_decay a) (learning_rate a) (batch_size a)
    (q_table a) (learn_step a) (stage_history a).
Definition set_epsilon_min (v : R) (a : agent) : agent :=
  mkAgent (state_size a) (action_size a) (memory a) (gamma a) (epsilon a) v
    (epsilon_decay a) (learning_rate a) (batch_size a) (q_table a)
    (learn_step a) (stage_history a).
Definition set_epsilon_decay (v : R) (a : agent) : agent :=
  mkAgent (state_size a) (action_size a) (memory a) (gamma a) (epsilon a)
    (epsilon_min a) v (learning_rate a) (batch_size a) (q_table a)
    (learn_step a) (stage_history a).
Definition set_learning_rate (v : R) (a : agent) : agent :=
  mkAgent (state_size a) (action_size a) (memory a) (gamma a) (epsilon a)
    (epsilon_min a) (epsilon_decay a) v (batch_size a) (q_table a)
    (learn_step a) (stage_history a).
Definition set_batch_size (v : Z) (a : agent) : agent :=
  mkAgent (state_size a) (action_size a) (memory a) (gamma a) (epsilon a)
    (epsilon_min a) (epsilon_decay a) (learning_rate a) v (q_table a)
    (learn_step a) (stage_history a).
Definition set_q_table (v : table) (a : agent) : agent :=
  mkAgent (state_size a) (action_size a) (memory a) (gamma a) (epsilon a)
    (epsilon_min a) (epsilon_decay a) (learning_rate a) (batch_size a) v
    (learn_step a) (stage_history a).
Definition set_learn_step (v : Z) (a : agent) : agent :=
  mkAgent (state_size a) (action_size a) (memory a) (gamma a) (epsilon a)
    (epsilon_min a) (epsilon_decay a) (learning_rate a) (batch_size a)
    (q_table a) v (stage_history a).
Definition set_stage_history (v : list stage_entry) (a : agent) : agent :=
  mkAgent (state_size a) (action_size a) (memory a) (gamma a) (epsilon a)
    (epsilon_min a) (epsilon_decay a) (learning_rate a) (batch_size a)
    (q_table a) (learn_step a) v.

(** [__init__(state_size, action_size, learning_rate)] *)
Definition init (state_size action_size : Z) (learning_rate : R) : agent :=
  mkAgent state_size action_size [] 0.98 1.0 0.01 0.9995 learning_rate 128
    [] 0 [].

Definition default_learning_rate : R := 0.0005.

(** The [maxlen] of the [memory] deque. *)
Definition memory_maxlen : nat := Z.to_nat 10000.

Definition _discretize_state (state : list R) : key := map round1 state.

(** Returns the row and the agent, whose table has gained a row of zeros
    when the key was missing. *)
Definition get_q_values (state : list R) (a : agent) : result (list R * agent) :=
  let state_key := _discretize_state state in
  match lookup state_key (q_table a) with
  | Some row => Ok (row, a)
  | None =>
      row <- zeros (action_size a) ;;
      Ok (row, set_q_table (store state_key row (q_table a)) a)
  end.

Definition remember (state : list R) (action : Z) (reward : R)
    (next_state : list R) (done : bool) (a : agent) : agent :=
  set_memory
    (deque_push memory_maxlen (memory a)
       (state, action, reward, next_state, done)) a.

(** The body of the loop of [replay] for one experience of the batch. *)
Definition replay_one (a : agent) (tr : transition) : result agent :=
  let '(state, action, reward, next_state, done) := tr in
  let state_key := _discretize_state state in
  let next_state_key := _discretize_state next_state in
  a <- match lookup state_key (q_table a) with
       | Some _ => Ok a
       | None =>
           row <- zeros (action_size a) ;;
           Ok (set_q_table (store state_key row (q_table a)) a)
       end ;;
  a <- match lookup next_state_key (q_table a) with
       | Some _ => Ok a
       | None =>
           row <- zeros (action_size a) ;;
           Ok (set_q_table (store next_state_key row (q_table a)) a)
       end ;;
  target <- (if done then Ok reward
             else
               match lookup next_state_key (q_table a) with
               | Some row => m <- amax row ;; Ok (reward + gamma a * m)
               | None => Raise KeyError
               end) ;;
  match lookup state_key (q_table a) with
  | Some row =>
      i <- index (length row) action ;;
      let current_q := nth i row 0 in
      let row := assign i (nth i row 0 + learning_rate a * (target - current_q))
                   row in
      Ok (set_q_table (store state_key row (q_table a)) a)
  | None => Raise KeyError
  end.

Fixpoint replay_batch (a : agent) (batch : list transition) : result agent :=
  match batch with
  | [] => Ok a
  | tr :: batch' => a <- replay_one a tr ;; replay_batch a batch'
  end.

(** [reset_epsilon(new_epsilon)]; [None] is the default argument. *)
Definition reset_epsilon (new_epsilon : option R) (a : agent) : agent :=
  match new_epsilon with
  | Some e => set_epsilon e a
  | None => set_epsilon (Rmin (epsilon a * 1.5) 0.3) a
  end.

Section WithRandomSources.
Context {G : Type} `{RandomSource G} {P : Type} `{PyRandom P}.

(** [act(state)]: the exploration draw comes from numpy's generator, the
    random action from Python's. *)
Definition act (state : list R) (a : agent) (g : G) (p : P)
  : result (Z * agent * G * P) :=
  let r := rng_random g in
  if Rlt_dec (fst r) (epsilon a) then
    if (action_size a <=? 0)%Z then Raise ValueError
    else
      let rp := py_randrange (action_size a) p in
      Ok (fst rp, a, snd r, snd rp)
  else
    q <- get_q_values state a ;;
    i <- argmax (fst q) ;;
    Ok (Z.of_nat i, snd q, snd r, p).

Definition replay (a : agent) (p : P) : result (agent * P) :=
  if (Z.of_nat (length (memory a)) <? batch_size a)%Z then Ok (a, p)
  else if (batch_size a <? 0)%Z then Raise ValueError
  else
    let sp := py_sample transition (memory a) (Z.to_nat (batch_size a)) p in
    a <- replay_batch a (fst sp) ;;
    let a := set_epsilon
               (if Rgt_dec (epsilon a) (epsilon_min a)
                then epsilon a * epsilon_decay a else epsilon a) a in
    let a := set_learn_step (learn_step a + 1)%Z a in
    Ok (a, snd sp).

End WithRandomSources.

End CurriculumDQNAgent.

(** ** The loops of src/hpa.py *)

Module Curriculum.
Import CurriculumDQNAgent.

(** The passes an episode loop makes from [env]: up to the horizon, and
    one at least. *)
Definition steps_left (env : Simple.env) : nat :=
  Z.to_nat (Z.max 1 (Simple.max_steps env - Simple.current_step env)).

Section WithRandomSources.
Context {G : Type} `{RandomSource G} {P : Type} `{PyRandom P}.

(** The variables an episode loop carries, with the objects it mutates and
    the two generators. *)
Record episode : Type := mkEpisode {
  state : list R;
  total_reward : R;
  total_allocastic_load : R;
  step_count : Z;
  the_agent : agent;
  the_env : Simple.env;
  np_random : G;
  py_random : P
}.

(** One pass through the body of [while not done] in
    [train_curriculum_stage]; returns [done] with the new variables. *)
Definition train_body (e : episode) : result (bool * episode) :=
  r <- act (state e) (the_agent e) (np_random e) (py_random e) ;;
  let '(action, ag, g, p) := r in
  let out := Simple.step action (the_env e) g in
  let next_state := obs_of out in
  let reward := reward_of out in
  let done := done_of out in
  let allostatic_load := 5.0 - reward in
  let total_allocastic_load := total_allocastic_load e + allostatic_load in
  let ag := remember (state e) action reward next_state done ag in
  rp <- replay ag p ;;
  let total_reward := total_reward e + reward in
  Ok (done,
      mkEpisode next_state total_reward total_allocastic_load
        (step_count e + 1)%Z (fst rp) (state_of out) (gen_of out) (snd rp)).

(** [while not done: ...] with [done = False] before it: the body runs at
    least once. *)
Fixpoint train_while (fuel : nat) (e : episode) : result episode :=
  match fuel with
  | O => OutOfFuel
  | S fuel' =>
      r <- train_body e ;;
      if fst r then Ok (snd r) else train_while fuel' (snd r)
  end.

(** The loop variables of [train_curriculum_stage] between episodes. *)
Record progress : Type := mkProgress {
  scores_so_far : list R;
  avg_scores_so_far : list R;
  agent_so_far : agent;
  env_so_far : Simple.env;
  np_so_far : G;
  py_so_far : P
}.

(** One pass through [for episode in range(episodes)].  The load per hour
    is a quotient of numpy floats, which is inf or nan with a warning for
    a zero divisor and never an exception; it is only printed. *)
Definition train_episode (fuel : nat) (pr : progress) : result progress :=
  let rs := Simple.reset (env_so_far pr) (np_so_far pr) in
  e <- train_while fuel
         (mkEpisode (fst (fst rs)) 0 0 0 (agent_so_far pr) (snd (fst rs))
            (snd rs) (py_so_far pr)) ;;
  let scores := scores_so_far pr ++ [total_reward e] in
  let avg_score :=
    if (50 <=? length scores)%nat then mean (last_n 50 scores)
    else mean scores in
  let avg_scores := avg_scores_so_far pr ++ [avg_score] in
  Ok (mkProgress scores avg_scores (the_agent e) (the_env e) (np_random e)
        (py_random e)).

Fixpoint train_for (n fuel : nat) (pr : progress) : result progress :=
  match n with
  | O => Ok pr
  | S n' => pr <- train_episode fuel pr ;; train_for n' fuel pr
  end.

(** [train_curriculum_stage(agent, env, stage_name, episodes)]: returns the
    scores with the agent, the environment and the generators.  The last
    [print] reads [avg_scores[-1]], which raises on an empty list. *)
Definition train_curriculum_stage (fuel : nat) (ag : agent)
    (env : Simple.env) (stage_name : string) (episodes : Z) (g : G) (p : P)
  : result (list R * agent * Simple.env * G * P) :=
  pr <- train_for (Z.to_nat episodes) fuel (mkProgress [] [] ag env g p) ;;
  let ag := agent_so_far pr in
  let ag :=
    set_stage_history
      (stage_history ag
       ++ [mkStage stage_name episodes (scores_so_far pr)
             (avg_scores_so_far pr) (epsilon ag) (length (q_table ag))])
      ag in
  match avg_scores_so_far pr with
  | [] => Raise IndexError
  | _ :: _ =>
      Ok (scores_so_far pr, ag, env_so_far pr, np_so_far pr, py_so_far pr)
  end.

(** One pass through the body of [while not done] in
    [test_agent_on_stage]. *)
Definition test_body (e : episode) : result (bool * episode) :=
  r <- act (state e) (the_agent e) (np_random e) (py_random e) ;;
  let '(action, ag, g, p) := r in
  let out := Simple.step action (the_env e) g in
  let next_state := obs_of out in
  let reward := reward_of out in
  let done := done_of out in
  let allostatic_load := 5.0 - reward in
  let total_allocastic_load := total_allocastic_load e + allostatic_load in
  let total_reward := total_reward e + reward in
  Ok (done,
      mkEpisode next_state total_reward total_allocastic_load (step_count e)
        ag (state_of out) (gen_of out) p).

Fixpoint test_while (fuel : nat) (e : episode) : result episode :=
  match fuel with
  | O => OutOfFuel
  | S fuel' =>
      r <- test_body e ;;
      if fst r then Ok (snd r) else test_while fuel' (snd r)
  end.

Definition test_episode (fuel : nat) (pr : progress) : result progress :=
  let rs := Simple.reset (env_so_far pr) (np_so_far pr) in
  e <- test_while fuel
         (mkEpisode (fst (fst rs)) 0 0 0 (agent_so_far pr) (snd (fst rs))
            (snd rs) (py_so_far pr)) ;;
  Ok (mkProgress (scores_so_far pr ++ [total_reward e]) []
        (the_agent e) (the_env e) (np_random e) (py_random e)).

Fixpoint test_for (n fuel : nat) (pr : progress) : result progress :=
  match n with
  | O => Ok pr
  | S n' => pr <- test_episode fuel pr ;; test_for n' fuel pr
  end.

(** [test_agent_on_stage(agent, stage_name, n_episodes)]: builds its own
    environment, plays greedily and puts the agent's epsilon back. *)
Definition test_agent_on_stage (fuel : nat) (ag : agent)
    (stage_name : string) (n_episodes : Z) (g : G) (p : P)
  : result (list R * agent * G * P) :=
  let ie := Simple.init 0.1 stage_name g in
  let env := fst ie in
  let g := snd ie in
  let original_epsilon := epsilon ag in
  let ag := set_epsilon 0 ag in
  pr <- test_for (Z.to_nat n_episodes) fuel (mkProgress [] [] ag env g p) ;;
  let ag := set_epsilon original_epsilon (agent_so_far pr) in
  Ok (scores_so_far pr, ag, np_so_far pr, py_so_far pr).

(** [train_with_curriculum(visualize=False)]: three stages on one agent,
    each in its own environment, then three tests; returns the agent with
    the generators.  The plot of [visualize=True] is outside the model. *)
Definition train_with_curriculum (fuel : nat) (g : G) (p : P)
  : result (agent * G * P) :=
  let ag := init 12 9 default_learning_rate in
  let ie := Simple.init 0.1 "child" g in
  r <- train_curriculum_stage fuel ag (fst ie) "child" 100 (snd ie) p ;;
  let '(_, ag, _, g, p) := r in
  let ag := reset_epsilon (Some 0.3) ag in
  let ie := Simple.init 0.1 "adolescent" g in
  r <- train_curriculum_stage fuel ag (fst ie) "adolescent" 150 (snd ie) p ;;
  let '(_, ag, _, g, p) := r in
  let ag := reset_epsilon (Some 0.2) ag in
  let ie := Simple.init 0.1 "adult" g in
  r <- train_curriculum_stage fuel ag (fst ie) "adult" 200 (snd ie) p ;;
  let '(_, ag, _, g, p) := r in
  r <- test_agent_on_stage fuel ag "child" 3 g p ;;
  let '(_, ag, g, p) := r in
  r <- test_agent_on_stage fuel ag "adolescent" 3 g p ;;
  let '(_, ag, g, p) := r in
  r <- test_agent_on_stage fuel ag "adult" 3 g p ;;
  let '(_, ag, g, p) := r in
  Ok (ag, g, p).

End WithRandomSources.

End Curriculum.

(** ** What the agent keeps true of itself *)

Module AgentInvariants.
Import CurriculumDQNAgent.

Definition action_of (tr : transition) : Z := snd (fst (fst (fst tr))).
Definition reward_in (tr : transition) : R := snd (fst (fst tr)).

(** Every row has one entry per action. *)
Definition rows_ok (a : agent) : Prop :=
  forall k row, lookup k (q_table a) = Some row ->
                Z.of_nat (length row) = action_size a.

(** Every remembered action is an index of a row. *)
Definition actions_ok (a : agent) : Prop :=
  forall tr, In tr (memory a) -> (0 <= action_of tr < action_size a)%Z.

Definition agent_ok (a : agent) : Prop :=
  (0 < action_size a)%Z /\ (0 <= batch_size a)%Z /\
  rows_ok a /\ actions_ok a.

(** The row the agent reads at [k]: the stored one, or the zeros that a
    first visit stores. *)
Definition row_of (k : key) (a : agent) : list R :=
  match lookup k (q_table a) with
  | Some row => row
  | None => repeat 0 (Z.to_nat (action_size a))
  end.

(** No Q-value above [b]; no remembered reward above [r]. *)
Definition q_le (b : R) (a : agent) : Prop :=
  forall k row, lookup k (q_table a) = Some row ->
                Forall (fun q => q <= b) row.

Definition rewards_le (r : R) (a : agent) : Prop :=
  forall tr, In tr (memory a) -> reward_in tr <= r.

(** The table of [a'] has every key of the table of [a]. *)
Definition keeps_keys (a a' : agent) : Prop :=
  forall k, lookup k (q_table a) <> None -> lookup k (q_table a') <> None.

(** The table of [a'] has every row of the table of [a], unchanged. *)
Definition keeps_rows (a a' : agent) : Prop :=
  forall k row, lookup k (q_table a) = Some row ->
                lookup k (q_table a') = Some row.

(** [a'] differs from [a] in the table at most. *)
Definition same_but_table (a a' : agent) : Prop :=
  a' = set_q_table (q_table a') a.

(** The exploration rate of [a'] has come from that of [a] by decay: it
    is no larger, and no smaller than one decay below the floor. *)
Definition decayed (a a' : agent) : Prop :=
  (0 <= epsilon_min a -> epsilon_decay a <= 1 -> epsilon a' <= epsilon a) /\
  (0 <= epsilon_decay a ->
   Rmin (epsilon a) (epsilon_min a * epsilon_decay a) <= epsilon a').

(** [a'] has the settings of [a], and a decayed exploration rate. *)
Definition same_settings (a a' : agent) : Prop :=
  state_size a' = state_size a /\ action_size a' = action_size a /\
  gamma a' = gamma a /\ epsilon_min a' = epsilon_min a /\
  epsilon_decay a' = epsilon_decay a /\
  learning_rate a' = learning_rate a /\ batch_size a' = batch_size a /\
  decayed a a'.

(** An agent in order whose Q-values and remembered rewards are bounded. *)
Definition trained_ok (b : R) (a : agent) : Prop :=
  agent_ok a /\ q_le b a /\ rewards_le 5 a.

(** The learning settings under which [b] bounds the Q-values. *)
Definition bound_fits (b : R) (a : agent) : Prop :=
  0 <= b /\ 0 <= learning_rate a <= 1 /\ 0 <= gamma a /\
  5 + gamma a * b <= b.

End AgentInvariants.

(** ** [DQNAgent] (src/Python Implementation/hpa.py) *)

Module DQNAgent.

(** One remembered experience: [(state, action, reward, next_state, done)]. *)
Definition transition : Type := list R * Z * R * list R * bool.

Record agent : Type := mkAgent {
  state_size : Z;
  action_size : Z;
  lr : R;
  gamma : R;
  epsilon : R;
  epsilon_min : R;
  epsilon_decay : R;
  batch_size : Z;
  memory_size : Z;
  memory : list transition;
  q_table : table
}.

Definition set_state_size (v : Z) (a : agent) : agent :=
  mkAgent v (action_size a) (lr a) (gamma a) (epsilon a) (epsilon_min a)
    (epsilon_decay a) (batch_size a) (memory_size a) (memory a) (q_table a).
Definition set_action_size (v : Z) (a : agent) : agent :=
  mkAgent (state_size a) v (lr a) (gamma a) (epsilon a) (epsilon_min a)
    (epsilon_decay a) (batch_size a) (memory_size a) (memory a) (q_table a).
Definition set_lr (v : R) (a : agent) : agent :=
  mkAgent (state_size a) (action_size a) v (gamma a) (epsilon a)
    (epsilon_min a) (epsilon_decay a) (batch_size a) (memory_size a)
    (memory a) (q_table a).
Definition set_gamma (v : R) (a : agent) : agent :=
  mkAgent (state_size a) (action_size a) (lr a) v (epsilon a)
    (epsilon_min a) (epsilon_decay a) (batch_size a) (memory_size a)
    (memory a) (q_table a).
Definition set_epsilon (v : R) (a : agent) : agent :=
  mkAgent (state_size a) (action_size a) (lr a) (gamma a) v (epsilon_min a)
    (epsilon_decay a) (batch_size a) (memory_size a) (memory a) (q_table a).
Definition set_epsilon_min (v : R) (a : agent) : agent :=
  mkAgent (state_size a) (action_size a) (lr a) (gamma a) (epsilon a) v
    (epsilon_decay a) (batch_size a) (memory_size a) (memory a) (q_table a).
Definition set_epsilon_decay (v : R) (a : agent) : agent :=
  mkAgent (state_size a) (action_size a) (lr a) (gamma a) (epsilon a)
    (epsilon_min a) v (batch_size a) (memory_size a) (memory a) (q_table a).
Definition set_batch_size (v : Z) (a : agent) : agent :=
  mkAgent (state_size a) (action_size a) (lr a) (gamma a) (epsilon a)
    (epsilon_min a) (epsilon_decay a) v (memory_size a) (memory a)
    (q_table a).
Definition set_memory_size (v : Z) (a : agent) : agent :=
  mkAgent (state_size a) (action_size a) (lr a) (gamma a) (epsilon a)
    (epsilon_min a) (epsilon_decay a) (batch_size a) v (memory a)
    (q_table a).
Definition set_memory (v : list transition) (a : agent) : agent :=
  mkAgent (state_size a) (action_size a) (lr a) (gamma a) (epsilon a)
    (epsilon_min a) (epsilon_decay a) (batch_size a) (memory_size a) v
    (q_table a).
Definition set_q_table (v : table) (a : agent) : agent :=
  mkAgent (state_size a) (action_size a) (lr a) (gamma a) (epsilon a)
    (epsilon_min a) (epsilon_decay a) (batch_size a) (memory_size a)
    (memory a) v.

(** [__init__]: the [deque] refuses a negative [maxlen]. *)
Definition init (state_size action_size : Z) (learning_rate gamma epsilon
    epsilon_min epsilon_decay : R) (batch_size memory_size : Z)
  : result agent :=
  if (memory_size <? 0)%Z then Raise ValueError
  else
    Ok (mkAgent state_size action_size learning_rate gamma epsilon
          epsilon_min epsilon_decay batch_size memory_size [] []).

(** [DQNAgent(state_size=27, action_size=27)], as [train] builds it. *)
Definition default_agent : agent :=
  mkAgent 27 27 0.0005 0.98 1.0 0.01 0.9999999 128 10000 [] [].

Definition _key (state : list R) : key := map round1 state.

(** Returns the row and the agent, whose table has gained a row of zeros
    when the key was missing. *)
Definition _q (state : list R) (a : agent) : result (list R * agent) :=
  let k := _key state in
  match lookup k (q_table a) with
  | Some row => Ok (row, a)
  | None =>
      row <- zeros (action_size a) ;;
      Ok (row, set_q_table (store k row (q_table a)) a)
  end.

Definition remember (state : list R) (action : Z) (reward : R)
    (next_state : list R) (done : bool) (a : agent) : agent :=
  set_memory
    (deque_push (Z.to_nat (memory_size a)) (memory a)
       (state, action, reward, next_state, done)) a.

(** The body of the loop of [replay] for one experience of the batch. *)
Definition replay_one (a : agent) (tr : transition) : result agent :=
  let '(state, action, reward, next_state, done) := tr in
  ta <- (if done then Ok (reward, a)
         else
           q <- _q next_state a ;;
           m <- amax (fst q) ;;
           Ok (reward + gamma (snd q) * m, snd q)) ;;
  let target := fst ta in
  q <- _q state (snd ta) ;;
  let q_vals := fst q in
  let a := snd q in
  i <- index (length q_vals) action ;;
  let q_vals := assign i (nth i q_vals 0 + lr a * (target - nth i q_vals 0))
                  q_vals in
  Ok (set_q_table (store (_key state) q_vals (q_table a)) a).

Fixpoint replay_batch (a : agent) (batch : list transition) : result agent :=
  match batch with
  | [] => Ok a
  | tr :: batch' => a <- replay_one a tr ;; replay_batch a batch'
  end.

Section WithRandomSources.
Context {G : Type} `{RandomSource G} {P : Type} `{PyRandom P}.

(** [act(state)]: the exploration draw comes from numpy's generator, the
    random action from Python's. *)
Definition act (state : list R) (a : agent) (g : G) (p : P)
  : result (Z * agent * G * P) :=
  let r := rng_random g in
  if Rlt_dec (fst r) (epsilon a) then
    if (action_size a <=? 0)%Z then Raise ValueError
    else
      let rp := py_randrange (action_size a) p in
      Ok (fst rp, a, snd r, snd rp)
  else
    q <- _q state a ;;
    i <- argmax (fst q) ;;
    Ok (Z.of_nat i, snd q, snd r, p).

Definition replay (a : agent) (p : P) : result (agent * P) :=
  if (Z.of_nat (length (memory a)) <? batch_size a)%Z then Ok (a, p)
  else if (batch_size a <? 0)%Z then Raise ValueError
  else
    let sp := py_sample transition (memory a) (Z.to_nat (batch_size a)) p in
    a <- replay_batch a (fst sp) ;;
    let a := set_epsilon
               (if Rgt_dec (epsilon a) (epsilon_min a)
                then epsilon a * epsilon_decay a else epsilon a) a in
    Ok (a, snd sp).

End WithRandomSources.

End DQNAgent.

(** ** The loops of src/Python Implementation/hpa.py *)

Module Training.
Import DQNAgent.

(** [HPAEnvironment.get_state_info]: the labelled snapshot, in the order of
    the source. *)
Definition get_state_info (s : Extended.env) : list (string * R) :=
  let occ := Extended._receptor_occupancy s in
  let mr_occ := fst occ in
  let gr_occ := snd occ in
  [ ("stress_emotional", Extended.stress_emotional s);
    ("stress_physical", Extended.stress_physical s);
    ("stress_total", Extended.stress_level s);
    ("crh_pg_ml", Extended.crh s);
    ("acth_pg_ml", Extended.acth s);
    ("cortisol_ug_dl", Extended.cortisol s);
    ("avp_pg_ml", Extended.avp s);
    ("beta_endorphin", Extended.beta_endorphin s);
    ("melanocortin_tone", Extended.melanocortin_tone s);
    ("ucn1", Extended.ucn1 s);
    ("ucn23", Extended.ucn23 s);
    ("crfr1_density", Extended.crfr1_density s);
    ("crfr2_density", Extended.crfr2_density s);
    ("mr_occupancy", mr_occ);
    ("gr_occupancy", gr_occ);
    ("pituitary_mass", Extended.pituitary_mass s);
    ("adrenal_mass", Extended.adrenal_mass s);
    ("nts_drive", Extended.nts_drive s);
    ("gaba_inhibition", Extended.gaba_inhibition s);
    ("sfo_drive", Extended.sfo_drive s);
    ("cea_activity", Extended.cea_activity s);
    ("mea_activity", Extended.mea_activity s);
    ("cea_sensitisation", Extended.cea_sensitisation s);
    ("pfc_inhibition", Extended.pfc_inhibition s);
    ("lc_activity", Extended.lc_activity s);
    ("hippocampal_damage", Extended.hippocampal_damage s);
    ("arcuate_drive", Extended.arcuate_metabolic_drive s);
    ("chronic_stress_idx", Extended.chronic_stress_index s);
    ("cumulative_load", Extended.cumulative_load s) ]%string.

(** [info[k]] *)
Fixpoint getitem (k : string) (d : list (string * R)) : result R :=
  match d with
  | [] => Raise KeyError
  | (k', v) :: d' => if (k =? k')%string then Ok v else getitem k d'
  end.

(** The keys [evaluate] records at every step. *)
Definition traj_keys : list string :=
  [ "cortisol_ug_dl"; "acth_pg_ml"; "crh_pg_ml"; "avp_pg_ml";
    "stress_total"; "stress_emotional"; "stress_physical";
    "nts_drive"; "gaba_inhibition"; "sfo_drive";
    "cea_activity"; "mea_activity"; "pfc_inhibition"; "lc_activity";
    "hippocampal_damage"; "cea_sensitisation";
    "ucn1"; "ucn23"; "melanocortin_tone"; "arcuate_drive";
    "chronic_stress_idx" ]%string.

(** [for k in traj_keys: ep_traj[k].append(info[k])]; [ep_traj] holds one
    list per key, in the order of [traj_keys]. *)
Fixpoint record_step (info : list (string * R))
    (ep_traj : list (string * list R)) : result (list (string * list R)) :=
  match ep_traj with
  | [] => Ok []
  | (k, vs) :: rest =>
      v <- getitem k info ;;
      rest <- record_step info rest ;;
      Ok ((k, vs ++ [v]) :: rest)
  end.

(** [np.std]: the population standard deviation. *)
Definition std (l : list R) : R := sqrt (var l).

(** The passes an episode loop makes from [env]: up to the horizon, and
    one at least. *)
Definition steps_left (env : Extended.env) : nat :=
  Z.to_nat (Z.max 1 (Extended.max_steps env - Extended.current_step env)).

(** The [dict] that [evaluate] returns. *)
Record evaluation : Type := mkEvaluation {
  mean_score : R;
  std_score : R;
  scores : list R;
  trajectories : list (string * list (list R))
}.

Section WithRandomSources.
Context {G : Type} `{RandomSource G} {P : Type} `{PyRandom P}.

(** The variables an episode loop carries, with the objects it mutates and
    the two generators. *)
Record episode : Type := mkEpisode {
  state : list R;
  total_reward : R;
  total_load : R;
  ep_traj : list (string * list R);
  the_agent : agent;
  the_env : Extended.env;
  np_random : G;
  py_random : P
}.

(** One pass through the body of [while not done] in [train]; returns
    [done] with the new variables. *)
Definition train_body (e : episode) : result (bool * episode) :=
  r <- act (state e) (the_agent e) (np_random e) (py_random e) ;;
  let '(action, ag, g, p) := r in
  let out := Extended.step action (the_env e) g in
  let next_state := obs_of out in
  let rew := reward_of out in
  let done := done_of out in
  let ag := remember (state e) action rew next_state done ag in
  rp <- replay ag p ;;
  let total_reward := total_reward e + rew in
  let total_load := total_load e + (5.0 - rew) in
  Ok (done,
      mkEpisode next_state total_reward total_load (ep_traj e) (fst rp)
        (state_of out) (gen_of out) (snd rp)).

(** [while not done: ...] with [done = False] before it: the body runs at
    least once. *)
Fixpoint train_while (fuel : nat) (e : episode) : result episode :=
  match fuel with
  | O => OutOfFuel
  | S fuel' =>
      r <- train_body e ;;
      if fst r then Ok (snd r) else train_while fuel' (snd r)
  end.

(** The loop variables of [train] and [evaluate] between episodes. *)
Record progress : Type := mkProgress {
  scores_so_far : list R;
  trajectories_so_far : list (string * list (list R));
  agent_so_far : agent;
  env_so_far : Extended.env;
  np_so_far : G;
  py_so_far : P
}.

(** One pass through [for ep in range(1, episodes + 1)]; [ep % print_every]
    divides by zero when [print_every] is 0.  The load per hour is a
    quotient of numpy floats, which never raises; it is only printed. *)
Definition train_episode (fuel : nat) (print_every : Z) (pr : progress)
  : result progress :=
  let rs := Extended.reset (env_so_far pr) (np_so_far pr) in
  e <- train_while fuel
         (mkEpisode (fst (fst rs)) 0.0 0.0 [] (agent_so_far pr)
            (snd (fst rs)) (snd rs) (py_so_far pr)) ;;
  let scores := scores_so_far pr ++ [total_reward e] in
  if (print_every =? 0)%Z then Raise ZeroDivisionError
  else
    Ok (mkProgress scores [] (the_agent e) (the_env e) (np_random e)
          (py_random e)).

Fixpoint train_for (n fuel : nat) (print_every : Z) (pr : progress)
  : result progress :=
  match n with
  | O => Ok pr
  | S n' =>
      pr <- train_episode fuel print_every pr ;;
      train_for n' fuel print_every pr
  end.

(** [train(episodes, max_steps, dt, print_every)]: returns
    [(agent, env, scores)] with the generators. *)
Definition train (fuel : nat) (episodes max_steps : Z) (dt : R)
    (print_every : Z) (g : G) (p : P)
  : result (agent * Extended.env * list R * G * P) :=
  let ie := Extended.init dt max_steps g in
  let env := fst ie in
  let g := snd ie in
  let ag := default_agent in
  pr <- train_for (Z.to_nat episodes) fuel print_every
          (mkProgress [] [] ag env g p) ;;
  Ok (agent_so_far pr, env_so_far pr, scores_so_far pr, np_so_far pr,
      py_so_far pr).

(** One pass through the body of [while not done] in [evaluate]. *)
Definition evaluate_body (e : episode) : result (bool * episode) :=
  r <- act (state e) (the_agent e) (np_random e) (py_random e) ;;
  let '(action, ag, g, p) := r in
  let out := Extended.step action (the_env e) g in
  let rew := reward_of out in
  let done := done_of out in
  let ep_score := total_reward e + rew in
  let info := get_state_info (state_of out) in
  traj <- record_step info (ep_traj e) ;;
  Ok (done,
      mkEpisode (obs_of out) ep_score (total_load e) traj ag (state_of out)
        (gen_of out) p).

Fixpoint evaluate_while (fuel : nat) (e : episode) : result episode :=
  match fuel with
  | O => OutOfFuel
  | S fuel' =>
      r <- evaluate_body e ;;
      if fst r then Ok (snd r) else evaluate_while fuel' (snd r)
  end.

(** [for k in traj_keys: trajectories[k].append(ep_traj[k])] *)
Fixpoint collect (ep_traj : list (string * list R))
    (trajectories : list (string * list (list R)))
  : result (list (string * list (list R))) :=
  match trajectories with
  | [] => Ok []
  | (k, runs) :: rest =>
      match ep_traj with
      | (k', vs) :: ep_rest =>
          if (k =? k')%string then
            rest <- collect ep_rest rest ;; Ok ((k, runs ++ [vs]) :: rest)
          else Raise KeyError
      | [] => Raise KeyError
      end
  end.

Definition evaluate_episode (fuel : nat) (pr : progress) : result progress :=
  let rs := Extended.reset (env_so_far pr) (np_so_far pr) in
  e <- evaluate_while fuel
         (mkEpisode (fst (fst rs)) 0.0 0.0
            (map (fun k => (k, [])) traj_keys) (agent_so_far pr)
            (snd (fst rs)) (snd rs) (py_so_far pr)) ;;
  trajectories <- collect (ep_traj e) (trajectories_so_far pr) ;;
  Ok (mkProgress (scores_so_far pr ++ [total_reward e]) trajectories
        (the_agent e) (the_env e) (np_random e) (py_random e)).

Fixpoint evaluate_for (n fuel : nat) (pr : progress) : result progress :=
  match n with
  | O => Ok pr
  | S n' => pr <- evaluate_episode fuel pr ;; evaluate_for n' fuel pr
  end.

(** [evaluate(agent, dt, max_steps, n_episodes)]: builds its own
    environment, plays greedily and puts the agent's epsilon back.  With
    no episode numpy's mean and deviation are not numbers, which the reals
    here cannot say. *)
Definition evaluate (fuel : nat) (ag : agent) (dt : R)
    (max_steps n_episodes : Z) (g : G) (p : P)
  : result (evaluation * agent * G * P) :=
  let ie := Extended.init dt max_steps g in
  let env := fst ie in
  let g := snd ie in
  let saved_eps := epsilon ag in
  let ag := set_epsilon 0.0 ag in
  pr <- evaluate_for (Z.to_nat n_episodes) fuel
          (mkProgress [] (map (fun k => (k, [])) traj_keys) ag env g p) ;;
  let ag := set_epsilon saved_eps (agent_so_far pr) in
  let all_scores := scores_so_far pr in
  Ok (mkEvaluation (mean all_scores) (std all_scores) all_scores
        (trajectories_so_far pr),
      ag, np_so_far pr, py_so_far pr).

End WithRandomSources.

End Training.

(** ** What the extended agent keeps true of itself *)

Module DQNInvariants.
Import DQNAgent.

Definition action_of (tr : transition) : Z := snd (fst (fst (fst tr))).
Definition reward_in (tr : transition) : R := snd (fst (fst tr)).

Definition rows_ok (a : agent) : Prop :=
  forall k row, lookup k (q_table a) = Some row ->
                Z.of_nat (length row) = action_size a.

Definition actions_ok (a : agent) : Prop :=
  forall tr, In tr (memory a) -> (0 <= action_of tr < action_size a)%Z.

Definition agent_ok (a : agent) : Prop :=
  (0 < action_size a)%Z /\ (0 <= batch_size a)%Z /\
  rows_ok a /\ actions_ok a.

Definition row_of (k : key) (a : agent) : list R :=
  match lookup k (q_table a) with
  | Some row => row
  | None => repeat 0 (Z.to_nat (action_size a))
  end.

Definition q_le (b : R) (a : agent) : Prop :=
  forall k row, lookup k (q_table a) = Some row ->
                Forall (fun q => q <= b) row.

Definition rewards_le (r : R) (a : agent) : Prop :=
  forall tr, In tr (memory a) -> reward_in tr <= r.

Definition keeps_keys (a a' : agent) : Prop :=
  forall k, lookup k (q_table a) <> None -> lookup k (q_table a') <> None.

Definition keeps_rows (a a' : agent) : Prop :=
  forall k row, lookup k (q_table a) = Some row ->
                lookup k (q_table a') = Some row.

Definition same_but_table (a a' : agent) : Prop :=
  a' = set_q_table (q_table a') a.

Definition decayed (a a' : agent) : Prop :=
  (0 <= epsilon_min a -> epsilon_decay a <= 1 -> epsilon a' <= epsilon a) /\
  (0 <= epsilon_decay a ->
   Rmin (epsilon a) (epsilon_min a * epsilon_decay a) <= epsilon a').

Definition same_settings (a a' : agent) : Prop :=
  state_size a' = state_size a /\ action_size a' = action_size a /\
  gamma a' = gamma a /\ epsilon_min a' = epsilon_min a /\
  epsilon_decay a' = epsilon_decay a /\ lr a' = lr a /\
  batch_size a' = batch_size a /\ memory_size a' = memory_size a /\
  decayed a a'.

Definition trained_ok (b : R) (a : agent) : Prop :=
  agent_ok a /\ q_le b a /\ rewards_le 5 a.

Definition bound_fits (b : R) (a : agent) : Prop :=
  0 <= b /\ 0 <= lr a <= 1 /\ 0 <= gamma a /\ 5 + gamma a * b <= b.

End DQNInvariants.

(** * Helper lemmas *)
(** ** Bounds of the helpers *)

Lemma clip_bounds (x lo hi : R) : lo <= hi -> lo <= clip x lo hi <= hi.
Proof.
  intros H; unfold clip, Rmin, Rmax.
  destruct (Rle_dec x lo); destruct (Rle_dec _ hi); lra.
Qed.

Lemma Rmax_floor_between (x l lo hi : R) :
  lo <= l -> l <= hi -> x <= hi -> lo <= Rmax l x <= hi.
Proof. intros H0 H1 Hx; unfold Rmax; destruct (Rle_dec l x); lra. Qed.

Lemma Rmin_cap_between (x h lo hi : R) :
  lo <= h -> h <= hi -> lo <= x -> lo <= Rmin h x <= hi.
Proof. intros H0 H1 Hx; unfold Rmin; destruct (Rle_dec h x); lra. Qed.

Lemma pick_In (a p : list R) (u d : R) : In (pick a p u d) (d :: a).
Proof.
  revert p u d; induction a as [|x a IH]; intros p u d; simpl.
  - destruct p; left; reflexivity.
  - destruct p as [|q p]; [left; reflexivity|].
    destruct (Rlt_dec u q); [right; left; reflexivity|].
    destruct (IH p (u - q) x) as [H|H]; [right; left; exact H|right; right; exact H].
Qed.

Lemma tape_choice_sound : choice_sound tape.
Proof.
  intros a p t Ha; destruct a as [|x a]; [contradiction|].
  cbn [rng_choice tape_source]; unfold tape_choice; cbn [fst hd].
  destruct (pick_In (x :: a) p (fst (tape_next t)) x) as [H|H];
    [left; exact H|exact H].
Qed.


Lemma clip_between (x l h lo hi : R) :
  lo <= l -> l <= h -> h <= hi -> lo <= clip x l h <= hi.
Proof. intros H1 H2 H3; pose proof (clip_bounds x l h H2); lra. Qed.

Lemma sq_term_nonneg (c x : R) : 0 <= c -> 0 <= c * x ^ 2.
Proof. intros Hc; pose proof (pow2_ge_0 x); nra. Qed.

(** The three base-3 digits [step] decodes are those of [a mod 27]. *)
Lemma digits_mod_27 (a : Z) :
  ((a mod 27) mod 3 = a mod 3 /\
   ((a mod 27) / 3) mod 3 = (a / 3) mod 3 /\
   ((a mod 27) / 9) mod 3 = (a / 9) mod 3)%Z.
Proof.
  pose proof (Z.div_mod a 27 ltac:(lia)) as E.
  remember (a / 27)%Z as q eqn:Hq; remember (a mod 27)%Z as r eqn:Hr.
  clear Hq Hr; subst a; repeat split.
  - replace (27 * q + r)%Z with (r + (9 * q) * 3)%Z by lia.
    now rewrite Z_mod_plus_full.
  - replace (27 * q + r)%Z with ((9 * q) * 3 + r)%Z by lia.
    rewrite Z.div_add_l by lia.
    replace (9 * q + r / 3)%Z with (r / 3 + (3 * q) * 3)%Z by lia.
    now rewrite Z_mod_plus_full.
  - replace (27 * q + r)%Z with ((3 * q) * 9 + r)%Z by lia.
    rewrite Z.div_add_l by lia.
    replace (3 * q + r / 9)%Z with (r / 9 + q * 3)%Z by lia.
    now rewrite Z_mod_plus_full.
Qed.

Lemma fill_50 (x : R) : fill 50 x [] 50 = repeat x 50.
Proof. reflexivity. Qed.

Lemma clip_at_floor (x l h : R) : l <= h -> x <= l -> clip x l h = l.
Proof.
  intros Hlh Hx; unfold clip, Rmin, Rmax.
  destruct (Rle_dec x l); destruct (Rle_dec _ h); lra.
Qed.

Lemma clip_below (x l h u : R) : l <= h -> x <= u -> l <= u -> clip x l h <= u.
Proof.
  intros Hlh Hx Hl; unfold clip, Rmin, Rmax.
  destruct (Rle_dec x l); destruct (Rle_dec _ h); lra.
Qed.

Lemma ln2_pos : 0 < ln 2.
Proof. pose proof ln_lt_2; lra. Qed.

Lemma tanh_0 : tanh 0 = 0.
Proof. unfold tanh; rewrite sinh_0, cosh_0; lra. Qed.

Lemma clip_inside (x l h : R) : l <= x <= h -> clip x l h = x.
Proof.
  intros [H1 H2]; unfold clip, Rmin, Rmax.
  destruct (Rle_dec x l); destruct (Rle_dec _ h); lra.
Qed.

Lemma ln2_lt_1 : ln 2 < 1.
Proof.
  rewrite <- (ln_exp 1).
  apply ln_increasing; [lra|].
  pose proof (exp_ineq1 1 ltac:(lra)); lra.
Qed.


(** The bounded history. *)
Lemma deque_append_length (n : nat) (h : list R) (x : R) :
  length (deque_append n h x) = Nat.min (length h + 1) n.
Proof.
  unfold deque_append; rewrite length_skipn, length_app; simpl; lia.
Qed.

Lemma deque_append_room (n : nat) (h : list R) (x : R) :
  (length h < n)%nat -> deque_append n h x = h ++ [x].
Proof.
  intros Hl; unfold deque_append; rewrite length_app; simpl.
  replace (length h + 1 - n)%nat with 0%nat by lia; reflexivity.
Qed.

Lemma deque_append_full (n : nat) (h : list R) (x : R) :
  length h = n -> (0 < n)%nat -> deque_append n h x = tl h ++ [x].
Proof.
  intros Hl Hn; unfold deque_append; rewrite length_app; simpl.
  replace (length h + 1 - n)%nat with 1%nat by lia.
  destruct h as [|y h]; [simpl in Hl; lia|reflexivity].
Qed.

(** A list of two entries or more ends as its tail does. *)
Lemma last_tl (h : list R) (d : R) :
  (2 <= length h)%nat -> last (tl h) d = last h d.
Proof.
  destruct h as [|x [|y h]]; cbn [length]; try lia.
  intros _; reflexivity.
Qed.

(** ** The saturating binding curve [C / (Kd + C)] *)

Lemma mm_diff (K C1 C2 : R) :
  0 < K -> 0 <= C1 -> 0 <= C2 ->
  C2 / (K + C2) - C1 / (K + C1) = K * (C2 - C1) / ((K + C1) * (K + C2)).
Proof. intros; field; split; lra. Qed.

Lemma mm_increasing (K C1 C2 : R) :
  0 < K -> 0 <= C1 -> C1 < C2 -> C1 / (K + C1) < C2 / (K + C2).
Proof.
  intros HK H1 H12.
  assert (0 < K * (C2 - C1) / ((K + C1) * (K + C2))).
  { apply Rdiv_lt_0_compat; nra. }
  pose proof (mm_diff K C1 C2 HK H1 ltac:(lra)); lra.
Qed.

Lemma mm_zero (K : R) : 0 < K -> 0 / (K + 0) = 0.
Proof. intros; field; lra. Qed.

Lemma mm_gap (K C : R) : 0 < K -> 0 <= C -> 1 - C / (K + C) = K / (K + C).
Proof. intros; field; lra. Qed.

Lemma mm_limit (K eps : R) :
  0 < K -> 0 < eps ->
  exists M, forall C, M <= C -> Rabs (C / (K + C) - 1) < eps.
Proof.
  intros HK He; exists (Rmax 0 (K / eps)); intros C HC.
  pose proof (Rmax_l 0 (K / eps)) as Hl; pose proof (Rmax_r 0 (K / eps)) as Hr.
  assert (H0 : 0 <= C) by lra.
  assert (Hq : K / eps <= C) by lra.
  replace (C / (K + C) - 1) with (- (K / (K + C)))
    by (rewrite <- (mm_gap K C HK H0); lra).
  rewrite Rabs_Ropp, Rabs_pos_eq
    by (apply Rlt_le, Rdiv_lt_0_compat; lra).
  apply (Rmult_le_compat_r eps) in Hq; [|lra].
  replace (K / eps * eps) with K in Hq by (field; lra).
  apply Rmult_lt_reg_r with (K + C); [lra|].
  unfold Rdiv; rewrite Rmult_assoc, Rinv_l by lra; nra.
Qed.

Lemma mm_order (K1 K2 C : R) :
  0 < K1 -> K1 <= K2 -> 0 <= C -> C / (K2 + C) <= C / (K1 + C).
Proof.
  intros H1 H12 HC.
  assert (E : C / (K1 + C) - C / (K2 + C)
              = C * (K2 - K1) / ((K1 + C) * (K2 + C))) by (field; split; lra).
  assert (0 <= C * (K2 - K1) / ((K1 + C) * (K2 + C))).
  { apply Rle_mult_inv_pos; nra. }
  lra.
Qed.

(** * Properties of the simple model *)

Module SimpleFacts.
Import Simple.

(** Unfolds one [step] down to the arithmetic of its assignments. *)
Ltac run_step :=
  cbv beta iota zeta delta
    [step _get_ultradian_pulse _update_gland_masses _calculate_total_feedback
     set_dt set_stage set_cortisol set_acth set_crh set_pituitary_mass
     set_adrenal_mass set_mr_receptors set_gr_receptors
     set_stress_level set_time_hours set_day set_ultradian_phase
     set_cortisol_history set_current_step set_cumulative_load dt
     stage cortisol acth crh pituitary_mass adrenal_mass mr_receptors
     gr_receptors stress_level time_hours day ultradian_phase
     cortisol_history current_step cumulative_load
     fst snd obs_of reward_of done_of state_of gen_of].

(** The cost reads neither the step counter nor the accumulated load. *)
Lemma cost_frame (dt_ : R) (stage_ : string) (cortisol_ : R) (acth_ : R)
  (crh_ : R) (pituitary_mass_ : R) (adrenal_mass_ : R) (mr_receptors_ : R)
  (gr_receptors_ : R) (stress_level_ : R) (time_hours_ : R) (day_ : Z)
  (ultradian_phase_ : R) (cortisol_history_ : list R) (current_step_ : Z)
  (cumulative_load_ : R) (current_step_' : Z) (cumulative_load_' : R)
  (mr_occ gr_occ : R) :
    _calculate_allostatic_load (mkEnv dt_ stage_ cortisol_ acth_ crh_
    pituitary_mass_ adrenal_mass_ mr_receptors_ gr_receptors_ stress_level_
    time_hours_ day_ ultradian_phase_ cortisol_history_ current_step_
    cumulative_load_) mr_occ gr_occ
    = _calculate_allostatic_load (mkEnv dt_ stage_ cortisol_ acth_ crh_
    pituitary_mass_ adrenal_mass_ mr_receptors_ gr_receptors_ stress_level_
    time_hours_ day_ ultradian_phase_ cortisol_history_ current_step_'
    cumulative_load_') mr_occ gr_occ.
Proof. reflexivity. Qed.

Section WithRandomSource.
Context {G : Type} `{RandomSource G}.

Lemma step_bounded (a : Z) (s : env) (g : G) :
  choice_sound G -> bounded s -> bounded (state_of (step a s g)).
Proof.
  intros Hc Hb. unfold bounded in *.
  destruct s.
  cbv [stress_level] in Hb.
  destruct Hb as (_ & _ & _ & _ & _ & _ & _ & Hs).
  repeat match goal with |- (_ <= _ <= _) /\ _ => split end;
    run_step; try (apply clip_between; lra).
  match goal with
  | |- context [rng_choice ?l ?p ?g0] =>
      pose proof (Hc l p g0 ltac:(discriminate)) as Hin;
      cbv [fst] in Hin; simpl in Hin
  end.
  destruct (Rlt_dec _ _).
  - apply Rmin_cap_between; [lra|lra|].
    match goal with
    | |- _ <= Rmax ?x ?y + _ => pose proof (Rmax_l x y)
    end.
    match type of Hin with
    | _ = ?m \/ _ => revert Hin; generalize m; intros mag Hin
    end.
    destruct Hin as [Hm|[Hm|[Hm|[]]]]; lra.
  - apply Rmax_floor_between; lra.
Qed.

(** [step] advances the counter by one and leaves the stage alone. *)
Lemma step_counter (a : Z) (s : env) (g : G) :
  current_step (state_of (step a s g)) = (current_step s + 1)%Z /\
  stage (state_of (step a s g)) = stage s /\
  dt (state_of (step a s g)) = dt s.
Proof. destruct s; repeat split. Qed.

Lemma step_done (a : Z) (s : env) (g : G) :
  done_of (step a s g) = (current_step s + 1 >=? max_steps s)%Z.
Proof. destruct s; reflexivity. Qed.

(** The occupancies the cost receives are those of the cortisol the step
    started with; every other term of the cost reads the new state. *)
Lemma step_cost (a : Z) (s : env) (g : G) :
  let s' := state_of (step a s g) in
  let occ := _calculate_receptor_occupancy (_cortisol_to_nmol (cortisol s)) in
  let load := _calculate_allostatic_load s' (fst occ) (snd occ) in
  reward_of (step a s g) = - load + 5.0 /\
  cumulative_load s' = cumulative_load s + load.
Proof.
  destruct s; split; run_step;
    [do 2 f_equal; apply cost_frame | f_equal; apply cost_frame].
Qed.

(** Only the three base-3 digits of the action reach the dynamics. *)
Lemma step_decode (a b : Z) (s : env) (g : G) :
  (a mod 3 = b mod 3)%Z -> ((a / 3) mod 3 = (b / 3) mod 3)%Z ->
  ((a / 9) mod 3 = (b / 9) mod 3)%Z -> step a s g = step b s g.
Proof.
  intros H1 H2 H3; destruct s; run_step; rewrite H1, H2, H3; reflexivity.
Qed.

Lemma step_time (a : Z) (s : env) (g : G) :
  let s' := state_of (step a s g) in
  (time_hours s + dt s >= 24 ->
   time_hours s' = time_hours s + dt s - 24 /\ day s' = (day s + 1)%Z) /\
  (~ time_hours s + dt s >= 24 ->
   time_hours s' = time_hours s + dt s /\ day s' = day s) /\
  ultradian_phase s' = ultradian_phase s + 2 * PI * dt s / ultradian_period.
Proof.
  destruct s; run_step; repeat split; intros;
    destruct (Rge_dec _ _); try reflexivity; contradiction.
Qed.


(** Each of the eleven cost components of the simple model is
    non-negative. *)
Lemma components_nonneg (s : env) (mr_occ gr_occ : R) :
  0 <= basal_cost /\ 0 <= deviation_cost s /\ 0 <= tissue_damage s /\
  0 <= acth_cost s /\ 0 <= crh_cost s /\ 0 <= mr_cost mr_occ /\
  0 <= gr_cost s gr_occ /\ 0 <= receptor_cost s /\ 0 <= gland_cost s /\
  0 <= instability_cost s /\ 0 <= stress_response_cost s.
Proof.
  assert (0 <= deviation_cost s).
  { unfold deviation_cost; destruct (Rle_dec _ _);
      apply sq_term_nonneg; lra. }
  assert (0 <= tissue_damage s).
  { unfold tissue_damage.
    repeat match goal with
           | |- context [if ?c then _ else _] => destruct c
           end;
      repeat match goal with
             | |- context [?x ^ 2] =>
                 generalize (pow2_ge_0 x); generalize (x ^ 2); intros
             end; unfold Rgt in *; lra. }
  assert (0 <= acth_cost s).
  { unfold acth_cost; destruct (Rgt_dec _ _);
      [apply sq_term_nonneg|]; lra. }
  assert (0 <= crh_cost s).
  { unfold crh_cost; destruct (Rgt_dec _ _);
      [apply sq_term_nonneg|]; lra. }
  assert (0 <= mr_cost mr_occ) by (apply sq_term_nonneg; lra).
  assert (0 <= gr_cost s gr_occ) by (apply sq_term_nonneg; lra).
  assert (0 <= receptor_cost s).
  { unfold receptor_cost.
    pose proof (pow2_ge_0 (1.0 - gr_receptors s)).
    pose proof (pow2_ge_0 (1.0 - mr_receptors s)). lra. }
  assert (0 <= gland_cost s).
  { unfold gland_cost.
    pose proof (pow2_ge_0 (adrenal_mass s - 1.0)).
    pose proof (pow2_ge_0 (pituitary_mass s - 1.0)).
    repeat match goal with
           | |- context [if ?c then _ else _] => destruct c
           end; lra. }
  assert (0 <= instability_cost s).
  { unfold instability_cost; destruct (_ <=? _)%nat; [|lra].
    destruct (Rgt_dec _ _); unfold Rgt in *; lra. }
  assert (0 <= stress_response_cost s).
  { unfold stress_response_cost.
    repeat match goal with
           | |- context [if ?c then _ else _] => destruct c
           end; try apply sq_term_nonneg; lra. }
  unfold basal_cost; repeat split; try assumption; lra.
Qed.

(** The cost of the simple model is a sum of non-negative components. *)
Lemma total_load_nonneg (s : env) (mr_occ gr_occ : R) :
  0 <= total_allocastic_load s mr_occ gr_occ.
Proof.
  pose proof (components_nonneg s mr_occ gr_occ).
  unfold total_allocastic_load; lra.
Qed.

(** The vulnerability factor of each stage; any other name is an adult. *)
Lemma vulnerability_factor_values (s : env) :
  (stage s = "infant"%string -> 2.0 - stress_resilience s = 1.5) /\
  (stage s = "child"%string -> 2.0 - stress_resilience s = 1.3) /\
  (stage s = "adolescent"%string -> 2.0 - stress_resilience s = 1.15) /\
  (stage s = "adult"%string -> 2.0 - stress_resilience s = 1.0) /\
  1.0 <= 2.0 - stress_resilience s <= 1.5.
Proof.
  unfold stress_resilience; repeat split; try intros ->; simpl; try lra;
    repeat destruct (_ =? _)%string; lra.
Qed.

Lemma load_nonneg (s : env) (mr_occ gr_occ : R) :
  0 <= _calculate_allostatic_load s mr_occ gr_occ.
Proof.
  unfold _calculate_allostatic_load.
  pose proof (total_load_nonneg s mr_occ gr_occ).
  destruct (vulnerability_factor_values s) as (_ & _ & _ & _ & Hv).
  nra.
Qed.

(** The horizon each stage configures. *)
Lemma max_steps_values (s : env) :
  (stage s = "infant"%string -> max_steps s = 240%Z) /\
  (stage s = "child"%string -> max_steps s = 720%Z) /\
  (stage s = "adolescent"%string -> max_steps s = 1440%Z) /\
  (stage s = "adult"%string -> max_steps s = 2400%Z).
Proof. unfold max_steps; repeat split; intros ->; reflexivity. Qed.

Lemma run_cons (a : Z) (rest : list Z) (s : env) (g : G) :
  run (a :: rest) s g =
  (done_of (step a s g)
     :: fst (fst (run rest (state_of (step a s g)) (gen_of (step a s g)))),
   snd (fst (run rest (state_of (step a s g)) (gen_of (step a s g)))),
   snd (run rest (state_of (step a s g)) (gen_of (step a s g)))).
Proof. reflexivity. Qed.

(** The [done] flags of an episode: the k-th call (counted from 1 after the
    counter was at [current_step s]) compares the advanced counter with the
    horizon. *)
Lemma run_dones (actions : list Z) (s : env) (g : G) :
  fst (fst (run actions s g)) =
  map (fun k => (current_step s + Z.of_nat k + 1 >=? max_steps s)%Z)
    (seq 0 (length actions)).
Proof.
  revert s g; induction actions as [|a rest IH]; intros s g; [reflexivity|].
  rewrite run_cons; cbn [fst snd length seq map].
  rewrite IH, step_done, <- seq_shift, map_map.
  destruct (step_counter a s g) as (Hc & Hs & _).
  f_equal; [f_equal; simpl; lia|].
  apply map_ext; intros k; rewrite Hc.
  unfold max_steps; rewrite Hs; f_equal; lia.
Qed.

(** What [reset] leaves behind, whatever the state before it. *)
Lemma reset_fields (s : env) (g : G) :
  let s' := snd (fst (reset s g)) in
  pituitary_mass s' = 1.0 /\ adrenal_mass s' = 1.0 /\
  mr_receptors s' = 1.0 /\ gr_receptors s' = 1.0 /\
  day s' = 0%Z /\ current_step s' = 0%Z /\ cumulative_load s' = 0.0 /\
  cortisol_history s' = repeat (cortisol s') 50 /\
  dt s' = dt s /\ stage s' = stage s.
Proof. destruct s; repeat split. Qed.

(** The values [reset] draws, in the order it draws them. *)
Lemma reset_draws (s : env) (g : G) :
  let s' := snd (fst (reset s g)) in
  let r1 := rng_normal 0 2 g in
  let r2 := rng_normal 0 5 (snd r1) in
  let r3 := rng_normal 0 20 (snd r2) in
  let r4 := rng_uniform 0 3 (snd r3) in
  let r5 := rng_uniform 0 24 (snd r4) in
  let r6 := rng_uniform 0 (2 * PI) (snd r5) in
  cortisol s' = 12.0 + fst r1 /\ acth s' = 25.0 + fst r2 /\
  crh s' = 100.0 + fst r3 /\ stress_level s' = fst r4 /\
  time_hours s' = fst r5 /\ ultradian_phase s' = fst r6 /\
  snd (reset s g) = snd r6.
Proof. destruct s; repeat split. Qed.

(** [step] reads the generator through three draws only: the pulse noise,
    the event draw and, when an event occurs, the magnitude. *)
Lemma step_draws (a : Z) (s : env) (g g' : G) :
  let n := rng_normal 0 0.5 g in
  let n' := rng_normal 0 0.5 g' in
  let u := rng_random (snd n) in
  let u' := rng_random (snd n') in
  let m := rng_choice [2; 5; 8] [0.6; 0.3; 0.1] (snd u) in
  let m' := rng_choice [2; 5; 8] [0.6; 0.3; 0.1] (snd u') in
  fst n = fst n' -> fst u = fst u' ->
  (fst u < 0.02 -> fst m = fst m') ->
  fst (step a s g) = fst (step a s g').
Proof.
  cbv zeta; intros Hn Hu Hm; destruct s; run_step.
  cbv [fst snd] in Hn, Hu, Hm.
  rewrite Hn; rewrite Hu in Hm |- *.
  match goal with
  | |- context [Rlt_dec ?x 0.02] => destruct (Rlt_dec x 0.02) as [Hlt|Hge]
  end; [rewrite (Hm Hlt)|]; reflexivity.
Qed.

(** The generator [step] hands back has made exactly those draws. *)
Lemma step_generator (a : Z) (s : env) (g : G) :
  let u := rng_random (snd (rng_normal 0 0.5 g)) in
  gen_of (step a s g) =
  if Rlt_dec (fst u) 0.02
  then snd (rng_choice [2; 5; 8] [0.6; 0.3; 0.1] (snd u))
  else snd u.
Proof. destruct s; reflexivity. Qed.

(** [step] appends the new cortisol to the bounded history. *)
Lemma step_history (a : Z) (s : env) (g : G) :
  cortisol_history (state_of (step a s g))
  = deque_append 50 (cortisol_history s) (cortisol (state_of (step a s g))).
Proof. destruct s; run_step; reflexivity. Qed.

(** The history invariant holds after [__init__] and after [reset], and
    [step] keeps it. *)
Lemma history_ok_init (time_step_hours : R) (developmental_stage : string)
    (g : G) :
  history_ok (fst (init time_step_hours developmental_stage g)).
Proof. split; reflexivity. Qed.

Lemma history_ok_reset (s : env) (g : G) :
  history_ok (snd (fst (reset s g))).
Proof.
  destruct (reset_fields s g) as (_ & _ & _ & _ & _ & _ & _ & Hh & _);
    cbv zeta in Hh.
  unfold history_ok; rewrite Hh; split; [apply repeat_length|reflexivity].
Qed.

Lemma history_ok_step (a : Z) (s : env) (g : G) :
  history_ok s -> history_ok (state_of (step a s g)).
Proof.
  intros [Hl _]; unfold history_ok.
  rewrite step_history, deque_append_full by (try exact Hl; lia).
  split.
  - rewrite length_app; cbn [length].
    destruct (cortisol_history s); cbn [length tl] in *; lia.
  - apply last_last.
Qed.

(** With the invariant, the state a [step] leaves tells the cortisol the
    step started from, and so its reward. *)
Lemma history_tells_entry (a : Z) (s : env) (g : G) :
  history_ok s ->
  last (removelast (cortisol_history (state_of (step a s g)))) 0
  = cortisol s.
Proof.
  intros [Hl Hc].
  rewrite step_history, deque_append_full by (try exact Hl; lia).
  rewrite removelast_last, last_tl by lia; exact Hc.
Qed.

Lemma same_state_same_reward (a1 a2 : Z) (s1 s2 : env) (g1 g2 : G) :
  history_ok s1 -> history_ok s2 ->
  state_of (step a1 s1 g1) = state_of (step a2 s2 g2) ->
  reward_of (step a1 s1 g1) = reward_of (step a2 s2 g2).
Proof.
  intros H1 H2 E.
  pose proof (history_tells_entry a1 s1 g1 H1) as C1.
  pose proof (history_tells_entry a2 s2 g2 H2) as C2.
  rewrite E, C2 in C1.
  destruct (step_cost a1 s1 g1) as [R1 _]; cbv zeta in R1.
  destruct (step_cost a2 s2 g2) as [R2 _]; cbv zeta in R2.
  rewrite R1, R2, E, C1; reflexivity.
Qed.

End WithRandomSource.
(** ** A step from the circadian trough

    From [trough], with no noise and no stress event, the new ACTH and the
    new cortisol are both clipped to 0, while the cost is computed with the
    occupancies of the cortisol the step started from. *)

(** Two states with the same attributes are the same state. *)
Lemma env_eq (s1 s2 : env) :
  dt s1 = dt s2 -> stage s1 = stage s2 -> cortisol s1 = cortisol s2 ->
  acth s1 = acth s2 -> crh s1 = crh s2 ->
  pituitary_mass s1 = pituitary_mass s2 -> adrenal_mass s1 = adrenal_mass s2 ->
  mr_receptors s1 = mr_receptors s2 -> gr_receptors s1 = gr_receptors s2 ->
  stress_level s1 = stress_level s2 -> time_hours s1 = time_hours s2 ->
  day s1 = day s2 -> ultradian_phase s1 = ultradian_phase s2 ->
  cortisol_history s1 = cortisol_history s2 ->
  current_step s1 = current_step s2 ->
  cumulative_load s1 = cumulative_load s2 -> s1 = s2.
Proof.
  destruct s1, s2; cbn [dt stage cortisol acth crh pituitary_mass adrenal_mass
    mr_receptors gr_receptors stress_level time_hours day ultradian_phase
    cortisol_history current_step cumulative_load].
  intros; subst; reflexivity.
Qed.


(** The cost reads neither the step counter nor the accumulated load. *)
Lemma load_set_cumulative (x : R) (s : env) (mr_occ gr_occ : R) :
  _calculate_allostatic_load (set_cumulative_load x s) mr_occ gr_occ
  = _calculate_allostatic_load s mr_occ gr_occ.
Proof. destruct s; apply cost_frame. Qed.

Ltac run_trough :=
  unfold trough, quiet; run_step;
  cbv [_get_circadian_amplitude rng_normal rng_random rng_choice tape_source
       tape_next tape_choice feedback_maturity mr_feedback_strength
       gr_feedback_strength receptor_sensitivity time_hours stage fst snd
       _calculate_receptor_occupancy _cortisol_to_nmol cortisol
       cortisol_basal_secretion acth_basal_secretion crh_basal_secretion
       stress_to_crh stress_to_cortisol mr_kd gr_kd k_crh k_acth k_cortisol
       crh_halflife acth_halflife cortisol_halflife ultradian_period];
  simpl String.eqb; cbv iota.

(** Settles the three clips of a step from the trough. *)
Ltac settle_trough :=
  change (IZR (0 mod 3 - 1)) with (-1);
  change (IZR ((0 / 3) mod 3 - 1)) with (-1);
  change (IZR ((0 / 9) mod 3 - 1)) with (-1);
  try replace (2 * PI * (20.0 - 8) / 24) with PI by lra;
  try rewrite cos_PI;
  pose proof ln2_pos as Hln;
  try match goal with
  | |- context [sin ?x] =>
      pose proof (SIN_bound x) as [_ Hsin];
      generalize dependent (sin x); intros sn Hsin
  end;
  try match goal with
  | |- context [clip ?y 0 400] =>
      assert (Hc : clip y 0 400 <= 6) by (apply clip_below; lra);
      generalize dependent (clip y 0 400); intros c Hc
  end;
  repeat match goal with
  | |- context [clip ?x 0 200] => rewrite (clip_at_floor x 0 200) by lra
  end;
  repeat match goal with
  | |- context [clip ?x 0 60] => rewrite (clip_at_floor x 0 60) by lra
  end.

(** The state is in the declared ranges. *)
Lemma trough_bounded : bounded trough.
Proof.
  unfold bounded, trough;
    cbn [cortisol acth crh adrenal_mass pituitary_mass gr_receptors
         mr_receptors stress_level].
  repeat split; lra.
Qed.

(** [__init__] and [reset] on the draws of [trough_draws] leave [trough],
    with the draws of a quiet step still to come. *)
Lemma trough_reset :
  let e := init 0.1 "adult" trough_draws in
  let r := reset (fst e) (snd e) in
  snd (fst r) = trough /\ snd r = quiet.
Proof.
  cbv zeta.
  set (e := init 0.1 "adult" trough_draws).
  destruct (reset_fields (fst e) (snd e))
    as (F1 & F2 & F3 & F4 & F5 & F6 & F7 & F8 & F9 & F10);
    cbv zeta in F1, F2, F3, F4, F5, F6, F7, F8, F9, F10.
  destruct (reset_draws (fst e) (snd e))
    as (D1 & D2 & D3 & D4 & D5 & D6 & D7);
    cbv zeta in D1, D2, D3, D4, D5, D6, D7.
  split; [|exact D7].
  assert (Hc : cortisol (snd (fst (reset (fst e) (snd e)))) = 0.3)
    by (rewrite D1; cbn; lra).
  apply env_eq; unfold trough;
    cbn [dt stage cortisol acth crh pituitary_mass adrenal_mass mr_receptors
         gr_receptors stress_level time_hours day ultradian_phase
         cortisol_history current_step cumulative_load].
  - rewrite F9; reflexivity.
  - rewrite F10; reflexivity.
  - exact Hc.
  - rewrite D2; cbn; lra.
  - rewrite D3; cbn; lra.
  - exact F1.
  - exact F2.
  - exact F3.
  - exact F4.
  - rewrite D4; cbn; lra.
  - rewrite D5; cbn; lra.
  - exact F5.
  - rewrite D6; cbn; lra.
  - rewrite F8, Hc; reflexivity.
  - exact F6.
  - exact F7.
Qed.

Lemma trough_cortisol : cortisol (state_of (step 0 trough quiet)) = 0.
Proof. run_trough; settle_trough; reflexivity. Qed.

Lemma trough_stress : stress_level (state_of (step 0 trough quiet)) = 0.
Proof.
  run_trough.
  destruct (Rlt_dec 0.5 0.02) as [Hlt|_]; [lra|].
  unfold Rmax; destruct (Rle_dec _ _); lra.
Qed.

(** The reward of the step is not the offset minus the cost of the new
    state with the occupancies of the new cortisol. *)
Lemma trough_reward_gap :
  let s' := state_of (step 0 trough quiet) in
  let occ := _calculate_receptor_occupancy
               (_cortisol_to_nmol (cortisol s')) in
  reward_of (step 0 trough quiet)
  <> 5.0 - _calculate_allostatic_load s' (fst occ) (snd occ).
Proof.
  cbv zeta.
  destruct (step_cost 0 trough quiet) as [Hr _]; cbv zeta in Hr; rewrite Hr.
  rewrite trough_cortisol.
  pose proof trough_stress as Hst.
  pose proof (proj1 (proj2 (step_counter 0 trough quiet))) as Hsg.
  revert Hst Hsg; generalize (state_of (step 0 trough quiet));
    intros post Hst Hsg.
  unfold _calculate_allostatic_load, total_allocastic_load, stress_resilience,
    mr_cost, gr_cost.
  rewrite Hsg, Hst.
  generalize (deviation_cost post), (tissue_damage post), (acth_cost post),
    (crh_cost post), (receptor_cost post), (gland_cost post),
    (instability_cost post), (stress_response_cost post).
  intros c1 c2 c3 c4 c5 c6 c7 c8.
  cbv beta iota zeta delta
    [fst snd _calculate_receptor_occupancy _cortisol_to_nmol cortisol stage
     trough mr_kd gr_kd].
  simpl String.eqb; cbv iota.
  destruct (Rgt_dec 0 5) as [Hgt|_]; [lra|].
  rewrite !pow2_abs.
  intros E; lra.
Qed.

End SimpleFacts.

(** * Properties of the extended model *)

Module ExtendedFacts.
Import Extended.

(** Unfolds one [step] down to the arithmetic of its assignments. *)
Ltac run_step :=
  cbv beta iota zeta delta
    [step _ultradian_pulse _total_negative_feedback
     _fast_nongenomic_feedback _update_amygdala _update_pfc _update_lc
     _update_sfo _update_arcuate _update_upstream_signals
     _update_urocortins _update_hippocampal_damage _update_pomc_products
     _update_avp _update_glands _update_crf_receptors stress_level
     _receptor_occupancy _cortisol_nm _ucn_crfr_modulation
     arcuate_crh_boost arcuate_acth_boost
     set_dt set_max_steps set_crh set_acth set_cortisol set_avp
     set_beta_endorphin set_melanocortin_tone set_ucn1 set_ucn23
     set_mr_receptors set_gr_receptors set_crfr1_density
     set_crfr2_density set_pituitary_mass set_adrenal_mass
     set_nts_drive set_gaba_inhibition set_sfo_drive set_cea_activity
     set_mea_activity set_cea_sensitisation set_pfc_inhibition
     set_lc_activity set_hippocampal_damage
     set_arcuate_metabolic_drive set_stress_physical
     set_stress_emotional set_chronic_stress_index set_time_hours
     set_day set_ultradian_phase set__prev_cortisol
     set__fast_feedback_signal set_current_step set_cumulative_load
     set_cortisol_history dt max_steps crh acth cortisol avp
     beta_endorphin melanocortin_tone ucn1 ucn23 mr_receptors
     gr_receptors crfr1_density crfr2_density pituitary_mass
     adrenal_mass nts_drive gaba_inhibition sfo_drive cea_activity
     mea_activity cea_sensitisation pfc_inhibition lc_activity
     hippocampal_damage arcuate_metabolic_drive stress_physical
     stress_emotional chronic_stress_index time_hours day
     ultradian_phase _prev_cortisol _fast_feedback_signal current_step
     cumulative_load cortisol_history
     fst snd obs_of reward_of done_of state_of gen_of].

(** The cost reads neither the step counter nor the accumulated load. *)
Lemma ext_cost_frame (dt_ : R) (max_steps_ : Z) (crh_ : R) (acth_ : R)
  (cortisol_ : R) (avp_ : R) (beta_endorphin_ : R) (melanocortin_tone_ : R)
  (ucn1_ : R) (ucn23_ : R) (mr_receptors_ : R) (gr_receptors_ : R)
  (crfr1_density_ : R) (crfr2_density_ : R) (pituitary_mass_ : R)
  (adrenal_mass_ : R) (nts_drive_ : R) (gaba_inhibition_ : R) (sfo_drive_ :
  R) (cea_activity_ : R) (mea_activity_ : R) (cea_sensitisation_ : R)
  (pfc_inhibition_ : R) (lc_activity_ : R) (hippocampal_damage_ : R)
  (arcuate_metabolic_drive_ : R) (stress_physical_ : R) (stress_emotional_ :
  R) (chronic_stress_index_ : R) (time_hours_ : R) (day_ : Z)
  (ultradian_phase_ : R) (prev_cortisol_ : R) (fast_feedback_signal_ : R)
  (current_step_ : Z) (cumulative_load_ : R) (cortisol_history_ : list R)
  (current_step_' : Z) (cumulative_load_' : R) (mr_occ gr_occ : R) :
    _allostatic_load (mkEnv dt_ max_steps_ crh_ acth_ cortisol_ avp_
    beta_endorphin_ melanocortin_tone_ ucn1_ ucn23_ mr_receptors_
    gr_receptors_ crfr1_density_ crfr2_density_ pituitary_mass_
    adrenal_mass_ nts_drive_ gaba_inhibition_ sfo_drive_ cea_activity_
    mea_activity_ cea_sensitisation_ pfc_inhibition_ lc_activity_
    hippocampal_damage_ arcuate_metabolic_drive_ stress_physical_
    stress_emotional_ chronic_stress_index_ time_hours_ day_
    ultradian_phase_ prev_cortisol_ fast_feedback_signal_ current_step_
    cumulative_load_ cortisol_history_) mr_occ gr_occ
    = _allostatic_load (mkEnv dt_ max_steps_ crh_ acth_ cortisol_ avp_
    beta_endorphin_ melanocortin_tone_ ucn1_ ucn23_ mr_receptors_
    gr_receptors_ crfr1_density_ crfr2_density_ pituitary_mass_
    adrenal_mass_ nts_drive_ gaba_inhibition_ sfo_drive_ cea_activity_
    mea_activity_ cea_sensitisation_ pfc_inhibition_ lc_activity_
    hippocampal_damage_ arcuate_metabolic_drive_ stress_physical_
    stress_emotional_ chronic_stress_index_ time_hours_ day_
    ultradian_phase_ prev_cortisol_ fast_feedback_signal_ current_step_'
    cumulative_load_' cortisol_history_) mr_occ gr_occ.
Proof. reflexivity. Qed.

Section WithRandomSource.
Context {G : Type} `{RandomSource G}.

(** Every bounded variable leaves [step] inside its interval: all but the
    stress pools by their final [clip], the pools by the [max] of the decay
    and the [min] of the injection. *)
Lemma ext_step_bounded (a : Z) (s : env) (g : G) :
  choice_sound G -> bounded s -> bounded (state_of (step a s g)).
Proof.
  intros Hc Hb. unfold bounded in *.
  destruct s.
  cbv [stress_physical stress_emotional] in Hb.
  destruct Hb as (_ & _ & _ & _ & _ & _ & _ & _ & _ & Hp & He & _).
  repeat match goal with |- (_ <= _ <= _) /\ _ => split end;
    run_step; try (apply clip_between; lra).
  all: match goal with
       | |- context [rng_choice ?l ?p ?g0] =>
           pose proof (Hc l p g0 ltac:(discriminate)) as Hin;
           cbv [fst] in Hin; simpl in Hin
       end.
  all: repeat match goal with
         | |- context [if ?c then _ else _] => destruct c
         end.
  all: try (apply Rmax_floor_between; lra).
  all: apply Rmin_cap_between; [lra|lra|].
  all: match goal with
       | |- _ <= Rmax ?x ?y + _ => pose proof (Rmax_l x y)
       end.
  all: match type of Hin with
       | _ = ?m \/ _ => revert Hin; generalize m; intros mag Hin
       end.
  all: destruct Hin as [Hm|[Hm|[Hm|[]]]]; lra.
Qed.


(** [step] advances the counter by one and leaves the configuration alone. *)
Lemma ext_step_counter (a : Z) (s : env) (g : G) :
  current_step (state_of (step a s g)) = (current_step s + 1)%Z /\
  max_steps (state_of (step a s g)) = max_steps s /\
  dt (state_of (step a s g)) = dt s.
Proof. destruct s; repeat split. Qed.

Lemma ext_step_done (a : Z) (s : env) (g : G) :
  done_of (step a s g) = (current_step s + 1 >=? max_steps s)%Z.
Proof. destruct s; reflexivity. Qed.

(** Only the three base-3 digits of the action reach the dynamics. *)
Lemma ext_step_decode (a b : Z) (s : env) (g : G) :
  (a mod 3 = b mod 3)%Z -> ((a / 3) mod 3 = (b / 3) mod 3)%Z ->
  ((a / 9) mod 3 = (b / 9) mod 3)%Z -> step a s g = step b s g.
Proof.
  intros H1 H2 H3; destruct s; run_step; rewrite H1, H2, H3; reflexivity.
Qed.

(** The occupancies the cost receives are those of the cortisol the step
    started with, which the new state keeps as [_prev_cortisol]; every other
    term of the cost reads the new state. *)
Lemma ext_step_cost (a : Z) (s : env) (g : G) :
  let s' := state_of (step a s g) in
  let occ := _receptor_occupancy s in
  let load := _allostatic_load s' (fst occ) (snd occ) in
  reward_of (step a s g) = 5.0 - load /\
  cumulative_load s' = cumulative_load s + load /\
  _prev_cortisol s' = cortisol s.
Proof.
  destruct s; split; [|split]; run_step.
  - apply (f_equal (Rminus 5.0)), ext_cost_frame.
  - apply (f_equal (Rplus _)), ext_cost_frame.
  - reflexivity.
Qed.

Lemma ext_step_time (a : Z) (s : env) (g : G) :
  let s' := state_of (step a s g) in
  (time_hours s + dt s >= 24.0 ->
   time_hours s' = time_hours s + dt s - 24.0 /\ day s' = (day s + 1)%Z) /\
  (~ time_hours s + dt s >= 24.0 ->
   time_hours s' = time_hours s + dt s /\ day s' = day s) /\
  ultradian_phase s' = ultradian_phase s + 2 * PI * dt s / ultradian_period.
Proof.
  destruct s; run_step; repeat split; intros;
    destruct (Rge_dec _ _); try reflexivity; contradiction.
Qed.

Lemma ext_run_cons (a : Z) (rest : list Z) (s : env) (g : G) :
  run (a :: rest) s g =
  (done_of (step a s g)
     :: fst (fst (run rest (state_of (step a s g)) (gen_of (step a s g)))),
   snd (fst (run rest (state_of (step a s g)) (gen_of (step a s g)))),
   snd (run rest (state_of (step a s g)) (gen_of (step a s g)))).
Proof. reflexivity. Qed.

(** The [done] flags of an episode: the k-th call (counted from 1 after the
    counter was at [current_step s]) compares the advanced counter with the
    horizon. *)
Lemma ext_run_dones (actions : list Z) (s : env) (g : G) :
  fst (fst (run actions s g)) =
  map (fun k => (current_step s + Z.of_nat k + 1 >=? max_steps s)%Z)
    (seq 0 (length actions)).
Proof.
  revert s g; induction actions as [|a rest IH]; intros s g; [reflexivity|].
  rewrite ext_run_cons; cbn [fst snd length seq map].
  rewrite IH, ext_step_done, <- seq_shift, map_map.
  destruct (ext_step_counter a s g) as (Hc & Hs & _).
  f_equal; [f_equal; simpl; lia|].
  apply map_ext; intros k; rewrite Hc, Hs; f_equal; lia.
Qed.

(** The cost is floored at zero. *)
Lemma ext_load_nonneg (s : env) (mr_occ gr_occ : R) :
  0 <= _allostatic_load s mr_occ gr_occ.
Proof.
  unfold _allostatic_load.
  match goal with |- _ <= Rmax ?x ?y => pose proof (Rmax_l x y) end; lra.
Qed.

(** The arcuate boosts depend on the drive through its absolute value. *)
Lemma arcuate_boosts (s : env) :
  arcuate_crh_boost s = 10 * Rabs (arcuate_metabolic_drive s) /\
  arcuate_acth_boost s = 5 * Rabs (arcuate_metabolic_drive s) /\
  0 <= arcuate_crh_boost s /\ 0 <= arcuate_acth_boost s.
Proof.
  unfold arcuate_crh_boost, arcuate_acth_boost.
  pose proof (Rabs_pos (arcuate_metabolic_drive s)); repeat split; lra.
Qed.

(** Within [step] the new CRH and ACTH see the updated drive through its
    absolute value only: two starts that differ in the drive alone and whose
    updated drives are opposite produce the same CRH and ACTH. *)
Lemma step_arcuate_even (a : Z) (s : env) (d : R) (g : G) :
  let s2 := set_arcuate_metabolic_drive d s in
  arcuate_metabolic_drive (_update_arcuate s) =
    - arcuate_metabolic_drive (_update_arcuate s2) ->
  crh (state_of (step a s g)) = crh (state_of (step a s2 g)) /\
  acth (state_of (step a s g)) = acth (state_of (step a s2 g)).
Proof.
  destruct s; cbv zeta; run_step; intros Hd.
  rewrite Hd, Rabs_Ropp; split; reflexivity.
Qed.

(** The new CRH and ACTH, with the productions [step] computes for them:
    the state [u] is the one [step] has reached when it reads the arcuate
    drive, after the feedback and the eight upstream updates. *)
Lemma step_production (a : Z) (s : env) (g : G) :
  let fb := _total_negative_feedback (set__prev_cortisol (cortisol s) s) in
  let total_feedback := fst (fst (fst fb)) in
  let mr_occ := snd (fst (fst fb)) in
  let gr_occ := snd (fst fb) in
  let u :=
    _update_hippocampal_damage gr_occ
      (_update_urocortins
         (_update_upstream_signals mr_occ gr_occ
            (_update_arcuate
               (_update_sfo
                  (_update_lc
                     (_update_pfc mr_occ gr_occ
                        (_update_amygdala mr_occ gr_occ (snd fb)))))))) in
  let d := arcuate_metabolic_drive u in
  let crh_production :=
    CRH_BASAL + 10.0 * stress_level u + 30.0 * nts_drive u
    + 15.0 * sfo_drive u + 10.0 * mea_activity u + 10.0 * Rabs d
    - CRH_BASAL * total_feedback * 0.8 - 20.0 * gaba_inhibition u
    + IZR (a mod 3 - 1) * 0.3 * 20.0 in
  let crh' :=
    clip (crh u + (crh_production - k_crh * crh u) * dt u) 0.0 400.0 in
  let acth_production :=
    ACTH_BASAL * pituitary_mass u
    + 0.2 * (crh' - 100.0)
      * (crfr1_density u
         * Rmax 0.5 (1.0 - 0.2 * (crfr2_density u - 1.0)))
    + 0.1 * (avp u - OPT_AVP)
      * (1.0 + 0.15 * (avp u / OPT_AVP - 1.0)
               * (1.0 + 0.2 * chronic_stress_index u))
    + 3.0 * lc_activity u + 5.0 * Rabs d
    - ACTH_BASAL * total_feedback * 0.5
    + IZR ((a / 3) mod 3 - 1) * 0.5 * 10.0 in
  crh (state_of (step a s g)) = crh' /\
  acth (state_of (step a s g))
  = clip (acth u + (acth_production - k_acth * acth u) * dt u) 0.0 200.0.
Proof.
  destruct s; cbv zeta; run_step; split; reflexivity.
Qed.

(** What [reset] leaves behind, whatever the state before it. *)
Lemma ext_reset_fields (s : env) (g : G) :
  let s' := snd (fst (reset s g)) in
  (pituitary_mass s' = 1.0 /\ adrenal_mass s' = 1.0 /\
   mr_receptors s' = 1.0 /\ gr_receptors s' = 1.0 /\
   crfr1_density s' = 1.0 /\ crfr2_density s' = 1.0 /\
   melanocortin_tone s' = 1.0 /\ ucn1 s' = 1.0 /\ ucn23 s' = 1.0) /\
  (cea_sensitisation s' = 0.0 /\ hippocampal_damage s' = 0.0 /\
   chronic_stress_index s' = 0.0 /\ day s' = 0%Z /\
   current_step s' = 0%Z /\ cumulative_load s' = 0.0) /\
  (nts_drive s' = 0.2 /\ gaba_inhibition s' = 0.3 /\ sfo_drive s' = 0.2 /\
   cea_activity s' = 0.2 /\ mea_activity s' = 0.2 /\
   pfc_inhibition s' = 0.4 /\ lc_activity s' = 0.2 /\
   arcuate_metabolic_drive s' = 0.0 /\ _fast_feedback_signal s' = 0.0) /\
  cortisol_history s' = repeat (cortisol s') 50 /\
  _prev_cortisol s' = cortisol s' /\
  dt s' = dt s /\ max_steps s' = max_steps s.
Proof. destruct s; repeat split. Qed.

(** The values [reset] draws, in the order it draws them. *)
Lemma ext_reset_draws (s : env) (g : G) :
  let s' := snd (fst (reset s g)) in
  let r1 := rng_normal 0 20 g in
  let r2 := rng_normal 0 5 (snd r1) in
  let r3 := rng_normal 0 2 (snd r2) in
  let r4 := rng_normal 0 0.5 (snd r3) in
  let r5 := rng_normal 0 1 (snd r4) in
  let r6 := rng_uniform 0 1.5 (snd r5) in
  let r7 := rng_uniform 0 1.5 (snd r6) in
  let r8 := rng_uniform 0 24 (snd r7) in
  let r9 := rng_uniform 0 (2 * PI) (snd r8) in
  crh s' = 100.0 + fst r1 /\ acth s' = 25.0 + fst r2 /\
  cortisol s' = 12.0 + fst r3 /\ avp s' = 4.0 + fst r4 /\
  beta_endorphin s' = 5.0 + fst r5 /\
  stress_physical s' = fst r6 /\ stress_emotional s' = fst r7 /\
  time_hours s' = fst r8 /\ ultradian_phase s' = fst r9 /\
  snd (reset s g) = snd r9.
Proof. destruct s; repeat split. Qed.

(** [step] reads the generator through four draws only: the pulse noise,
    the event draw and, when an event occurs, the magnitude and the draw
    that picks the pool. *)
Lemma ext_step_draws (a : Z) (s : env) (g g' : G) :
  let n := rng_normal 0 0.5 g in
  let n' := rng_normal 0 0.5 g' in
  let u := rng_random (snd n) in
  let u' := rng_random (snd n') in
  let m := rng_choice [2; 5; 8] [0.6; 0.3; 0.1] (snd u) in
  let m' := rng_choice [2; 5; 8] [0.6; 0.3; 0.1] (snd u') in
  let p := rng_random (snd m) in
  let p' := rng_random (snd m') in
  fst n = fst n' -> fst u = fst u' ->
  (fst u < 0.02 -> fst m = fst m' /\ fst p = fst p') ->
  fst (step a s g) = fst (step a s g').
Proof.
  cbv zeta; intros Hn Hu Hm; destruct s; run_step.
  cbv [fst snd] in Hn, Hu, Hm.
  rewrite Hn; rewrite Hu in Hm |- *.
  match goal with
  | |- context [Rlt_dec ?x 0.02] => destruct (Rlt_dec x 0.02) as [Hlt|Hge]
  end; [destruct (Hm Hlt) as [Hm1 Hm2]; rewrite Hm1, Hm2|]; reflexivity.
Qed.

(** The generator [step] hands back has made exactly those draws. *)
Lemma ext_step_generator (a : Z) (s : env) (g : G) :
  let u := rng_random (snd (rng_normal 0 0.5 g)) in
  let m := rng_choice [2; 5; 8] [0.6; 0.3; 0.1] (snd u) in
  gen_of (step a s g) =
  if Rlt_dec (fst u) 0.02 then snd (rng_random (snd m)) else snd u.
Proof. destruct s; reflexivity. Qed.

End WithRandomSource.
End ExtendedFacts.

(** * Properties of the two models *)

(** C1.  One [step] keeps every bounded state variable inside its declared
    closed interval: from a state whose bounded fields are in range, and
    for any integer action (valid or not) and any random source whose
    [choice] returns one of the offered magnitudes, the new state is in
    range again, in the simple and in the extended model. *)
Theorem step_keeps_bounds :
  (forall (G : Type) (RS : RandomSource G) (a : Z) (s : Simple.env) (g : G),
      choice_sound G -> Simple.bounded s ->
      Simple.bounded (state_of (Simple.step a s g))) /\
  (forall (G : Type) (RS : RandomSource G) (a : Z) (s : Extended.env) (g : G),
      choice_sound G -> Extended.bounded s ->
      Extended.bounded (state_of (Extended.step a s g))).
Proof.
  split; intros G RS a s g Hc Hb.
  - now apply SimpleFacts.step_bounded.
  - now apply ExtendedFacts.ext_step_bounded.
Qed.

(** The basal state of each model is in range and stays so after a step. *)
Lemma step_keeps_bounds_witness :
  (Simple.bounded Simple.basal /\
   Simple.bounded (state_of (Simple.step 4 Simple.basal Simple.quiet))) /\
  (Extended.bounded Extended.basal /\
   Extended.bounded (state_of (Extended.step 13 Extended.basal Simple.quiet))).
Proof.
  assert (Hs : Simple.bounded Simple.basal).
  { unfold Simple.bounded, Simple.basal; cbn; repeat split; lra. }
  assert (He : Extended.bounded Extended.basal).
  { unfold Extended.bounded, Extended.basal, Extended.stress_level; cbn;
      repeat split; lra. }
  split; (split; [assumption|]).
  - exact (proj1 step_keeps_bounds tape tape_source 4%Z Simple.basal
             Simple.quiet tape_choice_sound Hs).
  - exact (proj2 step_keeps_bounds tape tape_source 13%Z Extended.basal
             Simple.quiet tape_choice_sound He).
Defined.

(** C3 (as the code behaves).  [step] has no range check: any integer
    action is decoded by its three base-3 digits, so it acts exactly as
    [action mod 27] does, and the call completes as a normal step that
    advances the step counter, in both models (time step not 0 in the
    extended model, whose [step] divides by it). *)
Theorem step_decodes_any_action :
  (forall (G : Type) (RS : RandomSource G) (a : Z) (s : Simple.env) (g : G),
      Simple.step a s g = Simple.step (a mod 27) s g /\
      Simple.current_step (state_of (Simple.step a s g))
      = (Simple.current_step s + 1)%Z) /\
  (forall (G : Type) (RS : RandomSource G) (a : Z) (s : Extended.env) (g : G),
      Extended.dt s <> 0 ->
      Extended.step a s g = Extended.step (a mod 27) s g /\
      Extended.current_step (state_of (Extended.step a s g))
      = (Extended.current_step s + 1)%Z).
Proof.
  split; [intros G RS a s g|intros G RS a s g _];
    destruct (digits_mod_27 a) as (H1 & H2 & H3);
    symmetry in H1, H2, H3.
  - split; [exact (SimpleFacts.step_decode _ _ s g H1 H2 H3)|].
    exact (proj1 (SimpleFacts.step_counter a s g)).
  - split; [exact (ExtendedFacts.ext_step_decode _ _ s g H1 H2 H3)|].
    exact (proj1 (ExtendedFacts.ext_step_counter a s g)).
Qed.

(** Action 40 on the basal state of the extended model, whose time step is
    0.1, is action 13. *)
Lemma step_decodes_any_action_witness :
  Extended.step 40 Extended.basal Simple.quiet
  = Extended.step (40 mod 27) Extended.basal Simple.quiet /\
  Extended.current_step (state_of (Extended.step 40 Extended.basal Simple.quiet))
  = (Extended.current_step Extended.basal + 1)%Z.
Proof.
  refine (proj2 step_decodes_any_action tape tape_source 40%Z Extended.basal
            Simple.quiet _).
  unfold Extended.basal; simpl; lra.
Defined.

(** C3, refuted as stated.  Action 27 is outside [0, 26], yet the extended
    [step] reports nothing: it runs as action 0 does and leaves a state
    whose step counter moved from 0 to 1.  Action 9 is outside [0, 8], and
    the simple [step] runs it as a step too. *)
Lemma invalid_action_is_stepped :
  (~ (0 <= 9 < 9)%Z /\
   Simple.current_step Simple.basal = 0%Z /\
   Simple.current_step (state_of (Simple.step 9 Simple.basal Simple.quiet))
   = 1%Z) /\
  ~ (0 <= 27 < 27)%Z /\
  Extended.step 27 Extended.basal Simple.quiet
  = Extended.step 0 Extended.basal Simple.quiet /\
  Extended.current_step Extended.basal = 0%Z /\
  Extended.current_step
    (state_of (Extended.step 27 Extended.basal Simple.quiet)) = 1%Z /\
  state_of (Extended.step 27 Extended.basal Simple.quiet) <> Extended.basal.
Proof.
  assert (Hc : Extended.current_step
                 (state_of (Extended.step 27 Extended.basal Simple.quiet))
               = 1%Z)
    by exact (proj1 (ExtendedFacts.ext_step_counter 27 Extended.basal
                       Simple.quiet)).
  split.
  { split; [lia|]; split; [reflexivity|].
    exact (proj1 (SimpleFacts.step_counter 9 Simple.basal Simple.quiet)). }
  split; [lia|]; split; [|split; [reflexivity|split; [exact Hc|]]].
  - exact (ExtendedFacts.ext_step_decode 27 0 Extended.basal Simple.quiet
             eq_refl eq_refl eq_refl).
  - intros E; rewrite E in Hc; discriminate Hc.
Qed.

(** C4.  Receptor occupancy is the saturating curve [C / (Kd + C)] with
    [Kd = 0.5] for MR and [Kd = 5.0] for GR; on [C >= 0] each occupancy is
    strictly increasing, is 0 at [C = 0], tends to 1 as [C] grows without
    bound, and the MR occupancy is at least the GR occupancy.  The extended
    model computes the same pair from its state's molar cortisol. *)
Theorem receptor_occupancy_curve :
  let mr := fun C => fst (Simple._calculate_receptor_occupancy C) in
  let gr := fun C => snd (Simple._calculate_receptor_occupancy C) in
  (forall C, mr C = C / (0.5 + C) /\ gr C = C / (5.0 + C)) /\
  (forall s : Extended.env,
      Extended._receptor_occupancy s
      = Simple._calculate_receptor_occupancy (Extended._cortisol_nm s)) /\
  (forall C1 C2, 0 <= C1 -> C1 < C2 -> mr C1 < mr C2 /\ gr C1 < gr C2) /\
  (mr 0 = 0 /\ gr 0 = 0) /\
  (forall eps, 0 < eps ->
     exists M, forall C, M <= C ->
       Rabs (mr C - 1) < eps /\ Rabs (gr C - 1) < eps) /\
  (forall C, 0 <= C -> gr C <= mr C).
Proof.
  cbv zeta; unfold Simple._calculate_receptor_occupancy, Simple.mr_kd,
    Simple.gr_kd; cbn [fst snd].
  split; [intros C; split; reflexivity|].
  split; [intros s; reflexivity|].
  split; [intros C1 C2 H1 H12; split; apply mm_increasing; lra|].
  split; [split; apply mm_zero; lra|].
  split.
  - intros eps He.
    destruct (mm_limit 0.5 eps ltac:(lra) He) as [M1 HM1].
    destruct (mm_limit 5.0 eps ltac:(lra) He) as [M2 HM2].
    exists (Rmax M1 M2); intros C HC.
    pose proof (Rmax_l M1 M2); pose proof (Rmax_r M1 M2).
    split; [apply HM1|apply HM2]; lra.
  - intros C HC; apply mm_order; lra.
Qed.

(** Both occupancies grow from 1 nM to 2 nM, and MR leads GR at 1 nM. *)
Lemma receptor_occupancy_curve_witness :
  fst (Simple._calculate_receptor_occupancy 1)
  < fst (Simple._calculate_receptor_occupancy 2) /\
  snd (Simple._calculate_receptor_occupancy 1)
  < snd (Simple._calculate_receptor_occupancy 2) /\
  snd (Simple._calculate_receptor_occupancy 1)
  <= fst (Simple._calculate_receptor_occupancy 1).
Proof.
  destruct receptor_occupancy_curve as (_ & _ & Hinc & _ & _ & Hord).
  destruct (Hinc 1 2 ltac:(lra) ltac:(lra)) as [H1 H2].
  exact (conj H1 (conj H2 (Hord 1 ltac:(lra)))).
Defined.

(** C5.  The load of every step is non-negative, the reward is exactly 5.0
    minus that load (so at most 5.0), and the load is what [step] adds to
    the accumulated load.  In the simple model the load is the sum of the
    eleven cost components (basal, deviation, tissue damage, ACTH, CRH, MR,
    GR, receptor, gland, instability and stress response, each
    non-negative) times the vulnerability factor [2 - stress_resilience] of
    the configured stage (1.5, 1.3, 1.15 and 1.0 for infant, child,
    adolescent and adult); in the extended model, for a time step other
    than 0 (its [step] divides by it), the load is floored at zero. *)
Theorem load_nonneg_reward_offset :
  (forall (G : Type) (RS : RandomSource G) (a : Z) (s : Simple.env) (g : G),
      let s' := state_of (Simple.step a s g) in
      let occ := Simple._calculate_receptor_occupancy
                   (Simple._cortisol_to_nmol (Simple.cortisol s)) in
      let load := Simple._calculate_allostatic_load s' (fst occ) (snd occ) in
      0 <= load /\
      reward_of (Simple.step a s g) = 5.0 - load /\
      reward_of (Simple.step a s g) <= 5.0 /\
      Simple.cumulative_load s' = Simple.cumulative_load s + load /\
      load = (Simple.basal_cost + Simple.deviation_cost s'
              + Simple.tissue_damage s' + Simple.acth_cost s'
              + Simple.crh_cost s' + Simple.mr_cost (fst occ)
              + Simple.gr_cost s' (snd occ) + Simple.receptor_cost s'
              + Simple.gland_cost s' + Simple.instability_cost s'
              + Simple.stress_response_cost s')
             * (2.0 - Simple.stress_resilience s) /\
      (0 <= Simple.basal_cost /\ 0 <= Simple.deviation_cost s' /\
       0 <= Simple.tissue_damage s' /\ 0 <= Simple.acth_cost s' /\
       0 <= Simple.crh_cost s' /\ 0 <= Simple.mr_cost (fst occ) /\
       0 <= Simple.gr_cost s' (snd occ) /\ 0 <= Simple.receptor_cost s' /\
       0 <= Simple.gland_cost s' /\ 0 <= Simple.instability_cost s' /\
       0 <= Simple.stress_response_cost s')) /\
  (forall s : Simple.env,
      Simple.stress_resilience (Simple.set_stage "infant" s) = 0.5 /\
      Simple.stress_resilience (Simple.set_stage "child" s) = 0.7 /\
      Simple.stress_resilience (Simple.set_stage "adolescent" s) = 0.85 /\
      Simple.stress_resilience (Simple.set_stage "adult" s) = 1.0) /\
  (forall (G : Type) (RS : RandomSource G) (a : Z) (s : Extended.env) (g : G),
      Extended.dt s <> 0 ->
      let s' := state_of (Extended.step a s g) in
      let occ := Extended._receptor_occupancy s in
      let load := Extended._allostatic_load s' (fst occ) (snd occ) in
      0 <= load /\
      reward_of (Extended.step a s g) = 5.0 - load /\
      reward_of (Extended.step a s g) <= 5.0 /\
      Extended.cumulative_load s' = Extended.cumulative_load s + load).
Proof.
  split; [|split].
  - intros G RS a s g; cbv zeta.
    destruct (SimpleFacts.step_cost a s g) as [Hr Hc]; cbv zeta in Hr, Hc.
    pose proof (SimpleFacts.load_nonneg (state_of (Simple.step a s g))
                  (fst (Simple._calculate_receptor_occupancy
                          (Simple._cortisol_to_nmol (Simple.cortisol s))))
                  (snd (Simple._calculate_receptor_occupancy
                          (Simple._cortisol_to_nmol (Simple.cortisol s)))))
      as Hn.
    split; [exact Hn|]; split; [lra|]; split; [lra|]; split; [exact Hc|].
    split.
    { unfold Simple._calculate_allostatic_load, Simple.total_allocastic_load,
        Simple.stress_resilience.
      now rewrite (proj1 (proj2 (SimpleFacts.step_counter a s g))). }
    exact (SimpleFacts.components_nonneg _ _ _).
  - intros s; repeat split.
  - intros G RS a s g _; cbv zeta.
    destruct (ExtendedFacts.ext_step_cost a s g) as (Hr & Hc & _);
      cbv zeta in Hr, Hc.
    pose proof (ExtendedFacts.ext_load_nonneg (state_of (Extended.step a s g))
                  (fst (Extended._receptor_occupancy s))
                  (snd (Extended._receptor_occupancy s))) as Hn.
    split; [exact Hn|]; split; [exact Hr|]; split; [lra|exact Hc].
Qed.

(** A step of each model from its basal state, whose time step is 0.1. *)
Lemma load_nonneg_reward_offset_witness :
  reward_of (Extended.step 13 Extended.basal Simple.quiet) <= 5.0 /\
  reward_of (Simple.step 4 Simple.basal Simple.quiet) <= 5.0.
Proof.
  split.
  - refine (proj1 (proj2 (proj2
              (proj2 (proj2 load_nonneg_reward_offset) tape tape_source
                 13%Z Extended.basal Simple.quiet _)))).
    unfold Extended.basal; simpl; lra.
  - exact (proj1 (proj2 (proj2
             (proj1 load_nonneg_reward_offset tape tape_source 4%Z
                Simple.basal Simple.quiet)))).
Defined.

(** C2, refuted as stated.  [__init__] and [reset] on the draws of
    [trough_draws] leave a state in range whose cortisol is 0.3; a quiet
    step from it ends with cortisol 0, and its reward is 5.0 minus the cost
    computed with the occupancies of 0.3, the cortisol at entry, which is
    not 5.0 minus the cost of the new state with the occupancies of its own
    cortisol: a quantity derived from the pre-update state enters the
    cost. *)
Lemma cost_reads_entry_cortisol :
  let e := Simple.init 0.1 "adult" Simple.trough_draws in
  let r0 := Simple.reset (fst e) (snd e) in
  let s := snd (fst r0) in
  let r := Simple.step 0 s (snd r0) in
  let s' := state_of r in
  let cost c :=
    let occ := Simple._calculate_receptor_occupancy
                 (Simple._cortisol_to_nmol c) in
    Simple._calculate_allostatic_load s' (fst occ) (snd occ) in
  Simple.bounded s /\ Simple.history_ok s /\
  Simple.cortisol s = 0.3 /\ Simple.cortisol s' = 0 /\
  reward_of r = 5.0 - cost (Simple.cortisol s) /\
  reward_of r <> 5.0 - cost (Simple.cortisol s').
Proof.
  cbv zeta.
  destruct SimpleFacts.trough_reset as [Hs Hg]; cbv zeta in Hs, Hg.
  rewrite Hs, Hg.
  split; [exact SimpleFacts.trough_bounded|].
  split; [rewrite <- Hs; apply SimpleFacts.history_ok_reset|].
  split; [reflexivity|split; [exact SimpleFacts.trough_cortisol|split]].
  - destruct (SimpleFacts.step_cost 0 Simple.trough Simple.quiet) as [Hr _];
      cbv zeta in Hr.
    rewrite Hr; lra.
  - exact SimpleFacts.trough_reward_gap.
Qed.

(** C2 (as the code behaves).  The load behind the reward is the cost
    function applied to the post-update state and to the MR/GR occupancies
    of the cortisol level at entry to [step]; the cost function reads the
    state and returns a number, and ignores the accumulated load.  Both
    models keep the entry cortisol in the new state: the extended one as
    [_prev_cortisol], the simple one as the entry before last of the
    cortisol history, which holds 50 entries and ends with the current
    cortisol after [__init__], after [reset] and after every [step].  So
    two executions that end in the same state have the same reward (in the
    extended model for a time step other than 0, by which its [step]
    divides). *)
Theorem load_uses_entry_occupancy :
  (forall (G : Type) (RS : RandomSource G) (a : Z) (s : Simple.env) (g : G),
      let s' := state_of (Simple.step a s g) in
      let occ := Simple._calculate_receptor_occupancy
                   (Simple._cortisol_to_nmol (Simple.cortisol s)) in
      reward_of (Simple.step a s g)
      = 5.0 - Simple._calculate_allostatic_load s' (fst occ) (snd occ)) /\
  (forall (x : R) (s : Simple.env) (mr_occ gr_occ : R),
      Simple._calculate_allostatic_load (Simple.set_cumulative_load x s)
        mr_occ gr_occ
      = Simple._calculate_allostatic_load s mr_occ gr_occ) /\
  (forall (G : Type) (RS : RandomSource G) (a : Z) (s : Simple.env) (g : G)
          (dt : R) (stage : string),
      Simple.history_ok (fst (Simple.init dt stage g)) /\
      Simple.history_ok (snd (fst (Simple.reset s g))) /\
      (Simple.history_ok s ->
       let s' := state_of (Simple.step a s g) in
       Simple.history_ok s' /\
       last (removelast (Simple.cortisol_history s')) 0
       = Simple.cortisol s)) /\
  (forall (G : Type) (RS : RandomSource G) (a1 a2 : Z)
          (s1 s2 : Simple.env) (g1 g2 : G),
      Simple.history_ok s1 -> Simple.history_ok s2 ->
      state_of (Simple.step a1 s1 g1) = state_of (Simple.step a2 s2 g2) ->
      reward_of (Simple.step a1 s1 g1) = reward_of (Simple.step a2 s2 g2)) /\
  (forall (G : Type) (RS : RandomSource G) (a : Z) (s : Extended.env) (g : G),
      Extended.dt s <> 0 ->
      let s' := state_of (Extended.step a s g) in
      let occ := Simple._calculate_receptor_occupancy
                   (Extended.cortisol s * Extended.CORTISOL_TO_NM) in
      reward_of (Extended.step a s g)
      = 5.0 - Extended._allostatic_load s' (fst occ) (snd occ) /\
      Extended._prev_cortisol s' = Extended.cortisol s) /\
  (forall (G : Type) (RS : RandomSource G) (a1 a2 : Z)
          (s1 s2 : Extended.env) (g1 g2 : G),
      Extended.dt s1 <> 0 -> Extended.dt s2 <> 0 ->
      state_of (Extended.step a1 s1 g1) = state_of (Extended.step a2 s2 g2) ->
      reward_of (Extended.step a1 s1 g1) = reward_of (Extended.step a2 s2 g2)).
Proof.
  split; [|split; [|split; [|split; [|split]]]].
  - intros G RS a s g; cbv zeta.
    destruct (SimpleFacts.step_cost a s g) as [Hr _]; cbv zeta in Hr.
    rewrite Hr; lra.
  - intros x s mr_occ gr_occ; exact (SimpleFacts.load_set_cumulative _ _ _ _).
  - intros G RS a s g dt stage.
    split; [apply SimpleFacts.history_ok_init|].
    split; [apply SimpleFacts.history_ok_reset|].
    intros Hh; cbv zeta; split.
    + now apply SimpleFacts.history_ok_step.
    + now apply SimpleFacts.history_tells_entry.
  - intros G RS a1 a2 s1 s2 g1 g2 H1 H2 E.
    exact (SimpleFacts.same_state_same_reward a1 a2 s1 s2 g1 g2 H1 H2 E).
  - intros G RS a s g _; cbv zeta.
    destruct (ExtendedFacts.ext_step_cost a s g) as (Hr & _ & Hp);
      cbv zeta in Hr, Hp.
    split; [exact Hr|exact Hp].
  - intros G RS a1 a2 s1 s2 g1 g2 _ _ E.
    destruct (ExtendedFacts.ext_step_cost a1 s1 g1) as (H1 & _ & P1);
      cbv zeta in H1, P1.
    destruct (ExtendedFacts.ext_step_cost a2 s2 g2) as (H2 & _ & P2);
      cbv zeta in H2, P2.
    rewrite H1, H2.
    assert (Hocc : Extended._receptor_occupancy s1
                   = Extended._receptor_occupancy s2).
    { unfold Extended._receptor_occupancy, Extended._cortisol_nm.
      rewrite <- P1, <- P2, E; reflexivity. }
    rewrite Hocc, E; reflexivity.
Qed.

(** Actions 27 and 0 take the basal state of each model to the same state,
    and the rewards agree. *)
Lemma load_uses_entry_occupancy_witness :
  reward_of (Extended.step 27 Extended.basal Simple.quiet)
  = reward_of (Extended.step 0 Extended.basal Simple.quiet) /\
  reward_of (Simple.step 27 Simple.basal Simple.quiet)
  = reward_of (Simple.step 0 Simple.basal Simple.quiet).
Proof.
  assert (Hdt : Extended.dt Extended.basal <> 0)
    by (unfold Extended.basal; simpl; lra).
  assert (Hh : Simple.history_ok Simple.basal)
    by (split; [reflexivity|reflexivity]).
  split.
  - exact (proj2 (proj2 (proj2 (proj2 (proj2 load_uses_entry_occupancy))))
             tape tape_source 27%Z 0%Z Extended.basal Extended.basal
             Simple.quiet Simple.quiet Hdt Hdt
             (f_equal state_of
                (ExtendedFacts.ext_step_decode 27 0 Extended.basal
                   Simple.quiet eq_refl eq_refl eq_refl))).
  - exact (proj1 (proj2 (proj2 (proj2 load_uses_entry_occupancy)))
             tape tape_source 27%Z 0%Z Simple.basal Simple.basal
             Simple.quiet Simple.quiet Hh Hh
             (f_equal state_of
                (SimpleFacts.step_decode 27 0 Simple.basal Simple.quiet
                   eq_refl eq_refl eq_refl))).
Defined.

(** C6.  After [reset] the step counter is 0 and the horizon is the
    configured one; then, for every sequence of actions, the k-th call of
    [step] (k = 1, 2, ...) returns [done = (k >= max_steps)]: false at every
    call before the horizon and true at the call that reaches it.  The
    horizon of the simple model is 240, 720, 1440 or 2400 by stage; the
    default of the extended model is 2400, and its time step is taken not
    to be 0, since its [step] divides by it. *)
Theorem done_exactly_at_horizon :
  (forall (G : Type) (RS : RandomSource G) (s : Simple.env) (g : G)
          (actions : list Z) (k : nat),
      (k < length actions)%nat ->
      let r := Simple.reset s g in
      nth_error (fst (fst (Simple.run actions (snd (fst r)) (snd r)))) k
      = Some (Z.of_nat (k + 1) >=? Simple.max_steps s)%Z) /\
  (forall (G : Type) (RS : RandomSource G) (s : Extended.env) (g : G)
          (actions : list Z) (k : nat),
      Extended.dt s <> 0 ->
      (k < length actions)%nat ->
      let r := Extended.reset s g in
      nth_error (fst (fst (Extended.run actions (snd (fst r)) (snd r)))) k
      = Some (Z.of_nat (k + 1) >=? Extended.max_steps s)%Z) /\
  (forall s : Simple.env,
      Simple.max_steps (Simple.set_stage "infant" s) = 240%Z /\
      Simple.max_steps (Simple.set_stage "child" s) = 720%Z /\
      Simple.max_steps (Simple.set_stage "adolescent" s) = 1440%Z /\
      Simple.max_steps (Simple.set_stage "adult" s) = 2400%Z) /\
  (forall (G : Type) (RS : RandomSource G) (g : G),
      Extended.max_steps
        (fst (Extended.init Extended.default_time_step_hours
                Extended.default_max_steps g)) = 2400%Z).
Proof.
  assert (Hnth : forall (f : nat -> bool) (n k : nat), (k < n)%nat ->
             nth_error (map f (seq 0 n)) k = Some (f k)).
  { intros f n k Hk.
    rewrite nth_error_map, (nth_error_nth' _ 0%nat) by (now rewrite length_seq).
    now rewrite seq_nth. }
  split; [|split; [|split]].
  - intros G RS s g actions k Hk; cbv zeta.
    rewrite SimpleFacts.run_dones, Hnth by exact Hk.
    destruct (SimpleFacts.reset_fields s g)
      as (_ & _ & _ & _ & _ & Hc & _ & _ & _ & Hs); cbv zeta in Hc, Hs.
    unfold Simple.max_steps; rewrite Hc, Hs.
    do 2 f_equal; lia.
  - intros G RS s g actions k _ Hk; cbv zeta.
    rewrite ExtendedFacts.ext_run_dones, Hnth by exact Hk.
    destruct (ExtendedFacts.ext_reset_fields s g)
      as (_ & (_ & _ & _ & _ & Hc & _) & _ & _ & _ & _ & Hm);
      cbv zeta in Hc, Hm.
    rewrite Hc, Hm.
    do 2 f_equal; lia.
  - intros s; repeat split.
  - intros G RS g.
    exact (proj2 (proj2 (proj2 (proj2 (proj2 (proj2
             (ExtendedFacts.ext_reset_fields _ g))))))).
Qed.

(** With a horizon of 2, the first call is not done and the second is. *)
Lemma done_exactly_at_horizon_witness :
  let s := Extended.set_max_steps 2 Extended.basal in
  let r := Extended.reset s Simple.quiet in
  nth_error (fst (fst (Extended.run [13; 13; 13]%Z (snd (fst r)) (snd r)))) 0
  = Some false /\
  nth_error (fst (fst (Extended.run [13; 13; 13]%Z (snd (fst r)) (snd r)))) 1
  = Some true.
Proof.
  assert (Hdt : Extended.dt (Extended.set_max_steps 2 Extended.basal) <> 0)
    by (unfold Extended.basal; simpl; lra).
  split.
  - exact (proj1 (proj2 done_exactly_at_horizon) tape tape_source
             (Extended.set_max_steps 2 Extended.basal) Simple.quiet
             [13; 13; 13]%Z 0%nat Hdt ltac:(simpl; lia)).
  - exact (proj1 (proj2 done_exactly_at_horizon) tape tape_source
             (Extended.set_max_steps 2 Extended.basal) Simple.quiet
             [13; 13; 13]%Z 1%nat Hdt ltac:(simpl; lia)).
Defined.

(** C7, refuted as stated.  A state whose ultradian phase is in [0, 2 PI)
    steps to a state whose phase is 2 PI * 31 / 30: the phase is advanced
    and never reduced modulo 2 PI. *)
Lemma phase_leaves_its_interval :
  let s := Extended.late_phase in
  let s' := state_of (Extended.step 13 s Simple.quiet) in
  0 <= Extended.ultradian_phase s < 2 * PI /\
  Extended.ultradian_phase s' = 2 * PI * 31 / 30 /\
  ~ (0 <= Extended.ultradian_phase s' < 2 * PI).
Proof.
  cbv zeta.
  pose proof PI_RGT_0 as Hpi.
  destruct (ExtendedFacts.ext_step_time 13 Extended.late_phase Simple.quiet)
    as (_ & _ & Hp); cbv zeta in Hp.
  rewrite Hp.
  change (Extended.ultradian_phase Extended.late_phase)
    with (2 * PI * 29 / 30).
  change (Extended.dt Extended.late_phase) with 0.1.
  unfold Extended.ultradian_period.
  split; [lra|]; split; [lra|]; lra.
Qed.

(** C7 (as the code behaves).  With a time of day in [0, 24) and a time
    step in [0, 24], one [step] leaves the time of day in [0, 24): it is
    advanced by [dt] and reduced by 24 exactly when it reaches 24, and the
    day counter moves by one exactly then.  The ultradian phase is advanced
    by [2 PI dt / period] and is not reduced: it never decreases.  Both
    models behave so. *)
Theorem time_wraps_phase_accumulates :
  (forall (G : Type) (RS : RandomSource G) (a : Z) (s : Simple.env) (g : G),
      0 <= Simple.time_hours s < 24 -> 0 <= Simple.dt s <= 24 ->
      let s' := state_of (Simple.step a s g) in
      0 <= Simple.time_hours s' < 24 /\
      (Simple.time_hours s + Simple.dt s >= 24 ->
       Simple.time_hours s' = Simple.time_hours s + Simple.dt s - 24 /\
       Simple.day s' = (Simple.day s + 1)%Z) /\
      (Simple.time_hours s + Simple.dt s < 24 ->
       Simple.time_hours s' = Simple.time_hours s + Simple.dt s /\
       Simple.day s' = Simple.day s) /\
      Simple.ultradian_phase s'
      = Simple.ultradian_phase s
        + 2 * PI * Simple.dt s / Simple.ultradian_period /\
      Simple.ultradian_phase s <= Simple.ultradian_phase s') /\
  (forall (G : Type) (RS : RandomSource G) (a : Z) (s : Extended.env) (g : G),
      0 <= Extended.time_hours s < 24 -> 0 <= Extended.dt s <= 24 ->
      let s' := state_of (Extended.step a s g) in
      0 <= Extended.time_hours s' < 24 /\
      (Extended.time_hours s + Extended.dt s >= 24 ->
       Extended.time_hours s' = Extended.time_hours s + Extended.dt s - 24 /\
       Extended.day s' = (Extended.day s + 1)%Z) /\
      (Extended.time_hours s + Extended.dt s < 24 ->
       Extended.time_hours s' = Extended.time_hours s + Extended.dt s /\
       Extended.day s' = Extended.day s) /\
      Extended.ultradian_phase s'
      = Extended.ultradian_phase s
        + 2 * PI * Extended.dt s / Extended.ultradian_period /\
      Extended.ultradian_phase s <= Extended.ultradian_phase s').
Proof.
  pose proof PI_RGT_0 as Hpi.
  split; intros G RS a s g Ht Hd; cbv zeta.
  - destruct (SimpleFacts.step_time a s g) as (Hw & Hn & Hp);
      cbv zeta in Hw, Hn, Hp.
    rewrite Hp; unfold Simple.ultradian_period.
    assert (Hq : 0 <= 2 * PI * Simple.dt s / 1.5) by nra.
    split; [|split; [exact Hw|split; [intros Hlt; apply Hn; lra|split; lra]]].
    destruct (Rge_dec (Simple.time_hours s + Simple.dt s) 24) as [Hge|Hlt].
    + destruct (Hw Hge) as [E _]; rewrite E; lra.
    + destruct (Hn Hlt) as [E _]; rewrite E; lra.
  - destruct (ExtendedFacts.ext_step_time a s g) as (Hw & Hn & Hp);
      cbv zeta in Hw, Hn, Hp.
    rewrite Hp; unfold Extended.ultradian_period.
    assert (Hq : 0 <= 2 * PI * Extended.dt s / 1.5) by nra.
    assert (Hw' : Extended.time_hours s + Extended.dt s >= 24 ->
                  Extended.time_hours s + Extended.dt s >= 24.0)
      by (intros; lra).
    split; [|split; [intros Hge; destruct (Hw (Hw' Hge)) as [E1 E2];
                     split; [rewrite E1; lra|exact E2]
                    |split; [intros Hlt; apply Hn; lra|split; lra]]].
    destruct (Rge_dec (Extended.time_hours s + Extended.dt s) 24.0)
      as [Hge|Hlt].
    + destruct (Hw Hge) as [E _]; rewrite E; lra.
    + destruct (Hn Hlt) as [E _]; rewrite E; lra.
Qed.

(** From 08:00 with a step of 0.1 h the time stays in range and the phase
    does not decrease. *)
Lemma time_wraps_phase_accumulates_witness :
  let s' := state_of (Simple.step 4 Simple.basal Simple.quiet) in
  0 <= Simple.time_hours s' < 24 /\
  Simple.ultradian_phase Simple.basal <= Simple.ultradian_phase s'.
Proof.
  assert (Ht : 0 <= Simple.time_hours Simple.basal < 24)
    by (unfold Simple.basal; simpl; lra).
  assert (Hd : 0 <= Simple.dt Simple.basal <= 24)
    by (unfold Simple.basal; simpl; lra).
  destruct (proj1 time_wraps_phase_accumulates tape tape_source 4%Z
              Simple.basal Simple.quiet Ht Hd) as (H1 & _ & _ & _ & H2).
  exact (conj H1 H2).
Defined.

(** C8.  [step] is a function of the state, the action and the generator,
    and it reads the generator through the draws of the ultradian noise and
    of the stress-event injection only: the noise, the occurrence draw and,
    when an event occurs, the magnitude (and, in the extended model, the
    draw that picks the pool).  Two generators that agree on these draws
    give the same observation, reward, done flag and new state, and the
    generator handed back has made exactly these draws (in the extended
    model for a time step other than 0, by which its [step] divides). *)
Theorem step_deterministic_in_draws :
  (forall (G : Type) (RS : RandomSource G) (a : Z) (s : Simple.env)
          (g g' : G),
      let n := rng_normal 0 0.5 g in
      let n' := rng_normal 0 0.5 g' in
      let u := rng_random (snd n) in
      let u' := rng_random (snd n') in
      let m := rng_choice [2; 5; 8] [0.6; 0.3; 0.1] (snd u) in
      let m' := rng_choice [2; 5; 8] [0.6; 0.3; 0.1] (snd u') in
      (fst n = fst n' -> fst u = fst u' ->
       (fst u < 0.02 -> fst m = fst m') ->
       obs_of (Simple.step a s g) = obs_of (Simple.step a s g') /\
       reward_of (Simple.step a s g) = reward_of (Simple.step a s g') /\
       done_of (Simple.step a s g) = done_of (Simple.step a s g') /\
       state_of (Simple.step a s g) = state_of (Simple.step a s g')) /\
      gen_of (Simple.step a s g)
      = (if Rlt_dec (fst u) 0.02 then snd m else snd u)) /\
  (forall (G : Type) (RS : RandomSource G) (a : Z) (s : Extended.env)
          (g g' : G),
      Extended.dt s <> 0 ->
      let n := rng_normal 0 0.5 g in
      let n' := rng_normal 0 0.5 g' in
      let u := rng_random (snd n) in
      let u' := rng_random (snd n') in
      let m := rng_choice [2; 5; 8] [0.6; 0.3; 0.1] (snd u) in
      let m' := rng_choice [2; 5; 8] [0.6; 0.3; 0.1] (snd u') in
      let p := rng_random (snd m) in
      let p' := rng_random (snd m') in
      (fst n = fst n' -> fst u = fst u' ->
       (fst u < 0.02 -> fst m = fst m' /\ fst p = fst p') ->
       obs_of (Extended.step a s g) = obs_of (Extended.step a s g') /\
       reward_of (Extended.step a s g) = reward_of (Extended.step a s g') /\
       done_of (Extended.step a s g) = done_of (Extended.step a s g') /\
       state_of (Extended.step a s g) = state_of (Extended.step a s g')) /\
      gen_of (Extended.step a s g)
      = (if Rlt_dec (fst u) 0.02 then snd p else snd u)).
Proof.
  split; [intros G RS a s g g'|intros G RS a s g g' _]; cbv zeta.
  - split; [|exact (SimpleFacts.step_generator a s g)].
    intros Hn Hu Hm.
    pose proof (SimpleFacts.step_draws a s g g' Hn Hu Hm) as E.
    unfold obs_of, reward_of, done_of, state_of.
    rewrite E; repeat split.
  - split; [|exact (ExtendedFacts.ext_step_generator a s g)].
    intros Hn Hu Hm.
    pose proof (ExtendedFacts.ext_step_draws a s g g' Hn Hu Hm) as E.
    unfold obs_of, reward_of, done_of, state_of.
    rewrite E; repeat split.
Qed.

(** Two tapes that fire an event and differ after the four draws only. *)
Lemma step_deterministic_in_draws_witness :
  let g := [0; 0.01; 0.7; 0.3; 7] in
  let g' := [0; 0.01; 0.7; 0.3; 9] in
  g <> g' /\
  obs_of (Extended.step 13 Extended.basal g)
  = obs_of (Extended.step 13 Extended.basal g') /\
  reward_of (Extended.step 13 Extended.basal g)
  = reward_of (Extended.step 13 Extended.basal g') /\
  done_of (Extended.step 13 Extended.basal g)
  = done_of (Extended.step 13 Extended.basal g') /\
  state_of (Extended.step 13 Extended.basal g)
  = state_of (Extended.step 13 Extended.basal g').
Proof.
  cbv zeta; split.
  - intros E; injection E as E; lra.
  - refine (proj1 (proj2 step_deterministic_in_draws tape tape_source 13%Z
                     Extended.basal [0; 0.01; 0.7; 0.3; 7]
                     [0; 0.01; 0.7; 0.3; 9] _)
              eq_refl eq_refl (fun _ => conj eq_refl eq_refl)).
    unfold Extended.basal; simpl; lra.
Defined.

(** C9.  In the extended model's [step] (time step not 0) the arcuate
    contributions to hormone production are even in the arcuate metabolic
    drive [d] that [step] has just updated.  The new CRH is the clipped old
    CRH plus the time step times production minus decay, and the
    production holds the term [10 |d|]; the new ACTH likewise, with the
    term [5 |d|].  Both terms are non-negative, and two steps whose updated
    drives are opposite yield the same CRH and ACTH.  The state [u] is the
    one [step] has reached when it reads the drive. *)
Theorem arcuate_boost_is_even :
  (forall (G : Type) (RS : RandomSource G) (a : Z) (s : Extended.env) (g : G),
      Extended.dt s <> 0 ->
      let fb := Extended._total_negative_feedback
                  (Extended.set__prev_cortisol (Extended.cortisol s) s) in
      let total_feedback := fst (fst (fst fb)) in
      let mr_occ := snd (fst (fst fb)) in
      let gr_occ := snd (fst fb) in
      let u :=
        Extended._update_hippocampal_damage gr_occ
          (Extended._update_urocortins
             (Extended._update_upstream_signals mr_occ gr_occ
                (Extended._update_arcuate
                   (Extended._update_sfo
                      (Extended._update_lc
                         (Extended._update_pfc mr_occ gr_occ
                            (Extended._update_amygdala mr_occ gr_occ
                               (snd fb)))))))) in
      let d := Extended.arcuate_metabolic_drive u in
      let crh_production :=
        Extended.CRH_BASAL + 10.0 * Extended.stress_level u
        + 30.0 * Extended.nts_drive u + 15.0 * Extended.sfo_drive u
        + 10.0 * Extended.mea_activity u + 10.0 * Rabs d
        - Extended.CRH_BASAL * total_feedback * 0.8
        - 20.0 * Extended.gaba_inhibition u
        + IZR (a mod 3 - 1) * 0.3 * 20.0 in
      let crh' :=
        clip (Extended.crh u
              + (crh_production - Extended.k_crh * Extended.crh u)
                * Extended.dt u) 0.0 400.0 in
      let acth_production :=
        Extended.ACTH_BASAL * Extended.pituitary_mass u
        + 0.2 * (crh' - 100.0)
          * (Extended.crfr1_density u
             * Rmax 0.5 (1.0 - 0.2 * (Extended.crfr2_density u - 1.0)))
        + 0.1 * (Extended.avp u - Extended.OPT_AVP)
          * (1.0 + 0.15 * (Extended.avp u / Extended.OPT_AVP - 1.0)
                   * (1.0 + 0.2 * Extended.chronic_stress_index u))
        + 3.0 * Extended.lc_activity u + 5.0 * Rabs d
        - Extended.ACTH_BASAL * total_feedback * 0.5
        + IZR ((a / 3) mod 3 - 1) * 0.5 * 10.0 in
      Extended.crh (state_of (Extended.step a s g)) = crh' /\
      Extended.acth (state_of (Extended.step a s g))
      = clip (Extended.acth u
              + (acth_production - Extended.k_acth * Extended.acth u)
                * Extended.dt u) 0.0 200.0 /\
      0 <= 10.0 * Rabs d /\ 0 <= 5.0 * Rabs d /\
      10.0 * Rabs (- d) = 10.0 * Rabs d /\ 5.0 * Rabs (- d) = 5.0 * Rabs d) /\
  (forall (G : Type) (RS : RandomSource G) (a : Z) (s : Extended.env)
          (d : R) (g : G),
      Extended.dt s <> 0 ->
      let s2 := Extended.set_arcuate_metabolic_drive d s in
      Extended.arcuate_metabolic_drive (Extended._update_arcuate s)
      = - Extended.arcuate_metabolic_drive (Extended._update_arcuate s2) ->
      Extended.crh (state_of (Extended.step a s g))
      = Extended.crh (state_of (Extended.step a s2 g)) /\
      Extended.acth (state_of (Extended.step a s g))
      = Extended.acth (state_of (Extended.step a s2 g))).
Proof.
  split.
  - intros G RS a s g _; cbv zeta.
    destruct (ExtendedFacts.step_production a s g) as [Hc Ha];
      cbv zeta in Hc, Ha.
    split; [exact Hc|split; [exact Ha|]].
    match goal with
    | |- context [Rabs (- ?d)] =>
        rewrite (Rabs_Ropp d); pose proof (Rabs_pos d) as Hd;
        revert Hd; generalize (Rabs d); intros r Hd
    end.
    repeat split; lra.
  - intros G RS a s d g _; exact (ExtendedFacts.step_arcuate_even a s d g).
Qed.

(** From the basal state the updated drive is -0.0001; from the drive
    0.0002 / 0.998 it is 0.0001. *)
Lemma arcuate_boost_is_even_witness :
  let s2 := Extended.set_arcuate_metabolic_drive (0.0002 / 0.998)
              Extended.basal in
  Extended.crh (state_of (Extended.step 13 Extended.basal Simple.quiet))
  = Extended.crh (state_of (Extended.step 13 s2 Simple.quiet)) /\
  Extended.acth (state_of (Extended.step 13 Extended.basal Simple.quiet))
  = Extended.acth (state_of (Extended.step 13 s2 Simple.quiet)).
Proof.
  refine (proj2 arcuate_boost_is_even tape tape_source 13%Z
            Extended.basal (0.0002 / 0.998) Simple.quiet _ _).
  { unfold Extended.basal; simpl; lra. }
  cbv beta iota zeta delta
    [Extended._update_arcuate Extended.set_arcuate_metabolic_drive
     Extended.arcuate_metabolic_drive Extended.chronic_stress_index
     Extended.stress_physical Extended.stress_emotional
     Extended.melanocortin_tone Extended.dt Extended.basal].
  replace (0.0 / 3.0) with 0 by lra.
  replace 0.0 with 0 by lra.
  rewrite tanh_0.
  rewrite !clip_inside by lra; lra.
Defined.

(** C10.  [reset] draws the hormone concentrations, the stress pools, the
    time of day and the ultradian phase, and nothing else; whatever the
    state before, the gland masses, the receptor densities and (extended
    model) the CRFR densities, the melanocortin tone and the urocortin
    pools are 1.0 afterwards, the CeA sensitisation, hippocampal damage,
    chronic stress index, day counter, step counter and accumulated load
    are 0, and the cortisol history is 50 copies of the cortisol value
    just drawn.  The remaining attributes are set to fixed values or kept
    (time step, stage, horizon), so no attribute depends on a draw other
    than the ones listed. *)
Theorem reset_restores_basal_state :
  (forall (G : Type) (RS : RandomSource G) (s : Simple.env) (g : G),
      let s' := snd (fst (Simple.reset s g)) in
      let r1 := rng_normal 0 2 g in
      let r2 := rng_normal 0 5 (snd r1) in
      let r3 := rng_normal 0 20 (snd r2) in
      let r4 := rng_uniform 0 3 (snd r3) in
      let r5 := rng_uniform 0 24 (snd r4) in
      let r6 := rng_uniform 0 (2 * PI) (snd r5) in
      (Simple.cortisol s' = 12.0 + fst r1 /\
       Simple.acth s' = 25.0 + fst r2 /\
       Simple.crh s' = 100.0 + fst r3 /\
       Simple.stress_level s' = fst r4 /\
       Simple.time_hours s' = fst r5 /\
       Simple.ultradian_phase s' = fst r6 /\
       snd (Simple.reset s g) = snd r6) /\
      Simple.pituitary_mass s' = 1.0 /\ Simple.adrenal_mass s' = 1.0 /\
      Simple.mr_receptors s' = 1.0 /\ Simple.gr_receptors s' = 1.0 /\
      Simple.day s' = 0%Z /\ Simple.current_step s' = 0%Z /\
      Simple.cumulative_load s' = 0.0 /\
      Simple.cortisol_history s' = repeat (Simple.cortisol s') 50 /\
      length (Simple.cortisol_history s') = 50%nat /\
      Simple.dt s' = Simple.dt s /\ Simple.stage s' = Simple.stage s) /\
  (forall (G : Type) (RS : RandomSource G) (s : Extended.env) (g : G),
      let s' := snd (fst (Extended.reset s g)) in
      let r1 := rng_normal 0 20 g in
      let r2 := rng_normal 0 5 (snd r1) in
      let r3 := rng_normal 0 2 (snd r2) in
      let r4 := rng_normal 0 0.5 (snd r3) in
      let r5 := rng_normal 0 1 (snd r4) in
      let r6 := rng_uniform 0 1.5 (snd r5) in
      let r7 := rng_uniform 0 1.5 (snd r6) in
      let r8 := rng_uniform 0 24 (snd r7) in
      let r9 := rng_uniform 0 (2 * PI) (snd r8) in
      (Extended.crh s' = 100.0 + fst r1 /\
       Extended.acth s' = 25.0 + fst r2 /\
       Extended.cortisol s' = 12.0 + fst r3 /\
       Extended.avp s' = 4.0 + fst r4 /\
       Extended.beta_endorphin s' = 5.0 + fst r5 /\
       Extended.stress_physical s' = fst r6 /\
       Extended.stress_emotional s' = fst r7 /\
       Extended.time_hours s' = fst r8 /\
       Extended.ultradian_phase s' = fst r9 /\
       snd (Extended.reset s g) = snd r9) /\
      (Extended.pituitary_mass s' = 1.0 /\ Extended.adrenal_mass s' = 1.0 /\
       Extended.mr_receptors s' = 1.0 /\ Extended.gr_receptors s' = 1.0 /\
       Extended.crfr1_density s' = 1.0 /\ Extended.crfr2_density s' = 1.0 /\
       Extended.melanocortin_tone s' = 1.0 /\
       Extended.ucn1 s' = 1.0 /\ Extended.ucn23 s' = 1.0) /\
      (Extended.cea_sensitisation s' = 0.0 /\
       Extended.hippocampal_damage s' = 0.0 /\
       Extended.chronic_stress_index s' = 0.0 /\
       Extended.day s' = 0%Z /\ Extended.current_step s' = 0%Z /\
       Extended.cumulative_load s' = 0.0) /\
      (Extended.nts_drive s' = 0.2 /\ Extended.gaba_inhibition s' = 0.3 /\
       Extended.sfo_drive s' = 0.2 /\ Extended.cea_activity s' = 0.2 /\
       Extended.mea_activity s' = 0.2 /\ Extended.pfc_inhibition s' = 0.4 /\
       Extended.lc_activity s' = 0.2 /\
       Extended.arcuate_metabolic_drive s' = 0.0 /\
       Extended._fast_feedback_signal s' = 0.0) /\
      Extended.cortisol_history s' = repeat (Extended.cortisol s') 50 /\
      length (Extended.cortisol_history s') = 50%nat /\
      Extended._prev_cortisol s' = Extended.cortisol s' /\
      Extended.dt s' = Extended.dt s /\
      Extended.max_steps s' = Extended.max_steps s).
Proof.
  split; intros G RS s g; cbv zeta.
  - pose proof (SimpleFacts.reset_draws s g) as Hd; cbv zeta in Hd.
    destruct (SimpleFacts.reset_fields s g)
      as (H1 & H2 & H3 & H4 & H5 & H6 & H7 & H8 & H9 & H10); cbv zeta in *.
    split; [exact Hd|].
    repeat (split; [assumption|]).
    split; [rewrite H8; apply repeat_length|split; assumption].
  - pose proof (ExtendedFacts.ext_reset_draws s g) as Hd; cbv zeta in Hd.
    destruct (ExtendedFacts.ext_reset_fields s g)
      as (H1 & H2 & H3 & H4 & H5); cbv zeta in *.
    split; [exact Hd|].
    split; [exact H1|split; [exact H2|split; [exact H3|split; [exact H4|]]]].
    split; [rewrite H4; apply repeat_length|exact H5].
Qed.

(** * Further properties of the environments *)

(** ** Monotone clipping *)

Lemma clip_mono (x y l h : R) : x <= y -> clip x l h <= clip y l h.
Proof.
  intros Hxy; unfold clip.
  apply Rle_min_compat_r, Rle_max_compat_r; exact Hxy.
Qed.

Module SimpleDynamics.
Import Simple.

Section WithRandomSource.
Context {G : Type} `{RandomSource G}.

(** The observation [step] returns is that of the state it leaves. *)
Lemma step_obs (a : Z) (s : env) (g : G) :
  obs_of (step a s g) = _get_state (state_of (step a s g)).
Proof. destruct s; SimpleFacts.run_step; reflexivity. Qed.

(** The new cortisol is clipped whatever the state before. *)
Lemma step_cortisol_range (a : Z) (s : env) (g : G) :
  0 <= cortisol (state_of (step a s g)) <= 60.
Proof. destruct s; SimpleFacts.run_step; apply clip_between; lra. Qed.

(** Two actions with the same first two digits give the same CRH and ACTH,
    and the one with the larger third digit no less cortisol. *)
Lemma step_third_digit (a b : Z) (s : env) (g : G) :
  0 <= dt s ->
  (a mod 3 = b mod 3)%Z -> ((a / 3) mod 3 = (b / 3) mod 3)%Z ->
  ((a / 9) mod 3 <= (b / 9) mod 3)%Z ->
  crh (state_of (step a s g)) = crh (state_of (step b s g)) /\
  acth (state_of (step a s g)) = acth (state_of (step b s g)) /\
  cortisol (state_of (step a s g)) <= cortisol (state_of (step b s g)).
Proof.
  intros Hdt H1 H2 H3; destruct s; SimpleFacts.run_step.
  cbn [dt] in Hdt.
  rewrite H1, H2.
  split; [reflexivity|split; [reflexivity|]].
  apply clip_mono.
  apply Rplus_le_compat_l, Rmult_le_compat_r; [exact Hdt|].
  unfold Rminus; apply Rplus_le_compat_r, Rplus_le_compat_l.
  assert (Hd : IZR ((a / 9) mod 3 - 1) <= IZR ((b / 9) mod 3 - 1))
    by (apply IZR_le; lia).
  revert Hd; generalize (IZR ((a / 9) mod 3 - 1)), (IZR ((b / 9) mod 3 - 1)).
  intros u v Huv; lra.
Qed.

(** The receptor densities after [step], from the new cortisol. *)
Lemma step_receptors (a : Z) (s : env) (g : G) :
  let s' := state_of (step a s g) in
  let high := Rgt_dec (_cortisol_to_nmol (cortisol s')) 100 in
  gr_receptors s'
  = clip (if high then gr_receptors s * (1 - 0.0001 * dt s)
          else gr_receptors s + 0.0001 * dt s * (1.0 - gr_receptors s))
      0.3 1.5 /\
  mr_receptors s'
  = clip (if high then mr_receptors s * (1 - 0.00005 * dt s)
          else mr_receptors s + 0.00005 * dt s * (1.0 - mr_receptors s))
      0.5 1.2.
Proof. destruct s; cbv zeta; SimpleFacts.run_step; split; reflexivity. Qed.

(** A property every [step] keeps holds at the end of every run. *)
Lemma run_invariant (P : env -> Prop) :
  (forall a s g, P s -> P (state_of (step a s g))) ->
  forall actions s g, P s -> P (snd (fst (run actions s g))).
Proof.
  intros Hstep actions; induction actions as [|a rest IH]; intros s g Hs.
  - exact Hs.
  - rewrite SimpleFacts.run_cons; cbn [fst snd].
    apply IH, Hstep, Hs.
Qed.

End WithRandomSource.
End SimpleDynamics.

Module ExtendedDynamics.
Import Extended.

Section WithRandomSource.
Context {G : Type} `{RandomSource G}.

Lemma ext_step_history (a : Z) (s : env) (g : G) :
  cortisol_history (state_of (step a s g))
  = deque_append 50 (cortisol_history s) (cortisol (state_of (step a s g))).
Proof. destruct s; ExtendedFacts.run_step; reflexivity. Qed.

Lemma ext_step_obs (a : Z) (s : env) (g : G) :
  obs_of (step a s g) = _get_state (state_of (step a s g)).
Proof. destruct s; ExtendedFacts.run_step; reflexivity. Qed.

Lemma ext_step_cortisol_range (a : Z) (s : env) (g : G) :
  0 <= cortisol (state_of (step a s g)) <= 60.
Proof. destruct s; ExtendedFacts.run_step; apply clip_between; lra. Qed.

(** [step] stores the cortisol it starts from before it computes the rate
    of rise, so the rate is zero and the stored signal only decays. *)
Lemma ext_step_fast_signal (a : Z) (s : env) (g : G) :
  _fast_feedback_signal (state_of (step a s g))
  = 0.3 * _fast_feedback_signal s.
Proof.
  destruct s; ExtendedFacts.run_step.
  unfold Rdiv at 2; unfold Rdiv at 2.
  rewrite Rminus_diag, Rmult_0_l.
  replace (Rmax 0.0 0) with 0
    by (unfold Rmax; destruct (Rle_dec 0.0 0); lra).
  lra.
Qed.

(** The receptor densities after [step], from the new cortisol. *)
Lemma ext_step_receptors (a : Z) (s : env) (g : G) :
  let s' := state_of (step a s g) in
  let high := Rgt_dec (_cortisol_nm s') 100 in
  gr_receptors s'
  = clip (if high then gr_receptors s * (1 - 0.0001 * dt s)
          else gr_receptors s + 0.0001 * dt s * (1.0 - gr_receptors s))
      0.3 1.5 /\
  mr_receptors s'
  = clip (if high then mr_receptors s * (1 - 0.00005 * dt s)
          else mr_receptors s + 0.00005 * dt s * (1.0 - mr_receptors s))
      0.5 1.2.
Proof. destruct s; cbv zeta; ExtendedFacts.run_step; split; reflexivity. Qed.

Lemma ext_run_invariant (P : env -> Prop) :
  (forall a s g, P s -> P (state_of (step a s g))) ->
  forall actions s g, P s -> P (snd (fst (run actions s g))).
Proof.
  intros Hstep actions; induction actions as [|a rest IH]; intros s g Hs.
  - exact Hs.
  - rewrite ExtendedFacts.ext_run_cons; cbn [fst snd].
    apply IH, Hstep, Hs.
Qed.

End WithRandomSource.
End ExtendedDynamics.

(** ** Properties of the environments beyond the claims *)

(** X1.  The cortisol history is a rolling window: a [step] appends the new
    cortisol, and once the history holds 50 entries it drops the oldest, so
    the history keeps exactly 50 entries; after [reset] every run ends with
    a history of 50 entries.  Both models; the extended [step] divides by
    the time step, which is taken not to be 0. *)
Theorem history_is_rolling_window :
  (forall (G : Type) (RS : RandomSource G) (a : Z) (s : Simple.env) (g : G),
      let s' := state_of (Simple.step a s g) in
      ((length (Simple.cortisol_history s) < 50)%nat ->
       Simple.cortisol_history s'
       = Simple.cortisol_history s ++ [Simple.cortisol s']) /\
      (length (Simple.cortisol_history s) = 50%nat ->
       Simple.cortisol_history s'
       = tl (Simple.cortisol_history s) ++ [Simple.cortisol s'] /\
       length (Simple.cortisol_history s') = 50%nat)) /\
  (forall (G : Type) (RS : RandomSource G) (s : Simple.env) (g : G)
          (actions : list Z),
      let r := Simple.reset s g in
      length (Simple.cortisol_history
                (snd (fst (Simple.run actions (snd (fst r)) (snd r)))))
      = 50%nat) /\
  (forall (G : Type) (RS : RandomSource G) (a : Z) (s : Extended.env) (g : G),
      Extended.dt s <> 0 ->
      let s' := state_of (Extended.step a s g) in
      ((length (Extended.cortisol_history s) < 50)%nat ->
       Extended.cortisol_history s'
       = Extended.cortisol_history s ++ [Extended.cortisol s']) /\
      (length (Extended.cortisol_history s) = 50%nat ->
       Extended.cortisol_history s'
       = tl (Extended.cortisol_history s) ++ [Extended.cortisol s'] /\
       length (Extended.cortisol_history s') = 50%nat)) /\
  (forall (G : Type) (RS : RandomSource G) (s : Extended.env) (g : G)
          (actions : list Z),
      Extended.dt s <> 0 ->
      let r := Extended.reset s g in
      length (Extended.cortisol_history
                (snd (fst (Extended.run actions (snd (fst r)) (snd r)))))
      = 50%nat).
Proof.
  split; [|split; [|split]].
  - intros G RS a s g; cbv zeta.
    rewrite SimpleFacts.step_history; split.
    + intros Hl; now apply deque_append_room.
    + intros Hl; split.
      * apply deque_append_full; [exact Hl|lia].
      * rewrite deque_append_length, Hl; reflexivity.
  - intros G RS s g actions; cbv zeta.
    apply (SimpleDynamics.run_invariant
             (fun s => length (Simple.cortisol_history s) = 50%nat)).
    + intros a s0 g0 Hl.
      rewrite SimpleFacts.step_history, deque_append_length, Hl.
      reflexivity.
    + destruct (SimpleFacts.reset_fields s g)
        as (_ & _ & _ & _ & _ & _ & _ & Hh & _); cbv zeta in Hh.
      rewrite Hh; apply repeat_length.
  - intros G RS a s g _; cbv zeta.
    rewrite ExtendedDynamics.ext_step_history; split.
    + intros Hl; now apply deque_append_room.
    + intros Hl; split.
      * apply deque_append_full; [exact Hl|lia].
      * rewrite deque_append_length, Hl; reflexivity.
  - intros G RS s g actions _; cbv zeta.
    apply (ExtendedDynamics.ext_run_invariant
             (fun s => length (Extended.cortisol_history s) = 50%nat)).
    + intros a s0 g0 Hl.
      rewrite ExtendedDynamics.ext_step_history, deque_append_length, Hl.
      reflexivity.
    + destruct (ExtendedFacts.ext_reset_fields s g)
        as (_ & _ & _ & Hh & _); cbv zeta in Hh.
      rewrite Hh; apply repeat_length.
Qed.

(** A step from the basal state of each model shifts its full window. *)
Lemma history_is_rolling_window_witness :
  Simple.cortisol_history
    (state_of (Simple.step 4 Simple.basal Simple.quiet))
  = tl (Simple.cortisol_history Simple.basal)
    ++ [Simple.cortisol (state_of (Simple.step 4 Simple.basal Simple.quiet))]
  /\
  length (Extended.cortisol_history
            (state_of (Extended.step 13 Extended.basal Simple.quiet)))
  = 50%nat.
Proof.
  split.
  - exact (proj1 (proj2 (proj1 history_is_rolling_window tape tape_source
                           4%Z Simple.basal Simple.quiet) eq_refl)).
  - refine (proj2 (proj2 (proj1 (proj2 (proj2 history_is_rolling_window))
                            tape tape_source 13%Z Extended.basal Simple.quiet
                            _)
                     eq_refl)).
    unfold Extended.basal; simpl; lra.
Defined.

(** X2.  In the extended model the fast (rate-sensitive) feedback never
    engages inside [step]: [step] stores the current cortisol as the
    previous one before it computes the rate of rise, so the rate is zero,
    the stored signal is multiplied by 0.3 at every step, and after [reset]
    it is 0 at the end of every run. *)
Theorem fast_feedback_never_engages :
  (forall (G : Type) (RS : RandomSource G) (a : Z) (s : Extended.env) (g : G),
      Extended.dt s <> 0 ->
      Extended._fast_feedback_signal (state_of (Extended.step a s g))
      = 0.3 * Extended._fast_feedback_signal s) /\
  (forall (G : Type) (RS : RandomSource G) (s : Extended.env) (g : G)
          (actions : list Z),
      Extended.dt s <> 0 ->
      let r := Extended.reset s g in
      Extended._fast_feedback_signal
        (snd (fst (Extended.run actions (snd (fst r)) (snd r)))) = 0).
Proof.
  split.
  - intros G RS a s g _; apply ExtendedDynamics.ext_step_fast_signal.
  - intros G RS s g actions _; cbv zeta.
    apply (ExtendedDynamics.ext_run_invariant
             (fun s => Extended._fast_feedback_signal s = 0)).
    + intros a s0 g0 Hs.
      rewrite ExtendedDynamics.ext_step_fast_signal, Hs; lra.
    + destruct (ExtendedFacts.ext_reset_fields s g)
        as (_ & _ & (_ & _ & _ & _ & _ & _ & _ & _ & Hf) & _);
        cbv zeta in Hf.
      rewrite Hf; lra.
Qed.

(** After [reset] and three steps the stored signal is 0. *)
Lemma fast_feedback_never_engages_witness :
  let r := Extended.reset Extended.basal Simple.quiet in
  Extended._fast_feedback_signal
    (snd (fst (Extended.run [0; 13; 26]%Z (snd (fst r)) (snd r)))) = 0.
Proof.
  refine (proj2 fast_feedback_never_engages tape tape_source Extended.basal
            Simple.quiet [0; 13; 26]%Z _).
  unfold Extended.basal; simpl; lra.
Defined.

(** X3.  The circadian drive of the simple model is [9 + 9 cos] of the time
    of day: it lies in [0, 18], is 18 at 08:00 and 0 at 20:00, and is the
    same 24 hours later.  The drive of the extended model scales it by the
    clipped AVP factor and the chronic-stress factor: with a non-negative
    chronic stress index it lies in [0, 27], and it is 0 at 20:00. *)
Theorem circadian_drive_range :
  (forall s : Simple.env,
      0 <= Simple._get_circadian_amplitude s <= 18 /\
      Simple._get_circadian_amplitude
        (Simple.set_time_hours (Simple.time_hours s + 24) s)
      = Simple._get_circadian_amplitude s) /\
  (forall s : Simple.env,
      (Simple.time_hours s = 8 -> Simple._get_circadian_amplitude s = 18) /\
      (Simple.time_hours s = 20 -> Simple._get_circadian_amplitude s = 0)) /\
  (forall s : Extended.env,
      (0 <= Extended.chronic_stress_index s ->
       0 <= Extended._circadian_amplitude s <= 27) /\
      (Extended.time_hours s = 20 -> Extended._circadian_amplitude s = 0)).
Proof.
  split; [|split].
  - intros s; destruct s; unfold Simple._get_circadian_amplitude;
      cbn [Simple.time_hours Simple.set_time_hours]; split.
    + match goal with
      | |- context [cos ?x] => pose proof (COS_bound x) as [Hl Hu]
      end; lra.
    + match goal with
      | |- _ + _ * cos ?x = _ + _ * cos ?y =>
          replace x with (y + PI + PI) by lra
      end.
      rewrite 2!neg_cos; lra.
  - intros s; unfold Simple._get_circadian_amplitude; split; intros Ht;
      rewrite Ht.
    + replace (2 * PI * (8 - 8) / 24) with 0 by lra; rewrite cos_0; lra.
    + replace (2 * PI * (20 - 8) / 24) with PI by lra; rewrite cos_PI; lra.
  - intros s; unfold Extended._circadian_amplitude; cbv zeta; split.
    + intros Hc.
      match goal with
      | |- context [cos ?x] => pose proof (COS_bound x) as [Hl Hu];
                                 generalize dependent (cos x); intros c Hl Hu
      end.
      match goal with
      | |- context [clip ?x 0.5 1.5] =>
          pose proof (clip_bounds x 0.5 1.5 ltac:(lra)) as Hk;
          generalize dependent (clip x 0.5 1.5); intros k Hk
      end.
      match goal with
      | |- context [Rmax 0.5 ?x] =>
          assert (Hm : 0.5 <= Rmax 0.5 x <= 1)
            by (unfold Rmax; destruct (Rle_dec 0.5 x); lra);
          generalize dependent (Rmax 0.5 x); intros m Hm
      end.
      split; [apply Rmult_le_pos; [apply Rmult_le_pos|]; lra|].
      assert (H1 : (9.0 + 9.0 * c) * k <= 18 * 1.5)
        by (apply Rmult_le_compat; lra).
      assert (H0 : 0 <= (9.0 + 9.0 * c) * k)
        by (apply Rmult_le_pos; lra).
      replace 27 with (18 * 1.5 * 1) by lra.
      apply Rmult_le_compat; lra.
    + intros Ht; rewrite Ht.
      replace (2 * PI * (20 - 8) / 24) with PI by lra; rewrite cos_PI.
      replace (9.0 + 9.0 * -1) with 0 by lra.
      now rewrite !Rmult_0_l.
Qed.

(** The basal states start at 08:00; the trough state is at 20:00. *)
Lemma circadian_drive_range_witness :
  Simple._get_circadian_amplitude Simple.basal = 18 /\
  Simple._get_circadian_amplitude Simple.trough = 0 /\
  0 <= Extended._circadian_amplitude Extended.basal <= 27.
Proof.
  split; [|split].
  - apply (proj1 (proj1 (proj2 circadian_drive_range) Simple.basal)).
    unfold Simple.basal; simpl; lra.
  - apply (proj2 (proj1 (proj2 circadian_drive_range) Simple.trough)).
    unfold Simple.trough; simpl; lra.
  - apply (proj1 (proj2 (proj2 circadian_drive_range) Extended.basal)).
    unfold Extended.basal; simpl; lra.
Defined.

(** X4.  In the simple model the nine actions 0..8 all carry the lowest
    cortisol modifier: action [a], [a + 9] and [a + 18] give the same new
    CRH and ACTH, and the new cortisol of [a] is never above that of
    [a + 9], which is never above that of [a + 18] (for a non-negative
    time step). *)
Theorem low_actions_suppress_cortisol :
  forall (G : Type) (RS : RandomSource G) (a : Z) (s : Simple.env) (g : G),
    (0 <= a < 9)%Z -> 0 <= Simple.dt s ->
    let out := fun b => state_of (Simple.step b s g) in
    (Simple.crh (out a) = Simple.crh (out (a + 9)%Z) /\
     Simple.crh (out a) = Simple.crh (out (a + 18)%Z)) /\
    (Simple.acth (out a) = Simple.acth (out (a + 9)%Z) /\
     Simple.acth (out a) = Simple.acth (out (a + 18)%Z)) /\
    Simple.cortisol (out a) <= Simple.cortisol (out (a + 9)%Z) /\
    Simple.cortisol (out (a + 9)%Z) <= Simple.cortisol (out (a + 18)%Z).
Proof.
  intros G RS a s g Ha Hdt; cbv zeta.
  assert (D1 : forall k, (0 <= k)%Z ->
             ((a + 9 * k) mod 3 = a mod 3)%Z /\
             (((a + 9 * k) / 3) mod 3 = (a / 3) mod 3)%Z /\
             (((a + 9 * k) / 9) mod 3 = k mod 3)%Z).
  { intros k Hk.
    replace (a + 9 * k)%Z with (a + (3 * k) * 3)%Z at 1 2 by lia.
    rewrite Z.mod_add, Z.div_add by lia.
    replace (a / 3 + 3 * k)%Z with (a / 3 + k * 3)%Z by lia.
    rewrite Z.mod_add by lia.
    replace (a + 9 * k)%Z with (a + k * 9)%Z by lia.
    rewrite Z.div_add, (Z.div_small a 9) by lia.
    repeat split. }
  destruct (D1 0%Z ltac:(lia)) as (A1 & A2 & A3).
  destruct (D1 1%Z ltac:(lia)) as (B1 & B2 & B3).
  destruct (D1 2%Z ltac:(lia)) as (C1 & C2 & C3).
  replace (a + 9 * 0)%Z with a in A1, A2, A3 by lia.
  replace (a + 9 * 1)%Z with (a + 9)%Z in B1, B2, B3 by lia.
  replace (a + 9 * 2)%Z with (a + 18)%Z in C1, C2, C3 by lia.
  change (0 mod 3)%Z with 0%Z in A3.
  change (1 mod 3)%Z with 1%Z in B3.
  change (2 mod 3)%Z with 2%Z in C3.
  destruct (SimpleDynamics.step_third_digit a (a + 9) s g Hdt
              ltac:(lia) ltac:(lia) ltac:(lia)) as (E1 & E2 & E3).
  destruct (SimpleDynamics.step_third_digit a (a + 18) s g Hdt
              ltac:(lia) ltac:(lia) ltac:(lia)) as (F1 & F2 & _).
  destruct (SimpleDynamics.step_third_digit (a + 9) (a + 18) s g Hdt
              ltac:(lia) ltac:(lia) ltac:(lia)) as (_ & _ & K3).
  repeat split; assumption.
Qed.

(** Action 4 leaves CRH and ACTH to themselves and still lowers cortisol
    against action 13, the action whose three modifiers are zero. *)
Lemma low_actions_suppress_cortisol_witness :
  Simple.cortisol (state_of (Simple.step 4 Simple.basal Simple.quiet))
  <= Simple.cortisol (state_of (Simple.step 13 Simple.basal Simple.quiet)).
Proof.
  assert (Hd : 0 <= Simple.dt Simple.basal)
    by (unfold Simple.basal; simpl; lra).
  exact (proj1 (proj2 (proj2 (low_actions_suppress_cortisol tape tape_source
                  4%Z Simple.basal Simple.quiet ltac:(lia) Hd)))).
Defined.

(** X5.  Receptor densities recover only at low cortisol: when the new
    cortisol is above 100 nM (about 3.6 ug/dL) a [step] never raises the GR
    or MR density, and otherwise it moves each density no further from 1.
    Both models, for densities in range and a time step in [0, 24], not 0
    in the extended model, whose [step] divides by it. *)
Theorem receptors_recover_only_at_low_cortisol :
  (forall (G : Type) (RS : RandomSource G) (a : Z) (s : Simple.env) (g : G),
      0.3 <= Simple.gr_receptors s <= 1.5 ->
      0.5 <= Simple.mr_receptors s <= 1.2 ->
      0 <= Simple.dt s <= 24 ->
      let s' := state_of (Simple.step a s g) in
      (Simple._cortisol_to_nmol (Simple.cortisol s') > 100 ->
       Simple.gr_receptors s' <= Simple.gr_receptors s /\
       Simple.mr_receptors s' <= Simple.mr_receptors s) /\
      (~ Simple._cortisol_to_nmol (Simple.cortisol s') > 100 ->
       Rabs (Simple.gr_receptors s' - 1) <= Rabs (Simple.gr_receptors s - 1) /\
       Rabs (Simple.mr_receptors s' - 1)
       <= Rabs (Simple.mr_receptors s - 1))) /\
  (forall (G : Type) (RS : RandomSource G) (a : Z) (s : Extended.env) (g : G),
      0.3 <= Extended.gr_receptors s <= 1.5 ->
      0.5 <= Extended.mr_receptors s <= 1.2 ->
      0 < Extended.dt s <= 24 ->
      let s' := state_of (Extended.step a s g) in
      (Extended._cortisol_nm s' > 100 ->
       Extended.gr_receptors s' <= Extended.gr_receptors s /\
       Extended.mr_receptors s' <= Extended.mr_receptors s) /\
      (~ Extended._cortisol_nm s' > 100 ->
       Rabs (Extended.gr_receptors s' - 1)
       <= Rabs (Extended.gr_receptors s - 1) /\
       Rabs (Extended.mr_receptors s' - 1)
       <= Rabs (Extended.mr_receptors s - 1))).
Proof.
  assert (Hdown : forall x e l h, 0 <= l -> l <= x <= h -> 0 <= e ->
            clip (x * (1 - e)) l h <= x).
  { intros x e l h Hl Hx He.
    assert (Hxe : x * (1 - e) <= x) by nra.
    unfold clip, Rmin, Rmax.
    destruct (Rle_dec (x * (1 - e)) l); destruct (Rle_dec _ h); lra. }
  assert (Hup : forall x e l h, l <= x <= h -> l <= 1 <= h -> 0 <= e <= 1 ->
            Rabs (clip (x + e * (1.0 - x)) l h - 1) <= Rabs (x - 1)).
  { intros x e l h Hx H1 He.
    assert (Hin : x <= x + e * (1.0 - x) <= 1 \/ 1 <= x + e * (1.0 - x) <= x)
      by (destruct (Rle_dec x 1); [left|right]; nra).
    rewrite clip_inside by (destruct Hin; lra).
    unfold Rabs; destruct (Rcase_abs _); destruct (Rcase_abs _);
      destruct Hin; lra. }
  split; intros G RS a s g Hg Hm Hd; cbv zeta.
  - destruct (SimpleDynamics.step_receptors a s g) as [Eg Em];
      cbv zeta in Eg, Em; rewrite Eg, Em; clear Eg Em.
    split; intros Hc;
      destruct (Rgt_dec _ 100) as [Hgt|Hle]; try contradiction.
    + split; apply Hdown; lra.
    + split; apply Hup; lra.
  - destruct (ExtendedDynamics.ext_step_receptors a s g) as [Eg Em];
      cbv zeta in Eg, Em; rewrite Eg, Em; clear Eg Em.
    split; intros Hc;
      destruct (Rgt_dec _ 100) as [Hgt|Hle]; try contradiction.
    + split; apply Hdown; lra.
    + split; apply Hup; lra.
Qed.

(** A step from the basal state: the densities do not rise, or they end
    no further from 1. *)
Lemma receptors_recover_only_at_low_cortisol_witness :
  let s' := state_of (Simple.step 4 Simple.basal Simple.quiet) in
  (Simple.gr_receptors s' <= Simple.gr_receptors Simple.basal /\
   Simple.mr_receptors s' <= Simple.mr_receptors Simple.basal) \/
  (Rabs (Simple.gr_receptors s' - 1)
   <= Rabs (Simple.gr_receptors Simple.basal - 1) /\
   Rabs (Simple.mr_receptors s' - 1)
   <= Rabs (Simple.mr_receptors Simple.basal - 1)).
Proof.
  cbv zeta.
  destruct (proj1 receptors_recover_only_at_low_cortisol tape tape_source
              4%Z Simple.basal Simple.quiet) as [Hhi Hlo];
    [unfold Simple.basal; simpl; lra..|].
  cbv zeta in Hhi, Hlo.
  set (s' := state_of (Simple.step 4 Simple.basal Simple.quiet)) in *.
  destruct (Rgt_dec (Simple._cortisol_to_nmol (Simple.cortisol s')) 100)
    as [Hgt|Hle]; [left; exact (Hhi Hgt)|right; exact (Hlo Hle)].
Defined.

(** X6.  The observation [step] returns is the observation of the state it
    leaves: it has 12 entries in the simple model and 27 in the extended
    one (whose time step is taken not to be 0, since its [step] divides by
    it), and its two occupancy entries are the MR and GR occupancies of the
    new cortisol, each in [0, 1). *)
Theorem observation_is_of_new_state :
  (forall (G : Type) (RS : RandomSource G) (a : Z) (s : Simple.env) (g : G),
      let s' := state_of (Simple.step a s g) in
      let obs := obs_of (Simple.step a s g) in
      let occ := Simple._calculate_receptor_occupancy
                   (Simple._cortisol_to_nmol (Simple.cortisol s')) in
      obs = Simple._get_state s' /\ length obs = 12%nat /\
      nth 7 obs 0 = fst occ /\ nth 8 obs 0 = snd occ /\
      0 <= fst occ < 1 /\ 0 <= snd occ < 1) /\
  (forall (G : Type) (RS : RandomSource G) (a : Z) (s : Extended.env) (g : G),
      Extended.dt s <> 0 ->
      let s' := state_of (Extended.step a s g) in
      let obs := obs_of (Extended.step a s g) in
      let occ := Extended._receptor_occupancy s' in
      obs = Extended._get_state s' /\ length obs = 27%nat /\
      nth 14 obs 0 = fst occ /\ nth 15 obs 0 = snd occ /\
      0 <= fst occ < 1 /\ 0 <= snd occ < 1).
Proof.
  assert (Hocc : forall K C, 0 < K -> 0 <= C -> 0 <= C / (K + C) < 1).
  { intros K C HK HC; split.
    - apply Rmult_le_pos; [lra|]; left; apply Rinv_0_lt_compat; lra.
    - apply Rmult_lt_reg_r with (K + C); [lra|].
      unfold Rdiv; rewrite Rmult_assoc, Rinv_l by lra; lra. }
  split; [intros G RS a s g|intros G RS a s g _]; cbv zeta.
  - rewrite SimpleDynamics.step_obs.
    pose proof (SimpleDynamics.step_cortisol_range a s g) as Hc.
    revert Hc; generalize (state_of (Simple.step a s g)); intros s' Hc.
    split; [reflexivity|split; [reflexivity|]].
    split; [reflexivity|split; [reflexivity|]].
    unfold Simple._calculate_receptor_occupancy, Simple._cortisol_to_nmol,
      Simple.mr_kd, Simple.gr_kd; cbn [fst snd].
    split; apply Hocc; lra.
  - rewrite ExtendedDynamics.ext_step_obs.
    pose proof (ExtendedDynamics.ext_step_cortisol_range a s g) as Hc.
    revert Hc; generalize (state_of (Extended.step a s g)); intros s' Hc.
    split; [reflexivity|split; [reflexivity|]].
    split; [reflexivity|split; [reflexivity|]].
    unfold Extended._receptor_occupancy, Extended._cortisol_nm,
      Extended.MR_KD, Extended.GR_KD, Extended.CORTISOL_TO_NM; cbn [fst snd].
    split; apply Hocc; lra.
Qed.

(** A step of the extended model from its basal state. *)
Lemma observation_is_of_new_state_witness :
  length (obs_of (Extended.step 13 Extended.basal Simple.quiet)) = 27%nat.
Proof.
  refine (proj1 (proj2 (proj2 observation_is_of_new_state tape tape_source
                          13%Z Extended.basal Simple.quiet _))).
  unfold Extended.basal; simpl; lra.
Defined.

(** * Properties of the agents and of the loops *)

(** ** Rounding *)

Lemma rint_near (x : R) : Rabs (IZR (rint x) - x) <= 1 / 2.
Proof.
  unfold rint.
  pose proof (Rplus_Int_part_frac_part x) as Hx.
  pose proof (base_fp x) as [H0 H1].
  destruct (Rlt_dec (frac_part x) (1 / 2)) as [Hlt|Hge].
  - rewrite Rabs_left1; lra.
  - assert (Hup : Rabs (IZR (Int_part x + 1) - x) <= 1 / 2)
      by (rewrite plus_IZR, Rabs_right; lra).
    destruct (Rgt_dec (frac_part x) (1 / 2)) as [Hgt|Hle]; [exact Hup|].
    destruct (Z.even (Int_part x)); [|exact Hup].
    rewrite Rabs_left1; lra.
Qed.

Lemma rint_IZR (n : Z) : rint (IZR n) = n.
Proof.
  destruct (Int_part_frac_part_spec (IZR n) n 0 ltac:(lra) ltac:(lra))
    as [Hi Hf].
  unfold rint; rewrite <- Hi, <- Hf.
  destruct (Rlt_dec 0 (1 / 2)); [reflexivity|lra].
Qed.

Lemma rint_mono (x y : R) : x <= y -> (rint x <= rint y)%Z.
Proof.
  intros Hxy.
  pose proof (Rplus_Int_part_frac_part x) as Hx.
  pose proof (Rplus_Int_part_frac_part y) as Hy.
  pose proof (base_fp x) as [Hx0 Hx1].
  pose proof (base_fp y) as [Hy0 Hy1].
  assert (Hf : (Int_part x <= Int_part y)%Z).
  { apply le_IZR. 
    destruct (Z_lt_le_dec (Int_part y) (Int_part x)) as [Hlt|Hle].
    - apply IZR_lt in Hlt. 
      assert (IZR (Int_part y) + 1 <= IZR (Int_part x))
        by (rewrite <- plus_IZR; apply IZR_le; apply lt_IZR in Hlt; lia).
      lra.
    - now apply IZR_le. }
  assert (Hlo : forall z, (Int_part z <= rint z <= Int_part z + 1)%Z).
  { intros z; unfold rint.
    destruct (Rlt_dec _ _); [lia|].
    destruct (Rgt_dec _ _); [lia|].
    destruct (Z.even _); lia. }
  destruct (Z.eq_dec (Int_part x) (Int_part y)) as [E|NE].
  - unfold rint; rewrite E.
    assert (Hfr : frac_part x <= frac_part y) by (rewrite E in Hx; lra).
    destruct (Rlt_dec (frac_part x) (1 / 2));
      destruct (Rlt_dec (frac_part y) (1 / 2)); try lia; try lra.
    + destruct (Rgt_dec (frac_part y) (1 / 2)); [lia|].
      destruct (Z.even (Int_part y)); lia.
    + destruct (Rgt_dec (frac_part x) (1 / 2));
        destruct (Rgt_dec (frac_part y) (1 / 2)); try lia; try lra.
      destruct (Z.even (Int_part y)); lia.
  - pose proof (Hlo x); pose proof (Hlo y); lia.
Qed.

Lemma round1_near (x : R) : Rabs (round1 x - x) <= 0.05.
Proof.
  unfold round1.
  replace (IZR (rint (x * 10)) / 10 - x)
    with ((IZR (rint (x * 10)) - x * 10) * / 10) by lra.
  rewrite Rabs_mult, (Rabs_right (/ 10)) by lra.
  pose proof (rint_near (x * 10)); lra.
Qed.

Lemma round1_idem (x : R) : round1 (round1 x) = round1 x.
Proof.
  unfold round1 at 1.
  replace (round1 x * 10) with (IZR (rint (x * 10)))
    by (unfold round1; lra).
  now rewrite rint_IZR.
Qed.

Lemma round1_mono (x y : R) : x <= y -> round1 x <= round1 y.
Proof.
  intros Hxy; unfold round1.
  assert (IZR (rint (x * 10)) <= IZR (rint (y * 10)))
    by (apply IZR_le, rint_mono; lra).
  lra.
Qed.

(** ** Rows *)

Lemma argmax_from_spec (l : list R) (best : R) (best_i i : nat) :
  (best_i < i)%nat ->
  let r := argmax_from best best_i i l in
  (r = best_i /\ Forall (fun x => x <= best) l) \/
  (exists j, r = (i + j)%nat /\ (j < length l)%nat /\
             best < nth j l 0 /\
             Forall (fun x => x <= nth j l 0) l /\
             forall j', (j' < j)%nat -> nth j' l 0 < nth j l 0).
Proof.
  revert best best_i i; induction l as [|x l IH]; intros best best_i i Hi;
    cbn [argmax_from].
  - left; split; [reflexivity|constructor].
  - destruct (Rlt_dec best x) as [Hlt|Hge].
    + right.
      destruct (IH x i (S i) ltac:(lia))
        as [[Hr Hall]|(j & Hr & Hj & Hb & Hall & Hfirst)].
      * exists 0%nat; cbn [nth length]; rewrite Hr.
        split; [lia|split; [lia|split; [exact Hlt|split]]].
        -- constructor; [lra|exact Hall].
        -- intros j' Hj'; lia.
      * exists (S j); cbn [nth length]; rewrite Hr.
        split; [lia|split; [lia|split; [lra|split]]].
        -- constructor; [lra|exact Hall].
        -- intros [|j'] Hj'; cbn [nth]; [lra|apply Hfirst; lia].
    + destruct (IH best best_i (S i) ltac:(lia))
        as [[Hr Hall]|(j & Hr & Hj & Hb & Hall & Hfirst)].
      * left; split; [exact Hr|constructor; [lra|exact Hall]].
      * right; exists (S j); cbn [nth length]; rewrite Hr.
        split; [lia|split; [lia|split; [exact Hb|split]]].
        -- constructor; [lra|exact Hall].
        -- intros [|j'] Hj'; cbn [nth]; [lra|apply Hfirst; lia].
Qed.

(** [argmax] returns the first position of a largest entry. *)
Lemma argmax_spec (l : list R) :
  l <> [] ->
  exists i, argmax l = Ok i /\ (i < length l)%nat /\
            Forall (fun x => x <= nth i l 0) l /\
            forall j, (j < i)%nat -> nth j l 0 < nth i l 0.
Proof.
  destruct l as [|x l]; [congruence|intros _].
  cbn [argmax].
  destruct (argmax_from_spec l x 0 1 ltac:(lia))
    as [[Hr Hall]|(j & Hr & Hj & Hb & Hall & Hfirst)].
  - exists 0%nat; rewrite Hr; cbn [nth length].
    split; [reflexivity|split; [lia|split]].
    + constructor; [lra|exact Hall].
    + intros j Hj; lia.
  - exists (S j); rewrite Hr; cbn [nth length].
    split; [reflexivity|split; [lia|split]].
    + constructor; [lra|exact Hall].
    + intros [|j'] Hj'; cbn [nth]; [lra|apply Hfirst; lia].
Qed.

Lemma fold_Rmax_le (l : list R) (x b : R) :
  x <= b -> Forall (fun y => y <= b) l -> fold_left Rmax l x <= b.
Proof.
  revert x; induction l as [|y l IH]; intros x Hx Hall; cbn [fold_left].
  - exact Hx.
  - inversion Hall; subst; apply IH; [apply Rmax_lub; assumption|assumption].
Qed.

Lemma amax_ok (l : list R) :
  l <> [] ->
  exists m, amax l = Ok m /\
            forall b, Forall (fun y => y <= b) l -> m <= b.
Proof.
  destruct l as [|x l]; [congruence|intros _].
  exists (fold_left Rmax l x); split; [reflexivity|].
  intros b Hall; inversion Hall; subst; now apply fold_Rmax_le.
Qed.

Lemma index_in_range (n : nat) (i : Z) :
  (0 <= i < Z.of_nat n)%Z -> index n i = Ok (Z.to_nat i).
Proof.
  intros Hi; unfold index.
  replace ((0 <=? i) && (i <? Z.of_nat n))%Z with true; [reflexivity|].
  symmetry; apply andb_true_iff; split; [apply Z.leb_le|apply Z.ltb_lt]; lia.
Qed.

Lemma assign_length (i : nat) (v : R) (row : list R) :
  length (assign i v row) = length row.
Proof.
  revert i; induction row as [|x row IH]; intros [|i]; cbn; try reflexivity.
  now rewrite IH.
Qed.

Lemma assign_Forall (Q : R -> Prop) (i : nat) (v : R) (row : list R) :
  Q v -> Forall Q row -> Forall Q (assign i v row).
Proof.
  intros Hv; revert i; induction row as [|x row IH]; intros [|i] Hall;
    cbn; inversion Hall; subst; constructor; auto.
Qed.

Lemma nth_assign_same (i : nat) (v : R) (row : list R) :
  (i < length row)%nat -> nth i (assign i v row) 0 = v.
Proof.
  revert i; induction row as [|x row IH]; intros [|i] Hi; cbn in *;
    try lia; [reflexivity|apply IH; lia].
Qed.

Lemma nth_assign_other (i j : nat) (v : R) (row : list R) :
  i <> j -> nth j (assign i v row) 0 = nth j row 0.
Proof.
  revert i j; induction row as [|x row IH]; intros [|i] [|j] Hij; cbn;
    try reflexivity; try congruence.
  apply IH; congruence.
Qed.

Lemma deque_push_length {A : Type} (n : nat) (d : list A) (x : A) :
  length (deque_push n d x) = Nat.min (length d + 1) n.
Proof.
  unfold deque_push; rewrite length_skipn, length_app; simpl; lia.
Qed.

Lemma deque_push_incl {A : Type} (n : nat) (d : list A) (x : A) :
  incl (deque_push n d x) (x :: d).
Proof.
  unfold deque_push; intros y Hy.
  assert (Hin : In y (d ++ [x])).
  { rewrite <- (firstn_skipn (length (d ++ [x]) - n) (d ++ [x])).
    apply in_or_app; right; exact Hy. }
  apply in_app_or in Hin; destruct Hin as [Hin|[Hin|[]]];
    [right; exact Hin|left; exact Hin].
Qed.

Lemma deque_push_last {A : Type} (n : nat) (d : list A) (x : A) :
  (0 < n)%nat -> last (deque_push n d x) x = x.
Proof.
  intros Hn; unfold deque_push.
  set (k := (length (d ++ [x]) - n)%nat).
  assert (Hk : (k <= length d)%nat)
    by (unfold k; rewrite length_app; simpl; lia).
  rewrite skipn_app.
  replace (k - length d)%nat with 0%nat by lia.
  cbn [skipn]; apply last_last.
Qed.

(** ** The table *)

Lemma deque_push_room {A : Type} (n : nat) (d : list A) (x : A) :
  (length d < n)%nat -> deque_push n d x = d ++ [x].
Proof.
  intros Hl; unfold deque_push; rewrite length_app; cbn [length].
  replace (length d + 1 - n)%nat with 0%nat by lia; reflexivity.
Qed.

Lemma deque_push_full {A : Type} (n : nat) (d : list A) (x : A) :
  length d = n -> (0 < n)%nat -> deque_push n d x = tl d ++ [x].
Proof.
  intros Hl Hn; unfold deque_push; rewrite length_app; cbn [length].
  replace (length d + 1 - n)%nat with 1%nat by lia.
  destruct d as [|y d]; [cbn [length] in Hl; lia|reflexivity].
Qed.

Lemma deque_push_none {A : Type} (d : list A) (x : A) :
  deque_push 0 d x = [].
Proof.
  unfold deque_push; rewrite Nat.sub_0_r.
  apply skipn_all.
Qed.

Lemma lookup_store_same (k : key) (row : list R) (t : table) :
  lookup k (store k row t) = Some row.
Proof.
  induction t as [|[k' row'] t IH]; cbn.
  - destruct (key_eq_dec k k); congruence.
  - destruct (key_eq_dec k k') as [E|NE]; cbn.
    + destruct (key_eq_dec k k); congruence.
    + destruct (key_eq_dec k k'); [contradiction|exact IH].
Qed.

Lemma lookup_store_other (k k' : key) (row : list R) (t : table) :
  k' <> k -> lookup k' (store k row t) = lookup k' t.
Proof.
  intros Hk; induction t as [|[k0 row0] t IH]; cbn.
  - destruct (key_eq_dec k' k); [contradiction|reflexivity].
  - destruct (key_eq_dec k k0) as [E|NE]; cbn.
    + subst k0.
      destruct (key_eq_dec k' k); [contradiction|reflexivity].
    + destruct (key_eq_dec k' k0); [reflexivity|exact IH].
Qed.

Lemma store_length (k : key) (row : list R) (t : table) :
  length (store k row t)
  = match lookup k t with
    | Some _ => length t
    | None => S (length t)
    end.
Proof.
  induction t as [|[k' row'] t IH]; cbn; [reflexivity|].
  destruct (key_eq_dec k k'); cbn; [reflexivity|].
  rewrite IH; destruct (lookup k t); reflexivity.
Qed.

(** ** The digit tapes are sound sources *)

Lemma digit_lt_10 (t : digits) : (digit t < 10)%nat.
Proof. unfold digit; apply Nat.mod_upper_bound; lia. Qed.

Lemma digit_random_sound : random_sound digits.
Proof.
  intros t; cbn [rng_random digit_source fst].
  pose proof (digit_lt_10 t) as Hd.
  pose proof (pos_INR (digit t)) as H0.
  assert (H1 : INR (digit t) <= 9)
    by (replace 9 with (INR 9) by (simpl; lra); apply le_INR; lia).
  lra.
Qed.

Lemma digit_randrange_sound : randrange_sound digits.
Proof.
  intros n t Hn; cbn [py_randrange digit_random fst].
  apply Z.mod_pos_bound; exact Hn.
Qed.

Lemma digit_sample_sound : sample_sound digits.
Proof.
  intros A l k t Hk; cbn [py_sample digit_random fst]; split.
  - rewrite length_firstn; lia.
  - intros x Hx; rewrite <- (firstn_skipn k l); apply in_or_app; left;
      exact Hx.
Qed.

Lemma digit_choice_sound : choice_sound digits.
Proof.
  intros a p t Ha; cbn [rng_choice digit_source fst].
  apply nth_In, Nat.mod_upper_bound.
  destruct a; [congruence|simpl; lia].
Qed.

Module AgentFacts.
Import CurriculumDQNAgent AgentInvariants.

Lemma zeros_ok (n : Z) :
  (0 <= n)%Z -> zeros n = Ok (repeat 0 (Z.to_nat n)).
Proof.
  intros Hn; unfold zeros.
  destruct (n <? 0)%Z eqn:E; [apply Z.ltb_lt in E; lia|reflexivity].
Qed.

Lemma same_but_table_refl (a : agent) : same_but_table a a.
Proof. destruct a; reflexivity. Qed.

Lemma same_but_table_set (t : table) (a : agent) :
  same_but_table a (set_q_table t a).
Proof. destruct a; reflexivity. Qed.

Lemma same_but_table_trans (a b c : agent) :
  same_but_table a b -> same_but_table b c -> same_but_table a c.
Proof.
  unfold same_but_table; intros H1 H2; rewrite H2, H1 at 1.
  destruct a; reflexivity.
Qed.

Lemma same_but_table_fields (a a' : agent) :
  same_but_table a a' ->
  state_size a' = state_size a /\ action_size a' = action_size a /\
  memory a' = memory a /\ gamma a' = gamma a /\ epsilon a' = epsilon a /\
  epsilon_min a' = epsilon_min a /\ epsilon_decay a' = epsilon_decay a /\
  learning_rate a' = learning_rate a /\ batch_size a' = batch_size a /\
  learn_step a' = learn_step a /\ stage_history a' = stage_history a.
Proof.
  unfold same_but_table; intros E; rewrite E; destruct a; cbn.
  repeat split.
Qed.

(** The lookup-or-insert step that [get_q_values] and [replay] share. *)
Lemma ensure_row (k : key) (a : agent) :
  (0 <= action_size a)%Z -> rows_ok a ->
  exists a',
    match lookup k (q_table a) with
    | Some _ => Ok a
    | None =>
        row <- zeros (action_size a) ;;
        Ok (set_q_table (store k row (q_table a)) a)
    end = Ok a' /\
    same_but_table a a' /\ rows_ok a' /\ keeps_rows a a' /\
    lookup k (q_table a') <> None /\
    (lookup k (q_table a) = None ->
     lookup k (q_table a') = Some (repeat 0 (Z.to_nat (action_size a)))) /\
    (forall k', k' <> k -> lookup k' (q_table a') = lookup k' (q_table a)) /\
    (forall b, 0 <= b -> q_le b a -> q_le b a').
Proof.
  intros Hn Hrows.
  destruct (lookup k (q_table a)) as [row|] eqn:E.
  - exists a; split; [reflexivity|].
    split; [apply same_but_table_refl|split; [exact Hrows|]].
    split; [intros k' r' H'; exact H'|].
    split; [congruence|split; [discriminate|split; [reflexivity|]]].
    intros b _ Hq; exact Hq.
  - rewrite zeros_ok by exact Hn; cbn [bind].
    eexists; split; [reflexivity|].
    assert (Hq : q_table (set_q_table (store k (repeat 0 (Z.to_nat (action_size a))) (q_table a)) a)
                 = store k (repeat 0 (Z.to_nat (action_size a))) (q_table a))
      by (destruct a; reflexivity).
    assert (Hs : action_size (set_q_table (store k (repeat 0 (Z.to_nat (action_size a))) (q_table a)) a)
                 = action_size a)
      by (destruct a; reflexivity).
    split; [apply same_but_table_set|].
    split.
    { intros k' row' H'; rewrite Hq in H'; rewrite Hs.
      destruct (key_eq_dec k' k) as [->|NE].
      - rewrite lookup_store_same in H'; injection H' as <-.
        rewrite repeat_length; lia.
      - rewrite lookup_store_other in H' by exact NE.
        exact (Hrows _ _ H'). }
    split.
    { intros k' row' H'; rewrite Hq.
      destruct (key_eq_dec k' k) as [->|NE]; [congruence|].
      now rewrite lookup_store_other. }
    rewrite Hq.
    split; [rewrite lookup_store_same; discriminate|].
    split; [intros _; apply lookup_store_same|].
    split; [intros k' NE; now apply lookup_store_other|].
    intros b Hb Hle k' row' H'; rewrite Hq in H'.
    destruct (key_eq_dec k' k) as [->|NE].
    + rewrite lookup_store_same in H'; injection H' as <-.
      apply Forall_forall; intros x Hx; apply repeat_spec in Hx; lra.
    + rewrite lookup_store_other in H' by exact NE.
      exact (Hle _ _ H').
Qed.


Lemma q_table_set (t : table) (a : agent) : q_table (set_q_table t a) = t.
Proof. destruct a; reflexivity. Qed.

Lemma rows_nonempty (a : agent) (k : key) (row : list R) :
  (0 < action_size a)%Z -> rows_ok a ->
  lookup k (q_table a) = Some row -> row <> [].
Proof.
  intros Hn Hrows Hk E; subst row.
  specialize (Hrows _ _ Hk); cbn in Hrows; lia.
Qed.

(** One experience of the batch: the update goes through, the table keeps
    its shape and its keys, and a bound on the Q-values is kept when the
    reward is small enough. *)
Lemma replay_one_ok (a : agent) (tr : transition) :
  (0 < action_size a)%Z -> rows_ok a ->
  (0 <= action_of tr < action_size a)%Z ->
  exists a',
    replay_one a tr = Ok a' /\
    same_but_table a a' /\ rows_ok a' /\ keeps_keys a a' /\
    (forall b r, 0 <= b -> q_le b a -> reward_in tr <= r ->
                 0 <= learning_rate a <= 1 -> 0 <= gamma a ->
                 r + gamma a * b <= b -> q_le b a').
Proof.
  destruct tr as [[[[st act] rew] st'] d].
  unfold action_of, reward_in; cbn [fst snd].
  intros Hn Hrows Hact.
  unfold replay_one.
  destruct (ensure_row (_discretize_state st) a ltac:(lia) Hrows)
    as (a1 & E1 & S1 & R1 & K1 & P1 & _ & _ & Q1).
  rewrite E1; cbn [bind]; clear E1.
  destruct (same_but_table_fields _ _ S1) as (_ & N1 & _ & G1 & _ & _ & _ & L1 & _).
  destruct (ensure_row (_discretize_state st') a1 ltac:(lia) R1)
    as (a2 & E2 & S2 & R2 & K2 & P2 & _ & _ & Q2).
  rewrite E2; cbn [bind]; clear E2.
  destruct (same_but_table_fields _ _ S2) as (_ & N2 & _ & G2 & _ & _ & _ & L2 & _).
  assert (Hn2 : (0 < action_size a2)%Z) by lia.
  (* the row of the state is present *)
  destruct (lookup (_discretize_state st) (q_table a1)) as [row1|] eqn:Er1;
    [|congruence].
  pose proof (K2 _ _ Er1) as Er2.
  (* the target *)
  assert (Ht : exists target,
             (if d then Ok rew
              else match lookup (_discretize_state st') (q_table a2) with
                   | Some row => m <- amax row ;; Ok (rew + gamma a2 * m)
                   | None => Raise KeyError
                   end) = Ok target /\
             forall b r, 0 <= b -> q_le b a2 -> rew <= r -> 0 <= gamma a2 ->
                         r + gamma a2 * b <= b -> target <= b).
  { destruct d.
    - exists rew; split; [reflexivity|].
      intros b r Hb _ Hr Hg Hrb; nra.
    - destruct (lookup (_discretize_state st') (q_table a2)) as [row2|] eqn:En;
        [|congruence].
      destruct (amax_ok row2 (rows_nonempty _ _ _ Hn2 R2 En)) as (m & Em & Hm).
      rewrite Em; cbn [bind].
      exists (rew + gamma a2 * m); split; [reflexivity|].
      intros b r Hb Hq Hr Hg Hrb.
      specialize (Hm b (Hq _ _ En)); nra. }
  destruct Ht as (target & Et & Htarget).
  rewrite Et; cbn [bind]; clear Et.
  rewrite Er2.
  pose proof (R2 _ _ Er2) as Hlen.
  rewrite index_in_range by lia; cbn [bind].
  eexists; split; [reflexivity|].
  split; [eapply same_but_table_trans; [exact S1|];
          eapply same_but_table_trans; [exact S2|apply same_but_table_set]|].
  split.
  { intros k row Hk; rewrite q_table_set in Hk.
    replace (action_size (set_q_table _ a2)) with (action_size a2)
      by (destruct a2; reflexivity).
    destruct (key_eq_dec k (_discretize_state st)) as [->|NE].
    - rewrite lookup_store_same in Hk; injection Hk as <-.
      rewrite assign_length; exact Hlen.
    - rewrite lookup_store_other in Hk by exact NE; exact (R2 _ _ Hk). }
  split.
  { intros k Hk; rewrite q_table_set.
    destruct (key_eq_dec k (_discretize_state st)) as [->|NE].
    - rewrite lookup_store_same; discriminate.
    - rewrite lookup_store_other by exact NE.
      destruct (lookup k (q_table a)) as [row|] eqn:Ek; [|congruence].
      rewrite (K2 _ _ (K1 _ _ Ek)); discriminate. }
  intros b r Hb Hq Hr Hlr Hg Hrb k row Hk; rewrite q_table_set in Hk.
  assert (Hq2 : q_le b a2) by (apply Q2, Q1; assumption).
  destruct (key_eq_dec k (_discretize_state st)) as [->|NE].
  - rewrite lookup_store_same in Hk; injection Hk as <-.
    pose proof (Hq2 _ _ Er2) as Hrow.
    apply assign_Forall; [|exact Hrow].
    assert (Hcur : nth (Z.to_nat act) row1 0 <= b).
    { rewrite Forall_forall in Hrow; apply Hrow, nth_In; lia. }
    assert (Htb : target <= b)
      by (apply (Htarget b r); try assumption; rewrite G2, G1; assumption).
    rewrite L2, L1; nra.
  - rewrite lookup_store_other in Hk by exact NE; exact (Hq2 _ _ Hk).
Qed.


Lemma keeps_rows_refl (a : agent) : keeps_rows a a.
Proof. intros k row Hk; exact Hk. Qed.

Lemma keeps_rows_trans (a b c : agent) :
  keeps_rows a b -> keeps_rows b c -> keeps_rows a c.
Proof. intros H1 H2 k row Hk; apply H2, H1, Hk. Qed.

Lemma keeps_keys_trans (a b c : agent) :
  keeps_keys a b -> keeps_keys b c -> keeps_keys a c.
Proof. intros H1 H2 k Hk; apply H2, H1, Hk. Qed.

Lemma keeps_rows_keys (a b : agent) : keeps_rows a b -> keeps_keys a b.
Proof.
  intros Hr k Hk.
  destruct (lookup k (q_table a)) as [row|] eqn:E; [|congruence].
  rewrite (Hr _ _ E); discriminate.
Qed.

(** After the row of [k] is ensured, the table holds at [k] what the agent
    reads there, and every other key reads as before. *)
Lemma ensure_row_of (k : key) (a : agent) :
  (0 <= action_size a)%Z -> rows_ok a ->
  exists a',
    match lookup k (q_table a) with
    | Some _ => Ok a
    | None =>
        row <- zeros (action_size a) ;;
        Ok (set_q_table (store k row (q_table a)) a)
    end = Ok a' /\
    same_but_table a a' /\ rows_ok a' /\
    lookup k (q_table a') = Some (row_of k a) /\
    (forall k', k' <> k -> lookup k' (q_table a') = lookup k' (q_table a)) /\
    (forall k', row_of k' a' = row_of k' a).
Proof.
  intros Hn Hrows.
  destruct (ensure_row k a Hn Hrows)
    as (a' & E & S & R' & K & _ & New & Other & _).
  exists a'; split; [exact E|split; [exact S|split; [exact R'|]]].
  destruct (same_but_table_fields _ _ S) as (_ & N & _).
  assert (Hk : lookup k (q_table a') = Some (row_of k a)).
  { unfold row_of.
    destruct (lookup k (q_table a)) as [row|] eqn:Ek.
    - exact (K _ _ Ek).
    - exact (New eq_refl). }
  split; [exact Hk|split; [exact Other|]].
  intros k'; destruct (key_eq_dec k' k) as [->|NE].
  - unfold row_of at 1; rewrite Hk; reflexivity.
  - unfold row_of; rewrite (Other _ NE), N; reflexivity.
Qed.

Lemma replay_batch_ok (batch : list transition) (a : agent) :
  (0 < action_size a)%Z -> rows_ok a ->
  (forall tr, In tr batch -> (0 <= action_of tr < action_size a)%Z) ->
  exists a',
    replay_batch a batch = Ok a' /\
    same_but_table a a' /\ rows_ok a' /\ keeps_keys a a' /\
    (forall b r, 0 <= b -> q_le b a ->
                 (forall tr, In tr batch -> reward_in tr <= r) ->
                 0 <= learning_rate a <= 1 -> 0 <= gamma a ->
                 r + gamma a * b <= b -> q_le b a').
Proof.
  revert a; induction batch as [|tr batch IH]; intros a Hn Hrows Hact.
  - exists a; split; [reflexivity|].
    split; [apply same_but_table_refl|split; [exact Hrows|]].
    split; [intros k Hk; exact Hk|intros; assumption].
  - cbn [replay_batch].
    destruct (replay_one_ok a tr Hn Hrows (Hact tr (or_introl eq_refl)))
      as (a1 & E1 & S1 & R1 & K1 & Q1).
    rewrite E1; cbn [bind].
    destruct (same_but_table_fields _ _ S1)
      as (_ & N1 & _ & G1 & _ & _ & _ & L1 & _).
    destruct (IH a1) as (a2 & E2 & S2 & R2 & K2 & Q2).
    + lia.
    + exact R1.
    + intros tr' Hin; rewrite N1; apply Hact; right; exact Hin.
    + exists a2; split; [exact E2|].
      split; [eapply same_but_table_trans; eassumption|].
      split; [exact R2|split; [eapply keeps_keys_trans; eassumption|]].
      intros b r Hb Hq Hrew Hlr Hg Hrb.
      apply (Q2 b r); try assumption.
      * apply (Q1 b r); try assumption.
        apply Hrew; left; reflexivity.
      * intros tr' Hin; apply Hrew; right; exact Hin.
      * rewrite L1; exact Hlr.
      * rewrite G1; exact Hg.
      * rewrite G1; exact Hrb.
Qed.

Lemma remember_fields (st : list R) (act : Z) (rew : R) (st' : list R)
    (d : bool) (a : agent) :
  let a' := remember st act rew st' d a in
  memory a' = deque_push memory_maxlen (memory a) (st, act, rew, st', d) /\
  q_table a' = q_table a /\ action_size a' = action_size a /\
  batch_size a' = batch_size a /\ epsilon a' = epsilon a /\
  epsilon_min a' = epsilon_min a /\ epsilon_decay a' = epsilon_decay a /\
  gamma a' = gamma a /\ learning_rate a' = learning_rate a /\
  learn_step a' = learn_step a /\ stage_history a' = stage_history a /\
  state_size a' = state_size a.
Proof. destruct a; cbn; repeat split. Qed.

Lemma remember_ok (st : list R) (act : Z) (rew : R) (st' : list R)
    (d : bool) (a : agent) :
  agent_ok a -> (0 <= act < action_size a)%Z ->
  agent_ok (remember st act rew st' d a).
Proof.
  intros (Hn & Hb & Hrows & Hacts) Hact.
  destruct (remember_fields st act rew st' d a)
    as (Hm & Hq & Hs & Hbs & _); cbv zeta in *.
  unfold agent_ok, rows_ok, actions_ok.
  rewrite Hs, Hbs, Hq, Hm.
  split; [exact Hn|split; [exact Hb|split; [exact Hrows|]]].
  intros tr Hin; apply deque_push_incl in Hin.
  destruct Hin as [<-|Hin]; [exact Hact|apply Hacts, Hin].
Qed.

(** [get_q_values] looks the row up, or inserts a row of zeros first. *)
Lemma get_q_values_ok (st : list R) (a : agent) :
  (0 <= action_size a)%Z -> rows_ok a ->
  exists row a',
    get_q_values st a = Ok (row, a') /\
    lookup (_discretize_state st) (q_table a') = Some row /\
    same_but_table a a' /\ rows_ok a' /\ keeps_rows a a' /\
    (lookup (_discretize_state st) (q_table a) = None ->
     row = repeat 0 (Z.to_nat (action_size a))) /\
    (lookup (_discretize_state st) (q_table a) <> None -> a' = a) /\
    (forall k', k' <> _discretize_state st ->
                lookup k' (q_table a') = lookup k' (q_table a)) /\
    (forall b, 0 <= b -> q_le b a -> q_le b a').
Proof.
  intros Hn Hrows; unfold get_q_values.
  destruct (lookup (_discretize_state st) (q_table a)) as [row|] eqn:E.
  - exists row, a; split; [reflexivity|split; [exact E|]].
    split; [apply same_but_table_refl|split; [exact Hrows|]].
    split; [intros k r Hk; exact Hk|split; [discriminate|]].
    split; [reflexivity|split; [reflexivity|intros; assumption]].
  - destruct (ensure_row (_discretize_state st) a Hn Hrows)
      as (a1 & E1 & S1 & R1 & K1 & P1 & Z1 & O1 & Q1).
    rewrite E in E1.
    rewrite zeros_ok in E1 |- * by exact Hn; cbn [bind] in E1 |- *.
    injection E1 as E1; rewrite E1.
    exists (repeat 0 (Z.to_nat (action_size a))), a1.
    split; [reflexivity|split; [exact (Z1 E)|]].
    split; [exact S1|split; [exact R1|split; [exact K1|]]].
    split; [reflexivity|split; [congruence|split; [exact O1|exact Q1]]].
Qed.

Section WithRandomSources.
Context {G : Type} `{RandomSource G} {P : Type} `{PyRandom P}.

(** [replay] goes through for an agent in order; below the batch size it
    does nothing at all. *)
Lemma replay_ok (a : agent) (p : P) :
  agent_ok a -> sample_sound P ->
  exists a' p',
    replay a p = Ok (a', p') /\
    agent_ok a' /\ keeps_keys a a' /\
    memory a' = memory a /\ action_size a' = action_size a /\
    batch_size a' = batch_size a /\ gamma a' = gamma a /\
    learning_rate a' = learning_rate a /\
    epsilon_min a' = epsilon_min a /\ epsilon_decay a' = epsilon_decay a /\
    stage_history a' = stage_history a /\ state_size a' = state_size a /\
    ((Z.of_nat (length (memory a)) < batch_size a)%Z -> a' = a /\ p' = p) /\
    (~ (Z.of_nat (length (memory a)) < batch_size a)%Z ->
     learn_step a' = (learn_step a + 1)%Z /\
     epsilon a'
     = (if Rgt_dec (epsilon a) (epsilon_min a)
        then epsilon a * epsilon_decay a else epsilon a)) /\
    (forall b r, 0 <= b -> q_le b a -> rewards_le r a ->
                 0 <= learning_rate a <= 1 -> 0 <= gamma a ->
                 r + gamma a * b <= b -> q_le b a').
Proof.
  intros (Hn & Hb & Hrows & Hacts) Hsample.
  unfold replay.
  destruct (Z.of_nat (length (memory a)) <? batch_size a)%Z eqn:Elt.
  - apply Z.ltb_lt in Elt.
    exists a, p; split; [reflexivity|].
    split; [exact (conj Hn (conj Hb (conj Hrows Hacts)))|].
    split; [intros k Hk; exact Hk|].
    do 9 (split; [reflexivity|]).
    split; [intros _; split; reflexivity|].
    split; [intros Hc; contradiction|intros; assumption].
  - apply Z.ltb_ge in Elt.
    destruct (batch_size a <? 0)%Z eqn:Eneg;
      [apply Z.ltb_lt in Eneg; lia|clear Eneg].
    destruct (Hsample transition (memory a) (Z.to_nat (batch_size a)) p
                ltac:(lia)) as [_ Hincl].
    destruct (replay_batch_ok
                (fst (py_sample transition (memory a)
                        (Z.to_nat (batch_size a)) p)) a Hn Hrows)
      as (a1 & E1 & S1 & R1 & K1 & Q1).
    { intros tr Hin; apply Hacts, Hincl, Hin. }
    rewrite E1; cbn [bind].
    destruct (same_but_table_fields _ _ S1)
      as (F1 & F2 & F3 & F4 & F5 & F6 & F7 & F8 & F9 & F10 & F11).
    eexists _, _; split; [reflexivity|].
    match goal with
    | |- agent_ok ?x /\ _ => set (a' := x)
    end.
    assert (Hf : q_table a' = q_table a1 /\ memory a' = memory a1 /\
                 action_size a' = action_size a1 /\
                 batch_size a' = batch_size a1 /\ gamma a' = gamma a1 /\
                 learning_rate a' = learning_rate a1 /\
                 epsilon_min a' = epsilon_min a1 /\
                 epsilon_decay a' = epsilon_decay a1 /\
                 stage_history a' = stage_history a1 /\
                 state_size a' = state_size a1 /\
                 learn_step a' = (learn_step a1 + 1)%Z /\
                 epsilon a'
                 = (if Rgt_dec (epsilon a1) (epsilon_min a1)
                    then epsilon a1 * epsilon_decay a1 else epsilon a1))
      by (subst a'; destruct a1; cbn; repeat split).
    destruct Hf as (T1 & T2 & T3 & T4 & T5 & T6 & T7 & T8 & T9 & T10 & T11 & T12).
    split.
    { unfold agent_ok, rows_ok, actions_ok.
      rewrite T1, T2, T3, T4, F2, F3, F9.
      split; [exact Hn|split; [exact Hb|split; [|exact Hacts]]].
      intros k row Hk; rewrite <- F2; exact (R1 _ _ Hk). }
    split; [intros k Hk; rewrite T1; apply K1, Hk|].
    split; [congruence|split; [congruence|split; [congruence|]]].
    split; [congruence|split; [congruence|split; [congruence|]]].
    split; [congruence|split; [congruence|split; [congruence|]]].
    split; [intros Hc; lia|].
    split; [intros _; split; [congruence|rewrite T12, F5, F6, F7; reflexivity]|].
    intros b r Hb0 Hq Hrew Hlr Hg Hrb k row Hk; rewrite T1 in Hk.
    refine (Q1 b r Hb0 Hq _ Hlr Hg Hrb k row Hk).
    intros tr Hin; apply Hrew, Hincl, Hin.
Qed.

(** [act] returns an index of a row: a draw of [randrange] when it
    explores, the first largest entry of the row when it does not. *)
Lemma act_ok (st : list R) (a : agent) (g : G) (p : P) :
  agent_ok a -> randrange_sound P ->
  exists action a' p',
    act st a g p = Ok (action, a', snd (rng_random g), p') /\
    (0 <= action < action_size a)%Z /\
    agent_ok a' /\ same_but_table a a' /\ keeps_rows a a' /\
    (forall b, 0 <= b -> q_le b a -> q_le b a') /\
    (fst (rng_random g) < epsilon a ->
     a' = a /\ action = fst (py_randrange (action_size a) p) /\
     p' = snd (py_randrange (action_size a) p)) /\
    (~ fst (rng_random g) < epsilon a ->
     p' = p /\
     exists row,
       lookup (_discretize_state st) (q_table a') = Some row /\
       (forall j, (j < length row)%nat ->
                  nth j row 0 <= nth (Z.to_nat action) row 0) /\
       (forall j, (j < Z.to_nat action)%nat ->
                  nth j row 0 < nth (Z.to_nat action) row 0)).
Proof.
  intros (Hn & Hb & Hrows & Hacts) Hrr; unfold act.
  destruct (Rlt_dec (fst (rng_random g)) (epsilon a)) as [Hlt|Hge].
  - destruct (action_size a <=? 0)%Z eqn:E; [apply Z.leb_le in E; lia|].
    eexists _, a, _; split; [reflexivity|].
    split; [apply Hrr; exact Hn|].
    split; [exact (conj Hn (conj Hb (conj Hrows Hacts)))|].
    split; [apply same_but_table_refl|].
    split; [intros k r Hk; exact Hk|split; [intros; assumption|]].
    split; [intros _; repeat split|intros Hc; contradiction].
  - destruct (get_q_values_ok st a ltac:(lia) Hrows)
      as (row & a1 & E1 & L1 & S1 & R1 & K1 & _ & _ & _ & Q1).
    rewrite E1; cbn [bind fst snd].
    destruct (same_but_table_fields _ _ S1)
      as (_ & N1 & M1 & _ & _ & _ & _ & _ & B1 & _).
    assert (Hne : row <> [])
      by (apply (rows_nonempty a1 _ _ ltac:(lia) R1 L1)).
    destruct (argmax_spec row Hne) as (i & Ei & Hi & Hall & Hfirst).
    rewrite Ei; cbn [bind].
    exists (Z.of_nat i), a1, p; split; [reflexivity|].
    pose proof (R1 _ _ L1) as Hlen.
    split; [lia|].
    split.
    { unfold agent_ok, actions_ok; rewrite N1, M1, B1.
      exact (conj Hn (conj Hb (conj R1 Hacts))). }
    split; [exact S1|split; [exact K1|split; [exact Q1|]]].
    split; [intros Hc; contradiction|intros _].
    split; [reflexivity|exists row; split; [exact L1|]].
    rewrite Nat2Z.id; split.
    + intros j Hj; rewrite Forall_forall in Hall; apply Hall, nth_In, Hj.
    + exact Hfirst.
Qed.

(** Without exploration [act] reads the table only: Python's generator is
    left alone and no row changes. *)
Lemma act_greedy_ok (st : list R) (a : agent) (g : G) (p : P) :
  (0 < action_size a)%Z -> rows_ok a ->
  ~ fst (rng_random g) < epsilon a ->
  exists action a',
    act st a g p = Ok (action, a', snd (rng_random g), p) /\
    (0 <= action < action_size a)%Z /\
    same_but_table a a' /\ rows_ok a' /\ keeps_rows a a' /\
    (forall b, 0 <= b -> q_le b a -> q_le b a') /\
    exists row,
      lookup (_discretize_state st) (q_table a') = Some row /\
      (forall j, (j < length row)%nat ->
                 nth j row 0 <= nth (Z.to_nat action) row 0) /\
      (forall j, (j < Z.to_nat action)%nat ->
                 nth j row 0 < nth (Z.to_nat action) row 0).
Proof.
  intros Hn Hrows Hge; unfold act.
  destruct (Rlt_dec (fst (rng_random g)) (epsilon a)) as [Hlt|_];
    [contradiction|].
  destruct (get_q_values_ok st a ltac:(lia) Hrows)
    as (row & a1 & E1 & L1 & S1 & R1 & K1 & _ & _ & _ & Q1).
  rewrite E1; cbn [bind fst snd].
  destruct (same_but_table_fields _ _ S1) as (_ & N1 & _).
  assert (Hne : row <> [])
    by (apply (rows_nonempty a1 _ _ ltac:(lia) R1 L1)).
  destruct (argmax_spec row Hne) as (i & Ei & Hi & Hall & Hfirst).
  rewrite Ei; cbn [bind].
  exists (Z.of_nat i), a1; split; [reflexivity|].
  pose proof (R1 _ _ L1) as Hlen.
  split; [lia|split; [exact S1|split; [exact R1|split; [exact K1|]]]].
  split; [exact Q1|].
  exists row; split; [exact L1|].
  rewrite Nat2Z.id; split.
  - intros j Hj; rewrite Forall_forall in Hall; apply Hall, nth_In, Hj.
  - exact Hfirst.
Qed.

End WithRandomSources.

End AgentFacts.

Module CurriculumFacts.
Import CurriculumDQNAgent AgentInvariants AgentFacts Curriculum.

Lemma decayed_refl (a : agent) : decayed a a.
Proof.
  split; [intros _ _; apply Rle_refl|intros _; apply Rmin_l].
Qed.

Lemma decayed_trans (a b c : agent) :
  epsilon_min b = epsilon_min a -> epsilon_decay b = epsilon_decay a ->
  decayed a b -> decayed b c -> decayed a c.
Proof.
  intros Hm Hd [U1 L1] [U2 L2]; rewrite Hm, Hd in U2, L2; split.
  - intros H0 H1; specialize (U1 H0 H1); specialize (U2 H0 H1); lra.
  - intros H0; specialize (L1 H0); specialize (L2 H0).
    revert L1 L2; unfold Rmin.
    repeat match goal with
           | |- context [Rle_dec ?x ?y] => destruct (Rle_dec x y)
           end; intros; lra.
Qed.

(** One decay, or none. *)
Lemma decayed_step (a a' : agent) :
  epsilon a' = epsilon a \/
  (epsilon a > epsilon_min a /\ epsilon a' = epsilon a * epsilon_decay a) ->
  decayed a a'.
Proof.
  unfold decayed; intros [E|[Hgt E]]; rewrite E; split.
  - intros _ _; apply Rle_refl.
  - intros _; apply Rmin_l.
  - intros H0 H1; nra.
  - intros H0; apply Rle_trans with (epsilon_min a * epsilon_decay a);
      [apply Rmin_r|nra].
Qed.

Lemma same_settings_refl (a : agent) : same_settings a a.
Proof.
  unfold same_settings; repeat split; try apply decayed_refl.
Qed.

Lemma same_settings_trans (a b c : agent) :
  same_settings a b -> same_settings b c -> same_settings a c.
Proof.
  unfold same_settings.
  intros (A1 & A2 & A3 & A4 & A5 & A6 & A7 & DA)
         (B1 & B2 & B3 & B4 & B5 & B6 & B7 & DB).
  repeat match goal with |- _ /\ _ => split end; try congruence.
  exact (decayed_trans a b c A4 A5 DA DB).
Qed.

Lemma bound_fits_settings (b : R) (a a' : agent) :
  same_settings a a' -> bound_fits b a -> bound_fits b a'.
Proof.
  unfold same_settings, bound_fits.
  intros (_ & _ & Hg & _ & _ & Hl & _) Hb; rewrite Hg, Hl; exact Hb.
Qed.

Section WithRandomSources.
Context {G : Type} `{RandomSource G} {P : Type} `{PyRandom P}.

(** One pass through the body of the training loop. *)
Lemma train_body_ok (b : R) (e : episode) :
  randrange_sound P -> sample_sound P ->
  trained_ok b (the_agent e) -> bound_fits b (the_agent e) ->
  exists e',
    train_body e
    = Ok ((Simple.current_step (the_env e) + 1
           >=? Simple.max_steps (the_env e))%Z, e') /\
    trained_ok b (the_agent e') /\
    same_settings (the_agent e) (the_agent e') /\
    keeps_keys (the_agent e) (the_agent e') /\
    stage_history (the_agent e') = stage_history (the_agent e) /\
    Simple.current_step (the_env e')
    = (Simple.current_step (the_env e) + 1)%Z /\
    Simple.stage (the_env e') = Simple.stage (the_env e) /\
    Simple.dt (the_env e') = Simple.dt (the_env e) /\
    step_count e' = (step_count e + 1)%Z /\
    total_reward e' + total_allocastic_load e'
    = total_reward e + total_allocastic_load e + 5 /\
    total_allocastic_load e' - Simple.cumulative_load (the_env e')
    = total_allocastic_load e - Simple.cumulative_load (the_env e) /\
    total_allocastic_load e <= total_allocastic_load e'.
Proof.
  intros Hrr Hss ((Hn & Hb & Hrows & Hacts) & Hq & Hrew) Hfit.
  unfold train_body.
  destruct (act_ok (state e) (the_agent e) (np_random e) (py_random e)
              (conj Hn (conj Hb (conj Hrows Hacts))) Hrr)
    as (action & a1 & p1 & Eact & Hact & Hok1 & S1 & K1 & Q1 & _).
  rewrite Eact; cbn [bind]; cbv beta iota.
  destruct (same_but_table_fields _ _ S1)
    as (F1 & F2 & F3 & F4 & F5 & F6 & F7 & F8 & F9 & F10 & F11).
  set (out := Simple.step action (the_env e) (snd (rng_random (np_random e)))).
  destruct (SimpleFacts.step_cost action (the_env e)
              (snd (rng_random (np_random e)))) as [Hr Hc];
    cbv zeta in Hr, Hc; fold out in Hr, Hc.
  match type of Hr with
  | _ = - ?l + 5.0 =>
      pose proof (SimpleFacts.load_nonneg (state_of out)
                    (fst (Simple._calculate_receptor_occupancy
                            (Simple._cortisol_to_nmol
                               (Simple.cortisol (the_env e)))))
                    (snd (Simple._calculate_receptor_occupancy
                            (Simple._cortisol_to_nmol
                               (Simple.cortisol (the_env e)))))) as Hl;
      revert Hr Hc Hl; generalize l; intros load Hr Hc Hl
  end.
  destruct (SimpleFacts.step_counter action (the_env e)
              (snd (rng_random (np_random e)))) as (Hcs & Hst & Hdt);
    fold out in Hcs, Hst, Hdt.
  pose proof (SimpleFacts.step_done action (the_env e)
                (snd (rng_random (np_random e)))) as Hdone;
    fold out in Hdone.
  set (a2 := remember (state e) action (reward_of out) (obs_of out)
               (done_of out) a1).
  assert (Hok2 : agent_ok a2)
    by (apply remember_ok; [exact Hok1|rewrite F2; exact Hact]).
  destruct (remember_fields (state e) action (reward_of out) (obs_of out)
              (done_of out) a1)
    as (M2 & T2 & N2 & B2 & E2 & EM2 & ED2 & G2 & L2 & LS2 & SH2 & SS2);
    cbv zeta in *; fold a2 in M2, T2, N2, B2, E2, EM2, ED2, G2, L2, LS2, SH2, SS2.
  destruct (replay_ok a2 p1 Hok2 Hss)
    as (a3 & p3 & Erep & Hok3 & K3 & M3 & N3 & B3 & G3 & L3 & EM3 & ED3
        & SH3 & SS3 & NoOp & Upd0 & Q3).
  assert (Upd : ~ (Z.of_nat (length (memory a2)) < batch_size a2)%Z ->
                epsilon a3
                = (if Rgt_dec (epsilon a2) (epsilon_min a2)
                   then epsilon a2 * epsilon_decay a2 else epsilon a2))
    by (intros Hge; exact (proj2 (Upd0 Hge))).
  rewrite Erep; cbn [bind fst snd].
  eexists; split; [rewrite Hdone; reflexivity|].
  cbn [the_agent the_env step_count total_reward total_allocastic_load].
  destruct Hfit as (Hb0 & Hlr & Hg & Hfix).
  assert (Hrew2 : rewards_le 5 a2).
  { intros tr Hin; rewrite M2 in Hin; apply deque_push_incl in Hin.
    destruct Hin as [<-|Hin].
    - unfold reward_in; cbn [fst snd]; lra.
    - apply Hrew; rewrite <- F3; exact Hin. }
  assert (Hq2 : q_le b a2)
    by (intros k row Hk; rewrite T2 in Hk; exact (Q1 b Hb0 Hq _ _ Hk)).
  split.
  { split; [exact Hok3|split].
    - apply (Q3 b 5); try assumption.
      + rewrite L2, F8; exact Hlr.
      + rewrite G2, F4; exact Hg.
      + rewrite G2, F4; exact Hfix.
    - intros tr Hin; rewrite M3 in Hin; exact (Hrew2 _ Hin). }
  split.
  { unfold same_settings.
    repeat match goal with |- _ /\ _ => split end; try congruence.
    apply decayed_step.
    rewrite <- F5, <- F6, <- F7, <- E2, <- EM2, <- ED2.
    destruct (Z_lt_dec (Z.of_nat (length (memory a2))) (batch_size a2))
      as [Hlt|Hge].
    - destruct (NoOp Hlt) as [-> _]; left; reflexivity.
    - pose proof (Upd Hge) as He.
      destruct (Rgt_dec (epsilon a2) (epsilon_min a2)) as [Hgt|Hle];
        [right; split; [exact Hgt|exact He]|left; exact He]. }
  split.
  { intros k Hk; apply K3.
    destruct (lookup k (q_table (the_agent e))) as [row|] eqn:Ek;
      [|congruence].
    rewrite T2, (K1 _ _ Ek); discriminate. }
  split; [congruence|].
  split; [exact Hcs|split; [exact Hst|split; [exact Hdt|]]].
  split; [reflexivity|].
  rewrite Hr, Hc; split; [lra|split; lra].
Qed.

Lemma keeps_keys_refl (a : agent) : keeps_keys a a.
Proof. intros k Hk; exact Hk. Qed.

(** The training loop of one episode ends after [steps_left] passes. *)
Lemma train_while_ok (b : R) (fuel : nat) (e : episode) :
  randrange_sound P -> sample_sound P ->
  trained_ok b (the_agent e) -> bound_fits b (the_agent e) ->
  (steps_left (the_env e) <= fuel)%nat ->
  exists e',
    train_while fuel e = Ok e' /\
    trained_ok b (the_agent e') /\
    same_settings (the_agent e) (the_agent e') /\
    keeps_keys (the_agent e) (the_agent e') /\
    stage_history (the_agent e') = stage_history (the_agent e) /\
    Simple.current_step (the_env e')
    = (Simple.current_step (the_env e)
       + Z.of_nat (steps_left (the_env e)))%Z /\
    Simple.stage (the_env e') = Simple.stage (the_env e) /\
    Simple.dt (the_env e') = Simple.dt (the_env e) /\
    step_count e'
    = (step_count e + Z.of_nat (steps_left (the_env e)))%Z /\
    total_reward e' + total_allocastic_load e'
    = total_reward e + total_allocastic_load e
      + 5 * INR (steps_left (the_env e)) /\
    total_allocastic_load e' - Simple.cumulative_load (the_env e')
    = total_allocastic_load e - Simple.cumulative_load (the_env e) /\
    total_allocastic_load e <= total_allocastic_load e'.
Proof.
  intros Hrr Hss; revert e.
  induction fuel as [|fuel IH]; intros e Hok Hfit Hfuel.
  - unfold steps_left in Hfuel; lia.
  - cbn [train_while].
    destruct (train_body_ok b e Hrr Hss Hok Hfit)
      as (e1 & E1 & Hok1 & S1 & K1 & SH1 & C1 & St1 & D1 & N1 & T1 & L1 & M1).
    rewrite E1; cbn [bind fst snd].
    assert (Hms : Simple.max_steps (the_env e1) = Simple.max_steps (the_env e))
      by (unfold Simple.max_steps; rewrite St1; reflexivity).
    destruct (Simple.current_step (the_env e) + 1
              >=? Simple.max_steps (the_env e))%Z eqn:Ed.
    + assert (Hn : steps_left (the_env e) = 1%nat)
        by (unfold steps_left; apply Z.geb_le in Ed; lia).
      exists e1; rewrite Hn; cbn [INR Z.of_nat Pos.of_succ_nat].
      split; [reflexivity|split; [exact Hok1|split; [exact S1|]]].
      split; [exact K1|split; [exact SH1|split; [exact C1|]]].
      split; [exact St1|split; [exact D1|split; [exact N1|]]].
      split; [lra|split; [exact L1|exact M1]].
    + assert (Hlt : (Simple.current_step (the_env e) + 1
                     < Simple.max_steps (the_env e))%Z).
      { destruct (Z_lt_le_dec (Simple.current_step (the_env e) + 1)
                    (Simple.max_steps (the_env e))) as [Hl|Hg];
          [exact Hl|].
        apply Z.geb_le in Hg; congruence. }
      assert (Hn : steps_left (the_env e) = S (steps_left (the_env e1)))
        by (unfold steps_left; rewrite Hms, C1; lia).
      destruct (IH e1 Hok1 (bound_fits_settings _ _ _ S1 Hfit) ltac:(lia))
        as (e2 & E2 & Hok2 & S2 & K2 & SH2 & C2 & St2 & D2 & N2 & T2 & L2 & M2).
      exists e2; rewrite Hn, S_INR, Nat2Z.inj_succ.
      split; [exact E2|split; [exact Hok2|]].
      split; [eapply same_settings_trans; eassumption|].
      split; [eapply keeps_keys_trans; eassumption|].
      split; [congruence|split; [lia|split; [congruence|]]].
      split; [congruence|split; [lia|split; [lra|split; lra]]].
Qed.

(** One episode of training: [reset], then the loop up to the horizon. *)
Lemma train_episode_ok (b : R) (fuel : nat) (pr : progress) :
  randrange_sound P -> sample_sound P ->
  trained_ok b (agent_so_far pr) -> bound_fits b (agent_so_far pr) ->
  (Z.to_nat (Z.max 1 (Simple.max_steps (env_so_far pr))) <= fuel)%nat ->
  exists pr' score,
    train_episode fuel pr = Ok pr' /\
    trained_ok b (agent_so_far pr') /\
    same_settings (agent_so_far pr) (agent_so_far pr') /\
    keeps_keys (agent_so_far pr) (agent_so_far pr') /\
    stage_history (agent_so_far pr') = stage_history (agent_so_far pr) /\
    Simple.stage (env_so_far pr') = Simple.stage (env_so_far pr) /\
    Simple.dt (env_so_far pr') = Simple.dt (env_so_far pr) /\
    Simple.current_step (env_so_far pr')
    = Z.max 1 (Simple.max_steps (env_so_far pr)) /\
    scores_so_far pr' = scores_so_far pr ++ [score] /\
    length (avg_scores_so_far pr') = S (length (avg_scores_so_far pr)) /\
    score + Simple.cumulative_load (env_so_far pr')
    = 5 * IZR (Z.max 1 (Simple.max_steps (env_so_far pr))) /\
    0 <= Simple.cumulative_load (env_so_far pr').
Proof.
  intros Hrr Hss Hok Hfit Hfuel.
  unfold train_episode.
  destruct (SimpleFacts.reset_fields (env_so_far pr) (np_so_far pr))
    as (_ & _ & _ & _ & _ & Hc & Hl & _ & Hdt & Hst); cbv zeta in Hc, Hl, Hdt, Hst.
  set (rs := Simple.reset (env_so_far pr) (np_so_far pr)) in *.
  set (e0 := mkEpisode (fst (fst rs)) 0 0 0 (agent_so_far pr) (snd (fst rs))
               (snd rs) (py_so_far pr)).
  assert (Hms : Simple.max_steps (snd (fst rs))
                = Simple.max_steps (env_so_far pr))
    by (unfold Simple.max_steps; rewrite Hst; reflexivity).
  assert (Hn : steps_left (the_env e0)
               = Z.to_nat (Z.max 1 (Simple.max_steps (env_so_far pr))))
    by (unfold steps_left, e0; cbn [the_env]; rewrite Hms, Hc; f_equal; lia).
  destruct (train_while_ok b fuel e0 Hrr Hss Hok Hfit ltac:(lia))
    as (e1 & E1 & Hok1 & S1 & K1 & SH1 & C1 & St1 & D1 & N1 & T1 & L1 & M1).
  rewrite E1; cbn [bind].
  eexists _, (total_reward e1); split; [reflexivity|].
  cbn [agent_so_far env_so_far scores_so_far avg_scores_so_far].
  subst e0.
  cbn [the_agent the_env total_reward total_allocastic_load step_count]
    in S1, K1, SH1, C1, St1, D1, N1, T1, L1, M1, Hn.
  rewrite Hn in C1, T1.
  rewrite Hc in C1; rewrite Hl in L1.
  split; [exact Hok1|split; [exact S1|split; [exact K1|]]].
  split; [exact SH1|split; [congruence|split; [congruence|]]].
  split; [rewrite C1; lia|split; [reflexivity|]].
  split; [rewrite length_app; simpl; lia|].
  rewrite INR_IZR_INZ, Z2Nat.id in T1 by lia.
  split; lra.
Qed.

(** [n] episodes of training, one after the other. *)
Lemma train_for_ok (b : R) (n fuel : nat) (pr : progress) :
  randrange_sound P -> sample_sound P ->
  trained_ok b (agent_so_far pr) -> bound_fits b (agent_so_far pr) ->
  (Z.to_nat (Z.max 1 (Simple.max_steps (env_so_far pr))) <= fuel)%nat ->
  exists pr' new,
    train_for n fuel pr = Ok pr' /\
    trained_ok b (agent_so_far pr') /\
    same_settings (agent_so_far pr) (agent_so_far pr') /\
    keeps_keys (agent_so_far pr) (agent_so_far pr') /\
    stage_history (agent_so_far pr') = stage_history (agent_so_far pr) /\
    Simple.stage (env_so_far pr') = Simple.stage (env_so_far pr) /\
    scores_so_far pr' = scores_so_far pr ++ new /\
    length new = n /\
    length (avg_scores_so_far pr')
    = (length (avg_scores_so_far pr) + n)%nat /\
    Forall (fun x => x <= 5 * IZR (Z.max 1 (Simple.max_steps (env_so_far pr))))
      new.
Proof.
  intros Hrr Hss; revert pr.
  induction n as [|n IH]; intros pr Hok Hfit Hfuel.
  - exists pr, []; split; [reflexivity|].
    split; [exact Hok|split; [apply same_settings_refl|]].
    split; [apply keeps_keys_refl|split; [reflexivity|]].
    split; [reflexivity|split; [now rewrite app_nil_r|]].
    split; [reflexivity|split; [lia|constructor]].
  - cbn [train_for].
    destruct (train_episode_ok b fuel pr Hrr Hss Hok Hfit Hfuel)
      as (pr1 & score & E1 & Hok1 & S1 & K1 & SH1 & St1 & D1 & C1 & Sc1
          & A1 & T1 & L1).
    rewrite E1; cbn [bind].
    assert (Hms : Simple.max_steps (env_so_far pr1)
                  = Simple.max_steps (env_so_far pr))
      by (unfold Simple.max_steps; rewrite St1; reflexivity).
    destruct (IH pr1 Hok1 (bound_fits_settings _ _ _ S1 Hfit)
                ltac:(rewrite Hms; exact Hfuel))
      as (pr2 & new & E2 & Hok2 & S2 & K2 & SH2 & St2 & Sc2 & Ln2 & A2 & F2).
    exists pr2, (score :: new); split; [exact E2|].
    split; [exact Hok2|split; [eapply same_settings_trans; eassumption|]].
    split; [eapply keeps_keys_trans; eassumption|].
    split; [congruence|split; [congruence|]].
    split; [rewrite Sc2, Sc1, <- app_assoc; reflexivity|].
    split; [simpl; lia|split; [lia|]].
    constructor; [lra|rewrite <- Hms; exact F2].
Qed.

(** One pass through the body of the testing loop: the agent plays
    greedily, so only its table can change, and only by new rows. *)
Lemma test_body_ok (e : episode) :
  random_sound G ->
  (0 < action_size (the_agent e))%Z -> rows_ok (the_agent e) ->
  epsilon (the_agent e) <= 0 ->
  exists e',
    test_body e
    = Ok ((Simple.current_step (the_env e) + 1
           >=? Simple.max_steps (the_env e))%Z, e') /\
    same_but_table (the_agent e) (the_agent e') /\
    rows_ok (the_agent e') /\
    keeps_rows (the_agent e) (the_agent e') /\
    (forall b, 0 <= b -> q_le b (the_agent e) -> q_le b (the_agent e')) /\
    py_random e' = py_random e /\
    Simple.current_step (the_env e')
    = (Simple.current_step (the_env e) + 1)%Z /\
    Simple.stage (the_env e') = Simple.stage (the_env e) /\
    Simple.dt (the_env e') = Simple.dt (the_env e) /\
    total_reward e' + total_allocastic_load e'
    = total_reward e + total_allocastic_load e + 5 /\
    total_allocastic_load e' - Simple.cumulative_load (the_env e')
    = total_allocastic_load e - Simple.cumulative_load (the_env e) /\
    total_allocastic_load e <= total_allocastic_load e'.
Proof.
  intros Hrs Hn Hrows Heps.
  unfold test_body.
  destruct (act_greedy_ok (state e) (the_agent e) (np_random e) (py_random e)
              Hn Hrows)
    as (action & a1 & Eact & Hact & S1 & R1 & K1 & Q1 & _).
  { pose proof (Hrs (np_random e)); lra. }
  rewrite Eact; cbn [bind]; cbv beta iota.
  set (out := Simple.step action (the_env e) (snd (rng_random (np_random e)))).
  destruct (SimpleFacts.step_cost action (the_env e)
              (snd (rng_random (np_random e)))) as [Hr Hc];
    cbv zeta in Hr, Hc; fold out in Hr, Hc.
  match type of Hr with
  | _ = - ?l + 5.0 =>
      pose proof (SimpleFacts.load_nonneg (state_of out)
                    (fst (Simple._calculate_receptor_occupancy
                            (Simple._cortisol_to_nmol
                               (Simple.cortisol (the_env e)))))
                    (snd (Simple._calculate_receptor_occupancy
                            (Simple._cortisol_to_nmol
                               (Simple.cortisol (the_env e)))))) as Hl;
      revert Hr Hc Hl; generalize l; intros load Hr Hc Hl
  end.
  destruct (SimpleFacts.step_counter action (the_env e)
              (snd (rng_random (np_random e)))) as (Hcs & Hst & Hdt);
    fold out in Hcs, Hst, Hdt.
  pose proof (SimpleFacts.step_done action (the_env e)
                (snd (rng_random (np_random e)))) as Hdone;
    fold out in Hdone.
  eexists; split; [rewrite Hdone; reflexivity|].
  cbn [the_agent the_env py_random total_reward total_allocastic_load].
  split; [exact S1|split; [exact R1|split; [exact K1|split; [exact Q1|]]]].
  split; [reflexivity|split; [exact Hcs|split; [exact Hst|]]].
  split; [exact Hdt|rewrite Hr, Hc; split; [lra|split; lra]].
Qed.

Lemma test_while_ok (fuel : nat) (e : episode) :
  random_sound G ->
  (0 < action_size (the_agent e))%Z -> rows_ok (the_agent e) ->
  epsilon (the_agent e) <= 0 ->
  (steps_left (the_env e) <= fuel)%nat ->
  exists e',
    test_while fuel e = Ok e' /\
    same_but_table (the_agent e) (the_agent e') /\
    rows_ok (the_agent e') /\
    keeps_rows (the_agent e) (the_agent e') /\
    (forall b, 0 <= b -> q_le b (the_agent e) -> q_le b (the_agent e')) /\
    py_random e' = py_random e /\
    Simple.current_step (the_env e')
    = (Simple.current_step (the_env e)
       + Z.of_nat (steps_left (the_env e)))%Z /\
    Simple.stage (the_env e') = Simple.stage (the_env e) /\
    Simple.dt (the_env e') = Simple.dt (the_env e) /\
    total_reward e' + total_allocastic_load e'
    = total_reward e + total_allocastic_load e
      + 5 * INR (steps_left (the_env e)) /\
    total_allocastic_load e' - Simple.cumulative_load (the_env e')
    = total_allocastic_load e - Simple.cumulative_load (the_env e) /\
    total_allocastic_load e <= total_allocastic_load e'.
Proof.
  intros Hrs; revert e.
  induction fuel as [|fuel IH]; intros e Hn Hrows Heps Hfuel.
  - unfold steps_left in Hfuel; lia.
  - cbn [test_while].
    destruct (test_body_ok e Hrs Hn Hrows Heps)
      as (e1 & E1 & S1 & R1 & K1 & Q1 & P1 & C1 & St1 & D1 & T1 & L1 & M1).
    rewrite E1; cbn [bind fst snd].
    destruct (same_but_table_fields _ _ S1)
      as (_ & F2 & _ & _ & F5 & _).
    assert (Hms : Simple.max_steps (the_env e1) = Simple.max_steps (the_env e))
      by (unfold Simple.max_steps; rewrite St1; reflexivity).
    destruct (Simple.current_step (the_env e) + 1
              >=? Simple.max_steps (the_env e))%Z eqn:Ed.
    + assert (Hs : steps_left (the_env e) = 1%nat)
        by (unfold steps_left; apply Z.geb_le in Ed; lia).
      exists e1; rewrite Hs; cbn [INR Z.of_nat Pos.of_succ_nat].
      split; [reflexivity|split; [exact S1|split; [exact R1|]]].
      split; [exact K1|split; [exact Q1|split; [exact P1|]]].
      split; [exact C1|split; [exact St1|split; [exact D1|split; [lra|]]]].
      split; [exact L1|exact M1].
    + assert (Hlt : (Simple.current_step (the_env e) + 1
                     < Simple.max_steps (the_env e))%Z).
      { destruct (Z_lt_le_dec (Simple.current_step (the_env e) + 1)
                    (Simple.max_steps (the_env e))) as [Hl|Hg];
          [exact Hl|].
        apply Z.geb_le in Hg; congruence. }
      assert (Hs : steps_left (the_env e) = S (steps_left (the_env e1)))
        by (unfold steps_left; rewrite Hms, C1; lia).
      destruct (IH e1 ltac:(lia) R1 ltac:(lra) ltac:(lia))
        as (e2 & E2 & S2 & R2 & K2 & Q2 & P2 & C2 & St2 & D2 & T2 & L2 & M2).
      exists e2; rewrite Hs, S_INR, Nat2Z.inj_succ.
      split; [exact E2|].
      split; [eapply same_but_table_trans; eassumption|].
      split; [exact R2|split; [eapply keeps_rows_trans; eassumption|]].
      split; [intros b0 Hb0 Hq0; exact (Q2 b0 Hb0 (Q1 b0 Hb0 Hq0))|].
      split; [congruence|split; [lia|split; [congruence|]]].
      split; [congruence|split; [lra|split; lra]].
Qed.

Lemma test_for_ok (n fuel : nat) (pr : progress) :
  random_sound G ->
  (0 < action_size (agent_so_far pr))%Z -> rows_ok (agent_so_far pr) ->
  epsilon (agent_so_far pr) <= 0 ->
  (Z.to_nat (Z.max 1 (Simple.max_steps (env_so_far pr))) <= fuel)%nat ->
  exists pr' new,
    test_for n fuel pr = Ok pr' /\
    same_but_table (agent_so_far pr) (agent_so_far pr') /\
    rows_ok (agent_so_far pr') /\
    keeps_rows (agent_so_far pr) (agent_so_far pr') /\
    (forall b, 0 <= b -> q_le b (agent_so_far pr) ->
               q_le b (agent_so_far pr')) /\
    py_so_far pr' = py_so_far pr /\
    Simple.stage (env_so_far pr') = Simple.stage (env_so_far pr) /\
    scores_so_far pr' = scores_so_far pr ++ new /\
    length new = n /\
    Forall (fun x => x <= 5 * IZR (Z.max 1 (Simple.max_steps (env_so_far pr))))
      new.
Proof.
  intros Hrs; revert pr.
  induction n as [|n IH]; intros pr Hn Hrows Heps Hfuel.
  - exists pr, []; split; [reflexivity|].
    split; [apply same_but_table_refl|split; [exact Hrows|]].
    split; [apply keeps_rows_refl|split; [intros b0 _ Hq0; exact Hq0|]].
    split; [reflexivity|split; [reflexivity|]].
    split; [now rewrite app_nil_r|split; [reflexivity|constructor]].
  - cbn [test_for]; unfold test_episode.
    destruct (SimpleFacts.reset_fields (env_so_far pr) (np_so_far pr))
      as (_ & _ & _ & _ & _ & Hc & Hl & _ & Hdt & Hst);
      cbv zeta in Hc, Hl, Hdt, Hst.
    set (rs := Simple.reset (env_so_far pr) (np_so_far pr)) in *.
    assert (Hms : Simple.max_steps (snd (fst rs))
                  = Simple.max_steps (env_so_far pr))
      by (unfold Simple.max_steps; rewrite Hst; reflexivity).
    destruct (test_while_ok fuel
                (mkEpisode (fst (fst rs)) 0 0 0 (agent_so_far pr)
                   (snd (fst rs)) (snd rs) (py_so_far pr)) Hrs Hn Hrows Heps)
      as (e1 & E1 & S1 & R1 & K1 & Q1 & P1 & C1 & St1 & D1 & T1 & L1 & M1).
    { unfold steps_left; cbn [the_env]; rewrite Hms, Hc.
      replace (Simple.max_steps (env_so_far pr) - 0)%Z
        with (Simple.max_steps (env_so_far pr)) by lia.
      exact Hfuel. }
    rewrite E1; cbn [bind].
    cbn [the_agent the_env py_random total_reward total_allocastic_load]
      in S1, R1, K1, Q1, P1, C1, St1, D1, T1, L1, M1.
    assert (Hs : steps_left (snd (fst rs))
                 = Z.to_nat (Z.max 1 (Simple.max_steps (env_so_far pr))))
      by (unfold steps_left; rewrite Hms, Hc; f_equal; lia).
    rewrite Hs in T1.
    rewrite INR_IZR_INZ, Z2Nat.id in T1 by lia.
    rewrite Hl in L1.
    destruct (same_but_table_fields _ _ S1) as (_ & F2 & _ & _ & F5 & _).
    set (pr1 := mkProgress (scores_so_far pr ++ [total_reward e1]) []
                  (the_agent e1) (the_env e1) (np_random e1) (py_random e1)).
    assert (Hms1 : Simple.max_steps (env_so_far pr1)
                   = Simple.max_steps (env_so_far pr))
      by (unfold Simple.max_steps, pr1; cbn [env_so_far];
          rewrite St1, Hst; reflexivity).
    destruct (IH pr1) as (pr2 & new & E2 & S2 & R2 & K2 & Q2 & P2 & St2
                          & Sc2 & Ln2 & F2').
    + unfold pr1; cbn [agent_so_far]; lia.
    + exact R1.
    + unfold pr1; cbn [agent_so_far]; lra.
    + rewrite Hms1; exact Hfuel.
    + exists pr2, (total_reward e1 :: new); split; [exact E2|].
      unfold pr1 in S2, K2, Q2, P2, St2, Sc2;
        cbn [agent_so_far env_so_far py_so_far scores_so_far]
          in S2, K2, Q2, P2, St2, Sc2.
      split; [eapply same_but_table_trans; eassumption|].
      split; [exact R2|split; [eapply keeps_rows_trans; eassumption|]].
      split; [intros b0 Hb0 Hq0; exact (Q2 b0 Hb0 (Q1 b0 Hb0 Hq0))|].
      split; [congruence|split; [congruence|]].
      split; [rewrite Sc2, <- app_assoc; reflexivity|].
      split; [simpl; lia|].
      constructor; [lra|rewrite <- Hms1; exact F2'].
Qed.

End WithRandomSources.

End CurriculumFacts.

Module DQNFacts.
Import DQNAgent DQNInvariants.

Lemma dqn_same_but_table_refl (a : agent) : same_but_table a a.
Proof. destruct a; reflexivity. Qed.

Lemma dqn_same_but_table_set (t : table) (a : agent) :
  same_but_table a (set_q_table t a).
Proof. destruct a; reflexivity. Qed.

Lemma dqn_same_but_table_trans (a b c : agent) :
  same_but_table a b -> same_but_table b c -> same_but_table a c.
Proof.
  unfold same_but_table; intros H1 H2; rewrite H2, H1 at 1.
  destruct a; reflexivity.
Qed.

Lemma dqn_same_but_table_fields (a a' : agent) :
  same_but_table a a' ->
  state_size a' = state_size a /\ action_size a' = action_size a /\
  lr a' = lr a /\ gamma a' = gamma a /\ epsilon a' = epsilon a /\
  epsilon_min a' = epsilon_min a /\ epsilon_decay a' = epsilon_decay a /\
  batch_size a' = batch_size a /\ memory_size a' = memory_size a /\
  memory a' = memory a.
Proof.
  unfold same_but_table; intros E; rewrite E; destruct a; cbn.
  repeat split.
Qed.

Lemma dqn_q_table_set (t : table) (a : agent) :
  q_table (set_q_table t a) = t.
Proof. destruct a; reflexivity. Qed.

Lemma dqn_rows_nonempty (a : agent) (k : key) (row : list R) :
  (0 < action_size a)%Z -> rows_ok a ->
  lookup k (q_table a) = Some row -> row <> [].
Proof.
  intros Hn Hrows Hk E; subst row.
  specialize (Hrows _ _ Hk); cbn in Hrows; lia.
Qed.

Lemma dqn_keeps_rows_refl (a : agent) : keeps_rows a a.
Proof. intros k row Hk; exact Hk. Qed.

Lemma dqn_keeps_rows_trans (a b c : agent) :
  keeps_rows a b -> keeps_rows b c -> keeps_rows a c.
Proof. intros H1 H2 k row Hk; apply H2, H1, Hk. Qed.

Lemma dqn_keeps_keys_refl (a : agent) : keeps_keys a a.
Proof. intros k Hk; exact Hk. Qed.

Lemma dqn_keeps_keys_trans (a b c : agent) :
  keeps_keys a b -> keeps_keys b c -> keeps_keys a c.
Proof. intros H1 H2 k Hk; apply H2, H1, Hk. Qed.

Lemma dqn_keeps_rows_keys (a b : agent) : keeps_rows a b -> keeps_keys a b.
Proof.
  intros Hr k Hk.
  destruct (lookup k (q_table a)) as [row|] eqn:E; [|congruence].
  rewrite (Hr _ _ E); discriminate.
Qed.

(** [_q] looks the row up, or inserts a row of zeros first. *)
Lemma _q_ok (st : list R) (a : agent) :
  (0 <= action_size a)%Z -> rows_ok a ->
  exists row a',
    _q st a = Ok (row, a') /\
    lookup (_key st) (q_table a') = Some row /\
    same_but_table a a' /\ rows_ok a' /\ keeps_rows a a' /\
    (lookup (_key st) (q_table a) = None ->
     row = repeat 0 (Z.to_nat (action_size a))) /\
    (lookup (_key st) (q_table a) <> None -> a' = a) /\
    (forall k', k' <> _key st ->
                lookup k' (q_table a') = lookup k' (q_table a)) /\
    (forall b, 0 <= b -> q_le b a -> q_le b a').
Proof.
  intros Hn Hrows; unfold _q.
  destruct (lookup (_key st) (q_table a)) as [row|] eqn:E.
  - exists row, a; split; [reflexivity|split; [exact E|]].
    split; [apply dqn_same_but_table_refl|split; [exact Hrows|]].
    split; [intros k r Hk; exact Hk|split; [discriminate|]].
    split; [reflexivity|split; [reflexivity|intros; assumption]].
  - unfold zeros.
    destruct (action_size a <? 0)%Z eqn:En; [apply Z.ltb_lt in En; lia|].
    cbn [bind].
    eexists _, _; split; [reflexivity|].
    rewrite dqn_q_table_set.
    split; [apply lookup_store_same|].
    split; [apply dqn_same_but_table_set|].
    assert (Hs : forall t, action_size (set_q_table t a) = action_size a)
      by (intros t; destruct a; reflexivity).
    split.
    { intros k' row' H'; rewrite dqn_q_table_set in H'; rewrite Hs.
      destruct (key_eq_dec k' (_key st)) as [->|NE].
      - rewrite lookup_store_same in H'; injection H' as <-.
        rewrite repeat_length; lia.
      - rewrite lookup_store_other in H' by exact NE.
        exact (Hrows _ _ H'). }
    split.
    { intros k' row' H'; rewrite dqn_q_table_set.
      destruct (key_eq_dec k' (_key st)) as [->|NE]; [congruence|].
      now rewrite lookup_store_other. }
    split; [reflexivity|split; [congruence|]].
    split.
    { intros k' NE; now apply lookup_store_other. }
    intros b Hb Hle k' row' H'; rewrite dqn_q_table_set in H'.
    destruct (key_eq_dec k' (_key st)) as [->|NE].
    + rewrite lookup_store_same in H'; injection H' as <-.
      apply Forall_forall; intros x Hx; apply repeat_spec in Hx; lra.
    + rewrite lookup_store_other in H' by exact NE.
      exact (Hle _ _ H').
Qed.

(** One experience of the batch: the update goes through, the table keeps
    its shape and its keys, and a bound on the Q-values is kept when the
    reward is small enough. *)
(** After [_q], the table holds at the key what the agent reads there, and
    every other key reads as before. *)
Lemma _q_row_of (st : list R) (a : agent) :
  (0 <= action_size a)%Z -> rows_ok a ->
  exists a',
    _q st a = Ok (row_of (_key st) a, a') /\
    same_but_table a a' /\ rows_ok a' /\
    lookup (_key st) (q_table a') = Some (row_of (_key st) a) /\
    (forall k', k' <> _key st ->
                lookup k' (q_table a') = lookup k' (q_table a)) /\
    (forall k', row_of k' a' = row_of k' a).
Proof.
  intros Hn Hrows.
  destruct (_q_ok st a Hn Hrows)
    as (row & a' & E & Hk & S & R' & K & New & _ & Other & _).
  destruct (dqn_same_but_table_fields _ _ S) as (_ & N & _).
  assert (Hrow : row = row_of (_key st) a).
  { unfold row_of.
    destruct (lookup (_key st) (q_table a)) as [row0|] eqn:Ek.
    - pose proof (K _ _ Ek) as Hk'; congruence.
    - exact (New eq_refl). }
  subst row.
  exists a'; split; [exact E|split; [exact S|split; [exact R'|]]].
  split; [exact Hk|split; [exact Other|]].
  intros k'; destruct (key_eq_dec k' (_key st)) as [->|NE].
  - unfold row_of at 1; rewrite Hk; reflexivity.
  - unfold row_of; rewrite (Other _ NE), N; reflexivity.
Qed.

Lemma dqn_replay_one_ok (a : agent) (tr : transition) :
  (0 < action_size a)%Z -> rows_ok a ->
  (0 <= action_of tr < action_size a)%Z ->
  exists a',
    replay_one a tr = Ok a' /\
    same_but_table a a' /\ rows_ok a' /\ keeps_keys a a' /\
    (forall b r, 0 <= b -> q_le b a -> reward_in tr <= r ->
                 0 <= lr a <= 1 -> 0 <= gamma a ->
                 r + gamma a * b <= b -> q_le b a').
Proof.
  destruct tr as [[[[st act] rew] st'] d].
  unfold action_of, reward_in; cbn [fst snd].
  intros Hn Hrows Hact.
  unfold replay_one.
  assert (Ht : exists target a1,
             (if d then Ok (rew, a)
              else q <- _q st' a ;; m <- amax (fst q) ;;
                   Ok (rew + gamma (snd q) * m, snd q))
             = Ok (target, a1) /\
             same_but_table a a1 /\ rows_ok a1 /\ keeps_rows a a1 /\
             (forall b, 0 <= b -> q_le b a -> q_le b a1) /\
             forall b r, 0 <= b -> q_le b a -> rew <= r -> 0 <= gamma a ->
                         r + gamma a * b <= b -> target <= b).
  { destruct d.
    - exists rew, a; split; [reflexivity|].
      split; [apply dqn_same_but_table_refl|split; [exact Hrows|]].
      split; [apply dqn_keeps_rows_refl|split; [intros; assumption|]].
      intros b r Hb _ Hr Hg Hrb; nra.
    - destruct (_q_ok st' a ltac:(lia) Hrows)
        as (row & a1 & E1 & L1 & S1 & R1 & K1 & _ & _ & _ & Q1).
      rewrite E1; cbn [bind fst snd].
      destruct (dqn_same_but_table_fields _ _ S1) as (_ & N1 & _ & G1 & _).
      destruct (amax_ok row (dqn_rows_nonempty a1 _ _ ltac:(lia) R1 L1))
        as (m & Em & Hm).
      rewrite Em; cbn [bind].
      exists (rew + gamma a1 * m), a1; split; [reflexivity|].
      split; [exact S1|split; [exact R1|split; [exact K1|split; [exact Q1|]]]].
      intros b r Hb Hq Hr Hg Hrb.
      specialize (Hm b (Q1 b Hb Hq _ _ L1)); rewrite G1; nra. }
  destruct Ht as (target & a1 & Et & S1 & R1 & K1 & Q1 & Htarget).
  rewrite Et; cbn [bind fst snd]; clear Et.
  destruct (dqn_same_but_table_fields _ _ S1)
    as (_ & N1 & L1 & G1 & _).
  destruct (_q_ok st a1 ltac:(lia) R1)
    as (row & a2 & E2 & L2 & S2 & R2 & K2 & _ & _ & _ & Q2).
  rewrite E2; cbn [bind fst snd]; clear E2.
  destruct (dqn_same_but_table_fields _ _ S2)
    as (_ & N2 & L2' & G2 & _).
  pose proof (R2 _ _ L2) as Hlen.
  rewrite index_in_range by lia; cbn [bind].
  eexists; split; [reflexivity|].
  split; [eapply dqn_same_but_table_trans; [exact S1|];
          eapply dqn_same_but_table_trans;
            [exact S2|apply dqn_same_but_table_set]|].
  split.
  { intros k row' Hk; rewrite dqn_q_table_set in Hk.
    replace (action_size (set_q_table _ a2)) with (action_size a2)
      by (destruct a2; reflexivity).
    destruct (key_eq_dec k (_key st)) as [->|NE].
    - rewrite lookup_store_same in Hk; injection Hk as <-.
      rewrite assign_length; exact Hlen.
    - rewrite lookup_store_other in Hk by exact NE; exact (R2 _ _ Hk). }
  split.
  { intros k Hk; rewrite dqn_q_table_set.
    destruct (key_eq_dec k (_key st)) as [->|NE].
    - rewrite lookup_store_same; discriminate.
    - rewrite lookup_store_other by exact NE.
      destruct (lookup k (q_table a)) as [row'|] eqn:Ek; [|congruence].
      rewrite (K2 _ _ (K1 _ _ Ek)); discriminate. }
  intros b r Hb Hq Hr Hlr Hg Hrb k row' Hk; rewrite dqn_q_table_set in Hk.
  assert (Hq2 : q_le b a2) by (apply Q2, Q1; assumption).
  destruct (key_eq_dec k (_key st)) as [->|NE].
  - rewrite lookup_store_same in Hk; injection Hk as <-.
    pose proof (Hq2 _ _ L2) as Hrow.
    apply assign_Forall; [|exact Hrow].
    assert (Hcur : nth (Z.to_nat act) row 0 <= b).
    { rewrite Forall_forall in Hrow; apply Hrow, nth_In; lia. }
    assert (Htb : target <= b) by (apply (Htarget b r); assumption).
    rewrite L2', L1; nra.
  - rewrite lookup_store_other in Hk by exact NE; exact (Hq2 _ _ Hk).
Qed.

Lemma dqn_replay_batch_ok (batch : list transition) (a : agent) :
  (0 < action_size a)%Z -> rows_ok a ->
  (forall tr, In tr batch -> (0 <= action_of tr < action_size a)%Z) ->
  exists a',
    replay_batch a batch = Ok a' /\
    same_but_table a a' /\ rows_ok a' /\ keeps_keys a a' /\
    (forall b r, 0 <= b -> q_le b a ->
                 (forall tr, In tr batch -> reward_in tr <= r) ->
                 0 <= lr a <= 1 -> 0 <= gamma a ->
                 r + gamma a * b <= b -> q_le b a').
Proof.
  revert a; induction batch as [|tr batch IH]; intros a Hn Hrows Hact.
  - exists a; split; [reflexivity|].
    split; [apply dqn_same_but_table_refl|split; [exact Hrows|]].
    split; [intros k Hk; exact Hk|intros; assumption].
  - cbn [replay_batch].
    destruct (dqn_replay_one_ok a tr Hn Hrows (Hact tr (or_introl eq_refl)))
      as (a1 & E1 & S1 & R1 & K1 & Q1).
    rewrite E1; cbn [bind].
    destruct (dqn_same_but_table_fields _ _ S1)
      as (_ & N1 & L1 & G1 & _).
    destruct (IH a1) as (a2 & E2 & S2 & R2 & K2 & Q2).
    + lia.
    + exact R1.
    + intros tr' Hin; rewrite N1; apply Hact; right; exact Hin.
    + exists a2; split; [exact E2|].
      split; [eapply dqn_same_but_table_trans; eassumption|].
      split; [exact R2|split; [eapply dqn_keeps_keys_trans; eassumption|]].
      intros b r Hb Hq Hrew Hlr Hg Hrb.
      apply (Q2 b r); try assumption.
      * apply (Q1 b r); try assumption.
        apply Hrew; left; reflexivity.
      * intros tr' Hin; apply Hrew; right; exact Hin.
      * rewrite L1; exact Hlr.
      * rewrite G1; exact Hg.
      * rewrite G1; exact Hrb.
Qed.

Lemma dqn_remember_fields (st : list R) (act : Z) (rew : R)
    (st' : list R) (d : bool) (a : agent) :
  let a' := remember st act rew st' d a in
  memory a'
  = deque_push (Z.to_nat (memory_size a)) (memory a)
      (st, act, rew, st', d) /\
  q_table a' = q_table a /\ action_size a' = action_size a /\
  batch_size a' = batch_size a /\ epsilon a' = epsilon a /\
  epsilon_min a' = epsilon_min a /\ epsilon_decay a' = epsilon_decay a /\
  gamma a' = gamma a /\ lr a' = lr a /\
  memory_size a' = memory_size a /\ state_size a' = state_size a.
Proof. destruct a; cbn; repeat split. Qed.

Lemma dqn_remember_ok (st : list R) (act : Z) (rew : R) (st' : list R)
    (d : bool) (a : agent) :
  agent_ok a -> (0 <= act < action_size a)%Z ->
  agent_ok (remember st act rew st' d a).
Proof.
  intros (Hn & Hb & Hrows & Hacts) Hact.
  destruct (dqn_remember_fields st act rew st' d a)
    as (Hm & Hq & Hs & Hbs & _); cbv zeta in *.
  unfold agent_ok, rows_ok, actions_ok.
  rewrite Hs, Hbs, Hq, Hm.
  split; [exact Hn|split; [exact Hb|split; [exact Hrows|]]].
  intros tr Hin; apply deque_push_incl in Hin.
  destruct Hin as [<-|Hin]; [exact Hact|apply Hacts, Hin].
Qed.

Section WithRandomSources.
Context {G : Type} `{RandomSource G} {P : Type} `{PyRandom P}.

Lemma dqn_replay_ok (a : agent) (p : P) :
  agent_ok a -> sample_sound P ->
  exists a' p',
    replay a p = Ok (a', p') /\
    agent_ok a' /\ keeps_keys a a' /\
    memory a' = memory a /\ action_size a' = action_size a /\
    batch_size a' = batch_size a /\ gamma a' = gamma a /\
    lr a' = lr a /\
    epsilon_min a' = epsilon_min a /\ epsilon_decay a' = epsilon_decay a /\
    memory_size a' = memory_size a /\ state_size a' = state_size a /\
    ((Z.of_nat (length (memory a)) < batch_size a)%Z -> a' = a /\ p' = p) /\
    (~ (Z.of_nat (length (memory a)) < batch_size a)%Z ->
     epsilon a'
     = (if Rgt_dec (epsilon a) (epsilon_min a)
        then epsilon a * epsilon_decay a else epsilon a)) /\
    (forall b r, 0 <= b -> q_le b a -> rewards_le r a ->
                 0 <= lr a <= 1 -> 0 <= gamma a ->
                 r + gamma a * b <= b -> q_le b a').
Proof.
  intros (Hn & Hb & Hrows & Hacts) Hsample.
  unfold replay.
  destruct (Z.of_nat (length (memory a)) <? batch_size a)%Z eqn:Elt.
  - apply Z.ltb_lt in Elt.
    exists a, p; split; [reflexivity|].
    split; [exact (conj Hn (conj Hb (conj Hrows Hacts)))|].
    split; [intros k Hk; exact Hk|].
    do 9 (split; [reflexivity|]).
    split; [intros _; split; reflexivity|].
    split; [intros Hc; contradiction|intros; assumption].
  - apply Z.ltb_ge in Elt.
    destruct (batch_size a <? 0)%Z eqn:Eneg;
      [apply Z.ltb_lt in Eneg; lia|clear Eneg].
    destruct (Hsample transition (memory a) (Z.to_nat (batch_size a)) p
                ltac:(lia)) as [_ Hincl].
    destruct (dqn_replay_batch_ok
                (fst (py_sample transition (memory a)
                        (Z.to_nat (batch_size a)) p)) a Hn Hrows)
      as (a1 & E1 & S1 & R1 & K1 & Q1).
    { intros tr Hin; apply Hacts, Hincl, Hin. }
    rewrite E1; cbn [bind].
    destruct (dqn_same_but_table_fields _ _ S1)
      as (F1 & F2 & F3 & F4 & F5 & F6 & F7 & F8 & F9 & F10).
    eexists _, _; split; [reflexivity|].
    match goal with
    | |- agent_ok ?x /\ _ => set (a' := x)
    end.
    assert (Hf : q_table a' = q_table a1 /\ memory a' = memory a1 /\
                 action_size a' = action_size a1 /\
                 batch_size a' = batch_size a1 /\ gamma a' = gamma a1 /\
                 lr a' = lr a1 /\
                 epsilon_min a' = epsilon_min a1 /\
                 epsilon_decay a' = epsilon_decay a1 /\
                 memory_size a' = memory_size a1 /\
                 state_size a' = state_size a1 /\
                 epsilon a'
                 = (if Rgt_dec (epsilon a1) (epsilon_min a1)
                    then epsilon a1 * epsilon_decay a1 else epsilon a1))
      by (subst a'; destruct a1; cbn; repeat split).
    destruct Hf as (T1 & T2 & T3 & T4 & T5 & T6 & T7 & T8 & T9 & T10 & T12).
    split.
    { unfold agent_ok, rows_ok, actions_ok.
      rewrite T1, T2, T3, T4, F2, F8, F10.
      split; [exact Hn|split; [exact Hb|split; [|exact Hacts]]].
      intros k row Hk; rewrite <- F2; exact (R1 _ _ Hk). }
    split; [intros k Hk; rewrite T1; apply K1, Hk|].
    split; [congruence|split; [congruence|split; [congruence|]]].
    split; [congruence|split; [congruence|split; [congruence|]]].
    split; [congruence|split; [congruence|split; [congruence|]]].
    split; [intros Hc; lia|].
    split; [intros _; rewrite T12, F5, F6, F7; reflexivity|].
    intros b r Hb0 Hq Hrew Hlr Hg Hrb k row Hk; rewrite T1 in Hk.
    refine (Q1 b r Hb0 Hq _ Hlr Hg Hrb k row Hk).
    intros tr Hin; apply Hrew, Hincl, Hin.
Qed.

Lemma dqn_act_ok (st : list R) (a : agent) (g : G) (p : P) :
  agent_ok a -> randrange_sound P ->
  exists action a' p',
    act st a g p = Ok (action, a', snd (rng_random g), p') /\
    (0 <= action < action_size a)%Z /\
    agent_ok a' /\ same_but_table a a' /\ keeps_rows a a' /\
    (forall b, 0 <= b -> q_le b a -> q_le b a') /\
    (fst (rng_random g) < epsilon a ->
     a' = a /\ action = fst (py_randrange (action_size a) p) /\
     p' = snd (py_randrange (action_size a) p)) /\
    (~ fst (rng_random g) < epsilon a ->
     p' = p /\
     exists row,
       lookup (_key st) (q_table a') = Some row /\
       (forall j, (j < length row)%nat ->
                  nth j row 0 <= nth (Z.to_nat action) row 0) /\
       (forall j, (j < Z.to_nat action)%nat ->
                  nth j row 0 < nth (Z.to_nat action) row 0)).
Proof.
  intros (Hn & Hb & Hrows & Hacts) Hrr; unfold act.
  destruct (Rlt_dec (fst (rng_random g)) (epsilon a)) as [Hlt|Hge].
  - destruct (action_size a <=? 0)%Z eqn:E; [apply Z.leb_le in E; lia|].
    eexists _, a, _; split; [reflexivity|].
    split; [apply Hrr; exact Hn|].
    split; [exact (conj Hn (conj Hb (conj Hrows Hacts)))|].
    split; [apply dqn_same_but_table_refl|].
    split; [intros k r Hk; exact Hk|split; [intros; assumption|]].
    split; [intros _; repeat split|intros Hc; contradiction].
  - destruct (_q_ok st a ltac:(lia) Hrows)
      as (row & a1 & E1 & L1 & S1 & R1 & K1 & _ & _ & _ & Q1).
    rewrite E1; cbn [bind fst snd].
    destruct (dqn_same_but_table_fields _ _ S1)
      as (_ & N1 & _ & _ & _ & _ & _ & B1 & _ & M1).
    assert (Hne : row <> [])
      by (apply (dqn_rows_nonempty a1 _ _ ltac:(lia) R1 L1)).
    destruct (argmax_spec row Hne) as (i & Ei & Hi & Hall & Hfirst).
    rewrite Ei; cbn [bind].
    exists (Z.of_nat i), a1, p; split; [reflexivity|].
    pose proof (R1 _ _ L1) as Hlen.
    split; [lia|].
    split.
    { unfold agent_ok, actions_ok; rewrite N1, M1, B1.
      exact (conj Hn (conj Hb (conj R1 Hacts))). }
    split; [exact S1|split; [exact K1|split; [exact Q1|]]].
    split; [intros Hc; contradiction|intros _].
    split; [reflexivity|exists row; split; [exact L1|]].
    rewrite Nat2Z.id; split.
    + intros j Hj; rewrite Forall_forall in Hall; apply Hall, nth_In, Hj.
    + exact Hfirst.
Qed.

Lemma dqn_act_greedy_ok (st : list R) (a : agent) (g : G) (p : P) :
  (0 < action_size a)%Z -> rows_ok a ->
  ~ fst (rng_random g) < epsilon a ->
  exists action a',
    act st a g p = Ok (action, a', snd (rng_random g), p) /\
    (0 <= action < action_size a)%Z /\
    same_but_table a a' /\ rows_ok a' /\ keeps_rows a a' /\
    exists row,
      lookup (_key st) (q_table a') = Some row /\
      (forall j, (j < length row)%nat ->
                 nth j row 0 <= nth (Z.to_nat action) row 0) /\
      (forall j, (j < Z.to_nat action)%nat ->
                 nth j row 0 < nth (Z.to_nat action) row 0).
Proof.
  intros Hn Hrows Hge; unfold act.
  destruct (Rlt_dec (fst (rng_random g)) (epsilon a)) as [Hlt|_];
    [contradiction|].
  destruct (_q_ok st a ltac:(lia) Hrows)
    as (row & a1 & E1 & L1 & S1 & R1 & K1 & _ & _ & _ & Q1).
  rewrite E1; cbn [bind fst snd].
  destruct (dqn_same_but_table_fields _ _ S1) as (_ & N1 & _).
  assert (Hne : row <> [])
    by (apply (dqn_rows_nonempty a1 _ _ ltac:(lia) R1 L1)).
  destruct (argmax_spec row Hne) as (i & Ei & Hi & Hall & Hfirst).
  rewrite Ei; cbn [bind].
  exists (Z.of_nat i), a1; split; [reflexivity|].
  pose proof (R1 _ _ L1) as Hlen.
  split; [lia|split; [exact S1|split; [exact R1|split; [exact K1|]]]].
  exists row; split; [exact L1|].
  rewrite Nat2Z.id; split.
  - intros j Hj; rewrite Forall_forall in Hall; apply Hall, nth_In, Hj.
  - exact Hfirst.
Qed.

End WithRandomSources.

End DQNFacts.

Module TrainingFacts.
Import DQNAgent DQNInvariants DQNFacts Training.

Lemma dqn_decayed_refl (a : agent) : decayed a a.
Proof.
  split; [intros _ _; apply Rle_refl|intros _; apply Rmin_l].
Qed.

Lemma dqn_decayed_trans (a b c : agent) :
  epsilon_min b = epsilon_min a -> epsilon_decay b = epsilon_decay a ->
  decayed a b -> decayed b c -> decayed a c.
Proof.
  intros Hm Hd [U1 L1] [U2 L2]; rewrite Hm, Hd in U2, L2; split.
  - intros H0 H1; specialize (U1 H0 H1); specialize (U2 H0 H1); lra.
  - intros H0; specialize (L1 H0); specialize (L2 H0).
    revert L1 L2; unfold Rmin.
    repeat match goal with
           | |- context [Rle_dec ?x ?y] => destruct (Rle_dec x y)
           end; intros; lra.
Qed.

(** One decay, or none. *)
Lemma dqn_decayed_step (a a' : agent) :
  epsilon a' = epsilon a \/
  (epsilon a > epsilon_min a /\ epsilon a' = epsilon a * epsilon_decay a) ->
  decayed a a'.
Proof.
  unfold decayed; intros [E|[Hgt E]]; rewrite E; split.
  - intros _ _; apply Rle_refl.
  - intros _; apply Rmin_l.
  - intros H0 H1; nra.
  - intros H0; apply Rle_trans with (epsilon_min a * epsilon_decay a);
      [apply Rmin_r|nra].
Qed.

Lemma dqn_same_settings_refl (a : agent) : same_settings a a.
Proof.
  unfold same_settings; repeat split; try apply dqn_decayed_refl.
Qed.

Lemma dqn_same_settings_trans (a b c : agent) :
  same_settings a b -> same_settings b c -> same_settings a c.
Proof.
  unfold same_settings.
  intros (A1 & A2 & A3 & A4 & A5 & A6 & A7 & A8 & DA)
         (B1 & B2 & B3 & B4 & B5 & B6 & B7 & B8 & DB).
  repeat match goal with |- _ /\ _ => split end; try congruence.
  exact (dqn_decayed_trans a b c A4 A5 DA DB).
Qed.

Lemma dqn_bound_fits_settings (b : R) (a a' : agent) :
  same_settings a a' -> bound_fits b a -> bound_fits b a'.
Proof.
  unfold same_settings, bound_fits.
  intros (_ & _ & Hg & _ & _ & Hl & _) Hb; rewrite Hg, Hl; exact Hb.
Qed.

(** Every key [evaluate] records is a key of the snapshot. *)
Lemma traj_keys_in_info (s : Extended.env) :
  Forall (fun k => exists v, getitem k (get_state_info s) = Ok v) traj_keys.
Proof.
  unfold traj_keys, get_state_info; cbv zeta.
  repeat (constructor; [eexists; reflexivity|]).
  constructor.
Qed.

Lemma record_step_ok (info : list (string * R))
    (ep_traj : list (string * list R)) (n : nat) :
  Forall (fun k => exists v, getitem k info = Ok v) (map fst ep_traj) ->
  Forall (fun kv => length (snd kv) = n) ep_traj ->
  exists traj,
    record_step info ep_traj = Ok traj /\
    map fst traj = map fst ep_traj /\
    Forall (fun kv => length (snd kv) = S n) traj.
Proof.
  induction ep_traj as [|[k vs] rest IH]; intros Hk Hl; cbn [record_step].
  - exists []; repeat split; constructor.
  - cbn [map fst] in Hk; apply Forall_cons_iff in Hk as [[v Ev] Hk'].
    apply Forall_cons_iff in Hl as [Hvs Hl']; cbn [snd] in Hvs.
    destruct (IH Hk' Hl') as (traj & Et & Hm & Hf).
    rewrite Ev, Et; cbn [bind].
    eexists; split; [reflexivity|].
    cbn [map fst]; split; [now rewrite Hm|].
    constructor; [cbn [snd]; rewrite length_app; simpl; lia|exact Hf].
Qed.

Lemma collect_ok (ep_traj : list (string * list R))
    (trajectories : list (string * list (list R))) (n L : nat) :
  map fst ep_traj = map fst trajectories ->
  Forall (fun kv => length (snd kv) = L) ep_traj ->
  Forall (fun kv => length (snd kv) = n /\
                    Forall (fun run => length run = L) (snd kv))
    trajectories ->
  exists t,
    collect ep_traj trajectories = Ok t /\
    map fst t = map fst trajectories /\
    Forall (fun kv => length (snd kv) = S n /\
                      Forall (fun run => length run = L) (snd kv)) t.
Proof.
  revert ep_traj; induction trajectories as [|[k runs] rest IH];
    intros ep_traj Hk Hl Ht.
  - destruct ep_traj; [|discriminate].
    exists []; repeat split; constructor.
  - destruct ep_traj as [|[k' vs] ep_rest]; [discriminate|].
    cbn [collect].
    cbn [map fst] in Hk; injection Hk as Hk1 Hk2; subst k'.
    rewrite String.eqb_refl.
    apply Forall_cons_iff in Hl as [Hvs Hl']; cbn [snd] in Hvs.
    apply Forall_cons_iff in Ht as [[Hn Hr] Ht']; cbn [snd] in Hn, Hr.
    destruct (IH ep_rest Hk2 Hl' Ht') as (t & Et & Hm & Hf).
    rewrite Et; cbn [bind].
    eexists; split; [reflexivity|].
    cbn [map fst]; split; [now rewrite Hm|].
    constructor; [cbn [snd]; split|exact Hf].
    + rewrite length_app; simpl; lia.
    + apply Forall_app; split; [exact Hr|constructor; [exact Hvs|constructor]].
Qed.

Section WithRandomSources.
Context {G : Type} `{RandomSource G} {P : Type} `{PyRandom P}.

(** One pass through the body of the training loop. *)
Lemma dqn_train_body_ok (b : R) (e : episode) :
  randrange_sound P -> sample_sound P ->
  trained_ok b (the_agent e) -> bound_fits b (the_agent e) ->
  exists e',
    train_body e
    = Ok ((Extended.current_step (the_env e) + 1
           >=? Extended.max_steps (the_env e))%Z, e') /\
    trained_ok b (the_agent e') /\
    same_settings (the_agent e) (the_agent e') /\
    keeps_keys (the_agent e) (the_agent e') /\
    Extended.current_step (the_env e')
    = (Extended.current_step (the_env e) + 1)%Z /\
    Extended.max_steps (the_env e') = Extended.max_steps (the_env e) /\
    Extended.dt (the_env e') = Extended.dt (the_env e) /\
    total_reward e' + total_load e' = total_reward e + total_load e + 5 /\
    total_load e' - Extended.cumulative_load (the_env e')
    = total_load e - Extended.cumulative_load (the_env e) /\
    total_load e <= total_load e'.
Proof.
  intros Hrr Hss ((Hn & Hb & Hrows & Hacts) & Hq & Hrew) Hfit.
  unfold train_body.
  destruct (dqn_act_ok (state e) (the_agent e) (np_random e) (py_random e)
              (conj Hn (conj Hb (conj Hrows Hacts))) Hrr)
    as (action & a1 & p1 & Eact & Hact & Hok1 & S1 & K1 & Q1 & _).
  rewrite Eact; cbn [bind]; cbv beta iota.
  destruct (dqn_same_but_table_fields _ _ S1)
    as (F1 & F2 & F3 & F4 & F5 & F6 & F7 & F8 & F9 & F10).
  set (out := Extended.step action (the_env e)
                (snd (rng_random (np_random e)))).
  destruct (ExtendedFacts.ext_step_cost action (the_env e)
              (snd (rng_random (np_random e)))) as (Hr & Hc & _);
    cbv zeta in Hr, Hc; fold out in Hr, Hc.
  match type of Hr with
  | _ = 5.0 - ?l =>
      pose proof (ExtendedFacts.ext_load_nonneg (state_of out)
                    (fst (Extended._receptor_occupancy (the_env e)))
                    (snd (Extended._receptor_occupancy (the_env e)))) as Hl;
      revert Hr Hc Hl; generalize l; intros load Hr Hc Hl
  end.
  destruct (ExtendedFacts.ext_step_counter action (the_env e)
              (snd (rng_random (np_random e)))) as (Hcs & Hst & Hdt);
    fold out in Hcs, Hst, Hdt.
  pose proof (ExtendedFacts.ext_step_done action (the_env e)
                (snd (rng_random (np_random e)))) as Hdone;
    fold out in Hdone.
  set (a2 := remember (state e) action (reward_of out) (obs_of out)
               (done_of out) a1).
  assert (Hok2 : agent_ok a2)
    by (apply dqn_remember_ok; [exact Hok1|rewrite F2; exact Hact]).
  destruct (dqn_remember_fields (state e) action (reward_of out)
              (obs_of out) (done_of out) a1)
    as (M2 & T2 & N2 & B2 & E2 & EM2 & ED2 & G2 & L2 & MS2 & SS2);
    cbv zeta in *; fold a2 in M2, T2, N2, B2, E2, EM2, ED2, G2, L2, MS2, SS2.
  destruct (dqn_replay_ok a2 p1 Hok2 Hss)
    as (a3 & p3 & Erep & Hok3 & K3 & M3 & N3 & B3 & G3 & L3 & EM3 & ED3
        & MS3 & SS3 & NoOp & Upd & Q3).
  rewrite Erep; cbn [bind fst snd].
  eexists; split; [rewrite Hdone; reflexivity|].
  cbn [the_agent the_env total_reward total_load].
  destruct Hfit as (Hb0 & Hlr & Hg & Hfix).
  assert (Hrew2 : rewards_le 5 a2).
  { intros tr Hin; rewrite M2 in Hin; apply deque_push_incl in Hin.
    destruct Hin as [<-|Hin].
    - unfold reward_in; cbn [fst snd]; lra.
    - apply Hrew; rewrite <- F10; exact Hin. }
  assert (Hq2 : q_le b a2)
    by (intros k row Hk; rewrite T2 in Hk; exact (Q1 b Hb0 Hq _ _ Hk)).
  split.
  { split; [exact Hok3|split].
    - apply (Q3 b 5); try assumption.
      + rewrite L2, F3; exact Hlr.
      + rewrite G2, F4; exact Hg.
      + rewrite G2, F4; exact Hfix.
    - intros tr Hin; rewrite M3 in Hin; exact (Hrew2 _ Hin). }
  split.
  { unfold same_settings.
    repeat match goal with |- _ /\ _ => split end; try congruence.
    apply dqn_decayed_step.
    rewrite <- F5, <- F6, <- F7, <- E2, <- EM2, <- ED2.
    destruct (Z_lt_dec (Z.of_nat (length (memory a2))) (batch_size a2))
      as [Hlt|Hge].
    - destruct (NoOp Hlt) as [-> _]; left; reflexivity.
    - pose proof (Upd Hge) as He.
      destruct (Rgt_dec (epsilon a2) (epsilon_min a2)) as [Hgt|Hle];
        [right; split; [exact Hgt|exact He]|left; exact He]. }
  split.
  { intros k Hk; apply K3.
    destruct (lookup k (q_table (the_agent e))) as [row|] eqn:Ek;
      [|congruence].
    rewrite T2, (K1 _ _ Ek); discriminate. }
  split; [exact Hcs|split; [exact Hst|split; [exact Hdt|]]].
  rewrite Hr, Hc; split; [lra|split; lra].
Qed.

(** The training loop of one episode ends after [steps_left] passes. *)
Lemma dqn_train_while_ok (b : R) (fuel : nat) (e : episode) :
  randrange_sound P -> sample_sound P ->
  trained_ok b (the_agent e) -> bound_fits b (the_agent e) ->
  (steps_left (the_env e) <= fuel)%nat ->
  exists e',
    train_while fuel e = Ok e' /\
    trained_ok b (the_agent e') /\
    same_settings (the_agent e) (the_agent e') /\
    keeps_keys (the_agent e) (the_agent e') /\
    Extended.current_step (the_env e')
    = (Extended.current_step (the_env e)
       + Z.of_nat (steps_left (the_env e)))%Z /\
    Extended.max_steps (the_env e') = Extended.max_steps (the_env e) /\
    Extended.dt (the_env e') = Extended.dt (the_env e) /\
    total_reward e' + total_load e'
    = total_reward e + total_load e + 5 * INR (steps_left (the_env e)) /\
    total_load e' - Extended.cumulative_load (the_env e')
    = total_load e - Extended.cumulative_load (the_env e) /\
    total_load e <= total_load e'.
Proof.
  intros Hrr Hss; revert e.
  induction fuel as [|fuel IH]; intros e Hok Hfit Hfuel.
  - unfold steps_left in Hfuel; lia.
  - cbn [train_while].
    destruct (dqn_train_body_ok b e Hrr Hss Hok Hfit)
      as (e1 & E1 & Hok1 & S1 & K1 & C1 & Hms & D1 & T1 & L1 & M1).
    rewrite E1; cbn [bind fst snd].
    destruct (Extended.current_step (the_env e) + 1
              >=? Extended.max_steps (the_env e))%Z eqn:Ed.
    + assert (Hn : steps_left (the_env e) = 1%nat)
        by (unfold steps_left; apply Z.geb_le in Ed; lia).
      exists e1; rewrite Hn; cbn [INR Z.of_nat Pos.of_succ_nat].
      split; [reflexivity|split; [exact Hok1|split; [exact S1|]]].
      split; [exact K1|split; [exact C1|split; [exact Hms|]]].
      split; [exact D1|split; [lra|split; [exact L1|exact M1]]].
    + assert (Hlt : (Extended.current_step (the_env e) + 1
                     < Extended.max_steps (the_env e))%Z).
      { destruct (Z_lt_le_dec (Extended.current_step (the_env e) + 1)
                    (Extended.max_steps (the_env e))) as [Hl|Hg];
          [exact Hl|].
        apply Z.geb_le in Hg; congruence. }
      assert (Hn : steps_left (the_env e) = S (steps_left (the_env e1)))
        by (unfold steps_left; rewrite Hms, C1; lia).
      destruct (IH e1 Hok1 (dqn_bound_fits_settings _ _ _ S1 Hfit)
                  ltac:(lia))
        as (e2 & E2 & Hok2 & S2 & K2 & C2 & Hms2 & D2 & T2 & L2 & M2).
      exists e2; rewrite Hn, S_INR, Nat2Z.inj_succ.
      split; [exact E2|split; [exact Hok2|]].
      split; [eapply dqn_same_settings_trans; eassumption|].
      split; [eapply dqn_keeps_keys_trans; eassumption|].
      split; [lia|split; [congruence|split; [congruence|]]].
      split; [lra|split; lra].
Qed.

(** One episode of training: [reset], then the loop up to the horizon. *)
Lemma dqn_train_episode_ok (b : R) (fuel : nat) (print_every : Z)
    (pr : progress) :
  randrange_sound P -> sample_sound P ->
  trained_ok b (agent_so_far pr) -> bound_fits b (agent_so_far pr) ->
  print_every <> 0%Z ->
  (Z.to_nat (Z.max 1 (Extended.max_steps (env_so_far pr))) <= fuel)%nat ->
  exists pr' score,
    train_episode fuel print_every pr = Ok pr' /\
    trained_ok b (agent_so_far pr') /\
    same_settings (agent_so_far pr) (agent_so_far pr') /\
    keeps_keys (agent_so_far pr) (agent_so_far pr') /\
    Extended.max_steps (env_so_far pr') = Extended.max_steps (env_so_far pr) /\
    Extended.dt (env_so_far pr') = Extended.dt (env_so_far pr) /\
    Extended.current_step (env_so_far pr')
    = Z.max 1 (Extended.max_steps (env_so_far pr)) /\
    scores_so_far pr' = scores_so_far pr ++ [score] /\
    score + Extended.cumulative_load (env_so_far pr')
    = 5 * IZR (Z.max 1 (Extended.max_steps (env_so_far pr))) /\
    0 <= Extended.cumulative_load (env_so_far pr').
Proof.
  intros Hrr Hss Hok Hfit Hpe Hfuel.
  unfold train_episode.
  destruct (ExtendedFacts.ext_reset_fields (env_so_far pr) (np_so_far pr))
    as (_ & (_ & _ & _ & _ & Hc & Hl) & _ & _ & _ & Hdt & Hms);
    cbv zeta in Hc, Hl, Hdt, Hms.
  set (rs := Extended.reset (env_so_far pr) (np_so_far pr)) in *.
  set (e0 := mkEpisode (fst (fst rs)) 0.0 0.0 [] (agent_so_far pr)
               (snd (fst rs)) (snd rs) (py_so_far pr)).
  assert (Hn : steps_left (the_env e0)
               = Z.to_nat (Z.max 1 (Extended.max_steps (env_so_far pr))))
    by (unfold steps_left, e0; cbn [the_env]; rewrite Hms, Hc; f_equal; lia).
  destruct (dqn_train_while_ok b fuel e0 Hrr Hss Hok Hfit ltac:(lia))
    as (e1 & E1 & Hok1 & S1 & K1 & C1 & Hms1 & D1 & T1 & L1 & M1).
  rewrite E1; cbn [bind].
  destruct (print_every =? 0)%Z eqn:Epe; [apply Z.eqb_eq in Epe; lia|].
  eexists _, (total_reward e1); split; [reflexivity|].
  cbn [agent_so_far env_so_far scores_so_far].
  subst e0.
  cbn [the_agent the_env total_reward total_load]
    in S1, K1, C1, Hms1, D1, T1, L1, M1, Hn.
  rewrite Hn in C1, T1.
  rewrite Hc in C1; rewrite Hl in L1.
  split; [exact Hok1|split; [exact S1|split; [exact K1|]]].
  split; [congruence|split; [congruence|]].
  split; [rewrite C1; lia|split; [reflexivity|]].
  rewrite INR_IZR_INZ, Z2Nat.id in T1 by lia.
  split; lra.
Qed.

Lemma dqn_train_for_ok (b : R) (n fuel : nat) (print_every : Z)
    (pr : progress) :
  randrange_sound P -> sample_sound P ->
  trained_ok b (agent_so_far pr) -> bound_fits b (agent_so_far pr) ->
  print_every <> 0%Z ->
  (Z.to_nat (Z.max 1 (Extended.max_steps (env_so_far pr))) <= fuel)%nat ->
  exists pr' new,
    train_for n fuel print_every pr = Ok pr' /\
    trained_ok b (agent_so_far pr') /\
    same_settings (agent_so_far pr) (agent_so_far pr') /\
    keeps_keys (agent_so_far pr) (agent_so_far pr') /\
    Extended.max_steps (env_so_far pr') = Extended.max_steps (env_so_far pr) /\
    Extended.dt (env_so_far pr') = Extended.dt (env_so_far pr) /\
    scores_so_far pr' = scores_so_far pr ++ new /\
    length new = n /\
    Forall (fun x => x <= 5 * IZR (Z.max 1 (Extended.max_steps (env_so_far pr))))
      new.
Proof.
  intros Hrr Hss; revert pr.
  induction n as [|n IH]; intros pr Hok Hfit Hpe Hfuel.
  - exists pr, []; split; [reflexivity|].
    split; [exact Hok|split; [apply dqn_same_settings_refl|]].
    split; [apply dqn_keeps_keys_refl|split; [reflexivity|]].
    split; [reflexivity|split; [now rewrite app_nil_r|]].
    split; [reflexivity|constructor].
  - cbn [train_for].
    destruct (dqn_train_episode_ok b fuel print_every pr Hrr Hss Hok Hfit
                Hpe Hfuel)
      as (pr1 & score & E1 & Hok1 & S1 & K1 & Hms & D1 & C1 & Sc1 & T1 & L1).
    rewrite E1; cbn [bind].
    destruct (IH pr1 Hok1 (dqn_bound_fits_settings _ _ _ S1 Hfit) Hpe
                ltac:(rewrite Hms; exact Hfuel))
      as (pr2 & new & E2 & Hok2 & S2 & K2 & Hms2 & D2 & Sc2 & Ln2 & F2).
    exists pr2, (score :: new); split; [exact E2|].
    split; [exact Hok2|split; [eapply dqn_same_settings_trans; eassumption|]].
    split; [eapply dqn_keeps_keys_trans; eassumption|].
    split; [congruence|split; [congruence|]].
    split; [rewrite Sc2, Sc1, <- app_assoc; reflexivity|].
    split; [simpl; lia|].
    constructor; [lra|rewrite <- Hms; exact F2].
Qed.

(** One pass through the body of the evaluation loop: the agent plays
    greedily, and every recorded key is found in the snapshot. *)
Lemma evaluate_body_ok (n : nat) (e : episode) :
  random_sound G ->
  (0 < action_size (the_agent e))%Z -> rows_ok (the_agent e) ->
  epsilon (the_agent e) <= 0 ->
  map fst (ep_traj e) = traj_keys ->
  Forall (fun kv => length (snd kv) = n) (ep_traj e) ->
  exists e',
    evaluate_body e
    = Ok ((Extended.current_step (the_env e) + 1
           >=? Extended.max_steps (the_env e))%Z, e') /\
    same_but_table (the_agent e) (the_agent e') /\
    rows_ok (the_agent e') /\
    keeps_rows (the_agent e) (the_agent e') /\
    py_random e' = py_random e /\
    Extended.current_step (the_env e')
    = (Extended.current_step (the_env e) + 1)%Z /\
    Extended.max_steps (the_env e') = Extended.max_steps (the_env e) /\
    Extended.dt (the_env e') = Extended.dt (the_env e) /\
    total_reward e' + Extended.cumulative_load (the_env e')
    = total_reward e + Extended.cumulative_load (the_env e) + 5 /\
    Extended.cumulative_load (the_env e)
    <= Extended.cumulative_load (the_env e') /\
    map fst (ep_traj e') = traj_keys /\
    Forall (fun kv => length (snd kv) = S n) (ep_traj e').
Proof.
  intros Hrs Hn Hrows Heps Hkeys Hlen.
  unfold evaluate_body.
  destruct (dqn_act_greedy_ok (state e) (the_agent e) (np_random e)
              (py_random e) Hn Hrows)
    as (action & a1 & Eact & Hact & S1 & R1 & K1 & _).
  { pose proof (Hrs (np_random e)); lra. }
  rewrite Eact; cbn [bind]; cbv beta iota.
  set (out := Extended.step action (the_env e)
                (snd (rng_random (np_random e)))).
  destruct (ExtendedFacts.ext_step_cost action (the_env e)
              (snd (rng_random (np_random e)))) as (Hr & Hc & _);
    cbv zeta in Hr, Hc; fold out in Hr, Hc.
  match type of Hr with
  | _ = 5.0 - ?l =>
      pose proof (ExtendedFacts.ext_load_nonneg (state_of out)
                    (fst (Extended._receptor_occupancy (the_env e)))
                    (snd (Extended._receptor_occupancy (the_env e)))) as Hl;
      revert Hr Hc Hl; generalize l; intros load Hr Hc Hl
  end.
  destruct (ExtendedFacts.ext_step_counter action (the_env e)
              (snd (rng_random (np_random e)))) as (Hcs & Hst & Hdt);
    fold out in Hcs, Hst, Hdt.
  pose proof (ExtendedFacts.ext_step_done action (the_env e)
                (snd (rng_random (np_random e)))) as Hdone;
    fold out in Hdone.
  destruct (record_step_ok (get_state_info (state_of out)) (ep_traj e) n)
    as (traj & Et & Hm & Hf).
  { rewrite Hkeys; apply traj_keys_in_info. }
  { exact Hlen. }
  rewrite Et; cbn [bind].
  eexists; split; [rewrite Hdone; reflexivity|].
  cbn [the_agent the_env py_random total_reward ep_traj].
  split; [exact S1|split; [exact R1|split; [exact K1|]]].
  split; [reflexivity|split; [exact Hcs|split; [exact Hst|]]].
  split; [exact Hdt|].
  rewrite Hr, Hc; split; [lra|split; [lra|]].
  split; [congruence|exact Hf].
Qed.

Lemma evaluate_while_ok (fuel n : nat) (e : episode) :
  random_sound G ->
  (0 < action_size (the_agent e))%Z -> rows_ok (the_agent e) ->
  epsilon (the_agent e) <= 0 ->
  map fst (ep_traj e) = traj_keys ->
  Forall (fun kv => length (snd kv) = n) (ep_traj e) ->
  (steps_left (the_env e) <= fuel)%nat ->
  exists e',
    evaluate_while fuel e = Ok e' /\
    same_but_table (the_agent e) (the_agent e') /\
    rows_ok (the_agent e') /\
    keeps_rows (the_agent e) (the_agent e') /\
    py_random e' = py_random e /\
    Extended.current_step (the_env e')
    = (Extended.current_step (the_env e)
       + Z.of_nat (steps_left (the_env e)))%Z /\
    Extended.max_steps (the_env e') = Extended.max_steps (the_env e) /\
    Extended.dt (the_env e') = Extended.dt (the_env e) /\
    total_reward e' + Extended.cumulative_load (the_env e')
    = total_reward e + Extended.cumulative_load (the_env e)
      + 5 * INR (steps_left (the_env e)) /\
    Extended.cumulative_load (the_env e)
    <= Extended.cumulative_load (the_env e') /\
    map fst (ep_traj e') = traj_keys /\
    Forall (fun kv => length (snd kv) = (n + steps_left (the_env e))%nat)
      (ep_traj e').
Proof.
  intros Hrs; revert n e.
  induction fuel as [|fuel IH]; intros n e Hn Hrows Heps Hkeys Hlen Hfuel.
  - unfold steps_left in Hfuel; lia.
  - cbn [evaluate_while].
    destruct (evaluate_body_ok n e Hrs Hn Hrows Heps Hkeys Hlen)
      as (e1 & E1 & S1 & R1 & K1 & P1 & C1 & Hms & D1 & T1 & L1 & Hk1 & Hl1).
    rewrite E1; cbn [bind fst snd].
    destruct (dqn_same_but_table_fields _ _ S1)
      as (_ & F2 & _ & _ & F5 & _).
    destruct (Extended.current_step (the_env e) + 1
              >=? Extended.max_steps (the_env e))%Z eqn:Ed.
    + assert (Hs : steps_left (the_env e) = 1%nat)
        by (unfold steps_left; apply Z.geb_le in Ed; lia).
      exists e1; rewrite Hs; cbn [INR Z.of_nat Pos.of_succ_nat].
      replace (n + 1)%nat with (S n) by lia.
      split; [reflexivity|split; [exact S1|split; [exact R1|]]].
      split; [exact K1|split; [exact P1|split; [exact C1|]]].
      split; [exact Hms|split; [exact D1|split; [lra|]]].
      split; [exact L1|split; [exact Hk1|exact Hl1]].
    + assert (Hlt : (Extended.current_step (the_env e) + 1
                     < Extended.max_steps (the_env e))%Z).
      { destruct (Z_lt_le_dec (Extended.current_step (the_env e) + 1)
                    (Extended.max_steps (the_env e))) as [Hl|Hg];
          [exact Hl|].
        apply Z.geb_le in Hg; congruence. }
      assert (Hs : steps_left (the_env e) = S (steps_left (the_env e1)))
        by (unfold steps_left; rewrite Hms, C1; lia).
      destruct (IH (S n) e1 ltac:(lia) R1 ltac:(lra) Hk1 Hl1 ltac:(lia))
        as (e2 & E2 & S2 & R2 & K2 & P2 & C2 & Hms2 & D2 & T2 & L2 & Hk2
            & Hl2).
      exists e2; rewrite Hs, S_INR, Nat2Z.inj_succ.
      replace (n + S (steps_left (the_env e1)))%nat
        with (S n + steps_left (the_env e1))%nat by lia.
      split; [exact E2|].
      split; [eapply dqn_same_but_table_trans; eassumption|].
      split; [exact R2|split; [eapply dqn_keeps_rows_trans; eassumption|]].
      split; [congruence|split; [lia|split; [congruence|]]].
      split; [congruence|split; [lra|split; [lra|]]].
      split; [exact Hk2|exact Hl2].
Qed.

Lemma evaluate_for_ok (n fuel m : nat) (pr : progress) :
  random_sound G ->
  (0 < action_size (agent_so_far pr))%Z -> rows_ok (agent_so_far pr) ->
  epsilon (agent_so_far pr) <= 0 ->
  map fst (trajectories_so_far pr) = traj_keys ->
  Forall (fun kv =>
            length (snd kv) = m /\
            Forall (fun run =>
                      length run
                      = Z.to_nat (Z.max 1 (Extended.max_steps (env_so_far pr))))
              (snd kv))
    (trajectories_so_far pr) ->
  (Z.to_nat (Z.max 1 (Extended.max_steps (env_so_far pr))) <= fuel)%nat ->
  exists pr' new,
    evaluate_for n fuel pr = Ok pr' /\
    same_but_table (agent_so_far pr) (agent_so_far pr') /\
    rows_ok (agent_so_far pr') /\
    keeps_rows (agent_so_far pr) (agent_so_far pr') /\
    py_so_far pr' = py_so_far pr /\
    Extended.max_steps (env_so_far pr') = Extended.max_steps (env_so_far pr) /\
    scores_so_far pr' = scores_so_far pr ++ new /\
    length new = n /\
    Forall (fun x => x <= 5 * IZR (Z.max 1 (Extended.max_steps (env_so_far pr))))
      new /\
    map fst (trajectories_so_far pr') = traj_keys /\
    Forall (fun kv =>
              length (snd kv) = (m + n)%nat /\
              Forall (fun run =>
                        length run
                        = Z.to_nat
                            (Z.max 1 (Extended.max_steps (env_so_far pr))))
                (snd kv))
      (trajectories_so_far pr').
Proof.
  intros Hrs; revert m pr.
  induction n as [|n IH]; intros m pr Hn Hrows Heps Hkeys Hshape Hfuel.
  - exists pr, []; split; [reflexivity|].
    split; [apply dqn_same_but_table_refl|split; [exact Hrows|]].
    split; [apply dqn_keeps_rows_refl|split; [reflexivity|]].
    split; [reflexivity|split; [now rewrite app_nil_r|]].
    split; [reflexivity|split; [constructor|split; [exact Hkeys|]]].
    replace (m + 0)%nat with m by lia; exact Hshape.
  - cbn [evaluate_for]; unfold evaluate_episode.
    destruct (ExtendedFacts.ext_reset_fields (env_so_far pr) (np_so_far pr))
      as (_ & (_ & _ & _ & _ & Hc & Hl) & _ & _ & _ & Hdt & Hms);
      cbv zeta in Hc, Hl, Hdt, Hms.
    set (rs := Extended.reset (env_so_far pr) (np_so_far pr)) in *.
    set (L := Z.to_nat (Z.max 1 (Extended.max_steps (env_so_far pr)))) in *.
    destruct (evaluate_while_ok fuel 0
                (mkEpisode (fst (fst rs)) 0.0 0.0
                   (map (fun k => (k, [])) traj_keys) (agent_so_far pr)
                   (snd (fst rs)) (snd rs) (py_so_far pr)) Hrs Hn Hrows Heps)
      as (e1 & E1 & S1 & R1 & K1 & P1 & C1 & Hms1 & D1 & T1 & L1 & Hk1 & Hl1).
    { cbn [ep_traj]; rewrite map_map; cbn [fst]; apply map_id. }
    { cbn [ep_traj]; apply Forall_forall; intros kv Hin.
      apply in_map_iff in Hin; destruct Hin as (k & <- & _); reflexivity. }
    { unfold steps_left; cbn [the_env]; rewrite Hms, Hc.
      replace (Extended.max_steps (env_so_far pr) - 0)%Z
        with (Extended.max_steps (env_so_far pr)) by lia.
      exact Hfuel. }
    rewrite E1; cbn [bind].
    cbn [the_agent the_env py_random total_reward ep_traj]
      in S1, R1, K1, P1, C1, Hms1, D1, T1, L1, Hl1.
    assert (Hs : steps_left (snd (fst rs)) = L)
      by (unfold steps_left, L; rewrite Hms, Hc; f_equal; lia).
    rewrite Hs in T1, Hl1; cbn [Nat.add] in Hl1.
    unfold L in T1; rewrite INR_IZR_INZ, Z2Nat.id in T1 by lia; fold L in T1.
    rewrite Hl in L1, T1.
    destruct (collect_ok (ep_traj e1) (trajectories_so_far pr) m L)
      as (t & Et & Hmt & Hft).
    { congruence. }
    { exact Hl1. }
    { exact Hshape. }
    rewrite Et; cbn [bind].
    destruct (dqn_same_but_table_fields _ _ S1) as (_ & F2 & _ & _ & F5 & _).
    set (pr1 := mkProgress (scores_so_far pr ++ [total_reward e1]) t
                  (the_agent e1) (the_env e1) (np_random e1) (py_random e1)).
    assert (Hms' : Extended.max_steps (env_so_far pr1)
                   = Extended.max_steps (env_so_far pr))
      by (unfold pr1; cbn [env_so_far]; congruence).
    destruct (IH (S m) pr1)
      as (pr2 & new & E2 & S2 & R2 & K2 & P2 & Hms2 & Sc2 & Ln2 & F2' & Hk2
          & Hsh2).
    + unfold pr1; cbn [agent_so_far]; lia.
    + exact R1.
    + unfold pr1; cbn [agent_so_far]; lra.
    + unfold pr1; cbn [trajectories_so_far]; congruence.
    + rewrite Hms'; unfold pr1; cbn [trajectories_so_far]; exact Hft.
    + rewrite Hms'; exact Hfuel.
    + exists pr2, (total_reward e1 :: new); split; [exact E2|].
      unfold pr1 in S2, K2, P2, Hms2, Sc2;
        cbn [agent_so_far env_so_far py_so_far scores_so_far]
          in S2, K2, P2, Hms2, Sc2.
      rewrite Hms' in F2', Hsh2.
      split; [eapply dqn_same_but_table_trans; eassumption|].
      split; [exact R2|split; [eapply dqn_keeps_rows_trans; eassumption|]].
      split; [congruence|split; [congruence|]].
      split; [rewrite Sc2, <- app_assoc; reflexivity|].
      split; [simpl; lia|].
      split; [constructor; [lra|exact F2']|].
      split; [exact Hk2|].
      replace (m + S n)%nat with (S m + n)%nat by lia; exact Hsh2.
Qed.

End WithRandomSources.

End TrainingFacts.

(** ** Whole stages of the curriculum *)

Module StageFacts.
Import CurriculumDQNAgent AgentInvariants AgentFacts Curriculum
  CurriculumFacts.

Lemma init_trained_ok (b : R) (state_size action_size : Z) (lr : R) :
  (0 < action_size)%Z -> trained_ok b (init state_size action_size lr).
Proof.
  intros Hn; unfold trained_ok, agent_ok, rows_ok, actions_ok, q_le,
    rewards_le, init; cbn.
  repeat split; try lia; intros; try discriminate; contradiction.
Qed.

Lemma init_bound_fits (state_size action_size : Z) (lr : R) :
  0 <= lr <= 1 -> bound_fits 250 (init state_size action_size lr).
Proof. intros Hlr; unfold bound_fits, init; cbn; lra. Qed.

Lemma simple_max_steps_range (s : Simple.env) :
  (240 <= Simple.max_steps s <= 2400)%Z.
Proof.
  unfold Simple.max_steps.
  repeat match goal with |- context [if ?c then _ else _] => destruct c end;
    lia.
Qed.

Lemma trained_ok_history (b : R) (h : list stage_entry) (a : agent) :
  trained_ok b a -> trained_ok b (set_stage_history h a).
Proof. destruct a; exact (fun H => H). Qed.

Lemma trained_ok_epsilon (b e : R) (a : agent) :
  trained_ok b a -> trained_ok b (set_epsilon e a).
Proof. destruct a; exact (fun H => H). Qed.

Lemma bound_fits_epsilon (b e : R) (a : agent) :
  bound_fits b a -> bound_fits b (set_epsilon e a).
Proof. destruct a; exact (fun H => H). Qed.

Lemma bound_fits_history (b : R) (h : list stage_entry) (a : agent) :
  bound_fits b a -> bound_fits b (set_stage_history h a).
Proof. destruct a; exact (fun H => H). Qed.

Section WithRandomSources.
Context {G : Type} `{RandomSource G} {P : Type} `{PyRandom P}.

(** A stage of at least one episode returns its scores and files one
    entry. *)
Lemma train_curriculum_stage_ok (b : R) (fuel : nat) (ag : agent)
    (env : Simple.env) (stage_name : string) (episodes : Z) (g : G)
    (p : P) :
  randrange_sound P -> sample_sound P ->
  trained_ok b ag -> bound_fits b ag ->
  (0 < episodes)%Z ->
  (Z.to_nat (Simple.max_steps env) <= fuel)%nat ->
  exists scores avgs ag1 env' g' p',
    train_curriculum_stage fuel ag env stage_name episodes g p
    = Ok (scores,
          set_stage_history
            (stage_history ag
             ++ [mkStage stage_name episodes scores avgs (epsilon ag1)
                   (length (q_table ag1))]) ag1,
          env', g', p') /\
    length scores = Z.to_nat episodes /\
    length avgs = Z.to_nat episodes /\
    Forall (fun x => x <= 5 * IZR (Simple.max_steps env)) scores /\
    trained_ok b ag1 /\ same_settings ag ag1 /\ keeps_keys ag ag1 /\
    stage_history ag1 = stage_history ag /\
    Simple.stage env' = Simple.stage env.
Proof.
  intros Hrr Hss Hok Hfit Hep Hfuel.
  pose proof (simple_max_steps_range env) as Hr.
  unfold train_curriculum_stage.
  destruct (train_for_ok b (Z.to_nat episodes) fuel
              (mkProgress [] [] ag env g p) Hrr Hss Hok Hfit)
    as (pr & new & E & Hok1 & S1 & K1 & Hh & Hst & Sc & Ln & La & Fa).
  { cbn [env_so_far]; lia. }
  rewrite E; cbn [bind].
  cbn [agent_so_far env_so_far scores_so_far avg_scores_so_far]
    in S1, K1, Hh, Hst, Sc, La, Fa.
  cbn [app length Nat.add] in Sc, La.
  destruct (avg_scores_so_far pr) as [|x avgs] eqn:Ea.
  { cbn [length] in La; lia. }
  exists (scores_so_far pr), (x :: avgs), (agent_so_far pr),
    (env_so_far pr), (np_so_far pr), (py_so_far pr).
  rewrite Hh; split; [reflexivity|].
  rewrite Sc; split; [exact Ln|split; [exact La|]].
  replace (Z.max 1 (Simple.max_steps env)) with (Simple.max_steps env)
    in Fa by lia.
  split; [exact Fa|split; [exact Hok1|split; [exact S1|]]].
  split; [exact K1|split; [reflexivity|exact Hst]].
Qed.

(** A test leaves of the agent what it found, new rows of zeros apart. *)
Lemma test_agent_on_stage_ok (fuel : nat) (ag : agent)
    (stage_name : string) (n_episodes : Z) (g : G) (p : P) :
  random_sound G ->
  (0 < action_size ag)%Z -> rows_ok ag ->
  (Z.to_nat (Simple.max_steps (fst (Simple.init 0.1 stage_name g))) <= fuel)%nat ->
  exists scores ag' g',
    test_agent_on_stage fuel ag stage_name n_episodes g p
    = Ok (scores, ag', g', p) /\
    length scores = Z.to_nat n_episodes /\
    Forall (fun x =>
              x <= 5 * IZR (Simple.max_steps
                              (fst (Simple.init 0.1 stage_name g))))
      scores /\
    same_but_table ag ag' /\ rows_ok ag' /\ keeps_rows ag ag' /\
    (forall b, 0 <= b -> q_le b ag -> q_le b ag').
Proof.
  intros Hrs Hn Hrows Hfuel.
  unfold test_agent_on_stage.
  set (ie := Simple.init 0.1 stage_name g) in *.
  pose proof (simple_max_steps_range (fst ie)) as Hr.
  destruct (test_for_ok (Z.to_nat n_episodes) fuel
              (mkProgress [] [] (set_epsilon 0 ag) (fst ie) (snd ie) p) Hrs)
    as (pr & new & E & S1 & R1 & K1 & Q1 & P1 & Hst & Sc & Ln & Fa).
  { destruct ag; exact Hn. }
  { destruct ag; exact Hrows. }
  { destruct ag; cbn; lra. }
  { cbn [env_so_far]; lia. }
  rewrite E; cbn [bind].
  cbn [agent_so_far env_so_far scores_so_far py_so_far]
    in S1, K1, Q1, P1, Sc, Fa.
  cbn [app] in Sc.
  exists (scores_so_far pr), (set_epsilon (epsilon ag) (agent_so_far pr)),
    (np_so_far pr).
  rewrite P1; split; [reflexivity|].
  rewrite Sc; split; [exact Ln|].
  replace (Z.max 1 (Simple.max_steps (fst ie)))
    with (Simple.max_steps (fst ie)) in Fa by lia.
  split; [exact Fa|].
  unfold same_but_table in S1; rewrite S1.
  destruct ag; cbn.
  split; [reflexivity|split; [|split]].
  - intros k row Hk; apply (R1 k row) in Hk.
    rewrite Hk; unfold same_but_table in S1; rewrite S1; reflexivity.
  - intros k row Hk; exact (K1 k row Hk).
  - intros b0 Hb0 Hq0 k row Hk; exact (Q1 b0 Hb0 Hq0 k row Hk).
Qed.

(** A stage on the agent of the curriculum, whose settings make 250 the
    bound of its Q-values. *)
Lemma curriculum_stage_ok (fuel : nat) (ag : agent) (env : Simple.env)
    (stage_name : string) (episodes : Z) (g : G) (p : P) :
  randrange_sound P -> sample_sound P ->
  trained_ok 250 ag -> bound_fits 250 ag ->
  epsilon_min ag = 0.01 -> epsilon_decay ag = 0.9995 ->
  (0 < episodes)%Z ->
  (2400 <= fuel)%nat ->
  exists scores avgs eps n ag' env' g' p',
    train_curriculum_stage fuel ag env stage_name episodes g p
    = Ok (scores, ag', env', g', p') /\
    trained_ok 250 ag' /\ bound_fits 250 ag' /\
    epsilon_min ag' = 0.01 /\ epsilon_decay ag' = 0.9995 /\
    action_size ag' = action_size ag /\
    stage_history ag'
    = stage_history ag ++ [mkStage stage_name episodes scores avgs eps n] /\
    length scores = Z.to_nat episodes /\
    epsilon ag' <= epsilon ag /\
    Rmin (epsilon ag) (0.01 * 0.9995) <= epsilon ag'.
Proof.
  intros Hrr Hss Hok Hfit Hmin Hdec Hep Hfuel.
  pose proof (simple_max_steps_range env) as Hr.
  destruct (train_curriculum_stage_ok 250 fuel ag env stage_name episodes
              g p Hrr Hss Hok Hfit Hep ltac:(lia))
    as (scores & avgs & ag1 & env' & g' & p' & E & Ls & _ & _ & Hok1 & S
        & _ & Hh & _).
  pose proof (bound_fits_settings _ _ _ S Hfit) as Hfit1.
  destruct S as (_ & S2 & _ & S4 & S5 & _ & _ & Up & Lo).
  rewrite Hmin, Hdec in Up, Lo.
  exists scores, avgs, (epsilon ag1), (length (q_table ag1)).
  eexists _, env', g', p'.
  split; [exact E|].
  split; [apply trained_ok_history; exact Hok1|].
  split; [apply bound_fits_history; exact Hfit1|].
  destruct ag1; cbn in *.
  split; [congruence|split; [congruence|split; [exact S2|]]].
  split; [reflexivity|split; [exact Ls|split; [apply Up; lra|apply Lo; lra]]].
Qed.

(** A test of an agent in order returns one in order. *)
Lemma test_agent_on_stage_trained (b : R) (fuel : nat) (ag : agent)
    (stage_name : string) (n_episodes : Z) (g : G) (p : P) :
  random_sound G -> 0 <= b -> trained_ok b ag ->
  (2400 <= fuel)%nat ->
  exists scores ag' g',
    test_agent_on_stage fuel ag stage_name n_episodes g p
    = Ok (scores, ag', g', p) /\
    trained_ok b ag' /\ same_but_table ag ag'.
Proof.
  intros Hrs Hb ((Hn & Hbs & Hrows & Hacts) & Hq & Hrew) Hfuel.
  pose proof (simple_max_steps_range (fst (Simple.init 0.1 stage_name g)))
    as Hr.
  destruct (test_agent_on_stage_ok fuel ag stage_name n_episodes g p Hrs Hn
              Hrows ltac:(lia))
    as (scores & ag' & g' & E & _ & _ & S & R1 & _ & Q).
  exists scores, ag', g'; split; [exact E|split; [|exact S]].
  destruct (same_but_table_fields _ _ S)
    as (_ & F2 & F3 & _ & _ & _ & _ & _ & F9 & _).
  split; [|split].
  - split; [lia|split; [lia|split; [exact R1|]]].
    intros tr Hin; rewrite F3 in Hin; rewrite F2; exact (Hacts tr Hin).
  - exact (Q b Hb Hq).
  - intros tr Hin; rewrite F3 in Hin; exact (Hrew tr Hin).
Qed.

End WithRandomSources.

End StageFacts.

(** ** Whole runs of the extended model *)

Module RunFacts.
Import DQNAgent DQNInvariants DQNFacts Training TrainingFacts.

Lemma default_agent_trained_ok : trained_ok 250 default_agent.
Proof.
  unfold trained_ok, agent_ok, rows_ok, actions_ok, q_le, rewards_le,
    default_agent; cbn.
  repeat split; try lia; intros; try discriminate; contradiction.
Qed.

Lemma default_agent_bound_fits : bound_fits 250 default_agent.
Proof. unfold bound_fits, default_agent; cbn; lra. Qed.

Section WithRandomSources.
Context {G : Type} `{RandomSource G} {P : Type} `{PyRandom P}.

Lemma init_max_steps (dt : R) (max_steps : Z) (g : G) :
  Extended.max_steps (fst (Extended.init dt max_steps g)) = max_steps.
Proof.
  unfold Extended.init; cbv zeta; cbn [fst].
  match goal with
  | |- Extended.max_steps (snd (fst (Extended.reset ?s g))) = _ =>
      destruct (ExtendedFacts.ext_reset_fields s g)
        as (_ & _ & _ & _ & _ & _ & Hms)
  end.
  cbv zeta in Hms; rewrite Hms; reflexivity.
Qed.

(** [train] returns when [print_every] is not 0. *)
Lemma train_ok (fuel : nat) (episodes max_steps : Z) (dt : R)
    (print_every : Z) (g : G) (p : P) :
  randrange_sound P -> sample_sound P ->
  print_every <> 0%Z ->
  (Z.to_nat (Z.max 1 max_steps) <= fuel)%nat ->
  exists ag env scores g' p',
    train fuel episodes max_steps dt print_every g p
    = Ok (ag, env, scores, g', p') /\
    length scores = Z.to_nat episodes /\
    Forall (fun x => x <= 5 * IZR (Z.max 1 max_steps)) scores /\
    trained_ok 250 ag /\ same_settings default_agent ag /\
    Extended.max_steps env = max_steps.
Proof.
  intros Hrr Hss Hpe Hfuel.
  unfold train.
  pose proof (init_max_steps dt max_steps g) as Hms.
  set (ie := Extended.init dt max_steps g) in *.
  destruct (dqn_train_for_ok 250 (Z.to_nat episodes) fuel print_every
              (mkProgress [] [] default_agent (fst ie) (snd ie) p) Hrr Hss
              default_agent_trained_ok default_agent_bound_fits Hpe)
    as (pr & new & E & Hok & S1 & K1 & Hms1 & D1 & Sc & Ln & Fa).
  { cbn [env_so_far]; rewrite Hms; exact Hfuel. }
  rewrite E; cbn [bind].
  cbn [agent_so_far env_so_far scores_so_far app] in S1, Hms1, Sc, Fa.
  exists (agent_so_far pr), (env_so_far pr), (scores_so_far pr),
    (np_so_far pr), (py_so_far pr).
  split; [reflexivity|].
  rewrite Sc; split; [exact Ln|].
  rewrite Hms in Fa; split; [exact Fa|].
  split; [exact Hok|split; [exact S1|congruence]].
Qed.

(** With [print_every] 0 the first episode is played and then the
    remainder raises. *)
Lemma train_episode_zero (fuel : nat) (pr : progress) :
  randrange_sound P -> sample_sound P ->
  trained_ok 250 (agent_so_far pr) -> bound_fits 250 (agent_so_far pr) ->
  (Z.to_nat (Z.max 1 (Extended.max_steps (env_so_far pr))) <= fuel)%nat ->
  train_episode fuel 0 pr = Raise ZeroDivisionError.
Proof.
  intros Hrr Hss Hok Hfit Hfuel.
  unfold train_episode.
  destruct (ExtendedFacts.ext_reset_fields (env_so_far pr) (np_so_far pr))
    as (_ & (_ & _ & _ & _ & Hc & _) & _ & _ & _ & _ & Hms);
    cbv zeta in Hc, Hms.
  set (rs := Extended.reset (env_so_far pr) (np_so_far pr)) in *.
  set (e0 := mkEpisode (fst (fst rs)) 0.0 0.0 [] (agent_so_far pr)
               (snd (fst rs)) (snd rs) (py_so_far pr)).
  assert (Hn : steps_left (the_env e0)
               = Z.to_nat (Z.max 1 (Extended.max_steps (env_so_far pr))))
    by (unfold steps_left, e0; cbn [the_env]; rewrite Hms, Hc; f_equal; lia).
  destruct (dqn_train_while_ok 250 fuel e0 Hrr Hss Hok Hfit ltac:(lia))
    as (e1 & E1 & _).
  rewrite E1; reflexivity.
Qed.

(** [evaluate] returns, with one score and one run per key for each
    episode. *)
Lemma evaluate_ok (fuel : nat) (ag : agent) (dt : R)
    (max_steps n_episodes : Z) (g : G) (p : P) :
  random_sound G ->
  (0 < action_size ag)%Z -> rows_ok ag ->
  (Z.to_nat (Z.max 1 max_steps) <= fuel)%nat ->
  exists all_scores trajs ag' g',
    evaluate fuel ag dt max_steps n_episodes g p
    = Ok (mkEvaluation (mean all_scores) (std all_scores) all_scores trajs,
          ag', g', p) /\
    length all_scores = Z.to_nat n_episodes /\
    Forall (fun x => x <= 5 * IZR (Z.max 1 max_steps)) all_scores /\
    map fst trajs = traj_keys /\
    Forall (fun kv =>
              length (snd kv) = Z.to_nat n_episodes /\
              Forall (fun run => length run = Z.to_nat (Z.max 1 max_steps))
                (snd kv))
      trajs /\
    same_but_table ag ag' /\ rows_ok ag' /\ keeps_rows ag ag'.
Proof.
  intros Hrs Hn Hrows Hfuel.
  unfold evaluate.
  pose proof (init_max_steps dt max_steps g) as Hms.
  set (ie := Extended.init dt max_steps g) in *.
  destruct (evaluate_for_ok (Z.to_nat n_episodes) fuel 0
              (mkProgress [] (map (fun k => (k, [])) traj_keys)
                 (set_epsilon 0.0 ag) (fst ie) (snd ie) p) Hrs)
    as (pr & new & E & S1 & R1 & K1 & P1 & Hms1 & Sc & Ln & Fa & Hk & Hsh).
  { destruct ag; exact Hn. }
  { destruct ag; exact Hrows. }
  { destruct ag; cbn; lra. }
  { cbn [trajectories_so_far]; rewrite map_map; cbn [fst]; apply map_id. }
  { cbn [trajectories_so_far]; apply Forall_forall; intros kv Hin.
    apply in_map_iff in Hin; destruct Hin as (k & <- & _).
    split; [reflexivity|constructor]. }
  { cbn [env_so_far]; rewrite Hms; exact Hfuel. }
  rewrite E; cbn [bind].
  cbn [agent_so_far env_so_far scores_so_far py_so_far app Nat.add]
    in S1, K1, P1, Sc, Fa, Hsh.
  rewrite Hms in Fa, Hsh.
  exists (scores_so_far pr), (trajectories_so_far pr),
    (set_epsilon (epsilon ag) (agent_so_far pr)), (np_so_far pr).
  rewrite P1; split; [reflexivity|].
  rewrite Sc; split; [exact Ln|split; [exact Fa|]].
  split; [exact Hk|split; [exact Hsh|]].
  unfold same_but_table in S1; rewrite S1.
  destruct ag; cbn.
  split; [reflexivity|split].
  - intros k row Hk'; apply (R1 k row) in Hk'.
    rewrite Hk'; unfold same_but_table in S1; rewrite S1; reflexivity.
  - intros k row Hk'; exact (K1 k row Hk').
Qed.

End WithRandomSources.

End RunFacts.

(** ** Properties of the agents beyond the claims *)

(** X7.  Both agents key their table by the observation rounded to one
    decimal: the key has one entry per entry of the observation, each a
    whole number of tenths within 0.05 of it, and rounding a key again
    changes nothing. *)
Theorem state_key_rounding (state : list R) :
  let k := CurriculumDQNAgent._discretize_state state in
  length k = length state /\
  (forall i, (i < length state)%nat ->
             Rabs (nth i k 0 - nth i state 0) <= 0.05 /\
             exists n : Z, nth i k 0 = IZR n / 10) /\
  CurriculumDQNAgent._discretize_state k = k /\
  DQNAgent._key state = k.
Proof.
  cbv zeta; unfold CurriculumDQNAgent._discretize_state, DQNAgent._key.
  split; [apply length_map|split; [|split; [|reflexivity]]].
  - intros i Hi.
    rewrite (nth_indep _ 0 (round1 0)) by (rewrite length_map; exact Hi).
    rewrite map_nth; split; [apply round1_near|].
    exists (rint (nth i state 0 * 10)); reflexivity.
  - rewrite map_map; apply map_ext; intros x; apply round1_idem.
Qed.

(** A cortisol of 12.34 is keyed within 0.05 of itself. *)
Lemma state_key_rounding_witness :
  Rabs (nth 0 (CurriculumDQNAgent._discretize_state [12.34; 25]) 0
        - nth 0 [12.34; 25] 0) <= 0.05.
Proof.
  refine (proj1 (proj1 (proj2 (state_key_rounding [12.34; 25])) 0%nat _)).
  simpl; lia.
Defined.

(** X8.  [get_q_values] is a lookup that fills in: for a key the table has,
    it returns the stored row and changes nothing; for a new key it stores
    and returns a row of [action_size] zeros, the table growing by that
    one entry; no other key is touched.  With a negative [action_size] a
    new key raises ValueError. *)
Theorem q_row_lookup_or_insert (st : list R)
    (a : CurriculumDQNAgent.agent) :
  let k := CurriculumDQNAgent._discretize_state st in
  ((0 <= CurriculumDQNAgent.action_size a)%Z ->
   exists row a',
     CurriculumDQNAgent.get_q_values st a = Ok (row, a') /\
     lookup k (CurriculumDQNAgent.q_table a') = Some row /\
     AgentInvariants.same_but_table a a' /\
     (forall k', k' <> k ->
                 lookup k' (CurriculumDQNAgent.q_table a')
                 = lookup k' (CurriculumDQNAgent.q_table a)) /\
     (lookup k (CurriculumDQNAgent.q_table a) = None ->
      row = repeat 0 (Z.to_nat (CurriculumDQNAgent.action_size a)) /\
      length (CurriculumDQNAgent.q_table a')
      = S (length (CurriculumDQNAgent.q_table a))) /\
     (lookup k (CurriculumDQNAgent.q_table a) <> None -> a' = a)) /\
  ((CurriculumDQNAgent.action_size a < 0)%Z ->
   lookup k (CurriculumDQNAgent.q_table a) = None ->
   CurriculumDQNAgent.get_q_values st a = Raise ValueError).
Proof.
  cbv zeta; unfold CurriculumDQNAgent.get_q_values; split.
  - intros Hn.
    destruct (lookup (CurriculumDQNAgent._discretize_state st)
                (CurriculumDQNAgent.q_table a)) as [row|] eqn:Ek.
    + exists row, a; split; [reflexivity|split; [exact Ek|]].
      split; [apply AgentFacts.same_but_table_refl|].
      split; [reflexivity|split; [discriminate|reflexivity]].
    + rewrite (AgentFacts.zeros_ok _ Hn); cbn [bind].
      eexists _, _; split; [reflexivity|].
      rewrite AgentFacts.q_table_set.
      split; [apply lookup_store_same|].
      split; [apply AgentFacts.same_but_table_set|].
      split; [intros k' Hk'; now apply lookup_store_other|].
      split; [|congruence].
      intros _; split; [reflexivity|].
      rewrite store_length, Ek; reflexivity.
  - intros Hn Ek; rewrite Ek; unfold zeros.
    destruct (CurriculumDQNAgent.action_size a <? 0)%Z eqn:E;
      [reflexivity|apply Z.ltb_ge in E; lia].
Qed.

(** A fresh agent of nine actions answers its first question with nine
    zeros. *)
Lemma q_row_lookup_or_insert_witness :
  exists row a',
    CurriculumDQNAgent.get_q_values [12.34]
      (CurriculumDQNAgent.init 12 9 0.0005) = Ok (row, a') /\
    row = repeat 0 9.
Proof.
  destruct (proj1 (q_row_lookup_or_insert [12.34]
                     (CurriculumDQNAgent.init 12 9 0.0005)))
    as (row & a' & E & _ & _ & _ & Hnew & _).
  - simpl; lia.
  - exists row, a'; split; [exact E|].
    exact (proj1 (Hnew eq_refl)).
Defined.

(** X9.  [act] of either agent returns an action in [0, action_size): it
    takes one draw from numpy's generator; when the draw is below epsilon
    the action is [randrange(action_size)] and the agent is unchanged,
    otherwise Python's generator is not used; the agent stays in order
    and no stored row changes. *)
Theorem act_returns_valid_action (G : Type) (RS : RandomSource G)
    (P : Type) (PR : PyRandom P) (st : list R) (g : G) (p : P) :
  randrange_sound P ->
  (forall a : CurriculumDQNAgent.agent,
      AgentInvariants.agent_ok a ->
      exists action a' p',
        CurriculumDQNAgent.act st a g p
        = Ok (action, a', snd (rng_random g), p') /\
        (0 <= action < CurriculumDQNAgent.action_size a)%Z /\
        AgentInvariants.agent_ok a' /\
        AgentInvariants.same_but_table a a' /\
        AgentInvariants.keeps_rows a a' /\
        (fst (rng_random g) < CurriculumDQNAgent.epsilon a ->
         a' = a /\
         action = fst (py_randrange (CurriculumDQNAgent.action_size a) p) /\
         p' = snd (py_randrange (CurriculumDQNAgent.action_size a) p)) /\
        (~ fst (rng_random g) < CurriculumDQNAgent.epsilon a -> p' = p)) /\
  (forall a : DQNAgent.agent,
      DQNInvariants.agent_ok a ->
      exists action a' p',
        DQNAgent.act st a g p = Ok (action, a', snd (rng_random g), p') /\
        (0 <= action < DQNAgent.action_size a)%Z /\
        DQNInvariants.agent_ok a' /\
        DQNInvariants.same_but_table a a' /\
        DQNInvariants.keeps_rows a a' /\
        (fst (rng_random g) < DQNAgent.epsilon a ->
         a' = a /\
         action = fst (py_randrange (DQNAgent.action_size a) p) /\
         p' = snd (py_randrange (DQNAgent.action_size a) p)) /\
        (~ fst (rng_random g) < DQNAgent.epsilon a -> p' = p)).
Proof.
  intros Hrr; split; intros a Hok.
  - destruct (AgentFacts.act_ok st a g p Hok Hrr)
      as (action & a' & p' & E & Hact & Hok' & S & K & _ & Hx & Hg).
    exists action, a', p'.
    split; [exact E|split; [exact Hact|split; [exact Hok'|]]].
    split; [exact S|split; [exact K|split; [exact Hx|]]].
    intros Hn; exact (proj1 (Hg Hn)).
  - destruct (DQNFacts.dqn_act_ok st a g p Hok Hrr)
      as (action & a' & p' & E & Hact & Hok' & S & K & _ & Hx & Hg).
    exists action, a', p'.
    split; [exact E|split; [exact Hact|split; [exact Hok'|]]].
    split; [exact S|split; [exact K|split; [exact Hx|]]].
    intros Hn; exact (proj1 (Hg Hn)).
Qed.

(** The fresh agent of the curriculum, fully exploring, picks one of its
    nine actions. *)
Lemma act_returns_valid_action_witness :
  exists action a' p',
    CurriculumDQNAgent.act [12.34] (CurriculumDQNAgent.init 12 9 0.0005)
      ([3; 1; 4] : digits)%nat ([7; 2] : digits)%nat
    = Ok (action, a', [1; 4]%nat, p') /\
    (0 <= action < 9)%Z.
Proof.
  destruct (proj1 (act_returns_valid_action digits digit_source digits
                     digit_random [12.34] [3; 1; 4]%nat [7; 2]%nat
                     digit_randrange_sound)
              (CurriculumDQNAgent.init 12 9 0.0005)
              (proj1 (StageFacts.init_trained_ok 250 12 9 0.0005 eq_refl)))
    as (action & a' & p' & E & Hact & _).
  exists action, a', p'; split; [exact E|exact Hact].
Defined.

(** X10.  An agent with no action cannot act: with [action_size] at most 0
    and an empty table, [act] raises ValueError whatever is drawn, from
    [randrange] when exploring and from numpy otherwise. *)
Theorem act_without_actions_raises (G : Type) (RS : RandomSource G)
    (P : Type) (PR : PyRandom P) (st : list R) (g : G) (p : P) :
  (forall a : CurriculumDQNAgent.agent,
      (CurriculumDQNAgent.action_size a <= 0)%Z ->
      CurriculumDQNAgent.q_table a = [] ->
      CurriculumDQNAgent.act st a g p = Raise ValueError) /\
  (forall a : DQNAgent.agent,
      (DQNAgent.action_size a <= 0)%Z ->
      DQNAgent.q_table a = [] ->
      DQNAgent.act st a g p = Raise ValueError).
Proof.
  split; intros a Hn Ht.
  - unfold CurriculumDQNAgent.act; cbv zeta.
    destruct (Rlt_dec _ _) as [_|_].
    + destruct (CurriculumDQNAgent.action_size a <=? 0)%Z eqn:E;
        [reflexivity|apply Z.leb_gt in E; lia].
    + unfold CurriculumDQNAgent.get_q_values; rewrite Ht; cbn [lookup].
      unfold zeros.
      destruct (CurriculumDQNAgent.action_size a <? 0)%Z eqn:E;
        [reflexivity|].
      apply Z.ltb_ge in E.
      replace (CurriculumDQNAgent.action_size a) with 0%Z by lia.
      reflexivity.
  - unfold DQNAgent.act; cbv zeta.
    destruct (Rlt_dec _ _) as [_|_].
    + destruct (DQNAgent.action_size a <=? 0)%Z eqn:E;
        [reflexivity|apply Z.leb_gt in E; lia].
    + unfold DQNAgent._q; rewrite Ht; cbn [lookup].
      unfold zeros.
      destruct (DQNAgent.action_size a <? 0)%Z eqn:E; [reflexivity|].
      apply Z.ltb_ge in E.
      replace (DQNAgent.action_size a) with 0%Z by lia.
      reflexivity.
Qed.

(** An agent built with no action raises on its first move. *)
Lemma act_without_actions_raises_witness :
  CurriculumDQNAgent.act [12.34] (CurriculumDQNAgent.init 12 0 0.0005)
    ([3] : digits)%nat ([7] : digits)%nat
  = Raise ValueError.
Proof.
  refine (proj1 (act_without_actions_raises digits digit_source digits
                   digit_random [12.34] [3]%nat [7]%nat)
            (CurriculumDQNAgent.init 12 0 0.0005) _ eq_refl).
  simpl; lia.
Defined.

(** X11.  With epsilon at 0, as the tests and [evaluate] set it, [act]
    never explores: the action is the first index holding the largest
    entry of the observation's row, Python's generator is left alone and
    no stored row changes. *)
Theorem greedy_act_takes_first_maximum (G : Type) (RS : RandomSource G)
    (P : Type) (PR : PyRandom P) (st : list R) (g : G) (p : P) :
  random_sound G ->
  (forall a : CurriculumDQNAgent.agent,
      (0 < CurriculumDQNAgent.action_size a)%Z ->
      AgentInvariants.rows_ok a ->
      CurriculumDQNAgent.epsilon a <= 0 ->
      exists action a' row,
        CurriculumDQNAgent.act st a g p
        = Ok (action, a', snd (rng_random g), p) /\
        lookup (CurriculumDQNAgent._discretize_state st)
          (CurriculumDQNAgent.q_table a') = Some row /\
        (0 <= action < CurriculumDQNAgent.action_size a)%Z /\
        (forall j, (j < length row)%nat ->
                   nth j row 0 <= nth (Z.to_nat action) row 0) /\
        (forall j, (j < Z.to_nat action)%nat ->
                   nth j row 0 < nth (Z.to_nat action) row 0) /\
        AgentInvariants.keeps_rows a a') /\
  (forall a : DQNAgent.agent,
      (0 < DQNAgent.action_size a)%Z ->
      DQNInvariants.rows_ok a ->
      DQNAgent.epsilon a <= 0 ->
      exists action a' row,
        DQNAgent.act st a g p = Ok (action, a', snd (rng_random g), p) /\
        lookup (DQNAgent._key st) (DQNAgent.q_table a') = Some row /\
        (0 <= action < DQNAgent.action_size a)%Z /\
        (forall j, (j < length row)%nat ->
                   nth j row 0 <= nth (Z.to_nat action) row 0) /\
        (forall j, (j < Z.to_nat action)%nat ->
                   nth j row 0 < nth (Z.to_nat action) row 0) /\
        DQNInvariants.keeps_rows a a').
Proof.
  intros Hrs; split; intros a Hn Hrows Heps.
  - destruct (AgentFacts.act_greedy_ok st a g p Hn Hrows)
      as (action & a' & E & Hact & _ & _ & K & _ & row & Hrow & Hmax
          & Hfirst).
    { pose proof (Hrs g); lra. }
    exists action, a', row.
    split; [exact E|split; [exact Hrow|split; [exact Hact|]]].
    split; [exact Hmax|split; [exact Hfirst|exact K]].
  - destruct (DQNFacts.dqn_act_greedy_ok st a g p Hn Hrows)
      as (action & a' & E & Hact & _ & _ & K & row & Hrow & Hmax & Hfirst).
    { pose proof (Hrs g); lra. }
    exists action, a', row.
    split; [exact E|split; [exact Hrow|split; [exact Hact|]]].
    split; [exact Hmax|split; [exact Hfirst|exact K]].
Qed.

(** The default agent of the extended model with epsilon set to 0. *)
Lemma greedy_act_takes_first_maximum_witness :
  exists action a' row,
    DQNAgent.act [12.34] (DQNAgent.set_epsilon 0 DQNAgent.default_agent)
      ([3; 1] : digits)%nat ([7] : digits)%nat
    = Ok (action, a', [1]%nat, [7]%nat) /\
    lookup (DQNAgent._key [12.34]) (DQNAgent.q_table a') = Some row /\
    (0 <= action < 27)%Z.
Proof.
  destruct (proj2 (greedy_act_takes_first_maximum digits digit_source digits
                     digit_random [12.34] [3; 1]%nat [7]%nat
                     digit_random_sound)
              (DQNAgent.set_epsilon 0 DQNAgent.default_agent))
    as (action & a' & row & E & Hrow & Hact & _).
  - simpl; lia.
  - intros k row Hk; discriminate Hk.
  - simpl; lra.
  - exists action, a', row; split; [exact E|split; [exact Hrow|exact Hact]].
Defined.

(** X12.  [remember] appends to a bounded memory: while there is room the
    experience is added at the end, and once the memory is full the oldest
    experience leaves, so the memory never holds more than its bound
    (10000, or [memory_size] in the extended agent, where a bound of 0
    remembers nothing); nothing else of the agent changes. *)
Theorem memory_keeps_the_newest (st : list R) (act : Z) (rew : R)
    (st' : list R) (d : bool) :
  (forall a : CurriculumDQNAgent.agent,
      let a' := CurriculumDQNAgent.remember st act rew st' d a in
      let n := CurriculumDQNAgent.memory_maxlen in
      length (CurriculumDQNAgent.memory a')
      = Nat.min (length (CurriculumDQNAgent.memory a) + 1) n /\
      ((length (CurriculumDQNAgent.memory a) < n)%nat ->
       CurriculumDQNAgent.memory a'
       = CurriculumDQNAgent.memory a ++ [(st, act, rew, st', d)]) /\
      (length (CurriculumDQNAgent.memory a) = n ->
       CurriculumDQNAgent.memory a'
       = tl (CurriculumDQNAgent.memory a) ++ [(st, act, rew, st', d)]) /\
      a' = CurriculumDQNAgent.set_memory (CurriculumDQNAgent.memory a') a) /\
  (forall a : DQNAgent.agent,
      let a' := DQNAgent.remember st act rew st' d a in
      let n := Z.to_nat (DQNAgent.memory_size a) in
      length (DQNAgent.memory a')
      = Nat.min (length (DQNAgent.memory a) + 1) n /\
      ((length (DQNAgent.memory a) < n)%nat ->
       DQNAgent.memory a'
       = DQNAgent.memory a ++ [(st, act, rew, st', d)]) /\
      ((0 < n)%nat -> length (DQNAgent.memory a) = n ->
       DQNAgent.memory a'
       = tl (DQNAgent.memory a) ++ [(st, act, rew, st', d)]) /\
      (n = 0%nat -> DQNAgent.memory a' = []) /\
      a' = DQNAgent.set_memory (DQNAgent.memory a') a).
Proof.
  split; intros a; cbv zeta.
  - destruct (AgentFacts.remember_fields st act rew st' d a) as (M & _).
    cbv zeta in M; rewrite M.
    split; [apply deque_push_length|].
    split; [apply deque_push_room|].
    split; [|destruct a; reflexivity].
    intros Hl; apply deque_push_full; [exact Hl|].
    unfold CurriculumDQNAgent.memory_maxlen; lia.
  - destruct (DQNFacts.dqn_remember_fields st act rew st' d a) as (M & _).
    cbv zeta in M; rewrite M.
    split; [apply deque_push_length|].
    split; [apply deque_push_room|].
    split; [intros Hn Hl; now apply deque_push_full|].
    split; [|destruct a; reflexivity].
    intros ->; apply deque_push_none.
Qed.

(** The first experience of a fresh agent. *)
Lemma memory_keeps_the_newest_witness :
  CurriculumDQNAgent.memory
    (CurriculumDQNAgent.remember [12.34] 4 4.5 [12.5] false
       (CurriculumDQNAgent.init 12 9 0.0005))
  = [([12.34], 4%Z, 4.5, [12.5], false)].
Proof.
  refine (proj1 (proj2 (proj1 (memory_keeps_the_newest [12.34] 4 4.5 [12.5]
                                 false)
                          (CurriculumDQNAgent.init 12 9 0.0005))) _).
  unfold CurriculumDQNAgent.memory_maxlen; simpl; lia.
Defined.

(** X13.  [replay] of an agent in order always returns.  With fewer
    experiences than [batch_size] it does nothing and draws nothing.
    Otherwise it learns from a sample: the simple agent counts one learn
    step, epsilon is multiplied by the decay exactly when it is above
    [epsilon_min], the memory and the settings are unchanged and no key of
    the table is lost. *)
Theorem replay_keeps_agent_in_order (P : Type) (PR : PyRandom P) (p : P) :
  sample_sound P ->
  (forall a : CurriculumDQNAgent.agent,
      AgentInvariants.agent_ok a ->
      exists a' p',
        CurriculumDQNAgent.replay a p = Ok (a', p') /\
        AgentInvariants.agent_ok a' /\
        AgentInvariants.keeps_keys a a' /\
        CurriculumDQNAgent.memory a' = CurriculumDQNAgent.memory a /\
        CurriculumDQNAgent.action_size a'
        = CurriculumDQNAgent.action_size a /\
        CurriculumDQNAgent.batch_size a' = CurriculumDQNAgent.batch_size a /\
        CurriculumDQNAgent.gamma a' = CurriculumDQNAgent.gamma a /\
        CurriculumDQNAgent.learning_rate a'
        = CurriculumDQNAgent.learning_rate a /\
        ((Z.of_nat (length (CurriculumDQNAgent.memory a))
          < CurriculumDQNAgent.batch_size a)%Z ->
         a' = a /\ p' = p) /\
        (~ (Z.of_nat (length (CurriculumDQNAgent.memory a))
            < CurriculumDQNAgent.batch_size a)%Z ->
         CurriculumDQNAgent.learn_step a'
         = (CurriculumDQNAgent.learn_step a + 1)%Z /\
         CurriculumDQNAgent.epsilon a'
         = (if Rgt_dec (CurriculumDQNAgent.epsilon a)
                 (CurriculumDQNAgent.epsilon_min a)
            then CurriculumDQNAgent.epsilon a
                 * CurriculumDQNAgent.epsilon_decay a
            else CurriculumDQNAgent.epsilon a))) /\
  (forall a : DQNAgent.agent,
      DQNInvariants.agent_ok a ->
      exists a' p',
        DQNAgent.replay a p = Ok (a', p') /\
        DQNInvariants.agent_ok a' /\
        DQNInvariants.keeps_keys a a' /\
        DQNAgent.memory a' = DQNAgent.memory a /\
        DQNAgent.action_size a' = DQNAgent.action_size a /\
        DQNAgent.batch_size a' = DQNAgent.batch_size a /\
        DQNAgent.gamma a' = DQNAgent.gamma a /\
        DQNAgent.lr a' = DQNAgent.lr a /\
        ((Z.of_nat (length (DQNAgent.memory a)) < DQNAgent.batch_size a)%Z ->
         a' = a /\ p' = p) /\
        (~ (Z.of_nat (length (DQNAgent.memory a))
            < DQNAgent.batch_size a)%Z ->
         DQNAgent.epsilon a'
         = (if Rgt_dec (DQNAgent.epsilon a) (DQNAgent.epsilon_min a)
            then DQNAgent.epsilon a * DQNAgent.epsilon_decay a
            else DQNAgent.epsilon a))).
Proof.
  intros Hss; split; intros a Hok.
  - destruct (AgentFacts.replay_ok a p Hok Hss)
      as (a' & p' & E & Hok' & K & M & N & B & Ga & L & _ & _ & _ & _
          & NoOp & Upd & _).
    exists a', p'.
    split; [exact E|split; [exact Hok'|split; [exact K|]]].
    split; [exact M|split; [exact N|split; [exact B|]]].
    split; [exact Ga|split; [exact L|split; [exact NoOp|exact Upd]]].
  - destruct (DQNFacts.dqn_replay_ok a p Hok Hss)
      as (a' & p' & E & Hok' & K & M & N & B & Ga & L & _ & _ & _ & _
          & NoOp & Upd & _).
    exists a', p'.
    split; [exact E|split; [exact Hok'|split; [exact K|]]].
    split; [exact M|split; [exact N|split; [exact B|]]].
    split; [exact Ga|split; [exact L|split; [exact NoOp|exact Upd]]].
Qed.

(** A fresh agent has nothing to replay. *)
Lemma replay_keeps_agent_in_order_witness :
  exists a' p',
    CurriculumDQNAgent.replay (CurriculumDQNAgent.init 12 9 0.0005)
      ([7; 2] : digits)%nat
    = Ok (a', p') /\
    a' = CurriculumDQNAgent.init 12 9 0.0005 /\ p' = [7; 2]%nat.
Proof.
  destruct (proj1 (replay_keeps_agent_in_order digits digit_random
                     [7; 2]%nat digit_sample_sound)
              (CurriculumDQNAgent.init 12 9 0.0005)
              (proj1 (StageFacts.init_trained_ok 250 12 9 0.0005 eq_refl)))
    as (a' & p' & E & _ & _ & _ & _ & _ & _ & _ & NoOp & _).
  exists a', p'; split; [exact E|].
  apply NoOp; simpl; lia.
Defined.

(** X14.  [replay] keeps the Q-values bounded by any [b] that is at least
    0: when no entry of the table is above [b], no remembered reward is
    above [r], the learning rate is in [0, 1], gamma is at least 0 and
    [r + gamma * b <= b], no entry is above [b] afterwards.
    With the rewards of [step], which never exceed 5, and gamma 0.98 the
    bound is 250. *)
Theorem replay_keeps_q_bounded (P : Type) (PR : PyRandom P) (p : P)
    (b r : R) :
  sample_sound P -> 0 <= b ->
  (forall a : CurriculumDQNAgent.agent,
      AgentInvariants.agent_ok a ->
      AgentInvariants.q_le b a -> AgentInvariants.rewards_le r a ->
      0 <= CurriculumDQNAgent.learning_rate a <= 1 ->
      0 <= CurriculumDQNAgent.gamma a ->
      r + CurriculumDQNAgent.gamma a * b <= b ->
      exists a' p',
        CurriculumDQNAgent.replay a p = Ok (a', p') /\
        AgentInvariants.q_le b a') /\
  (forall a : DQNAgent.agent,
      DQNInvariants.agent_ok a ->
      DQNInvariants.q_le b a -> DQNInvariants.rewards_le r a ->
      0 <= DQNAgent.lr a <= 1 ->
      0 <= DQNAgent.gamma a ->
      r + DQNAgent.gamma a * b <= b ->
      exists a' p',
        DQNAgent.replay a p = Ok (a', p') /\
        DQNInvariants.q_le b a').
Proof.
  intros Hss Hb; split; intros a Hok Hq Hr Hlr Hg Hfix.
  - destruct (AgentFacts.replay_ok a p Hok Hss)
      as (a' & p' & E & _ & _ & _ & _ & _ & _ & _ & _ & _ & _ & _ & _ & _
          & Q).
    exists a', p'; split; [exact E|exact (Q b r Hb Hq Hr Hlr Hg Hfix)].
  - destruct (DQNFacts.dqn_replay_ok a p Hok Hss)
      as (a' & p' & E & _ & _ & _ & _ & _ & _ & _ & _ & _ & _ & _ & _ & _
          & Q).
    exists a', p'; split; [exact E|exact (Q b r Hb Hq Hr Hlr Hg Hfix)].
Qed.

(** The default agent of the extended model under the bound 250. *)
Lemma replay_keeps_q_bounded_witness :
  exists a' p',
    DQNAgent.replay DQNAgent.default_agent ([7; 2] : digits)%nat
    = Ok (a', p') /\
    DQNInvariants.q_le 250 a'.
Proof.
  refine (proj2 (replay_keeps_q_bounded digits digit_random [7; 2]%nat 250 5
                   digit_sample_sound _)
            DQNAgent.default_agent
            (proj1 RunFacts.default_agent_trained_ok)
            (proj1 (proj2 RunFacts.default_agent_trained_ok))
            (proj2 (proj2 RunFacts.default_agent_trained_ok)) _ _ _);
    simpl; lra.
Defined.

(** ** Properties of the loops beyond the claims *)

(** X15.  A training episode always ends, after exactly [max_steps] steps
    (one step when [max_steps] is below 1 in the extended model, whose
    time step is taken not to be 0, since its [step] divides by it), and its
    score and the load the environment accumulated add up to 5 per step:
    the score is 5 times the steps minus the cumulative load, so never
    more than 5 times the steps. *)
Theorem episode_score_and_load_add_up (G : Type) (RS : RandomSource G)
    (P : Type) (PR : PyRandom P) (b : R) (fuel : nat) :
  randrange_sound P -> sample_sound P ->
  (forall pr : @Curriculum.progress G P,
      AgentInvariants.trained_ok b (Curriculum.agent_so_far pr) ->
      AgentInvariants.bound_fits b (Curriculum.agent_so_far pr) ->
      (Z.to_nat (Simple.max_steps (Curriculum.env_so_far pr)) <= fuel)%nat ->
      exists pr' score,
        Curriculum.train_episode fuel pr = Ok pr' /\
        Curriculum.scores_so_far pr'
        = Curriculum.scores_so_far pr ++ [score] /\
        Simple.current_step (Curriculum.env_so_far pr')
        = Simple.max_steps (Curriculum.env_so_far pr) /\
        score + Simple.cumulative_load (Curriculum.env_so_far pr')
        = 5 * IZR (Simple.max_steps (Curriculum.env_so_far pr)) /\
        0 <= Simple.cumulative_load (Curriculum.env_so_far pr')) /\
  (forall (print_every : Z) (pr : @Training.progress G P),
      DQNInvariants.trained_ok b (Training.agent_so_far pr) ->
      DQNInvariants.bound_fits b (Training.agent_so_far pr) ->
      print_every <> 0%Z ->
      Extended.dt (Training.env_so_far pr) <> 0 ->
      (Z.to_nat (Z.max 1 (Extended.max_steps (Training.env_so_far pr)))
       <= fuel)%nat ->
      exists pr' score,
        Training.train_episode fuel print_every pr = Ok pr' /\
        Training.scores_so_far pr'
        = Training.scores_so_far pr ++ [score] /\
        Extended.current_step (Training.env_so_far pr')
        = Z.max 1 (Extended.max_steps (Training.env_so_far pr)) /\
        score + Extended.cumulative_load (Training.env_so_far pr')
        = 5 * IZR (Z.max 1 (Extended.max_steps (Training.env_so_far pr))) /\
        0 <= Extended.cumulative_load (Training.env_so_far pr')).
Proof.
  intros Hrr Hss; split.
  - intros pr Hok Hfit Hfuel.
    pose proof (StageFacts.simple_max_steps_range (Curriculum.env_so_far pr))
      as Hr.
    destruct (CurriculumFacts.train_episode_ok b fuel pr Hrr Hss Hok Hfit)
      as (pr' & score & E & _ & _ & _ & _ & _ & _ & C & Sc & _ & T & L);
      [lia|].
    replace (Z.max 1 (Simple.max_steps (Curriculum.env_so_far pr)))
      with (Simple.max_steps (Curriculum.env_so_far pr)) in C, T by lia.
    exists pr', score.
    split; [exact E|split; [exact Sc|split; [exact C|split; [exact T|]]]].
    exact L.
  - intros print_every pr Hok Hfit Hpe _ Hfuel.
    destruct (TrainingFacts.dqn_train_episode_ok b fuel print_every pr Hrr
                Hss Hok Hfit Hpe Hfuel)
      as (pr' & score & E & _ & _ & _ & _ & _ & C & Sc & T & L).
    exists pr', score.
    split; [exact E|split; [exact Sc|split; [exact C|split; [exact T|]]]].
    exact L.
Qed.

(** The first adult episode of a fresh agent: 2400 steps. *)
Lemma episode_score_and_load_add_up_witness :
  exists pr' score,
    Curriculum.train_episode 2400
      (Curriculum.mkProgress [] [] (CurriculumDQNAgent.init 12 9 0.0005)
         (fst (Simple.init 0.1 "adult" ([3] : digits)%nat))
         (snd (Simple.init 0.1 "adult" ([3] : digits)%nat))
         ([7] : digits)%nat)
    = Ok pr' /\
    Curriculum.scores_so_far pr' = [] ++ [score] /\
    Simple.current_step (Curriculum.env_so_far pr') = 2400%Z.
Proof.
  destruct (proj1 (episode_score_and_load_add_up digits digit_source digits
                     digit_random 250 2400 digit_randrange_sound
                     digit_sample_sound)
              (Curriculum.mkProgress [] [] (CurriculumDQNAgent.init 12 9 0.0005)
                 (fst (Simple.init 0.1 "adult" ([3] : digits)%nat))
                 (snd (Simple.init 0.1 "adult" ([3] : digits)%nat))
                 ([7] : digits)%nat)
              (StageFacts.init_trained_ok 250 12 9 0.0005 eq_refl))
    as (pr' & score & E & Sc & C & _).
  - unfold AgentInvariants.bound_fits; simpl; lra.
  - apply Nat.le_refl.
  - exists pr', score; split; [exact E|split; [exact Sc|exact C]].
Defined.

(** X16.  A curriculum stage of at least one episode returns, given fuel
    for [max_steps] passes: it returns one score per episode, none above
    5 times [max_steps]; it files exactly one entry in the agent's stage
    history, holding the stage name, these scores and as many running
    averages, the final epsilon and the final table size; the agent stays
    in order with every Q-value at most [b], and no key of its table is
    lost. *)
Theorem training_stage_returns (G : Type) (RS : RandomSource G)
    (P : Type) (PR : PyRandom P) (b : R) (fuel : nat)
    (ag : CurriculumDQNAgent.agent) (env : Simple.env)
    (stage_name : string) (episodes : Z) (g : G) (p : P) :
  randrange_sound P -> sample_sound P ->
  AgentInvariants.trained_ok b ag -> AgentInvariants.bound_fits b ag ->
  (0 < episodes)%Z ->
  (Z.to_nat (Simple.max_steps env) <= fuel)%nat ->
  exists scores avgs ag' env' g' p',
    Curriculum.train_curriculum_stage fuel ag env stage_name episodes g p
    = Ok (scores, ag', env', g', p') /\
    length scores = Z.to_nat episodes /\
    Forall (fun x => x <= 5 * IZR (Simple.max_steps env)) scores /\
    CurriculumDQNAgent.stage_history ag'
    = CurriculumDQNAgent.stage_history ag
      ++ [CurriculumDQNAgent.mkStage stage_name episodes scores avgs
            (CurriculumDQNAgent.epsilon ag')
            (length (CurriculumDQNAgent.q_table ag'))] /\
    length avgs = Z.to_nat episodes /\
    AgentInvariants.trained_ok b ag' /\
    AgentInvariants.keeps_keys ag ag' /\
    Simple.stage env' = Simple.stage env.
Proof.
  intros Hrr Hss Hok Hfit Hep Hfuel.
  destruct (StageFacts.train_curriculum_stage_ok b fuel ag env stage_name
              episodes g p Hrr Hss Hok Hfit Hep Hfuel)
    as (scores & avgs & ag1 & env' & g' & p' & E & Ls & La & F & Hok1 & _
        & K & Hh & Hst).
  eexists scores, avgs, _, env', g', p'.
  split; [exact E|split; [exact Ls|split; [exact F|]]].
  destruct ag1; cbn; cbn in Hh.
  split; [reflexivity|split; [exact La|split; [exact Hok1|]]].
  split; [exact K|exact Hst].
Qed.

(** One child episode of a fresh agent. *)
Lemma training_stage_returns_witness :
  exists scores avgs ag' env' g' p',
    Curriculum.train_curriculum_stage 720
      (CurriculumDQNAgent.init 12 9 0.0005)
      (fst (Simple.init 0.1 "child" ([3] : digits)%nat)) "child" 1
      (snd (Simple.init 0.1 "child" ([3] : digits)%nat)) ([7] : digits)%nat
    = Ok (scores, ag', env', g', p') /\
    length scores = 1%nat /\
    Forall (fun x => x <= 5 * 720) scores /\
    CurriculumDQNAgent.stage_history ag'
    = [CurriculumDQNAgent.mkStage "child" 1 scores avgs
         (CurriculumDQNAgent.epsilon ag')
         (length (CurriculumDQNAgent.q_table ag'))].
Proof.
  destruct (training_stage_returns digits digit_source digits digit_random
              250 720 (CurriculumDQNAgent.init 12 9 0.0005)
              (fst (Simple.init 0.1 "child" ([3] : digits)%nat)) "child" 1
              (snd (Simple.init 0.1 "child" ([3] : digits)%nat))
              ([7] : digits)%nat digit_randrange_sound digit_sample_sound
              (StageFacts.init_trained_ok 250 12 9 0.0005 eq_refl))
    as (scores & avgs & ag' & env' & g' & p' & E & Ls & F & Hh & _).
  - unfold AgentInvariants.bound_fits; simpl; lra.
  - reflexivity.
  - apply Nat.le_refl.
  - exists scores, avgs, ag', env', g', p'.
    split; [exact E|split; [exact Ls|split; [exact F|exact Hh]]].
Defined.

(** X17.  A curriculum stage asked for no episode does not return its
    scores: it raises IndexError, where its closing report reads the last
    running average of an empty list. *)
Theorem stage_without_episodes_raises (G : Type) (RS : RandomSource G)
    (P : Type) (PR : PyRandom P) (fuel : nat)
    (ag : CurriculumDQNAgent.agent) (env : Simple.env)
    (stage_name : string) (episodes : Z) (g : G) (p : P) :
  (episodes <= 0)%Z ->
  Curriculum.train_curriculum_stage fuel ag env stage_name episodes g p
  = Raise IndexError.
Proof.
  intros Hep; unfold Curriculum.train_curriculum_stage.
  replace (Z.to_nat episodes) with 0%nat by lia.
  reflexivity.
Qed.

Lemma stage_without_episodes_raises_witness :
  Curriculum.train_curriculum_stage 720
    (CurriculumDQNAgent.init 12 9 0.0005)
    (fst (Simple.init 0.1 "child" ([3] : digits)%nat)) "child" 0
    (snd (Simple.init 0.1 "child" ([3] : digits)%nat)) ([7] : digits)%nat
  = Raise IndexError.
Proof.
  apply (stage_without_episodes_raises digits digit_source digits
           digit_random); lia.
Defined.

(** X18.  Testing leaves the learning alone: [test_agent_on_stage] returns
    one score per episode, none above 5 times the stage's [max_steps];
    the agent comes back with its epsilon, memory, learn step and
    settings as they were and every stored row unchanged (the table can
    only have gained rows of zeros for observations it had not met), and
    Python's generator is not used. *)
Theorem test_leaves_learning_alone (G : Type) (RS : RandomSource G)
    (P : Type) (PR : PyRandom P) (fuel : nat)
    (ag : CurriculumDQNAgent.agent) (stage_name : string) (n_episodes : Z)
    (g : G) (p : P) :
  random_sound G ->
  (0 < CurriculumDQNAgent.action_size ag)%Z ->
  AgentInvariants.rows_ok ag ->
  (Z.to_nat (Simple.max_steps (fst (Simple.init 0.1 stage_name g)))
   <= fuel)%nat ->
  exists scores ag' g',
    Curriculum.test_agent_on_stage fuel ag stage_name n_episodes g p
    = Ok (scores, ag', g', p) /\
    length scores = Z.to_nat n_episodes /\
    Forall (fun x =>
              x <= 5 * IZR (Simple.max_steps
                              (fst (Simple.init 0.1 stage_name g))))
      scores /\
    ag' = CurriculumDQNAgent.set_q_table (CurriculumDQNAgent.q_table ag') ag /\
    CurriculumDQNAgent.epsilon ag' = CurriculumDQNAgent.epsilon ag /\
    (forall k row,
        lookup k (CurriculumDQNAgent.q_table ag) = Some row ->
        lookup k (CurriculumDQNAgent.q_table ag') = Some row).
Proof.
  intros Hrs Hn Hrows Hfuel.
  destruct (StageFacts.test_agent_on_stage_ok fuel ag stage_name n_episodes
              g p Hrs Hn Hrows Hfuel)
    as (scores & ag' & g' & E & Ls & F & S & _ & K & _).
  exists scores, ag', g'.
  split; [exact E|split; [exact Ls|split; [exact F|split; [exact S|]]]].
  split; [|exact K].
  exact (proj1 (proj2 (proj2 (proj2 (proj2
           (AgentFacts.same_but_table_fields _ _ S)))))).
Qed.

(** Three infant episodes of a fresh agent. *)
Lemma test_leaves_learning_alone_witness :
  exists scores ag' g',
    Curriculum.test_agent_on_stage 240
      (CurriculumDQNAgent.init 12 9 0.0005) "infant" 3
      ([3] : digits)%nat ([7] : digits)%nat
    = Ok (scores, ag', g', [7]%nat) /\
    length scores = 3%nat /\
    CurriculumDQNAgent.epsilon ag' = 1.0.
Proof.
  destruct (test_leaves_learning_alone digits digit_source digits
              digit_random 240 (CurriculumDQNAgent.init 12 9 0.0005)
              "infant" 3 [3]%nat [7]%nat digit_random_sound)
    as (scores & ag' & g' & E & Ls & _ & _ & He & _).
  - simpl; lia.
  - intros k row Hk; discriminate Hk.
  - apply Nat.le_refl.
  - exists scores, ag', g'; split; [exact E|split; [exact Ls|exact He]].
Defined.

(** X19.  Training only lets the exploration rate decay.  With a floor
    [epsilon_min] of at least 0 and a decay in [0, 1], the agent a
    curriculum stage returns has an epsilon no larger than the one it
    started with, and no smaller than the lesser of that one and one
    decay below the floor; so epsilon can end below [epsilon_min], by one
    decay at most.  For [train] of the extended model, which starts its
    agent at 1, the final epsilon is between 0.01 * 0.9999999 and 1 (for
    a time step other than 0, by which its [step] divides). *)
Theorem exploration_rate_only_decays (G : Type) (RS : RandomSource G)
    (P : Type) (PR : PyRandom P) (fuel : nat) (g : G) (p : P) :
  randrange_sound P -> sample_sound P ->
  (forall (b : R) (ag : CurriculumDQNAgent.agent) (env : Simple.env)
          (stage_name : string) (episodes : Z),
      AgentInvariants.trained_ok b ag -> AgentInvariants.bound_fits b ag ->
      (0 < episodes)%Z ->
      (Z.to_nat (Simple.max_steps env) <= fuel)%nat ->
      0 <= CurriculumDQNAgent.epsilon_min ag ->
      0 <= CurriculumDQNAgent.epsilon_decay ag <= 1 ->
      exists scores ag' env' g' p',
        Curriculum.train_curriculum_stage fuel ag env stage_name episodes
          g p
        = Ok (scores, ag', env', g', p') /\
        CurriculumDQNAgent.epsilon ag' <= CurriculumDQNAgent.epsilon ag /\
        Rmin (CurriculumDQNAgent.epsilon ag)
          (CurriculumDQNAgent.epsilon_min ag
           * CurriculumDQNAgent.epsilon_decay ag)
        <= CurriculumDQNAgent.epsilon ag') /\
  (forall (episodes max_steps : Z) (dt : R) (print_every : Z),
      print_every <> 0%Z -> dt <> 0 ->
      (Z.to_nat (Z.max 1 max_steps) <= fuel)%nat ->
      exists ag env scores g' p',
        Training.train fuel episodes max_steps dt print_every g p
        = Ok (ag, env, scores, g', p') /\
        0.01 * 0.9999999 <= DQNAgent.epsilon ag <= 1).
Proof.
  intros Hrr Hss; split.
  - intros b ag env stage_name episodes Hok Hfit Hep Hfuel Hmin Hdec.
    destruct (StageFacts.train_curriculum_stage_ok b fuel ag env stage_name
                episodes g p Hrr Hss Hok Hfit Hep Hfuel)
      as (scores & avgs & ag1 & env' & g' & p' & E & _ & _ & _ & _ & S & _).
    destruct S as (_ & _ & _ & _ & _ & _ & _ & Up & Lo).
    eexists scores, _, env', g', p'; split; [exact E|].
    destruct ag1; cbn; cbn in Up, Lo.
    split; [apply Up; lra|apply Lo; lra].
  - intros episodes max_steps dt print_every Hpe _ Hfuel.
    destruct (RunFacts.train_ok fuel episodes max_steps dt print_every g p
                Hrr Hss Hpe Hfuel)
      as (ag & env & scores & g' & p' & E & _ & _ & _ & S & _).
    destruct S as (_ & _ & _ & _ & _ & _ & _ & _ & Up & Lo).
    exists ag, env, scores, g', p'; split; [exact E|].
    cbn in Up, Lo.
    assert (Hm : Rmin 1.0 (0.01 * 0.9999999) = 0.01 * 0.9999999)
      by (apply Rmin_right; lra).
    rewrite Hm in Lo.
    split; [apply Lo; lra|].
    apply Rle_trans with 1.0; [apply Up; lra|lra].
Qed.

(** Two episodes of five steps of the extended model. *)
Lemma exploration_rate_only_decays_witness :
  exists ag env scores g' p',
    Training.train 5 2 5 0.1 10 ([3] : digits)%nat ([7] : digits)%nat
    = Ok (ag, env, scores, g', p') /\
    0.01 * 0.9999999 <= DQNAgent.epsilon ag <= 1.
Proof.
  refine (proj2 (exploration_rate_only_decays digits digit_source digits
                   digit_random 5 [3]%nat [7]%nat digit_randrange_sound
                   digit_sample_sound) 2%Z 5%Z 0.1 10%Z _ _ _).
  - discriminate.
  - lra.
  - apply Nat.le_refl.
Defined.

(** X20.  [train] of the extended model returns whenever [print_every]
    and the time step are not 0, given fuel for [max_steps] passes: one
    score per episode, none
    above 5 times the episode's steps; the agent it returns is in order,
    keeps the settings it was built with, and none of its Q-values is
    above 250; the environment keeps its [max_steps]. *)
Theorem extended_training_returns (G : Type) (RS : RandomSource G)
    (P : Type) (PR : PyRandom P) (fuel : nat) (episodes max_steps : Z)
    (dt : R) (print_every : Z) (g : G) (p : P) :
  randrange_sound P -> sample_sound P ->
  print_every <> 0%Z -> dt <> 0 ->
  (Z.to_nat (Z.max 1 max_steps) <= fuel)%nat ->
  exists ag env scores g' p',
    Training.train fuel episodes max_steps dt print_every g p
    = Ok (ag, env, scores, g', p') /\
    length scores = Z.to_nat episodes /\
    Forall (fun x => x <= 5 * IZR (Z.max 1 max_steps)) scores /\
    DQNInvariants.agent_ok ag /\
    DQNInvariants.q_le 250 ag /\
    DQNAgent.action_size ag = 27%Z /\
    DQNAgent.gamma ag = 0.98 /\ DQNAgent.lr ag = 0.0005 /\
    DQNAgent.batch_size ag = 128%Z /\
    Extended.max_steps env = max_steps.
Proof.
  intros Hrr Hss Hpe _ Hfuel.
  destruct (RunFacts.train_ok fuel episodes max_steps dt print_every g p
              Hrr Hss Hpe Hfuel)
    as (ag & env & scores & g' & p' & E & Ls & F & (Hok & Hq & _) & S & Hms).
  destruct S as (_ & S2 & S3 & _ & _ & S6 & S7 & _).
  exists ag, env, scores, g', p'.
  split; [exact E|split; [exact Ls|split; [exact F|split; [exact Hok|]]]].
  split; [exact Hq|split; [exact S2|split; [exact S3|]]].
  split; [exact S6|split; [exact S7|exact Hms]].
Qed.

(** Three episodes of four steps. *)
Lemma extended_training_returns_witness :
  exists ag env scores g' p',
    Training.train 4 3 4 0.1 10 ([3] : digits)%nat ([7] : digits)%nat
    = Ok (ag, env, scores, g', p') /\
    length scores = 3%nat /\
    Forall (fun x => x <= 5 * 4) scores.
Proof.
  destruct (extended_training_returns digits digit_source digits
              digit_random 4 3 4 0.1 10 [3]%nat [7]%nat
              digit_randrange_sound digit_sample_sound)
    as (ag & env & scores & g' & p' & E & Ls & F & _).
  - discriminate.
  - lra.
  - apply Nat.le_refl.
  - exists ag, env, scores, g', p'; split; [exact E|split; [exact Ls|exact F]].
Defined.

(** X21.  With [print_every] 0 and at least one episode, [train] of the
    extended model does not return: it plays its first episode to the end
    (the time step not being 0) and then raises ZeroDivisionError, at the
    remainder that decides whether to report. *)
Theorem print_every_zero_raises (G : Type) (RS : RandomSource G)
    (P : Type) (PR : PyRandom P) (fuel : nat) (episodes max_steps : Z)
    (dt : R) (g : G) (p : P) :
  randrange_sound P -> sample_sound P ->
  (0 < episodes)%Z -> dt <> 0 ->
  (Z.to_nat (Z.max 1 max_steps) <= fuel)%nat ->
  Training.train fuel episodes max_steps dt 0 g p = Raise ZeroDivisionError.
Proof.
  intros Hrr Hss Hep _ Hfuel.
  unfold Training.train; cbv zeta.
  destruct (Z.to_nat episodes) as [|n] eqn:En; [lia|].
  cbn [Training.train_for].
  rewrite RunFacts.train_episode_zero; [reflexivity|exact Hrr|exact Hss| | |].
  - exact RunFacts.default_agent_trained_ok.
  - exact RunFacts.default_agent_bound_fits.
  - cbn [Training.env_so_far]; rewrite RunFacts.init_max_steps; exact Hfuel.
Qed.

Lemma print_every_zero_raises_witness :
  Training.train 4 3 4 0.1 0 ([3] : digits)%nat ([7] : digits)%nat
  = Raise ZeroDivisionError.
Proof.
  apply (print_every_zero_raises digits digit_source digits digit_random).
  - exact digit_randrange_sound.
  - exact digit_sample_sound.
  - reflexivity.
  - lra.
  - apply Nat.le_refl.
Defined.

(** X22.  [evaluate] returns for every agent whose rows have one entry
    per action and every time step but 0: every key it records is a key of [get_state_info], so the
    recording never raises KeyError.  It returns one score per episode,
    none above 5 times the episode's steps, with their mean and standard
    deviation when there is an episode; the trajectories hold the 21 recorded keys in order, each
    with one run per episode and one value per step in every run.  The
    agent comes back with its epsilon and every stored row unchanged, and
    Python's generator is not used. *)
Theorem evaluate_records_every_step (G : Type) (RS : RandomSource G)
    (P : Type) (PR : PyRandom P) (fuel : nat) (ag : DQNAgent.agent)
    (dt : R) (max_steps n_episodes : Z) (g : G) (p : P) :
  random_sound G ->
  (0 < DQNAgent.action_size ag)%Z -> DQNInvariants.rows_ok ag ->
  dt <> 0 ->
  (Z.to_nat (Z.max 1 max_steps) <= fuel)%nat ->
  exists ev ag' g',
    Training.evaluate fuel ag dt max_steps n_episodes g p
    = Ok (ev, ag', g', p) /\
    length (Training.scores ev) = Z.to_nat n_episodes /\
    Forall (fun x => x <= 5 * IZR (Z.max 1 max_steps)) (Training.scores ev) /\
    ((0 < n_episodes)%Z ->
     Training.mean_score ev = mean (Training.scores ev) /\
     Training.std_score ev = Training.std (Training.scores ev)) /\
    map fst (Training.trajectories ev) = Training.traj_keys /\
    Forall (fun kv =>
              length (snd kv) = Z.to_nat n_episodes /\
              Forall (fun run => length run = Z.to_nat (Z.max 1 max_steps))
                (snd kv))
      (Training.trajectories ev) /\
    ag' = DQNAgent.set_q_table (DQNAgent.q_table ag') ag /\
    DQNAgent.epsilon ag' = DQNAgent.epsilon ag /\
    (forall k row,
        lookup k (DQNAgent.q_table ag) = Some row ->
        lookup k (DQNAgent.q_table ag') = Some row).
Proof.
  intros Hrs Hn Hrows _ Hfuel.
  destruct (RunFacts.evaluate_ok fuel ag dt max_steps n_episodes g p Hrs Hn
              Hrows Hfuel)
    as (all_scores & trajs & ag' & g' & E & Ls & F & Hk & Hsh & S & _ & K).
  eexists _, ag', g'; split; [exact E|].
  cbn [Training.scores Training.mean_score Training.std_score
       Training.trajectories].
  split; [exact Ls|split; [exact F|split; [intros _; split; reflexivity|]]].
  split; [exact Hk|split; [exact Hsh|]].
  split; [exact S|split; [|exact K]].
  exact (proj1 (proj2 (proj2 (proj2 (proj2
           (DQNFacts.dqn_same_but_table_fields _ _ S)))))).
Qed.

(** Two episodes of three steps with the default agent. *)
Lemma evaluate_records_every_step_witness :
  exists ev ag' g',
    Training.evaluate 3 DQNAgent.default_agent 0.1 3 2
      ([3] : digits)%nat ([7] : digits)%nat
    = Ok (ev, ag', g', [7]%nat) /\
    length (Training.scores ev) = 2%nat /\
    map fst (Training.trajectories ev) = Training.traj_keys /\
    DQNAgent.epsilon ag' = 1.0.
Proof.
  destruct (evaluate_records_every_step digits digit_source digits
              digit_random 3 DQNAgent.default_agent 0.1 3 2 [3]%nat [7]%nat
              digit_random_sound)
    as (ev & ag' & g' & E & Ls & _ & _ & Hk & _ & _ & He & _).
  - reflexivity.
  - intros k row Hk; discriminate Hk.
  - lra.
  - apply Nat.le_refl.
  - exists ev, ag', g'.
    split; [exact E|split; [exact Ls|split; [exact Hk|exact He]]].
Defined.

(** X23.  The whole curriculum completes, given fuel for the 2400 steps of
    an adult episode: [train_with_curriculum] returns an agent whose stage
    history holds exactly the three stages child, adolescent and adult, in
    this order, with 100, 150 and 200 scores; the agent still has its 9
    actions and is in order, none of its Q-values is above 250, and its
    epsilon, set to 0.2 before the adult stage and put back after each
    test, ends between 0.01 * 0.9995 and 0.2. *)
Theorem curriculum_completes (G : Type) (RS : RandomSource G)
    (P : Type) (PR : PyRandom P) (fuel : nat) (g : G) (p : P) :
  random_sound G -> randrange_sound P -> sample_sound P ->
  (2400 <= fuel)%nat ->
  exists ag g' p',
    Curriculum.train_with_curriculum fuel g p = Ok (ag, g', p') /\
    map CurriculumDQNAgent.stage (CurriculumDQNAgent.stage_history ag)
    = ["child"; "adolescent"; "adult"]%string /\
    map (fun s => length (CurriculumDQNAgent.scores s))
      (CurriculumDQNAgent.stage_history ag)
    = [100; 150; 200]%nat /\
    AgentInvariants.agent_ok ag /\
    AgentInvariants.q_le 250 ag /\
    CurriculumDQNAgent.action_size ag = 9%Z /\
    0.01 * 0.9995 <= CurriculumDQNAgent.epsilon ag <= 0.2.
Proof.
  intros Hrs Hrr Hss Hfuel.
  unfold Curriculum.train_with_curriculum; cbv zeta.
  (* the child stage *)
  destruct (StageFacts.curriculum_stage_ok fuel
              (CurriculumDQNAgent.init 12 9
                 CurriculumDQNAgent.default_learning_rate)
              (fst (Simple.init 0.1 "child" g)) "child" 100
              (snd (Simple.init 0.1 "child" g)) p Hrr Hss
              (StageFacts.init_trained_ok 250 12 9 _ eq_refl))
    as (sc1 & av1 & ep1 & n1 & a1 & e1 & g1 & p1 & E1 & Hok1 & Hfit1
        & Hm1 & Hd1 & Hn1 & Hh1 & Hl1 & _ & _);
    [apply StageFacts.init_bound_fits;
     unfold CurriculumDQNAgent.default_learning_rate; lra
    |reflexivity|reflexivity|lia|exact Hfuel|].
  rewrite E1; cbn [bind]; cbv beta iota.
  (* the adolescent stage, from an epsilon of 0.3 *)
  destruct (StageFacts.curriculum_stage_ok fuel
              (CurriculumDQNAgent.reset_epsilon (Some 0.3) a1)
              (fst (Simple.init 0.1 "adolescent" g1)) "adolescent" 150
              (snd (Simple.init 0.1 "adolescent" g1)) p1 Hrr Hss
              (StageFacts.trained_ok_epsilon 250 0.3 a1 Hok1)
              (StageFacts.bound_fits_epsilon 250 0.3 a1 Hfit1))
    as (sc2 & av2 & ep2 & n2 & a2 & e2 & g2 & p2 & E2 & Hok2 & Hfit2
        & Hm2 & Hd2 & Hn2 & Hh2 & Hl2 & _ & _);
    [destruct a1; exact Hm1|destruct a1; exact Hd1|lia|exact Hfuel|].
  rewrite E2; cbn [bind]; cbv beta iota.
  (* the adult stage, from an epsilon of 0.2 *)
  destruct (StageFacts.curriculum_stage_ok fuel
              (CurriculumDQNAgent.reset_epsilon (Some 0.2) a2)
              (fst (Simple.init 0.1 "adult" g2)) "adult" 200
              (snd (Simple.init 0.1 "adult" g2)) p2 Hrr Hss
              (StageFacts.trained_ok_epsilon 250 0.2 a2 Hok2)
              (StageFacts.bound_fits_epsilon 250 0.2 a2 Hfit2))
    as (sc3 & av3 & ep3 & n3 & a3 & e3 & g3 & p3 & E3 & Hok3 & Hfit3
        & Hm3 & Hd3 & Hn3 & Hh3 & Hl3 & Up3 & Lo3);
    [destruct a2; exact Hm2|destruct a2; exact Hd2|lia|exact Hfuel|].
  rewrite E3; cbn [bind]; cbv beta iota.
  (* the three tests *)
  destruct (StageFacts.test_agent_on_stage_trained 250 fuel a3 "child" 3
              g3 p3 Hrs ltac:(lra) Hok3 Hfuel)
    as (t1 & a4 & g4 & E4 & Hok4 & S4).
  rewrite E4; cbn [bind]; cbv beta iota.
  destruct (StageFacts.test_agent_on_stage_trained 250 fuel a4 "adolescent"
              3 g4 p3 Hrs ltac:(lra) Hok4 Hfuel)
    as (t2 & a5 & g5 & E5 & Hok5 & S5).
  rewrite E5; cbn [bind]; cbv beta iota.
  destruct (StageFacts.test_agent_on_stage_trained 250 fuel a5 "adult" 3
              g5 p3 Hrs ltac:(lra) Hok5 Hfuel)
    as (t3 & a6 & g6 & E6 & Hok6 & S6).
  rewrite E6; cbn [bind]; cbv beta iota.
  exists a6, g6, p3; split; [reflexivity|].
  pose proof (AgentFacts.same_but_table_trans _ _ _
                (AgentFacts.same_but_table_trans _ _ _ S4 S5) S6) as S.
  destruct (AgentFacts.same_but_table_fields _ _ S)
    as (_ & F2 & _ & _ & F5 & _ & _ & _ & _ & _ & F11).
  assert (Hh : CurriculumDQNAgent.stage_history a3
               = [CurriculumDQNAgent.mkStage "child" 100 sc1 av1 ep1 n1;
                  CurriculumDQNAgent.mkStage "adolescent" 150 sc2 av2 ep2 n2;
                  CurriculumDQNAgent.mkStage "adult" 200 sc3 av3 ep3 n3]).
  { rewrite Hh3.
    replace (CurriculumDQNAgent.stage_history
               (CurriculumDQNAgent.reset_epsilon (Some 0.2) a2))
      with (CurriculumDQNAgent.stage_history a2) by (destruct a2; reflexivity).
    rewrite Hh2.
    replace (CurriculumDQNAgent.stage_history
               (CurriculumDQNAgent.reset_epsilon (Some 0.3) a1))
      with (CurriculumDQNAgent.stage_history a1) by (destruct a1; reflexivity).
    rewrite Hh1; reflexivity. }
  rewrite F11, Hh; cbn [map CurriculumDQNAgent.stage
                          CurriculumDQNAgent.scores].
  rewrite Hl1, Hl2, Hl3.
  split; [reflexivity|split; [reflexivity|]].
  destruct Hok6 as (Hok6 & Hq6 & _).
  split; [exact Hok6|split; [exact Hq6|]].
  assert (He : CurriculumDQNAgent.epsilon
                 (CurriculumDQNAgent.reset_epsilon (Some 0.2) a2) = 0.2)
    by (destruct a2; reflexivity).
  rewrite He in Up3, Lo3.
  assert (Hmin : Rmin 0.2 (0.01 * 0.9995) = 0.01 * 0.9995)
    by (apply Rmin_right; lra).
  rewrite Hmin in Lo3.
  split; [|rewrite F5; lra].
  rewrite F2, Hn3.
  replace (CurriculumDQNAgent.action_size
             (CurriculumDQNAgent.reset_epsilon (Some 0.2) a2))
    with (CurriculumDQNAgent.action_size a2) by (destruct a2; reflexivity).
  rewrite Hn2.
  replace (CurriculumDQNAgent.action_size
             (CurriculumDQNAgent.reset_epsilon (Some 0.3) a1))
    with (CurriculumDQNAgent.action_size a1) by (destruct a1; reflexivity).
  rewrite Hn1; reflexivity.
Qed.

(** The curriculum on replayable generators. *)
Lemma curriculum_completes_witness :
  exists ag g' p',
    Curriculum.train_with_curriculum 2400 ([3; 1; 4] : digits)%nat
      ([7; 2] : digits)%nat
    = Ok (ag, g', p') /\
    map CurriculumDQNAgent.stage (CurriculumDQNAgent.stage_history ag)
    = ["child"; "adolescent"; "adult"]%string /\
    AgentInvariants.q_le 250 ag.
Proof.
  destruct (curriculum_completes digits digit_source digits digit_random
              2400 [3; 1; 4]%nat [7; 2]%nat digit_random_sound
              digit_randrange_sound digit_sample_sound (Nat.le_refl 2400))
    as (ag & g' & p' & E & Hs & _ & _ & Hq & _).
  exists ag, g', p'; split; [exact E|split; [exact Hs|exact Hq]].
Defined.

(** X24.  One experience of a replayed batch moves one entry of the table,
    by the Q-learning rule.  Reading a missing row as the row of zeros
    that the replay stores for it, the entry of the experience's state and
    action moves from its old value [q] to
    [q + learning_rate * (target - q)], where the target is the reward
    for a final experience and otherwise the reward plus gamma times the
    largest entry of the next state's row, read before the move; the
    other entries of that row, the next state's row and every other row
    are as before. *)
Theorem replay_moves_one_entry (a : CurriculumDQNAgent.agent)
    (st : list R) (act : Z) (rew : R) (st' : list R) (d : bool) :
  (0 < CurriculumDQNAgent.action_size a)%Z ->
  AgentInvariants.rows_ok a ->
  (0 <= act < CurriculumDQNAgent.action_size a)%Z ->
  let k := CurriculumDQNAgent._discretize_state st in
  let k' := CurriculumDQNAgent._discretize_state st' in
  let row := AgentInvariants.row_of k a in
  let q := nth (Z.to_nat act) row 0 in
  exists a' m,
    CurriculumDQNAgent.replay_one a (st, act, rew, st', d) = Ok a' /\
    amax (AgentInvariants.row_of k' a) = Ok m /\
    lookup k (CurriculumDQNAgent.q_table a')
    = Some (assign (Z.to_nat act)
              (q + CurriculumDQNAgent.learning_rate a
                   * ((if d then rew
                       else rew + CurriculumDQNAgent.gamma a * m) - q))
              row) /\
    (k' <> k ->
     lookup k' (CurriculumDQNAgent.q_table a')
     = Some (AgentInvariants.row_of k' a)) /\
    (forall k2, k2 <> k -> k2 <> k' ->
                lookup k2 (CurriculumDQNAgent.q_table a')
                = lookup k2 (CurriculumDQNAgent.q_table a)).
Proof.
  intros Hn Hrows Hact; cbv zeta.
  unfold CurriculumDQNAgent.replay_one.
  destruct (AgentFacts.ensure_row_of (CurriculumDQNAgent._discretize_state st)
              a ltac:(lia) Hrows)
    as (a1 & E1 & S1 & R1 & K1 & O1 & W1).
  rewrite E1; cbn [bind]; clear E1.
  destruct (AgentFacts.same_but_table_fields _ _ S1)
    as (_ & N1 & _ & G1 & _ & _ & _ & L1 & _).
  destruct (AgentFacts.ensure_row_of
              (CurriculumDQNAgent._discretize_state st') a1 ltac:(lia) R1)
    as (a2 & E2 & S2 & R2 & K2 & O2 & W2).
  rewrite E2; cbn [bind]; clear E2.
  destruct (AgentFacts.same_but_table_fields _ _ S2)
    as (_ & N2 & _ & G2 & _ & _ & _ & L2 & _).
  rewrite W1 in K2.
  (* the row of the state after both rows are ensured *)
  assert (Hk : lookup (CurriculumDQNAgent._discretize_state st)
                 (CurriculumDQNAgent.q_table a2)
               = Some (AgentInvariants.row_of
                         (CurriculumDQNAgent._discretize_state st) a)).
  { destruct (key_eq_dec (CurriculumDQNAgent._discretize_state st)
                (CurriculumDQNAgent._discretize_state st')) as [Eq|NE].
    - rewrite Eq; exact K2.
    - rewrite (O2 _ NE); exact K1. }
  (* the largest entry of the next state's row *)
  destruct (amax_ok (AgentInvariants.row_of
                       (CurriculumDQNAgent._discretize_state st') a))
    as (m & Em & _).
  { apply (AgentFacts.rows_nonempty a2 _ _ ltac:(lia) R2 K2). }
  exists (CurriculumDQNAgent.set_q_table
            (store (CurriculumDQNAgent._discretize_state st)
               (assign (Z.to_nat act)
                  (nth (Z.to_nat act)
                     (AgentInvariants.row_of
                        (CurriculumDQNAgent._discretize_state st) a) 0
                   + CurriculumDQNAgent.learning_rate a
                     * ((if d then rew
                         else rew + CurriculumDQNAgent.gamma a * m)
                        - nth (Z.to_nat act)
                            (AgentInvariants.row_of
                               (CurriculumDQNAgent._discretize_state st) a)
                            0))
                  (AgentInvariants.row_of
                     (CurriculumDQNAgent._discretize_state st) a))
               (CurriculumDQNAgent.q_table a2)) a2), m.
  split.
  { rewrite K2, Em, Hk.
    pose proof (R2 _ _ Hk) as Hlen.
    destruct d; cbn [bind];
      (rewrite index_in_range by lia); cbn [bind];
      rewrite L2, L1, ?G2, ?G1; reflexivity. }
  split; [exact Em|].
  rewrite AgentFacts.q_table_set.
  split; [apply lookup_store_same|split].
  - intros NE; rewrite lookup_store_other by exact NE; exact K2.
  - intros k2 NE NE'.
    rewrite lookup_store_other by exact NE.
    rewrite (O2 _ NE'); exact (O1 _ NE).
Qed.

(** The first experience of a fresh agent: the entry of action 4 moves
    from 0 by the learning rate times the target. *)
Lemma replay_moves_one_entry_witness :
  exists a' m,
    CurriculumDQNAgent.replay_one (CurriculumDQNAgent.init 12 9 0.0005)
      ([12.34], 4%Z, 4.5, [12.5], false)
    = Ok a' /\
    amax (repeat 0 9) = Ok m /\
    lookup (CurriculumDQNAgent._discretize_state [12.34])
      (CurriculumDQNAgent.q_table a')
    = Some (assign 4 (0 + 0.0005 * (4.5 + 0.98 * m - 0)) (repeat 0 9)).
Proof.
  destruct (replay_moves_one_entry (CurriculumDQNAgent.init 12 9 0.0005)
              [12.34] 4 4.5 [12.5] false)
    as (a' & m & E & Em & Hk & _).
  - reflexivity.
  - intros k row Hk; discriminate Hk.
  - simpl; lia.
  - exists a', m; split; [exact E|split; [exact Em|exact Hk]].
Defined.

(** X25.  The extended agent learns by the same rule, with one difference:
    for a final experience it does not look at the next state, so it
    stores no row for it.  The entry of the experience's state and action
    moves from [q] to [q + lr * (target - q)], the target being the reward
    for a final experience and otherwise the reward plus gamma times the
    largest entry of the next state's row, read before the move; a next
    state that is not final has its row stored, and every other row is as
    before. *)
Theorem extended_replay_moves_one_entry (a : DQNAgent.agent)
    (st : list R) (act : Z) (rew : R) (st' : list R) (d : bool) :
  (0 < DQNAgent.action_size a)%Z ->
  DQNInvariants.rows_ok a ->
  (0 <= act < DQNAgent.action_size a)%Z ->
  let k := DQNAgent._key st in
  let k' := DQNAgent._key st' in
  let row := DQNInvariants.row_of k a in
  let q := nth (Z.to_nat act) row 0 in
  exists a' m,
    DQNAgent.replay_one a (st, act, rew, st', d) = Ok a' /\
    amax (DQNInvariants.row_of k' a) = Ok m /\
    lookup k (DQNAgent.q_table a')
    = Some (assign (Z.to_nat act)
              (q + DQNAgent.lr a
                   * ((if d then rew else rew + DQNAgent.gamma a * m) - q))
              row) /\
    (k' <> k ->
     lookup k' (DQNAgent.q_table a')
     = if d then lookup k' (DQNAgent.q_table a)
       else Some (DQNInvariants.row_of k' a)) /\
    (forall k2, k2 <> k -> k2 <> k' ->
                lookup k2 (DQNAgent.q_table a')
                = lookup k2 (DQNAgent.q_table a)).
Proof.
  intros Hn Hrows Hact; cbv zeta.
  unfold DQNAgent.replay_one.
  (* the largest entry of the next state's row, whether it is read or not *)
  assert (Hm : exists m, amax (DQNInvariants.row_of (DQNAgent._key st') a)
                         = Ok m).
  { destruct (DQNFacts._q_row_of st' a ltac:(lia) Hrows)
      as (a1 & _ & S1 & R1 & K1 & _).
    destruct (DQNFacts.dqn_same_but_table_fields _ _ S1) as (_ & N1 & _).
    destruct (amax_ok (DQNInvariants.row_of (DQNAgent._key st') a))
      as (m & Em & _); [|exists m; exact Em].
    apply (DQNFacts.dqn_rows_nonempty a1 _ _ ltac:(lia) R1 K1). }
  destruct Hm as (m & Em).
  destruct d.
  - (* a final experience *)
    cbn [bind fst snd].
    destruct (DQNFacts._q_row_of st a ltac:(lia) Hrows)
      as (a1 & E1 & S1 & R1 & K1 & O1 & _).
    rewrite E1; cbn [bind fst snd].
    destruct (DQNFacts.dqn_same_but_table_fields _ _ S1)
      as (_ & N1 & L1 & G1 & _).
    pose proof (R1 _ _ K1) as Hlen.
    rewrite index_in_range by lia; cbn [bind].
    eexists _, m; split; [rewrite L1; reflexivity|].
    split; [exact Em|].
    rewrite DQNFacts.dqn_q_table_set.
    split; [apply lookup_store_same|split].
    + intros NE; rewrite lookup_store_other by exact NE; exact (O1 _ NE).
    + intros k2 NE _; rewrite lookup_store_other by exact NE.
      exact (O1 _ NE).
  - (* the next state is read first *)
    destruct (DQNFacts._q_row_of st' a ltac:(lia) Hrows)
      as (a1 & E1 & S1 & R1 & K1 & O1 & W1).
    rewrite E1; cbn [bind fst snd]; rewrite Em; cbn [bind fst snd].
    destruct (DQNFacts.dqn_same_but_table_fields _ _ S1)
      as (_ & N1 & L1 & G1 & _).
    destruct (DQNFacts._q_row_of st a1 ltac:(lia) R1)
      as (a2 & E2 & S2 & R2 & K2 & O2 & _).
    rewrite E2; cbn [bind fst snd].
    destruct (DQNFacts.dqn_same_but_table_fields _ _ S2)
      as (_ & N2 & L2 & G2 & _).
    rewrite W1 in K2; rewrite W1.
    pose proof (R2 _ _ K2) as Hlen.
    rewrite index_in_range by lia; cbn [bind].
    eexists _, m; split; [rewrite L2, L1, G1; reflexivity|].
    split; [reflexivity|].
    rewrite DQNFacts.dqn_q_table_set.
    split; [apply lookup_store_same|split].
    + intros NE; rewrite lookup_store_other by exact NE.
      rewrite (O2 _ NE); exact K1.
    + intros k2 NE NE'; rewrite lookup_store_other by exact NE.
      rewrite (O2 _ NE); exact (O1 _ NE').
Qed.

(** A final experience of the default agent: no row for the next state. *)
Lemma extended_replay_moves_one_entry_witness :
  exists a' m,
    DQNAgent.replay_one DQNAgent.default_agent
      ([12.34], 4%Z, 4.5, [12.5], true)
    = Ok a' /\
    amax (repeat 0 27) = Ok m /\
    lookup (DQNAgent._key [12.34]) (DQNAgent.q_table a')
    = Some (assign 4 (0 + 0.0005 * (4.5 - 0)) (repeat 0 27)).
Proof.
  destruct (extended_replay_moves_one_entry DQNAgent.default_agent
              [12.34] 4 4.5 [12.5] true)
    as (a' & m & E & Em & Hk & _).
  - reflexivity.
  - intros k row Hk; discriminate Hk.
  - simpl; lia.
  - exists a', m; split; [exact E|split; [exact Em|exact Hk]].
Defined.
